(** * Statement extraction engine: a shallow embedding

    The development follows the Python sources of the repository:
    - [smart_document_processor_v2.py]: [BankProcessor] (amount and date
      normalisers), the per-institution processors and the orchestrator
      [SmartDocumentProcessor];
    - [document_processor.py]: [DocumentProcessor] (document-type detection and
      routing);
    - [ocr_extractor.py] and [text_extractor.py]: the OCR and generic paths.

    Conventions of the model.
    - A Python [str] is a [string]; characters are 8-bit and classified as in
      ASCII ([\d], [\s], [\w], [str.lower], [str.strip]).
    - A Python [float] obtained from a decimal literal is the exact rational it
      denotes (a [Q]); the code only adds, negates, takes absolute values and
      compares such numbers with constants.  The one product of the code, the
      confidence of an OCR record, is rounded to binary64 ([Float64.mul]).
    - A transaction [dict] is a [gmap string value]; a missing key is a missing
      binding.
    - [re] patterns are terms of [regex], run by a backtracking matcher with
      the priorities of Python's engine (leftmost, greedy or lazy as written).
    - A function that may raise returns an [option]; [None] is the exception. *)

From Stdlib Require Import ZArith QArith Qabs Bool List Ascii String Lia.
From Stdlib Require Import DecimalString.
From stdpp Require Import base option list gmap strings.

Local Open Scope string_scope.
Local Open Scope bool_scope.

(** ** Python [str] operations *)

Module Py.

(** [ord(c)] *)
Definition ord (c : ascii) : N := N_of_ascii c.

Definition in_range (lo hi : N) (c : ascii) : bool :=
  (lo <=? ord c)%N && (ord c <=? hi)%N.

Definition is_digit (c : ascii) : bool := in_range 48 57 c.
Definition is_upper (c : ascii) : bool := in_range 65 90 c.
Definition is_lower (c : ascii) : bool := in_range 97 122 c.
Definition is_alpha (c : ascii) : bool := is_upper c || is_lower c.

(** [str.isspace] on one character: TAB, LF, VT, FF, CR, FS, GS, RS, US, SP. *)
Definition is_space (c : ascii) : bool :=
  in_range 9 13 c || in_range 28 32 c.

(** [\w] *)
Definition is_word (c : ascii) : bool :=
  is_alpha c || is_digit c || (ord c =? 95)%N.

Definition lower_char (c : ascii) : ascii :=
  if is_upper c then ascii_of_N (ord c + 32) else c.

Fixpoint lower (s : string) : string :=
  match s with
  | EmptyString => EmptyString
  | String c s' => String (lower_char c) (lower s')
  end.

Fixpoint startswith (p s : string) : bool :=
  match p, s with
  | EmptyString, _ => true
  | String a p', String b s' => Ascii.eqb a b && startswith p' s'
  | String _ _, EmptyString => false
  end.

(** [sub in s] *)
Fixpoint contains (sub s : string) : bool :=
  startswith sub s ||
  match s with
  | EmptyString => false
  | String _ s' => contains sub s'
  end.

(** [any(k in s for k in ks)] *)
Definition any_in (ks : list string) (s : string) : bool :=
  existsb (fun k => contains k s) ks.

Fixpoint lstrip (s : string) : string :=
  match s with
  | EmptyString => EmptyString
  | String c s' => if is_space c then lstrip s' else s
  end.

Fixpoint rstrip (s : string) : string :=
  match s with
  | EmptyString => EmptyString
  | String c s' =>
      match rstrip s' with
      | EmptyString => if is_space c then EmptyString else String c EmptyString
      | r => String c r
      end
  end.

Definition strip (s : string) : string := rstrip (lstrip s).

(** [s[:n]] *)
Fixpoint take (n : nat) (s : string) : string :=
  match n, s with
  | S n', String c s' => String c (take n' s')
  | _, _ => EmptyString
  end.

(** [s[n:]] *)
Fixpoint drop (n : nat) (s : string) : string :=
  match n, s with
  | S n', String _ s' => drop n' s'
  | _, _ => s
  end.

(** [s.split(sep)] for a one-character separator. *)
Fixpoint split_on (sep : ascii) (s : string) : list string :=
  match s with
  | EmptyString => [EmptyString]
  | String c s' =>
      if Ascii.eqb c sep then EmptyString :: split_on sep s'
      else match split_on sep s' with
           | w :: ws => String c w :: ws
           | [] => [String c EmptyString]
           end
  end.

Definition newline : ascii := ascii_of_N 10.

Definition splitlines_nl (s : string) : list string := split_on newline s.

(** [s.split()]: maximal runs of non-blank characters. *)
Fixpoint split_ws_aux (cur : string) (s : string) : list string :=
  match s with
  | EmptyString => match cur with EmptyString => [] | _ => [cur] end
  | String c s' =>
      if is_space c then
        match cur with
        | EmptyString => split_ws_aux EmptyString s'
        | _ => cur :: split_ws_aux EmptyString s'
        end
      else split_ws_aux (cur +:+ String c EmptyString) s'
  end.

Definition split (s : string) : list string := split_ws_aux EmptyString s.

(** [sep.join(l)] *)
Fixpoint join (sep : string) (l : list string) : string :=
  match l with
  | [] => EmptyString
  | [x] => x
  | x :: xs => x +:+ sep +:+ join sep xs
  end.

(** [s.replace(old, new)] for a non-empty [old]; with an empty [old] Python
    inserts [new] around every character. *)
Fixpoint replace_fuel (fuel : nat) (old new s : string) : string :=
  match fuel with
  | O => s
  | S f =>
      match s with
      | EmptyString => EmptyString
      | String c s' =>
          if startswith old s
          then new +:+ replace_fuel f old new (drop (String.length old) s)
          else String c (replace_fuel f old new s')
      end
  end.

Fixpoint intersperse (new s : string) : string :=
  match s with
  | EmptyString => new
  | String c s' => new +:+ String c (intersperse new s')
  end.

Definition replace (old new s : string) : string :=
  match old with
  | EmptyString => intersperse new s
  | _ => replace_fuel (S (String.length s)) old new s
  end.

(** [s.find(sub)], [None] standing for [-1]. *)
Fixpoint find_from (i : nat) (sub s : string) : option nat :=
  if startswith sub s then Some i
  else match s with
       | EmptyString => None
       | String _ s' => find_from (S i) sub s'
       end.

Definition find (sub s : string) : option nat := find_from 0 sub s.

(** [s[:s.find(sub)]]; a negative bound [-1] drops the last character. *)
Definition take_until_find (sub s : string) : string :=
  match find sub s with
  | Some i => take i s
  | None => take (String.length s - 1) s
  end.

(** [s.zfill(2)]: a sign stays in front of the padding. *)
Definition zfill2 (s : string) : string :=
  match s with
  | EmptyString => "00"
  | String c EmptyString =>
      if Ascii.eqb c "+"%char || Ascii.eqb c "-"%char
      then String c "0" else String "0"%char s
  | _ => s
  end.

Fixpoint forallb_str (p : ascii -> bool) (s : string) : bool :=
  match s with
  | EmptyString => true
  | String c s' => p c && forallb_str p s'
  end.

Fixpoint existsb_str (p : ascii -> bool) (s : string) : bool :=
  match s with
  | EmptyString => false
  | String c s' => p c || existsb_str p s'
  end.

Fixpoint filter_str (p : ascii -> bool) (s : string) : string :=
  match s with
  | EmptyString => EmptyString
  | String c s' => if p c then String c (filter_str p s') else filter_str p s'
  end.

(** Truthiness of a string. *)
Definition nonempty (s : string) : bool :=
  match s with EmptyString => false | _ => true end.

Definition upper_char (c : ascii) : ascii :=
  if is_lower c then ascii_of_N (ord c - 32) else c.

Fixpoint upper (s : string) : string :=
  match s with
  | EmptyString => EmptyString
  | String c s' => String (upper_char c) (upper s')
  end.

(** [s.isupper()]: some cased character, and no lower-case one. *)
Definition isupper (s : string) : bool :=
  existsb_str is_upper s && negb (existsb_str is_lower s).

(** [s.replace(old, '', 1)] *)
Fixpoint remove_first (old s : string) : string :=
  if startswith old s then drop (String.length old) s
  else match s with
       | EmptyString => EmptyString
       | String c s' => String c (remove_first old s')
       end.

(** [s.rstrip(',')] *)
Fixpoint rstrip_char (x : ascii) (s : string) : string :=
  match s with
  | EmptyString => EmptyString
  | String c s' =>
      match rstrip_char x s' with
      | EmptyString => if Ascii.eqb c x then EmptyString else String c EmptyString
      | r => String c r
      end
  end.

(** [s[i:j]] for non-negative bounds. *)
Definition slice (i j : nat) (s : string) : string := take (j - i) (drop i s).

(** [str(n)] for an integer. *)
Definition str_of_Z (n : Z) : string := NilZero.string_of_int (Z.to_int n).

End Py.

(** ** Regular expressions ([re]) *)

Module Re.

(** The pattern language used by the sources.  [Chr p] is a character class,
    [Star]/[Lazy] are [r*] and [r*?], [Grp n r] is the n-th capturing group,
    [Bol], [Eol] and [WordB] are [^], [$] and [\b]. *)
Inductive regex : Type :=
| Eps
| Chr (p : ascii -> bool)
| Seq (r1 r2 : regex)
| Alt (r1 r2 : regex)
| Star (r : regex)
| Lazy (r : regex)
| Grp (n : nat) (r : regex)
| Bol
| Eol
| WordB.

(** Matcher state: number of characters consumed from the subject, the
    character just before the cursor, the text after the cursor and the groups
    closed so far (most recent first). *)
Record mstate : Type := MState {
  m_pos : nat;
  m_prev : option ascii;
  m_rest : string;
  m_caps : list (nat * string)
}.

Definition advance (c : ascii) (rest : string) (st : mstate) : mstate :=
  MState (S (m_pos st)) (Some c) rest (m_caps st).

Definition close_group (n : nat) (st0 st : mstate) : mstate :=
  MState (m_pos st) (m_prev st) (m_rest st)
    ((n, Py.take (m_pos st - m_pos st0) (m_rest st0)) :: m_caps st).

Definition at_word_boundary (st : mstate) : bool :=
  let before := match m_prev st with Some c => Py.is_word c | None => false end in
  let after := match m_rest st with String c _ => Py.is_word c | EmptyString => false end in
  xorb before after.

(** [$] matches at the end and just before a final newline. *)
Definition at_eol (st : mstate) : bool :=
  match m_rest st with
  | EmptyString => true
  | String c EmptyString => Ascii.eqb c Py.newline
  | _ => false
  end.

Section Matcher.
Context {A : Type}.

(** Backtracking matcher in continuation-passing style: [run r st k] tries
    the ways [r] can match at [st] in priority order and returns the first
    for which the continuation [k] succeeds. *)
Fixpoint run (r : regex) (st : mstate) (k : mstate -> option A) : option A :=
  match r with
  | Eps => k st
  | Chr p =>
      match m_rest st with
      | String c rest => if p c then k (advance c rest st) else None
      | EmptyString => None
      end
  | Seq r1 r2 => run r1 st (fun st' => run r2 st' k)
  | Alt r1 r2 =>
      match run r1 st k with
      | Some x => Some x
      | None => run r2 st k
      end
  | Star r1 =>
      (fix loop (fuel : nat) (st : mstate) : option A :=
         match fuel with
         | O => k st
         | S f =>
             match run r1 st (fun st' =>
                      if (m_pos st' <=? m_pos st)%nat then None else loop f st') with
             | Some x => Some x
             | None => k st
             end
         end) (S (String.length (m_rest st))) st
  | Lazy r1 =>
      (fix loop (fuel : nat) (st : mstate) : option A :=
         match fuel with
         | O => k st
         | S f =>
             match k st with
             | Some x => Some x
             | None =>
                 run r1 st (fun st' =>
                   if (m_pos st' <=? m_pos st)%nat then None else loop f st')
             end
         end) (S (String.length (m_rest st))) st
  | Grp n r1 => run r1 st (fun st' => k (close_group n st st'))
  | Bol => if (m_pos st =? 0)%nat then k st else None
  | Eol => if at_eol st then k st else None
  | WordB => if at_word_boundary st then k st else None
  end.
End Matcher.

(** A successful match: where it starts and ends in the subject, the text it
    covers and its groups. *)
Record rmatch : Type := RMatch {
  m_start : nat;
  m_end : nat;
  m_text : string;
  m_groups : list (nat * string)
}.

Fixpoint assoc (n : nat) (l : list (nat * string)) : option string :=
  match l with
  | [] => None
  | (m, s) :: l' => if (n =? m)%nat then Some s else assoc n l'
  end.

(** [m.group(n)] for a group that took part in the match. *)
Definition group (n : nat) (m : rmatch) : string :=
  match n with
  | O => m_text m
  | _ => default EmptyString (assoc n (m_groups m))
  end.

Definition match_at (r : regex) (pos : nat) (prev : option ascii) (s : string)
  : option rmatch :=
  let st0 := MState pos prev s [] in
  run r st0 (fun st =>
    Some (RMatch pos (m_pos st) (Py.take (m_pos st - pos) s) (m_caps st))).

(** [re.match(r, s)] *)
Definition rmatch_ (r : regex) (s : string) : option rmatch :=
  match_at r 0 None s.

Fixpoint search_from (r : regex) (pos : nat) (prev : option ascii) (s : string)
  : option rmatch :=
  match match_at r pos prev s with
  | Some m => Some m
  | None =>
      match s with
      | EmptyString => None
      | String c s' => search_from r (S pos) (Some c) s'
      end
  end.

(** [re.search(r, s)] *)
Definition search (r : regex) (s : string) : option rmatch :=
  search_from r 0 None s.

Definition last_char (s : string) (d : option ascii) : option ascii :=
  (fix go (s : string) (d : option ascii) :=
     match s with
     | EmptyString => d
     | String c s' => go s' (Some c)
     end) s d.

(** All non-overlapping matches, left to right; after an empty match the scan
    moves on by one character. *)
Fixpoint matches_from (fuel : nat) (r : regex) (pos : nat) (prev : option ascii)
    (s : string) : list rmatch :=
  match fuel with
  | O => []
  | S f =>
      match search_from r pos prev s with
      | None => []
      | Some m =>
          let skip := (m_end m - pos)%nat in
          if (m_end m =? m_start m)%nat then
            match Py.drop skip s with
            | EmptyString => [m]
            | String c s' => m :: matches_from f r (S (m_end m)) (Some c) s'
            end
          else
            m :: matches_from f r (m_end m)
                   (last_char (Py.take skip s) prev) (Py.drop skip s)
      end
  end.

Definition finditer (r : regex) (s : string) : list rmatch :=
  matches_from (S (String.length s)) r 0 None s.

(** [re.findall(r, s)] for a pattern without groups. *)
Definition findall (r : regex) (s : string) : list string :=
  map m_text (finditer r s).

(** [re.sub(r, '', s)]: the text outside the matches. *)
Fixpoint remove_matches (pos : nat) (ms : list rmatch) (s : string) : string :=
  match ms with
  | [] => s
  | m :: ms' =>
      Py.take (m_start m - pos) s +:+
      remove_matches (m_end m) ms' (Py.drop (m_end m - pos) s)
  end.

Definition sub_empty (r : regex) (s : string) : string :=
  remove_matches 0 (finditer r s) s.

(** *** Pattern combinators *)

Definition lit (c : ascii) : regex := Chr (Ascii.eqb c).

(** A literal character under [re.IGNORECASE]. *)
Definition lit_ci (c : ascii) : regex :=
  Chr (fun x => Ascii.eqb (Py.lower_char x) (Py.lower_char c)).

Fixpoint str (s : string) : regex :=
  match s with
  | EmptyString => Eps
  | String c EmptyString => lit c
  | String c s' => Seq (lit c) (str s')
  end.

Fixpoint str_ci (s : string) : regex :=
  match s with
  | EmptyString => Eps
  | String c EmptyString => lit_ci c
  | String c s' => Seq (lit_ci c) (str_ci s')
  end.

Fixpoint seqs (rs : list regex) : regex :=
  match rs with
  | [] => Eps
  | [r] => r
  | r :: rs' => Seq r (seqs rs')
  end.

Fixpoint alts (rs : list regex) : regex :=
  match rs with
  | [] => Chr (fun _ => false)
  | [r] => r
  | r :: rs' => Alt r (alts rs')
  end.

Definition opt (r : regex) : regex := Alt r Eps.          (* r?  *)
Definition plus (r : regex) : regex := Seq r (Star r).    (* r+  *)

Fixpoint rep (n : nat) (r : regex) : regex :=              (* r{n} *)
  match n with
  | O => Eps
  | 1 => r
  | S n' => Seq r (rep n' r)
  end.

Fixpoint upto (n : nat) (r : regex) : regex :=             (* r{0,n} *)
  match n with
  | O => Eps
  | S n' => opt (Seq r (upto n' r))
  end.

Definition between (lo hi : nat) (r : regex) : regex :=    (* r{lo,hi} *)
  match lo with
  | O => upto hi r
  | _ => Seq (rep lo r) (upto (hi - lo) r)
  end.

Definition digit : regex := Chr Py.is_digit.               (* \d *)
Definition space : regex := Chr Py.is_space.               (* \s *)
Definition word : regex := Chr Py.is_word.                 (* \w *)
Definition nonword : regex := Chr (fun c => negb (Py.is_word c)).  (* \W *)
Definition alpha : regex := Chr Py.is_alpha.               (* [A-Za-z] *)
Definition upper : regex := Chr Py.is_upper.               (* [A-Z] *)
Definition lower : regex := Chr Py.is_lower.               (* [a-z] *)
Definition dot : regex :=                                  (* . *)
  Chr (fun c => negb (Ascii.eqb c Py.newline)).
Definition digit_or_comma : regex :=                       (* [\d,] *)
  Chr (fun c => Py.is_digit c || Ascii.eqb c ","%char).

End Re.

(** ** [float] and [BankProcessor.clean_amount] *)

Local Open Scope Q_scope.

Definition Qltb (x y : Q) : bool := negb (Qle_bool y x).
Definition Qgtb (x y : Q) : bool := Qltb y x.
Definition Qgeb (x y : Q) : bool := Qle_bool y x.
Definition Qeqb (x y : Q) : bool := Qeq_bool x y.

Fixpoint digits_value (acc : Z) (s : string) : Z :=
  match s with
  | EmptyString => acc
  | String c s' => digits_value (10 * acc + Z.of_N (Py.ord c - 48))%Z s'
  end.

Fixpoint pow10 (n : nat) : positive :=
  match n with
  | O => 1%positive
  | S n' => (10 * pow10 n')%positive
  end.

(** The decimal [ipart.fpart] as a rational with denominator
    [10 ^ len(fpart)]. *)
Definition decimal (neg : bool) (ipart fpart : string) : Q :=
  let mant := digits_value 0 (ipart +:+ fpart) in
  Qmake (if neg then - mant else mant)%Z (pow10 (String.length fpart)).

(** [float(s)] for [s] over the characters that survive [clean_amount]'s
    filter (digits, [.] and [-]): an optional sign, then digits with at most
    one point and at least one digit.  [None] is [ValueError]. *)
Definition float_of_string (s : string) : option Q :=
  let neg := Py.startswith "-" s in
  let body := if neg then Py.drop 1 s else s in
  match Py.split_on "."%char body with
  | [ipart] =>
      if Py.nonempty ipart && Py.forallb_str Py.is_digit ipart
      then Some (decimal neg ipart EmptyString) else None
  | [ipart; fpart] =>
      if Py.nonempty (ipart +:+ fpart)
         && Py.forallb_str Py.is_digit ipart && Py.forallb_str Py.is_digit fpart
      then Some (decimal neg ipart fpart) else None
  | _ => None
  end.

(** [r'[^\d.,()\-]'] *)
Definition amount_junk : Re.regex :=
  Re.Chr (fun c => negb (Py.is_digit c || Py.existsb_str (Ascii.eqb c) ".,()-")).

(** [BankProcessor.clean_amount] *)
Definition clean_amount (amount_str : string) : Q :=
  if negb (Py.nonempty amount_str) then 0
  else
    let is_negative := Py.contains "(" amount_str || Py.startswith "-" amount_str in
    let cleaned := Re.sub_empty amount_junk amount_str in
    let final_cleaned :=
      Py.replace ")" "" (Py.replace "(" "" (Py.replace "," "" cleaned)) in
    if Py.startswith "-" final_cleaned then
      match float_of_string final_cleaned with
      | Some amount => amount
      | None => 0
      end
    else
      match float_of_string final_cleaned with
      | Some amount => if is_negative then - amount else amount
      | None => 0
      end.

(** ** Products of [float]s

    A product of two floats is the binary64 number nearest to the exact
    product.  The only product of the code is [ocr_confidence * 0.8] in the
    OCR extractor. *)

Module Float64.

(** The integer nearest to [n / d], for [d > 0]; a tie goes to the even
    integer. *)
Definition nearest_even (n d : Z) : Z :=
  let q := (n / d)%Z in
  let r := (n mod d)%Z in
  if (2 * r <? d)%Z then q
  else if (d <? 2 * r)%Z then (q + 1)%Z
  else if Z.even q then q else (q + 1)%Z.

(** [n / d < 2 ^ k] *)
Definition below_pow2 (n d k : Z) : bool :=
  if (0 <=? k)%Z then (n <? d * 2 ^ k)%Z else (n * 2 ^ (- k) <? d)%Z.

(** The exponent [e] of the last bit of the 53-bit significand of [n / d],
    for [n, d > 0]: [2 ^ 52 <= (n / d) / 2 ^ e < 2 ^ 53], and [e = -1074] for
    the subnormal numbers. *)
Definition ulp_exponent (n d : Z) : Z :=
  let k := (Z.log2 n - Z.log2 d)%Z in
  let k := if below_pow2 n d k then (k - 1)%Z else k in
  Z.max (k - 52) (-1074).

(** The binary64 number nearest to [x], ties to even.  The range is not
    clipped at the largest double. *)
Definition round (x : Q) : Q :=
  let n := Z.abs (Qnum x) in
  let d := Zpos (Qden x) in
  if (n =? 0)%Z then 0
  else
    let e := ulp_exponent n d in
    let v :=
      if (0 <=? e)%Z then inject_Z (nearest_even n (d * 2 ^ e) * 2 ^ e)
      else Qred (nearest_even (n * 2 ^ (- e)) d # Z.to_pos (2 ^ (- e))) in
    if (Qnum x <? 0)%Z then - v else v.

(** [a * b] on floats: the operands are binary64 numbers, the product is
    rounded. *)
Definition mul (a b : Q) : Q := round (round a * round b).

End Float64.

(** ** [datetime.strptime] and [BankProcessor.clean_date] *)

Module Strptime.

(** The directives and literal characters of the formats in [clean_date]; a
    run of blanks in a format stands for [\s+]. *)
Inductive item : Type :=
| Db                 (* %b *)
| Dd                 (* %d *)
| Dm                 (* %m *)
| DY                 (* %Y *)
| Ws
| Lit (c : ascii).

Definition a_month : list string :=
  ["jan"; "feb"; "mar"; "apr"; "may"; "jun";
   "jul"; "aug"; "sep"; "oct"; "nov"; "dec"].

Definition range (lo hi : string) : Re.regex :=
  match lo, hi with
  | String a _, String b _ => Re.Chr (Py.in_range (Py.ord a) (Py.ord b))
  | _, _ => Re.Chr (fun _ => false)
  end.

(** The regular expression of each directive, as [_strptime.TimeRE] builds it;
    the groups b, d, m, Y are numbered 1 to 4 and the whole pattern is
    compiled with [re.IGNORECASE]. *)
Definition item_regex (i : item) : Re.regex :=
  match i with
  | Db => Re.Grp 1 (Re.alts (map Re.str_ci a_month))
  | Dd => Re.Grp 2 (Re.alts [Re.Seq (Re.lit "3") (range "0" "1");
                             Re.Seq (range "1" "2") Re.digit;
                             Re.Seq (Re.lit "0") (range "1" "9");
                             range "1" "9";
                             Re.Seq (Re.lit " ") (range "1" "9")])
  | Dm => Re.Grp 3 (Re.alts [Re.Seq (Re.lit "1") (range "0" "2");
                             Re.Seq (Re.lit "0") (range "1" "9");
                             range "1" "9"])
  | DY => Re.Grp 4 (Re.rep 4 Re.digit)
  | Ws => Re.plus Re.space
  | Lit c => Re.lit_ci c
  end.

Definition format_regex (fmt : list item) : Re.regex :=
  Re.seqs (map item_regex fmt).

Definition int_of (s : string) : Z := digits_value 0 (Py.strip s).

Fixpoint index_of (x : string) (l : list string) : option Z :=
  match l with
  | [] => None
  | y :: l' => if String.eqb x y then Some 0%Z else Z.succ <$> index_of x l'
  end.

Definition is_leap (y : Z) : bool :=
  ((y mod 4 =? 0) && (negb (y mod 100 =? 0) || (y mod 400 =? 0)))%Z.

Definition days_in_month (y m : Z) : Z :=
  (if m =? 2 then (if is_leap y then 29 else 28)
   else if (m =? 4) || (m =? 6) || (m =? 9) || (m =? 11) then 30
   else 31)%Z.

(** The check of the [datetime] constructor. *)
Definition valid_date (y m d : Z) : bool :=
  ((1 <=? y) && (y <=? 9999) && (1 <=? m) && (m <=? 12)
   && (1 <=? d) && (d <=? days_in_month y m))%Z.

(** [datetime.strptime(data, fmt)], returning the month and the day of the
    parsed date; [None] is [ValueError].  The whole of [data] must be
    consumed; a missing year is 1900, a missing day is 1. *)
Definition strptime (data : string) (fmt : list item) : option (Z * Z) :=
  match Re.rmatch_ (format_regex fmt) data with
  | None => None
  | Some m =>
      if negb (Re.m_end m =? String.length data)%nat then None
      else
        let year := match Re.assoc 4 (Re.m_groups m) with
                    | Some y => int_of y
                    | None => 1900%Z
                    end in
        let month := match Re.assoc 3 (Re.m_groups m) with
                     | Some mm => int_of mm
                     | None =>
                         match Re.assoc 1 (Re.m_groups m) with
                         | Some b => default 0%Z (Z.succ <$> index_of (Py.lower b) a_month)
                         | None => 1%Z
                         end
                     end in
        let day := match Re.assoc 2 (Re.m_groups m) with
                   | Some d => int_of d
                   | None => 1%Z
                   end in
        if valid_date year month day then Some (month, day) else None
  end.

Definition digit_char (n : Z) : ascii := ascii_of_N (48 + Z.to_N n).

Definition pad2 (n : Z) : string :=
  String (digit_char (n / 10)) (String (digit_char (n mod 10)) EmptyString).

(** [date_obj.strftime('%m-%d')] *)
Definition strftime_md (md : Z * Z) : string :=
  pad2 (fst md) +:+ "-" +:+ pad2 (snd md).

End Strptime.

Import Strptime.

(** The [formats] list of [clean_date]. *)
Definition formats : list (list item) :=
  [ [Db; Ws; Dd; Ws; DY];                 (* '%b %d %Y' *)
    [Db; Lit "."; Dd; Ws; DY];            (* '%b.%d %Y' *)
    [Db; Lit "-"; Dd; Ws; DY];            (* '%b-%d %Y' *)
    [Db; Ws; Dd];                         (* '%b %d'    *)
    [Db; Lit "."; Dd];                    (* '%b.%d'    *)
    [Dm; Lit "/"; Dd; Lit "/"; DY];       (* '%m/%d/%Y' *)
    [Dd; Lit "/"; Dm; Lit "/"; DY];       (* '%d/%m/%Y' *)
    [Dm; Lit "/"; Dd] ].                  (* '%m/%d'    *)

Definition month_map : gmap string string :=
  list_to_map
    [("jan", "01"); ("feb", "02"); ("mar", "03"); ("apr", "04");
     ("may", "05"); ("jun", "06"); ("jul", "07"); ("aug", "08");
     ("sep", "09"); ("oct", "10"); ("nov", "11"); ("dec", "12")].

(** The loop over [formats]: the first format that parses wins. *)
Fixpoint try_formats (data : string) (fmts : list (list item)) : option string :=
  match fmts with
  | [] => None
  | fmt :: fmts' =>
      match strptime data fmt with
      | Some md => Some (strftime_md md)
      | None => try_formats data fmts'
      end
  end.

(** [r'([A-Za-z]{3})\.?(\d{1,2})'] *)
Definition month_day_pattern : Re.regex :=
  Re.seqs [Re.Grp 1 (Re.rep 3 Re.alpha); Re.opt (Re.lit ".");
           Re.Grp 2 (Re.between 1 2 Re.digit)].

(** [BankProcessor.clean_date] *)
Definition clean_date (date_str : string) : string :=
  if negb (Py.nonempty date_str) then "01-01"
  else
    match try_formats (Py.strip date_str) formats with
    | Some r => r
    | None =>
        let fallback := Py.take 5 (Py.strip date_str) in
        match Re.search month_day_pattern (Py.lower date_str) with
        | Some m =>
            let month_str := Py.lower (Py.take 3 (Re.group 1 m)) in
            let day_str := Py.zfill2 (Re.group 2 m) in
            match month_map !! month_str with
            | Some mm => mm +:+ "-" +:+ day_str
            | None => fallback
            end
        | None => fallback
        end
    end.

(** ** Documents, records and result envelopes *)

(** What [pdfplumber] exposes of a document: the base name of its path and,
    when the file can be opened, the text layer of each page ([""] for a page
    without text).  [None] stands for a file that cannot be opened. *)
Record pdf_doc : Type := PdfDoc {
  filename : string;
  pages : option (list string)
}.

(** The values stored in a transaction [dict]. *)
Inductive value : Type :=
| VStr (s : string)
| VNum (q : Q)        (* float *)
| VInt (n : Z)
| VBool (b : bool)
| VNone.

(** A transaction record is a [dict] with string keys. *)
Abbreviation txn := (gmap string value).

(** A dict literal, keys inserted from left to right. *)
Definition dict (kvs : list (string * value)) : txn :=
  fold_left (fun d kv => <[kv.1 := kv.2]> d) kvs ∅.

(** The result envelope of [process_document]; a key that a given return
    statement does not set is [None]. *)
Record result : Type := Result {
  processing_method : string;
  transactions : list txn;
  confidence : string;
  error : option string;
  bank : option string;
  transaction_count : option nat;
  debit_count : option nat;
  credit_count : option nat;
  spending_transactions : option (list txn);
  processing_time : option string
}.

(** ** The processor registry and [identify_bank] *)

Inductive processor : Type :=
| BMOAccountProcessor
| BMOProcessor
| EQBankProcessor
| TDProcessor
| TDCreditCardProcessor
| TangerineProcessor
| TangerineCreditCardProcessor
| RBCBankProcessor
| RBCVisaProcessor
| SimpliiProcessor
| CIBCVisaProcessor
| CIBCProcessor
| AmexProcessor
| ScotiaBankProcessor
| ScotiaProcessor
| WiseProcessor.

(** The name each processor passes to [BankProcessor.__init__]. *)
Definition bank_name (p : processor) : string :=
  match p with
  | BMOAccountProcessor => "BMO Account"
  | BMOProcessor => "BMO"
  | EQBankProcessor => "EQ Bank"
  | TDProcessor => "TD Bank"
  | TDCreditCardProcessor => "TD Credit Card"
  | TangerineProcessor => "Tangerine"
  | TangerineCreditCardProcessor => "Tangerine Credit Card"
  | RBCBankProcessor => "RBC Bank"
  | RBCVisaProcessor => "RBC Visa"
  | SimpliiProcessor => "Simplii"
  | CIBCVisaProcessor => "CIBC Visa"
  | CIBCProcessor => "CIBC"
  | AmexProcessor => "Amex"
  | ScotiaBankProcessor => "Scotiabank"
  | ScotiaProcessor => "Scotia Credit Card"
  | WiseProcessor => "Wise"
  end.

(** [can_process] of each processor class. *)
Definition can_process (p : processor) (text fname : string) : bool :=
  match p with
  | BMOAccountProcessor =>
      let has_bmo_account :=
        Py.any_in ["Your Everyday Banking statement"; "Everyday Banking";
                   "Primary Chequing Account"; "BMO Bank of Montreal"] text in
      let has_account_features :=
        Py.any_in ["deducted($)"; "added($)"; "Opening"; "Closing totals";
                   "Primary Chequing"; "INTERAC e-Transfer"; "Direct Deposit"] text in
      let has_credit_card_features :=
        Py.any_in ["Previous Balance"; "Credit Limit"; "Minimum Payment";
                   "Payment Due Date"; "Interest Rate"; "Cash Advance"] text in
      has_bmo_account && has_account_features && negb has_credit_card_features
  | BMOProcessor =>
      Py.any_in ["BMO"; "MasterCard"; "CardNumber"; "CustomerName"] text
  | EQBankProcessor =>
      Py.any_in ["EQ Bank"; "Cash Card"; "Equitable Bank"] text
  | TDProcessor =>
      Py.any_in ["STATEMENT OF ACCOUNT"; "TD Personal"; "Primary Account"] text
  | TDCreditCardProcessor =>
      let has_td_credit :=
        Py.any_in ["TD CASH BACK CARD"; "CASH BACK CARD"; "TD Credit Card"] text in
      let has_credit_card_features :=
        Py.any_in ["PREVIOUS STATEMENT BALANCE"; "Minimum Payment"; "Credit Card";
                   "ACTIVITY DESCRIPTION"; "Cash Back Dollars"] text in
      has_td_credit && has_credit_card_features
  | TangerineProcessor =>
      Py.any_in ["www.tangerine.ca"; "Orange Key"; "Tangerine Savings"] text
  | TangerineCreditCardProcessor =>
      let has_tangerine_credit :=
        Py.any_in ["Tangerine Money-Back Credit Card"; "Money-Back Credit Card";
                   "Here's your latest statement for your Tangerine"] text in
      let has_credit_card_features :=
        Py.any_in ["Credit limit"; "Cash advance limit"; "Money-Back Rewards";
                   "Transaction Posted Description Category Amount Reward"] text in
      let has_bank_features :=
        Py.any_in ["Transaction Date"; "Transaction Description"; "Orange Key";
                   "Interest Paid"; "Opening Balance"; "Closing Balance"] text in
      has_tangerine_credit && has_credit_card_features && negb has_bank_features
  | RBCBankProcessor =>
      Py.any_in ["Royal Bank of Canada"; "RBC Day to Day Banking";
                 "account statement"] text
      && negb (Py.contains "visa" (Py.lower fname))
  | RBCVisaProcessor =>
      Py.any_in ["RBC Visa"; "Visa Infinite"; "Avion"] text
      && Py.contains "visa" (Py.lower fname)
  | SimpliiProcessor =>
      Py.any_in ["Simplii Financial"; "Cash Back Visa"; "simplii.com"] text
  | CIBCVisaProcessor =>
      let has_cibc_visa :=
        Py.any_in ["CIBC U.S. Dollar Aventura"; "Aventura Gold Visa Card";
                   "CIBC Visa"; "U.S. Dollar Aventura"] text in
      let has_credit_card_features :=
        Py.any_in ["Amount Due"; "Minimum Payment"; "Credit Card"; "Aventura Points";
                   "Trans Post"; "date date Description Amount"] text in
      let has_bank_features :=
        Py.any_in ["Opening Balance"; "Closing Balance"; "Direct Deposit";
                   "Account Balance Summary"; "DAILY BALANCE"] text in
      has_cibc_visa && has_credit_card_features && negb has_bank_features
  | CIBCProcessor =>
      Py.any_in ["CIBC Account Statement"; "CIBC"; "Branch transit number"] text
  | AmexProcessor =>
      Py.any_in ["AmericanExpress"; "Amex Bank of Canada"; "Statement of Account"] text
      && Py.contains "amex" (Py.lower fname)
  | ScotiaBankProcessor =>
      if Py.contains "scotia" (Py.lower fname) && Py.contains "bank" (Py.lower fname)
      then true
      else if Py.any_in ["scotiabank"; "scotia"] (Py.lower text) then
        let has_bank_indicators :=
          Py.any_in ["deposits"; "withdrawals"; "mb-billpayment"; "service charge";
                     "mb-transfer"; "chequing"; "savings"; "balance brought forward"]
            (Py.lower text) in
        let has_credit_indicators :=
          Py.any_in ["scene"; "credit card"; "minimum payment"; "credit limit"]
            (Py.lower text) in
        has_bank_indicators && negb has_credit_indicators
      else false
  | ScotiaProcessor =>
      if Py.any_in ["scotia"; "scotiabank"] (Py.lower text) then
        Py.any_in ["scene"; "credit card"; "minimum payment"; "credit limit"]
          (Py.lower text)
      else false
  | WiseProcessor =>
      if Py.contains "wise" (Py.lower fname) then true
      else Py.any_in ["Wise"; "wise.com"; "Credit Card Statement"; "xxxx-xxxx-xxxx"] text
  end.

(** [SmartDocumentProcessor.__init__]: the registry, in order. *)
Definition processors : list processor :=
  [ BMOAccountProcessor; BMOProcessor; EQBankProcessor; TDProcessor;
    TDCreditCardProcessor; TangerineProcessor; TangerineCreditCardProcessor;
    RBCBankProcessor; RBCVisaProcessor; SimpliiProcessor; CIBCVisaProcessor;
    CIBCProcessor; AmexProcessor; ScotiaBankProcessor; ScotiaProcessor;
    WiseProcessor ].

(** The text sampled from the first three pages: each non-empty page text
    followed by a newline. *)
Fixpoint sample_text_of (pgs : list string) : string :=
  match pgs with
  | [] => EmptyString
  | text :: pgs' =>
      (if Py.nonempty text then text +:+ String Py.newline EmptyString else EmptyString)
      +:+ sample_text_of pgs'
  end.

Definition sample_text (pgs : list string) : string :=
  sample_text_of (firstn 3 pgs).

(** The loop [for processor in self.processors] of [identify_bank]. *)
Fixpoint first_processor (ps : list processor) (text fname : string)
  : option processor :=
  match ps with
  | [] => None
  | p :: ps' =>
      if can_process p text fname then Some p
      else first_processor ps' text fname
  end.

(** [SmartDocumentProcessor.identify_bank] *)
Definition identify_bank (doc : pdf_doc) : option processor :=
  match pages doc with
  | None => None                       (* except Exception: return None *)
  | Some pgs => first_processor processors (sample_text pgs) (filename doc)
  end.

(** ** The classification pass of [SmartDocumentProcessor.process_document] *)

(** [SmartDocumentProcessor._is_credit_card_bank] *)
Definition _is_credit_card_bank (bank_name : string) : bool :=
  existsb (String.eqb bank_name)
    ["BMO"; "RBC Visa"; "Scotia Credit Card"; "Amex"; "Simplii"; "Wise";
     "TD Credit Card"; "Tangerine Credit Card"; "CIBC Visa"].

(** [k in tx] *)
Definition has_key (k : string) (tx : txn) : bool :=
  match tx !! k with Some _ => true | None => false end.

(** The number a value stands for in a comparison; [None] is [TypeError]. *)
Definition as_number (v : value) : option Q :=
  match v with
  | VNum q => Some q
  | VInt n => Some (inject_Z n)
  | VBool b => Some (if b then 1 else 0)
  | VStr _ | VNone => None
  end.

(** [abs(v)] *)
Definition abs_value (v : value) : option value :=
  match v with
  | VNum q => Some (VNum (Qabs q))
  | VInt n => Some (VInt (Z.abs n))
  | VBool b => Some (VInt (if b then 1 else 0))
  | VStr _ | VNone => None
  end.

(** Truthiness of a value. *)
Definition truthy (v : value) : bool :=
  match v with
  | VStr s => Py.nonempty s
  | VNum q => negb (Qeqb q 0)
  | VInt n => negb (n =? 0)%Z
  | VBool b => b
  | VNone => false
  end.

(** The body of the loop [for tx in transactions]: the record after the
    in-place updates, or [None] when a statement of the body raises. *)
Definition classify_transaction (tx : txn) : option txn :=
  bankv ← tx !! "bank";
  amountv ← tx !! "amount";
  tx1 ←
    (if negb (has_key "transaction_type" tx) || negb (has_key "is_spending" tx) then
       amount ← as_number amountv;
       if _is_credit_card_bank (match bankv with VStr b => b | _ => EmptyString end) then
         Some (<["is_spending" := VBool (Qgtb amount 0)]>
                 (<["transaction_type" :=
                      VStr (if Qgtb amount 0 then "debit" else "credit")]> tx))
       else
         Some (<["is_spending" := VBool (Qltb amount 0)]>
                 (<["transaction_type" :=
                      VStr (if Qltb amount 0 then "debit" else "credit")]> tx))
     else Some tx);
  abs_amount ← abs_value amountv;
  let tx2 := <["abs_amount" := abs_amount]> tx1 in
  bank_name ← (match bankv with VStr b => Some b | _ => None end);
  let tx3 :=
    <["processing_method" :=
        VStr (Py.replace " " "_" (Py.lower bank_name) +:+ "_processor")]> tx2 in
  conf ← (match tx3 !! "confidence" with
          | Some v => as_number v
          | None => Some 0
          end);
  Some (<["confidence_level" := VStr (if Qgeb conf 0.9 then "high" else "medium")]> tx3).

(** ** Page iteration shared by the extractors *)

(** [for page_num, page in enumerate(pdf.pages, 1)], skipping the pages whose
    text is empty; the records of the pages are appended in page order. *)
Fixpoint for_pages (body : nat -> string -> list txn) (page_num : nat)
    (pgs : list string) : list txn :=
  match pgs with
  | [] => []
  | text :: pgs' =>
      (if Py.nonempty text then body page_num text else [])
      ++ for_pages body (S page_num) pgs'
  end.

(** An [extract_transactions] whose [try] block opens the document and runs
    [body] on each page; a document that cannot be opened gives [[]]. *)
Definition extract_with (body : nat -> string -> list txn) (doc : pdf_doc)
  : list txn :=
  match pages doc with
  | Some pgs => for_pages body 1 pgs
  | None => []
  end.

Definition page_value (page_num : nat) : value := VInt (Z.of_nat page_num).

(** ** [TDProcessor]: section-driven format *)

(** [r'^\d{2}/\d{2}'] *)
Definition td_date_prefix : Re.regex :=
  Re.seqs [Re.Bol; Re.rep 2 Re.digit; Re.lit "/"; Re.rep 2 Re.digit].

(** [r'^(\d{2}/\d{2})\s+(.*?)\s+([\d,]+\.?\d{2})$'] *)
Definition td_line_pattern : Re.regex :=
  Re.seqs [Re.Bol;
           Re.Grp 1 (Re.seqs [Re.rep 2 Re.digit; Re.lit "/"; Re.rep 2 Re.digit]);
           Re.plus Re.space;
           Re.Grp 2 (Re.Lazy Re.dot);
           Re.plus Re.space;
           Re.Grp 3 (Re.seqs [Re.plus Re.digit_or_comma; Re.opt (Re.lit ".");
                              Re.rep 2 Re.digit]);
           Re.Eol].

(** [TDProcessor._is_td_transaction] *)
Definition _is_td_transaction (line : string) : bool :=
  match Re.rmatch_ td_date_prefix line with Some _ => true | None => false end.

(** [TDProcessor._parse_td_transaction] *)
Definition _parse_td_transaction (line : string) (page_num : nat) (section : string)
  : option txn :=
  match Re.rmatch_ td_line_pattern line with
  | Some m =>
      let date := clean_date (Re.group 1 m) in
      let description := Py.strip (Re.group 2 m) in
      let amount := clean_amount (Re.group 3 m) in
      let '(transaction_type, is_spending) :=
        if String.eqb section "credits" then ("credit", false)
        else if String.eqb section "debits" then ("debit", true)
        else ("credit", false) in
      Some (dict [("date", VStr date);
                  ("description", VStr description);
                  ("amount", VNum amount);
                  ("page", page_value page_num);
                  ("bank", VStr (bank_name TDProcessor));
                  ("confidence", VNum 0.9);
                  ("transaction_type", VStr transaction_type);
                  ("is_spending", VBool is_spending);
                  ("abs_amount", VNum (Qabs amount));
                  ("processing_method", VStr "td_bank_processor");
                  ("confidence_level", VStr "high")])
  | None => None
  end.

(** The loop over the lines of a TD page; [current_section] is the state set
    by the headers seen so far. *)
Fixpoint td_lines (current_section : option string) (page_num : nat)
    (lines : list string) : list txn :=
  match lines with
  | [] => []
  | raw :: rest =>
      let line := Py.strip raw in
      if String.eqb (Py.strip line) "Credits" then
        td_lines (Some "credits") page_num rest
      else if String.eqb (Py.strip line) "Debits" then
        td_lines (Some "debits") page_num rest
      else if Py.contains "DAILY ACCOUNT ACTIVITY" line then
        td_lines (Some "credits") page_num rest
      else
        match current_section with
        | Some section =>
            if _is_td_transaction line then
              match _parse_td_transaction line page_num section with
              | Some transaction => transaction :: td_lines current_section page_num rest
              | None => td_lines current_section page_num rest
              end
            else td_lines current_section page_num rest
        | None => td_lines current_section page_num rest
        end
  end.

Definition td_page (page_num : nat) (text : string) : list txn :=
  td_lines None page_num (Py.splitlines_nl text).

(** [TDProcessor.extract_transactions] *)
Definition td_extract_transactions (doc : pdf_doc) : list txn :=
  extract_with td_page doc.

(** ** [TangerineProcessor]: single-line and multi-line records *)

Definition matches (r : Re.regex) (s : string) : bool :=
  match Re.rmatch_ r s with Some _ => true | None => false end.

Definition found (r : Re.regex) (s : string) : bool :=
  match Re.search r s with Some _ => true | None => false end.

(** Truthiness of an optional string ([None] and [""] are false). *)
Definition truthy_str (o : option string) : bool :=
  match o with Some s => Py.nonempty s | None => false end.

(** [r'^\d{2}\s[A-Za-z]{3}\s\d{4}'] *)
Definition tangerine_date_prefix : Re.regex :=
  Re.seqs [Re.Bol; Re.rep 2 Re.digit; Re.space; Re.rep 3 Re.alpha; Re.space;
           Re.rep 4 Re.digit].

(** [r'^[\d,]+\.?\d{2}$'] *)
Definition amount_token_anchored : Re.regex :=
  Re.seqs [Re.Bol; Re.plus Re.digit_or_comma; Re.opt (Re.lit "."); Re.rep 2 Re.digit;
           Re.Eol].

(** [r'[\d,]+\.?\d{2}$'] *)
Definition amount_token : Re.regex :=
  Re.seqs [Re.plus Re.digit_or_comma; Re.opt (Re.lit "."); Re.rep 2 Re.digit; Re.Eol].

(** [r'[\d,]+\.\d{2}'] *)
Definition amount_pattern : Re.regex :=
  Re.seqs [Re.plus Re.digit_or_comma; Re.lit "."; Re.rep 2 Re.digit].

(** [TangerineProcessor._is_tangerine_transaction] *)
Definition _is_tangerine_transaction (line : string) : bool :=
  matches tangerine_date_prefix line.

(** [TangerineProcessor._parse_tangerine_date] *)
Definition _parse_tangerine_date (date_str : string) : string :=
  match Py.split date_str with
  | p0 :: p1 :: _ :: _ =>
      let day := Py.zfill2 p0 in
      let month_abbr := Py.lower p1 in
      match month_map !! month_abbr with
      | Some month_num => month_num +:+ "-" +:+ day
      | None => "Unknown"
      end
  | _ => "Unknown"
  end.

(** [TangerineProcessor._is_complete_tangerine_transaction] *)
Definition _is_complete_tangerine_transaction (line : string) : bool :=
  let parts := Py.split line in
  if (length parts <? 6)%nat then false
  else if negb (matches tangerine_date_prefix line) then false
  else
    let amounts := filter (fun p => matches amount_token_anchored p = true) parts in
    (2 <=? length amounts)%nat.

Definition tangerine_credit_keywords : list string :=
  ["interest paid"; "deposit"; "transfer in"; "e-transfer from";
   "interac e-transfer from"].

Definition tangerine_debit_keywords : list string :=
  ["withdrawal"; "transfer to"; "internet withdrawal"; "fee"; "charge"].

Definition tangerine_record (date description : string) (amount balance : Q)
    (page_num : nat) (transaction_type : string) (is_spending : bool) : txn :=
  dict [("date", VStr date);
        ("description", VStr description);
        ("amount", VNum amount);
        ("balance", VNum balance);
        ("page", page_value page_num);
        ("bank", VStr (bank_name TangerineProcessor));
        ("confidence", VNum 0.85);
        ("transaction_type", VStr transaction_type);
        ("is_spending", VBool is_spending);
        ("abs_amount", VNum (Qabs amount));
        ("processing_method", VStr "tangerine_processor");
        ("confidence_level", VStr "medium")].

(** [TangerineProcessor._parse_tangerine_transaction] *)
Definition _parse_tangerine_transaction (line : string) (page_num : nat)
  : option txn :=
  match Py.split line with
  | p0 :: p1 :: p2 :: p3 :: ps =>
      let date_str := p0 +:+ " " +:+ p1 +:+ " " +:+ p2 in
      let date := _parse_tangerine_date date_str in
      let amounts := filter (fun p => matches amount_token p = true) (p3 :: ps) in
      let description_parts :=
        filter (fun p => matches amount_token p = false) (p3 :: ps) in
      match amounts with
      | a0 :: a1 :: _ =>
          let description := Py.join " " description_parts in
          let amount := clean_amount a0 in
          let balance := clean_amount a1 in
          if Py.any_in ["opening balance"; "closing balance"] (Py.lower description)
             && Qeqb amount 0
          then None
          else
            let description_lower := Py.lower description in
            let '(transaction_type, is_spending) :=
              if Py.any_in tangerine_credit_keywords description_lower
              then ("credit", false)
              else if Py.any_in tangerine_debit_keywords description_lower
              then ("debit", true)
              else if Qgtb amount 0 then ("credit", false)
              else ("debit", true) in
            Some (tangerine_record date description amount balance page_num
                    transaction_type is_spending)
      | _ => None
      end
  | _ => None
  end.

(** The state of the look-ahead loop of the multi-line parser. *)
Record lookahead : Type := Lookahead {
  la_description : option string;
  la_amount : option Q;
  la_balance : option Q;
  la_lines_consumed : nat
}.

(** [while idx < len(lines) and lines_consumed < 5]; every turn either leaves
    the loop or adds one to [lines_consumed], so four turns are enough. *)
Fixpoint tangerine_lookahead (fuel : nat) (lines : list string) (idx : nat)
    (st : lookahead) : lookahead :=
  match fuel with
  | O => st
  | S fuel' =>
      match lines !! idx with
      | None => st
      | Some raw =>
          if negb (la_lines_consumed st <? 5)%nat then st
          else
            let next_line := Py.strip raw in
            let bump st' :=
              Lookahead (la_description st') (la_amount st') (la_balance st')
                (S (la_lines_consumed st')) in
            if negb (Py.nonempty next_line) then
              tangerine_lookahead fuel' lines (S idx) (bump st)
            else if matches tangerine_date_prefix next_line then st
            else
              let amounts_in_line := Re.findall amount_pattern next_line in
              match amounts_in_line, la_amount st with
              | a0 :: a1 :: _, None =>
                  Lookahead (la_description st) (Some (clean_amount a0))
                    (Some (clean_amount a1)) (S (la_lines_consumed st))
              | _, _ =>
                  if negb (truthy_str (la_description st))
                     && negb (Py.existsb_str Py.is_digit next_line)
                  then
                    let description :=
                      if truthy_str (la_description st)
                      then default EmptyString (la_description st) +:+ " " +:+ next_line
                      else next_line in
                    tangerine_lookahead fuel' lines (S idx)
                      (bump (Lookahead (Some description) (la_amount st)
                               (la_balance st) (la_lines_consumed st)))
                  else tangerine_lookahead fuel' lines (S idx) (bump st)
              end
      end
  end.

(** [TangerineProcessor._parse_tangerine_multiline_transaction]: the record,
    if any, and the number of lines consumed. *)
Definition _parse_tangerine_multiline_transaction (lines : list string)
    (start_idx page_num : nat) : option txn * nat :=
  let current_line := Py.strip (default EmptyString (lines !! start_idx)) in
  if _is_complete_tangerine_transaction current_line then
    (_parse_tangerine_transaction current_line page_num, 1%nat)
  else
    let '(date_str, first) :=
      if matches tangerine_date_prefix current_line then
        match Py.split current_line with
        | p0 :: p1 :: p2 :: remaining_parts =>
            let date_str := Some (p0 +:+ " " +:+ p1 +:+ " " +:+ p2) in
            match remaining_parts with
            | [] => (date_str, Lookahead None None None 1)
            | _ =>
                let amounts_in_line :=
                  filter (fun p => matches amount_token_anchored p = true)
                    remaining_parts in
                match amounts_in_line with
                | a0 :: a1 :: _ =>
                    let desc_parts :=
                      filter (fun p => matches amount_token_anchored p = false)
                        remaining_parts in
                    (date_str,
                     Lookahead (Some (Py.join " " desc_parts)) (Some (clean_amount a0))
                       (Some (clean_amount a1)) 1)
                | _ =>
                    (date_str,
                     Lookahead (Some (Py.join " " remaining_parts)) None None 1)
                end
            end
        | _ => (None, Lookahead None None None 1)
        end
      else (None, Lookahead None None None 1) in
    let st := tangerine_lookahead 4 lines (S start_idx) first in
    let description :=
      if negb (truthy_str (la_description st)) && (0 <? start_idx)%nat then
        let prev_line := Py.strip (default EmptyString (lines !! (start_idx - 1)%nat)) in
        if Py.nonempty prev_line && negb (matches tangerine_date_prefix prev_line)
        then Some prev_line else la_description st
      else la_description st in
    match date_str, description, la_amount st, la_balance st with
    | Some date_str, Some description, Some amount, Some balance =>
        if Py.nonempty date_str && Py.nonempty description then
          let date := _parse_tangerine_date date_str in
          if Py.any_in ["opening balance"; "closing balance"] (Py.lower description)
             && Qeqb amount 0
          then (None, la_lines_consumed st)
          else
            let description_lower := Py.lower description in
            let '(transaction_type, is_spending) :=
              if Py.any_in tangerine_credit_keywords description_lower
              then ("credit", false)
              else if Py.any_in tangerine_debit_keywords description_lower
              then ("debit", true)
              else (if Qgtb amount 0 then "credit" else "debit", Qle_bool amount 0) in
            (Some (tangerine_record date description amount balance page_num
                     transaction_type is_spending),
             la_lines_consumed st)
        else (None, 1%nat)
    | _, _, _, _ => (None, 1%nat)
    end.

(** The [while i < len(lines)] loop of a Tangerine page; every turn moves [i]
    forward, so [len(lines)] turns are enough. *)
Fixpoint tangerine_lines (fuel : nat) (lines : list string) (page_num : nat)
    (in_transaction_section : bool) (i : nat) : list txn :=
  match fuel with
  | O => []
  | S fuel' =>
      match lines !! i with
      | None => []
      | Some raw =>
          let line := Py.strip raw in
          if (Py.contains "Transaction Date" line
              && Py.contains "Transaction Description" line)
             || (Py.contains "Transaction Date" line && Py.contains "Amount" line)
          then tangerine_lines fuel' lines page_num true (S i)
          else if Py.contains "Current Interest Rate" line
                  || Py.contains "The Details -" line
          then tangerine_lines fuel' lines page_num false (S i)
          else if in_transaction_section && _is_tangerine_transaction line then
            let '(transaction, lines_consumed) :=
              _parse_tangerine_multiline_transaction lines i page_num in
            match transaction with
            | Some t =>
                t :: tangerine_lines fuel' lines page_num in_transaction_section
                       (i + lines_consumed)
            | None =>
                tangerine_lines fuel' lines page_num in_transaction_section
                  (i + lines_consumed)
            end
          else tangerine_lines fuel' lines page_num in_transaction_section (S i)
      end
  end.

Definition tangerine_page (page_num : nat) (text : string) : list txn :=
  let lines := Py.splitlines_nl text in
  tangerine_lines (length lines) lines page_num false 0.

(** [TangerineProcessor.extract_transactions] *)
Definition tangerine_extract_transactions (doc : pdf_doc) : list txn :=
  extract_with tangerine_page doc.

(** ** [RBCBankProcessor]: carry-forward dates *)

(** [r'(\d{1,2}\s+([A-Za-z]{3}))'] *)
Definition rbc_date_pattern : Re.regex :=
  Re.Grp 1 (Re.seqs [Re.between 1 2 Re.digit; Re.plus Re.space;
                     Re.Grp 2 (Re.rep 3 Re.alpha)]).

(** [r'(\d{1,2})\s+([a-zA-Z]{3})'] *)
Definition rbc_day_month_pattern : Re.regex :=
  Re.seqs [Re.Grp 1 (Re.between 1 2 Re.digit); Re.plus Re.space;
           Re.Grp 2 (Re.rep 3 Re.alpha)].

(** [r'^\W+|\W+$'] *)
Definition edge_nonword : Re.regex :=
  Re.Alt (Re.Seq Re.Bol (Re.plus Re.nonword)) (Re.Seq (Re.plus Re.nonword) Re.Eol).

Definition valid_months : list string :=
  ["jan"; "feb"; "mar"; "apr"; "may"; "jun";
   "jul"; "aug"; "sep"; "oct"; "nov"; "dec"].

(** [x in l] for a list of strings. *)
Definition in_list (x : string) (l : list string) : bool :=
  existsb (String.eqb x) l.

(** [RBCBankProcessor._parse_rbc_date] *)
Definition _parse_rbc_date (date_str : string) : string :=
  match Re.rmatch_ rbc_day_month_pattern (Py.lower date_str) with
  | Some m =>
      let day := Py.zfill2 (Re.group 1 m) in
      let month_abbr := Re.group 2 m in
      match month_map !! month_abbr with
      | Some mm => mm +:+ "-" +:+ day
      | None => "Unknown"
      end
  | None => "Unknown"
  end.

Definition rbc_skip_patterns : list string :=
  ["date"; "description"; "withdrawals"; "deposits"; "balance";
   "details of your account"; "continued"; "opening balance"; "closing balance";
   "total deposits"; "total withdrawals"; "summary"; "from.*to.*"; "rbc";
   "fee electronic"; "multiproduct rebate"; "monthly fee"].

Definition rbc_credit_patterns : list string :=
  ["e-transfer"; "autodeposit"; "deposit"; "rebate"; "refund"].

Definition rbc_debit_patterns : list string :=
  ["interac purchase"; "contactless interac purchase"; "online banking payment";
   "loan payment"; "atm withdrawal"; "fee"; "charge"; "misc payment"].

Definition rbc_merchants : list string :=
  ["subway"; "tim hortons"; "wal-mart"; "esso"; "phoenix"; "costco";
   "staples"; "nike"; "shoppers"; "fortinos"; "afrocan"].

(** [RBCBankProcessor._parse_rbc_transaction_line] *)
Definition _parse_rbc_transaction_line (date line : string) (page_num : nat)
  : option txn :=
  if negb (Py.nonempty line) || (String.length (Py.strip line) <? 5)%nat then None
  else
    let line_lower := Py.lower line in
    if Py.any_in rbc_skip_patterns line_lower then None
    else
      match Re.findall amount_pattern line with
      | [] => None
      | amount_match :: _ =>
          let amount := clean_amount amount_match in
          if Qle_bool amount 0 then None
          else
            let description := Py.strip (Py.take_until_find amount_match line) in
            let description := Re.sub_empty edge_nonword description in
            let description := Py.join " " (Py.split description) in
            if (String.length description <? 3)%nat then None
            else
              let '(transaction_type, is_spending) :=
                if Py.any_in rbc_credit_patterns line_lower then ("credit", false)
                else if Py.any_in rbc_debit_patterns line_lower then ("debit", true)
                else if Py.any_in rbc_merchants line_lower then ("debit", true)
                else ("debit", true) in
              if negb (Py.nonempty date) || String.eqb date "Unknown" then None
              else
                Some (dict [("date", VStr date);
                            ("description", VStr description);
                            ("amount", VNum amount);
                            ("page", page_value page_num);
                            ("bank", VStr (bank_name RBCBankProcessor));
                            ("confidence", VNum 0.85);
                            ("transaction_type", VStr transaction_type);
                            ("is_spending", VBool is_spending);
                            ("abs_amount", VNum (Qabs amount));
                            ("processing_method", VStr "rbc_bank_processor");
                            ("confidence_level", VStr "medium")])
      end.

Definition rbc_header_words : list string :=
  ["date"; "description"; "withdrawals"; "deposits"; "balance"].

(** One turn of the loop over the lines of an RBC page: the new value of
    [current_date] and the record appended, if any. *)
Definition rbc_step (current_date : option string) (page_num : nat) (raw : string)
  : option string * option txn :=
  let line := Py.strip raw in
  if negb (Py.nonempty line) then (current_date, None)
  else if Py.any_in rbc_header_words (Py.lower line) then (current_date, None)
  else
    let carry :=
      match current_date with
      | Some d =>
          if Py.nonempty d
          then (current_date, _parse_rbc_transaction_line d line page_num)
          else (current_date, None)
      | None => (current_date, None)
      end in
    match Re.search rbc_date_pattern line with
    | Some date_match =>
        let month_part := Py.lower (Re.group 2 date_match) in
        if in_list month_part valid_months then
          let new_date := _parse_rbc_date (Re.group 1 date_match) in
          let clean_line := Py.strip (Py.replace (Re.group 1 date_match) "" line) in
          (Some new_date,
           if Py.nonempty clean_line
           then _parse_rbc_transaction_line new_date clean_line page_num
           else None)
        else carry
    | None => carry
    end.

Fixpoint rbc_lines (current_date : option string) (page_num : nat)
    (lines : list string) : list txn :=
  match lines with
  | [] => []
  | raw :: rest =>
      let '(current_date', transaction) := rbc_step current_date page_num raw in
      match transaction with
      | Some t => t :: rbc_lines current_date' page_num rest
      | None => rbc_lines current_date' page_num rest
      end
  end.

Definition rbc_page (page_num : nat) (text : string) : list txn :=
  if Py.contains "Details of your account activity" text
  then rbc_lines None page_num (Py.splitlines_nl text)
  else [].

(** [RBCBankProcessor.extract_transactions] *)
Definition rbc_extract_transactions (doc : pdf_doc) : list txn :=
  extract_with rbc_page doc.

(** ** [TextBasedExtractor]: extraction from a table region *)

Module TextBasedExtractor.

Definition month_alt : Re.regex :=                  (* (Jan|Feb|...|Dec), IGNORECASE *)
  Re.Grp 1 (Re.alts (map Re.str_ci
    ["Jan"; "Feb"; "Mar"; "Apr"; "May"; "Jun";
     "Jul"; "Aug"; "Sep"; "Oct"; "Nov"; "Dec"])).

Definition slash_or_dash : Re.regex :=              (* [/-] *)
  Re.Chr (fun c => Ascii.eqb c "/"%char || Ascii.eqb c "-"%char).

(** [(?:,\d{3})*] *)
Definition thousands : Re.regex :=
  Re.Star (Re.Seq (Re.lit ",") (Re.rep 3 Re.digit)).

(** [self.date_patterns], searched with [re.IGNORECASE]. *)
Definition date_patterns : list Re.regex :=
  [ Re.seqs [Re.between 1 2 Re.digit; slash_or_dash; Re.between 1 2 Re.digit;
             slash_or_dash; Re.between 2 4 Re.digit];
    Re.seqs [Re.rep 4 Re.digit; slash_or_dash; Re.between 1 2 Re.digit;
             slash_or_dash; Re.between 1 2 Re.digit];
    Re.seqs [month_alt; Re.opt (Re.lit "."); Re.Star Re.space;
             Re.between 1 2 Re.digit; Re.opt (Re.lit ","); Re.Star Re.space;
             Re.rep 4 Re.digit];
    Re.seqs [Re.between 1 2 Re.digit; Re.plus Re.space; month_alt];
    Re.seqs [month_alt; Re.lit "."; Re.between 1 2 Re.digit; Re.lit ",";
             Re.rep 4 Re.digit];
    Re.seqs [month_alt; Re.lit "."; Re.between 1 2 Re.digit; Re.WordB] ].

(** [self.amount_patterns] *)
Definition amount_patterns : list Re.regex :=
  [ Re.seqs [Re.lit "$"; Re.between 1 3 Re.digit; thousands; Re.lit ".";
             Re.rep 2 Re.digit];
    Re.seqs [Re.lit "$"; Re.plus Re.digit; Re.lit "."; Re.rep 2 Re.digit];
    Re.seqs [Re.lit "("; Re.lit "$"; Re.plus Re.digit; Re.lit ".";
             Re.rep 2 Re.digit; Re.lit ")"];
    Re.seqs [Re.lit "+"; Re.opt (Re.lit "$"); Re.between 1 3 Re.digit; thousands;
             Re.lit "."; Re.rep 2 Re.digit];
    Re.seqs [Re.lit "-"; Re.opt (Re.lit "$"); Re.between 1 3 Re.digit; thousands;
             Re.lit "."; Re.rep 2 Re.digit];
    Re.seqs [Re.WordB; Re.between 1 3 Re.digit; thousands; Re.lit ".";
             Re.rep 2 Re.digit; Re.WordB];
    Re.seqs [Re.WordB; Re.plus Re.digit; Re.lit "."; Re.rep 2 Re.digit; Re.WordB] ].

Definition has_date (line : string) : bool :=
  existsb (fun pattern => found pattern line) date_patterns.

Definition has_amount (line : string) : bool :=
  existsb (fun pattern => found pattern line) amount_patterns.

(** [_is_header_line] *)
Definition _is_header_line (line : string) : bool :=
  let line_lower := Py.lower line in
  let header_indicators :=
    ["date"; "transaction"; "description"; "amount"; "debit"; "credit"; "balance"] in
  let header_count :=
    length (filter (fun keyword => Py.contains keyword line_lower = true)
              header_indicators) in
  (2 <=? header_count)%nat && negb (has_date line && has_amount line).

(** [_is_summary_line] *)
Definition _is_summary_line (line : string) : bool :=
  let line_lower := Py.lower line in
  Py.any_in ["total"; "subtotal"; "balance"; "opening"; "closing"; "previous";
             "carried forward"] line_lower.

(** [_extract_date]: the text of the first pattern that is found. *)
Fixpoint first_found (patterns : list Re.regex) (line : string) : option string :=
  match patterns with
  | [] => None
  | pattern :: rest =>
      match Re.search pattern line with
      | Some m => Some (Re.m_text m)
      | None => first_found rest line
      end
  end.

Definition _extract_date (line : string) : option string :=
  first_found date_patterns line.

(** [r'[^\d.]'] *)
Definition not_digit_or_point : Re.regex :=
  Re.Chr (fun c => negb (Py.is_digit c || Ascii.eqb c "."%char)).

(** [_extract_amount] *)
Fixpoint extract_amount_with (patterns : list Re.regex) (line : string) : option Q :=
  match patterns with
  | [] => None
  | pattern :: rest =>
      match Re.search pattern line with
      | Some m =>
          let amount_str := Re.m_text m in
          let is_negative :=
            Py.contains "(" amount_str || Py.startswith "-" amount_str in
          match float_of_string (Re.sub_empty not_digit_or_point amount_str) with
          | Some amount => Some (if is_negative then - amount else amount)
          | None => extract_amount_with rest line
          end
      | None => extract_amount_with rest line
      end
  end.

Definition _extract_amount (line : string) : option Q :=
  extract_amount_with amount_patterns line.

(** [_extract_description] *)
Definition _extract_description (line : string) (date : string) : string :=
  let description :=
    if Py.nonempty date then Py.replace date "" line else line in
  let description :=
    fold_left (fun d pattern => Re.sub_empty pattern d) amount_patterns description in
  let description := Py.strip (Py.join " " (Py.split description)) in
  if (String.length description <? 5)%nat then "Transaction" else description.

(** [_parse_transaction_line] *)
Definition _parse_transaction_line (line : string) (page_num : nat) : option txn :=
  match _extract_date line with
  | None => None
  | Some date =>
      if negb (Py.nonempty date) then None
      else
        match _extract_amount line with
        | None => None
        | Some amount =>
            let description := _extract_description line date in
            Some (dict [("date", VStr date);
                        ("description", VStr description);
                        ("amount", VNum amount);
                        ("page", page_value page_num);
                        ("confidence", VNum 0.85);
                        ("extraction_method", VStr "text_pattern")])
        end
  end.

(** [_extract_from_table_region], on the lines of the region. *)
Fixpoint _extract_from_table_region (lines : list string) (page_num : nat)
  : list txn :=
  match lines with
  | [] => []
  | line :: rest =>
      if _is_header_line line then _extract_from_table_region rest page_num
      else if _is_summary_line line then _extract_from_table_region rest page_num
      else
        match _parse_transaction_line line page_num with
        | Some transaction => transaction :: _extract_from_table_region rest page_num
        | None => _extract_from_table_region rest page_num
        end
  end.

End TextBasedExtractor.

(** ** [OCRExtractor] and [DocumentProcessor] *)

Module OCRExtractor.

(** [self.date_patterns], searched with [re.IGNORECASE]. *)
Definition date_patterns : list Re.regex :=
  [ Re.seqs [Re.between 1 2 Re.digit; TextBasedExtractor.slash_or_dash;
             Re.between 1 2 Re.digit; TextBasedExtractor.slash_or_dash;
             Re.between 2 4 Re.digit];
    Re.seqs [Re.rep 4 Re.digit; TextBasedExtractor.slash_or_dash;
             Re.between 1 2 Re.digit; TextBasedExtractor.slash_or_dash;
             Re.between 1 2 Re.digit];
    Re.seqs [TextBasedExtractor.month_alt; Re.plus Re.space; Re.between 1 2 Re.digit] ].

(** [self.amount_patterns] *)
Definition amount_patterns : list Re.regex :=
  [ Re.seqs [Re.lit "$"; Re.between 1 3 Re.digit; TextBasedExtractor.thousands;
             Re.lit "."; Re.rep 2 Re.digit];
    Re.seqs [Re.lit "$"; Re.plus Re.digit; Re.lit "."; Re.rep 2 Re.digit];
    Re.seqs [Re.lit "("; Re.lit "$"; Re.plus Re.digit; Re.lit ".";
             Re.rep 2 Re.digit; Re.lit ")"] ].

(** [_is_transaction_text] *)
Definition _is_transaction_text (text : string) : bool :=
  existsb (fun pattern => found pattern text) date_patterns
  || existsb (fun pattern => found pattern text) amount_patterns.

Definition _extract_date (text : string) : option string :=
  TextBasedExtractor.first_found date_patterns text.

(** [_extract_amount] *)
Fixpoint extract_amount_with (patterns : list Re.regex) (text : string) : option Q :=
  match patterns with
  | [] => None
  | pattern :: rest =>
      match Re.search pattern text with
      | Some m =>
          let amount_str :=
            Py.replace ")" "" (Py.replace "(" "" (Py.replace "," ""
              (Py.replace "$" "" (Re.m_text m)))) in
          match float_of_string amount_str with
          | Some amount =>
              Some (if Py.contains "(" (Re.m_text m) then - amount else amount)
          | None => extract_amount_with rest text
          end
      | None => extract_amount_with rest text
      end
  end.

Definition _extract_amount (text : string) : option Q :=
  extract_amount_with amount_patterns text.

(** [_extract_description] *)
Definition _extract_description (text date : string) : string :=
  let description :=
    if Py.nonempty date && negb (String.eqb date "Unknown")
    then Py.replace date "" text else text in
  let description :=
    fold_left (fun d pattern => Re.sub_empty pattern d) amount_patterns description in
  let description := Py.strip (Py.join " " (Py.split description)) in
  if (String.length description <? 5)%nat then "OCR Transaction" else description.

(** [_parse_ocr_text] *)
Definition _parse_ocr_text (text : string) (page_num : nat) (ocr_confidence : Q)
  : option txn :=
  let date := _extract_date text in
  let amount := _extract_amount text in
  if negb (truthy_str date) && negb (bool_decide (is_Some amount)) then None
  else
    let date := if truthy_str date then default EmptyString date else "Unknown" in
    let amount := default 0 amount in
    let description := _extract_description text date in
    Some (dict [("date", VStr date);
                ("description", VStr description);
                ("amount", VNum amount);
                ("page", page_value page_num);
                ("confidence", VNum (Float64.mul ocr_confidence 0.8));
                ("extraction_method", VStr "ocr")]).

Section Engine.
(** A page image, the rasteriser [pdf2image.convert_from_path] (the images of
    the pages, or [None] when it raises) and the image preprocessing are
    external; an OCR reader maps an image to its recognised fragments, each
    with a confidence ([None] when [readtext] raises). *)
Variable image : Type.
Variable convert_from_path : pdf_doc -> option (list image).
Variable _preprocess_image : image -> image.

Definition reader : Type := image -> option (list (string * Q)).

(** The two attributes of an [OCRExtractor]. *)
Record extractor : Type := Extractor {
  poppler_path : option string;
  ocr_reader : option reader
}.

(** The loop over the OCR results of one image. *)
Fixpoint ocr_results_loop (ocr_results : list (string * Q)) (page_num : nat)
  : list txn :=
  match ocr_results with
  | [] => []
  | (text, conf) :: rest =>
      if Qgtb conf 0.7 && (3 <? String.length (Py.strip text))%nat
         && _is_transaction_text text
      then
        match _parse_ocr_text text page_num conf with
        | Some transaction => transaction :: ocr_results_loop rest page_num
        | None => ocr_results_loop rest page_num
        end
      else ocr_results_loop rest page_num
  end.

(** [extract_transactions_from_image] *)
Definition extract_transactions_from_image (self : extractor) (img : image)
    (page_num : nat) : list txn :=
  match ocr_reader self with
  | None => []
  | Some readtext =>
      match readtext (_preprocess_image img) with
      | Some ocr_results => ocr_results_loop ocr_results page_num
      | None => []                          (* except Exception: return [] *)
      end
  end.

Fixpoint for_images (self : extractor) (page_num : nat) (images : list image)
  : list txn :=
  match images with
  | [] => []
  | img :: rest =>
      extract_transactions_from_image self img page_num
      ++ for_images self (S page_num) rest
  end.

(** [extract_transactions] *)
Definition extract_transactions (self : extractor) (doc : pdf_doc) : list txn :=
  match poppler_path self with
  | None => []
  | Some path =>
      if negb (Py.nonempty path) then []
      else
        match convert_from_path doc with
        | Some images => for_images self 1 images
        | None => []                        (* except Exception: return [] *)
        end
  end.
End Engine.

End OCRExtractor.

Module DocumentProcessor.

(** The sum of [len(text.strip())] over the sampled pages with text. *)
Fixpoint total_text (pgs : list string) : nat :=
  match pgs with
  | [] => 0
  | text :: pgs' =>
      ((if Py.nonempty text then String.length (Py.strip text) else 0)
       + total_text pgs')%nat
  end.

Definition sample_pages (pgs : list string) : nat := Nat.min 3 (length pgs).

(** [avg_text = total_text / sample_pages if sample_pages > 0 else 0] *)
Definition avg_text (pgs : list string) : Q :=
  if (0 <? sample_pages pgs)%nat
  then Z.of_nat (total_text (firstn (sample_pages pgs) pgs))
       # Pos.of_nat (sample_pages pgs)
  else 0.

(** [_detect_document_type] *)
Definition _detect_document_type (doc : pdf_doc) : string :=
  match pages doc with
  | None => "mixed"                           (* except Exception: return "mixed" *)
  | Some pgs =>
      if Qgtb (avg_text pgs) 500 then "text_based"
      else if Qltb (avg_text pgs) 100 then "scanned_image"
      else "mixed"
  end.

Section Routing.
Variable image : Type.
Variable convert_from_path : pdf_doc -> option (list image).
Variable _preprocess_image : image -> image.

(** The results of the two routes that do not go through the OCR extractor
    alone: the generic text extractor and the page-by-page hybrid route. *)
Variable _process_text_based_pdf : pdf_doc -> result.
Variable _process_mixed_pdf : pdf_doc -> result.

(** The attributes [poppler_path] and [ocr_reader] of a [DocumentProcessor]
    are those it hands to the [OCRExtractor] it builds. *)
Definition _process_scanned_pdf (self : OCRExtractor.extractor image)
    (doc : pdf_doc) : result :=
  {| processing_method := "ocr_extraction";
     transactions :=
       OCRExtractor.extract_transactions image convert_from_path
         _preprocess_image self doc;
     confidence := "medium";
     error := None;
     bank := None;
     transaction_count := None;
     debit_count := None;
     credit_count := None;
     spending_transactions := None;
     processing_time := Some "slow" |}.

(** [DocumentProcessor.process_document] *)
Definition process_document (self : OCRExtractor.extractor image)
    (doc : pdf_doc) : result :=
  let doc_type := _detect_document_type doc in
  if String.eqb doc_type "text_based" then _process_text_based_pdf doc
  else if String.eqb doc_type "scanned_image" then _process_scanned_pdf self doc
  else _process_mixed_pdf doc.
End Routing.

End DocumentProcessor.

(** ** The remaining processors *)

(** What [datetime.now()] gives: the current year and month. *)
Record clock : Type := Clock { now_year : Z; now_month : Z }.

(** The loop [for line in lines] of the extractors that test and parse each
    stripped line on its own. *)
Definition per_line (parse : string -> option txn) (text : string) : list txn :=
  omap (fun raw => parse (Py.strip raw)) (Py.splitlines_nl text).

(** *** [BMOProcessor] *)

(** [r'[A-Za-z]{3}\.\d{1,2}'] *)
Definition bmo_date : Re.regex :=
  Re.seqs [Re.rep 3 Re.alpha; Re.lit "."; Re.between 1 2 Re.digit].

(** [_is_bmo_transaction]: [r'^[A-Za-z]{3}\.\d{1,2}\s+[A-Za-z]{3}\.\d{1,2}'] *)
Definition _is_bmo_transaction (line : string) : bool :=
  matches (Re.seqs [Re.Bol; bmo_date; Re.plus Re.space; bmo_date]) line.

(** [r'([\d,]+\.\d{2})\s*$'] *)
Definition bmo_amount_at_end : Re.regex :=
  Re.seqs [Re.Grp 1 amount_pattern; Re.Star Re.space; Re.Eol].

(** [_parse_bmo_transaction] *)
Definition _parse_bmo_transaction (line : string) (page_num : nat) : option txn :=
  (* r'^([A-Za-z]{3}\.\d{1,2})\s+([A-Za-z]{3}\.\d{1,2})\s+' and a third group [.*] *)
  let date_pattern :=
    Re.seqs [Re.Bol; Re.Grp 1 bmo_date; Re.plus Re.space; Re.Grp 2 bmo_date;
             Re.plus Re.space; Re.Grp 3 (Re.Star Re.dot)] in
  match Re.rmatch_ date_pattern line with
  | None => None
  | Some m =>
      let trans_date := clean_date (Re.group 1 m) in
      let post_date := clean_date (Re.group 2 m) in
      let remaining_text := Py.strip (Re.group 3 m) in
      match Re.search bmo_amount_at_end remaining_text with
      | None => None
      | Some amount_match =>
          let amount := clean_amount (Re.group 1 amount_match) in
          let description_end := Re.m_start amount_match in
          let description := Py.strip (Py.take description_end remaining_text) in
          (* r'(\d{10,})\s*[\d,]+\.\d{2}\s*$' *)
          let ref_pattern :=
            Re.seqs [Re.Grp 1 (Re.Seq (Re.rep 10 Re.digit) (Re.Star Re.digit));
                     Re.Star Re.space; amount_pattern; Re.Star Re.space; Re.Eol] in
          let reference :=
            match Re.search ref_pattern remaining_text with
            | Some ref_match => Re.group 1 ref_match
            | None => EmptyString
            end in
          let description :=
            if Py.nonempty reference
            then Py.strip (Py.replace reference "" description) else description in
          if Py.any_in ["total"; "interest"; "fee"; "balance"; "payment"; "credit limit"]
               (Py.lower description)
          then None
          else
            Some (dict [("date", VStr trans_date);
                        ("posting_date", VStr post_date);
                        ("description", VStr description);
                        ("reference", VStr reference);
                        ("amount", VNum amount);
                        ("page", page_value page_num);
                        ("bank", VStr (bank_name BMOProcessor));
                        ("confidence", VNum 0.9)])
      end
  end.

Definition bmo_page (page_num : nat) (text : string) : list txn :=
  per_line (fun line =>
    if _is_bmo_transaction line then _parse_bmo_transaction line page_num else None)
    text.

(** *** [EQBankProcessor] *)

(** [r'-?\$[\d,]+\.?\d{2}'] *)
Definition eq_amount : Re.regex :=
  Re.seqs [Re.opt (Re.lit "-"); Re.lit "$"; Re.plus Re.digit_or_comma;
           Re.opt (Re.lit "."); Re.rep 2 Re.digit].

(** [r'[A-Za-z]{3}\s+\d{1,2}'] *)
Definition month_space_day : Re.regex :=
  Re.seqs [Re.rep 3 Re.alpha; Re.plus Re.space; Re.between 1 2 Re.digit].

(** [_is_eq_transaction] *)
Definition _is_eq_transaction (line : string) : bool :=
  found (Re.Seq Re.Bol month_space_day) line && found eq_amount line.

(** [_parse_eq_transaction]; the year appended to the date is taken from the
    clock. *)
Definition _parse_eq_transaction (now : clock) (line : string) (page_num : nat)
  : option txn :=
  (* r'^([A-Za-z]{3}\s+\d{1,2})\s+(.*?)\s+(-?\$[\d,]+\.?\d{2})$' *)
  let pattern :=
    Re.seqs [Re.Bol; Re.Grp 1 month_space_day; Re.plus Re.space;
             Re.Grp 2 (Re.Lazy Re.dot); Re.plus Re.space; Re.Grp 3 eq_amount;
             Re.Eol] in
  match Re.rmatch_ pattern line with
  | Some m =>
      let current_year := now_year now in
      let statement_year :=
        if (now_month now <=? 3)%Z then (current_year - 1)%Z else current_year in
      let date_str := Re.group 1 m +:+ " " +:+ Py.str_of_Z statement_year in
      let date := clean_date date_str in
      let description := Py.strip (Re.group 2 m) in
      let amount := clean_amount (Re.group 3 m) in
      if Py.contains "withdrawals" (Py.lower description)
         || Py.contains "deposits" (Py.lower description)
      then None
      else
        Some (dict [("date", VStr date);
                    ("description", VStr description);
                    ("amount", VNum amount);
                    ("page", page_value page_num);
                    ("bank", VStr (bank_name EQBankProcessor));
                    ("confidence", VNum 0.95)])
  | None => None
  end.

Definition eq_page (now : clock) (page_num : nat) (text : string) : list txn :=
  per_line (fun line =>
    if _is_eq_transaction line then _parse_eq_transaction now line page_num else None)
    text.

(** *** [RBCVisaProcessor] *)

(** [r'[A-Z]{3}\d{2}'] *)
Definition rbc_visa_date : Re.regex :=
  Re.Seq (Re.rep 3 Re.upper) (Re.rep 2 Re.digit).

(** [r'[\d,]+\.?\d{2}'] *)
Definition loose_amount : Re.regex :=
  Re.seqs [Re.plus Re.digit_or_comma; Re.opt (Re.lit "."); Re.rep 2 Re.digit].

(** [_is_rbc_visa_transaction]: [r'^[A-Z]{3}\d{2}\s+[A-Z]{3}\d{2}'] *)
Definition _is_rbc_visa_transaction (line : string) : bool :=
  matches (Re.seqs [Re.Bol; rbc_visa_date; Re.plus Re.space; rbc_visa_date]) line.

(** [_parse_rbc_visa_transaction] *)
Definition _parse_rbc_visa_transaction (line : string) (page_num : nat)
  : option txn :=
  (* r'^([A-Z]{3}\d{2})\s+([A-Z]{3}\d{2})\s+(.*?)\s+\$?([\d,]+\.?\d{2})$' *)
  let pattern :=
    Re.seqs [Re.Bol; Re.Grp 1 rbc_visa_date; Re.plus Re.space;
             Re.Grp 2 rbc_visa_date; Re.plus Re.space; Re.Grp 3 (Re.Lazy Re.dot);
             Re.plus Re.space; Re.opt (Re.lit "$"); Re.Grp 4 loose_amount; Re.Eol] in
  match Re.rmatch_ pattern line with
  | Some m =>
      let trans_date := clean_date (Re.group 1 m) in
      let post_date := clean_date (Re.group 2 m) in
      let description := Py.strip (Re.group 3 m) in
      let amount := clean_amount (Re.group 4 m) in
      Some (dict [("date", VStr trans_date);
                  ("posting_date", VStr post_date);
                  ("description", VStr description);
                  ("amount", VNum amount);
                  ("page", page_value page_num);
                  ("bank", VStr (bank_name RBCVisaProcessor));
                  ("confidence", VNum 0.9)])
  | None => None
  end.

Definition rbc_visa_page (page_num : nat) (text : string) : list txn :=
  per_line (fun line =>
    if _is_rbc_visa_transaction line
    then _parse_rbc_visa_transaction line page_num else None) text.

(** *** [AmexProcessor] *)

(** [r'[A-Za-z]{3,9}\d{1,2}'] *)
Definition amex_date : Re.regex :=
  Re.Seq (Re.between 3 9 Re.alpha) (Re.between 1 2 Re.digit).

(** [_is_amex_transaction]: [r'^[A-Za-z]{3,9}\d{1,2}\s+[A-Z]'] *)
Definition _is_amex_transaction (line : string) : bool :=
  matches (Re.seqs [Re.Bol; amex_date; Re.plus Re.space; Re.upper]) line.

Definition amex_month_map : list (string * string) :=
  [("january", "01"); ("february", "02"); ("march", "03"); ("april", "04");
   ("may", "05"); ("june", "06"); ("july", "07"); ("august", "08");
   ("september", "09"); ("october", "10"); ("november", "11"); ("december", "12")].

(** [r'([A-Za-z]{3,9})(\d{1,2})'] *)
Definition amex_date_pattern : Re.regex :=
  Re.Seq (Re.Grp 1 (Re.between 3 9 Re.alpha)) (Re.Grp 2 (Re.between 1 2 Re.digit)).

(** [_parse_amex_date] *)
Definition _parse_amex_date (date_str : string) : string :=
  match Re.rmatch_ amex_date_pattern date_str with
  | Some m =>
      let month_name := Py.lower (Re.group 1 m) in
      let day := Py.zfill2 (Re.group 2 m) in
      match List.find (fun kv => Py.startswith (Py.lower month_name) (fst kv))
              amex_month_map with
      | Some (_, month_num) => month_num +:+ "-" +:+ day
      | None => "01-01"
      end
  | None => "01-01"
  end.

(** [_parse_amex_transaction] *)
Definition _parse_amex_transaction (line : string) (page_num : nat) : option txn :=
  (* r'^([A-Za-z]{3,9}\d{1,2})\s+(.*?)\s+([\d,]+\.?\d{2})$' *)
  let pattern :=
    Re.seqs [Re.Bol; Re.Grp 1 amex_date; Re.plus Re.space;
             Re.Grp 2 (Re.Lazy Re.dot); Re.plus Re.space; Re.Grp 3 loose_amount;
             Re.Eol] in
  match Re.rmatch_ pattern line with
  | Some m =>
      let raw_date := Re.group 1 m in
      let date := _parse_amex_date raw_date in
      let description := Py.strip (Re.group 2 m) in
      let amount := clean_amount (Re.group 3 m) in
      if Py.any_in ["total"; "balance"; "payment"] (Py.lower description) then None
      else
        Some (dict [("date", VStr date);
                    ("description", VStr description);
                    ("amount", VNum amount);
                    ("page", page_value page_num);
                    ("bank", VStr (bank_name AmexProcessor));
                    ("confidence", VNum 0.85)])
  | None => None
  end.

Definition amex_page (page_num : nat) (text : string) : list txn :=
  per_line (fun line =>
    if _is_amex_transaction line then _parse_amex_transaction line page_num else None)
    text.

(** The loop of the extractors that keep an [in_transaction_section] flag:
    a header line sets it, a stop line clears it (both end the turn), and a
    line is handed to [parse] according to [gated]: only inside the section,
    or always. *)
Fixpoint section_lines (is_header is_stop : string -> bool) (gated : bool)
    (parse : string -> option txn) (in_transaction_section : bool)
    (lines : list string) : list txn :=
  match lines with
  | [] => []
  | raw :: rest =>
      let line := Py.strip raw in
      if is_header line then section_lines is_header is_stop gated parse true rest
      else if is_stop line then section_lines is_header is_stop gated parse false rest
      else
        let here :=
          if in_transaction_section || negb gated then parse line else None in
        match here with
        | Some transaction =>
            transaction
            :: section_lines is_header is_stop gated parse in_transaction_section rest
        | None =>
            section_lines is_header is_stop gated parse in_transaction_section rest
        end
  end.

(** The credit-card rule written in several parsers: a positive amount is
    spending. *)
Definition card_direction (amount : Q) : string * bool :=
  (if Qgtb amount 0 then "debit" else "credit", Qgtb amount 0).

(** [parts[0].lower()] looked up in [month_map], with [parts[1].zfill(2)], as
    in [_parse_td_credit_date], [_parse_simplii_date] and
    [_parse_cibc_visa_date]. *)
Definition month_day_of_parts (parts : list string) : option string :=
  match parts with
  | p0 :: p1 :: _ =>
      let month_abbr := Py.lower p0 in
      let day := Py.zfill2 p1 in
      match month_map !! month_abbr with
      | Some mm => Some (mm +:+ "-" +:+ day)
      | None => None
      end
  | _ => None
  end.

(** *** [TDCreditCardProcessor] *)

(** [r'[A-Z]{3}\s*\d{1,2}'] *)
Definition td_credit_date : Re.regex :=
  Re.seqs [Re.rep 3 Re.upper; Re.Star Re.space; Re.between 1 2 Re.digit].

(** [r'-?\$[\d,]+\.\d{2}'] *)
Definition dollar_amount : Re.regex :=
  Re.seqs [Re.opt (Re.lit "-"); Re.lit "$"; amount_pattern].

(** [r'-?\$?[\d,]+\.\d{2}'] *)
Definition signed_amount : Re.regex :=
  Re.seqs [Re.opt (Re.lit "-"); Re.opt (Re.lit "$"); amount_pattern].

(** [_is_td_credit_transaction] *)
Definition _is_td_credit_transaction (line : string) : bool :=
  if Py.any_in ["previous statement"; "activity description"; "amount"; "date";
                "continued"; "net amount"; "total"; "balance"; "payment";
                "foreign currency"; "@exchange rate"] (Py.lower line)
  then false
  else
    (* r'^[A-Z]{3}\s*\d{1,2}\s+[A-Z]{3}\s*\d{1,2}' *)
    let has_dual_date :=
      found (Re.seqs [Re.Bol; td_credit_date; Re.plus Re.space; td_credit_date])
        line in
    let has_amount := found dollar_amount line in
    has_dual_date && has_amount && (15 <? String.length line)%nat.

(** [_parse_td_credit_date] *)
Definition _parse_td_credit_date (date_str : string) : string :=
  let date_str := Py.strip date_str in
  match month_day_of_parts (Py.split date_str) with
  | Some d => d
  | None =>
      (* r'^([A-Z]{3})(\d{1,2})$' *)
      let pattern :=
        Re.seqs [Re.Bol; Re.Grp 1 (Re.rep 3 Re.upper);
                 Re.Grp 2 (Re.between 1 2 Re.digit); Re.Eol] in
      match Re.rmatch_ pattern (Py.upper date_str) with
      | Some m =>
          let month_abbr := Py.lower (Re.group 1 m) in
          let day := Py.zfill2 (Re.group 2 m) in
          match month_map !! month_abbr with
          | Some mm => mm +:+ "-" +:+ day
          | None => "Unknown"
          end
      | None => "Unknown"
      end
  end.

(** [_parse_td_credit_transaction] *)
Definition _parse_td_credit_transaction (line : string) (page_num : nat)
  : option txn :=
  (* r'^([A-Z]{3}\s*\d{1,2})\s+([A-Z]{3}\s*\d{1,2})\s+(.*?)\s+(-?\$?[\d,]+\.\d{2})' *)
  let pattern :=
    Re.seqs [Re.Bol; Re.Grp 1 td_credit_date; Re.plus Re.space;
             Re.Grp 2 td_credit_date; Re.plus Re.space; Re.Grp 3 (Re.Lazy Re.dot);
             Re.plus Re.space; Re.Grp 4 signed_amount] in
  match Re.search pattern line with
  | None => None
  | Some m =>
      let trans_date := Re.group 1 m in
      let post_date := Re.group 2 m in
      let description := Py.strip (Re.group 3 m) in
      let amount := clean_amount (Re.group 4 m) in
      let parsed_trans_date := _parse_td_credit_date trans_date in
      let parsed_post_date := _parse_td_credit_date post_date in
      if String.eqb parsed_trans_date "Unknown" then None
      else
        let '(transaction_type, is_spending) := card_direction amount in
        Some (dict [("date", VStr parsed_trans_date);
                    ("posting_date", VStr parsed_post_date);
                    ("description", VStr description);
                    ("amount", VNum amount);
                    ("page", page_value page_num);
                    ("bank", VStr (bank_name TDCreditCardProcessor));
                    ("confidence", VNum 0.9);
                    ("transaction_type", VStr transaction_type);
                    ("is_spending", VBool is_spending);
                    ("abs_amount", VNum (Qabs amount));
                    ("processing_method", VStr "td_credit_card_processor");
                    ("confidence_level", VStr "high")])
  end.

Definition td_credit_page (page_num : nat) (text : string) : list txn :=
  section_lines
    (fun line => Py.contains "ACTIVITY DESCRIPTION" line
                 || Py.contains "TRANSACTIO" line)
    (Py.any_in ["NET AMOUNT OF MONTHLY"; "TOTAL NEW BALANCE";
                "CALCULATING YOUR BALANCE"; "PAYMENT INFORMATION"])
    true
    (fun line =>
       if _is_td_credit_transaction line
       then _parse_td_credit_transaction line page_num else None)
    false (Py.splitlines_nl text).

(** *** [TangerineCreditCardProcessor] *)

(** The en dash of the source, as its three UTF-8 bytes. *)
Definition en_dash : string :=
  String (ascii_of_N 226) (String (ascii_of_N 128)
    (String (ascii_of_N 147) EmptyString)).

(** [r'\d{2}-[A-Z][a-z]{2}-\d{4}'] *)
Definition tangerine_credit_date : Re.regex :=
  Re.seqs [Re.rep 2 Re.digit; Re.lit "-"; Re.upper; Re.rep 2 Re.lower; Re.lit "-";
           Re.rep 4 Re.digit].

(** [_is_tangerine_credit_transaction] *)
Definition _is_tangerine_credit_transaction (line : string) : bool :=
  if Py.any_in ["transaction posted"; "description"; "category"; "amount"; "reward";
                "previous balance"; "your chosen"; "currently earning"; "money-back";
                "purchases"; "cash advances"; "quebec"] (Py.lower line)
  then false
  else
    let has_dual_date :=
      found (Re.seqs [tangerine_credit_date; Re.plus Re.space; tangerine_credit_date])
        line in
    let has_amount := found dollar_amount line in
    has_dual_date && has_amount && (25 <? String.length line)%nat.

(** [_parse_tangerine_credit_date] *)
Definition _parse_tangerine_credit_date (date_str : string) : string :=
  match Py.split_on "-"%char date_str with
  | p0 :: p1 :: _ :: _ =>
      let day := Py.zfill2 p0 in
      let month_abbr := Py.lower p1 in
      match month_map !! month_abbr with
      | Some mm => mm +:+ "-" +:+ day
      | None => "Unknown"
      end
  | _ => "Unknown"
  end.

(** [r'\s+(QC|ON|BC|AB|MB|SK|NB|NS|PE|NL)(\s|$)'] *)
Definition province_suffix : Re.regex :=
  Re.seqs [Re.plus Re.space;
           Re.Grp 1 (Re.alts (map Re.str ["QC"; "ON"; "BC"; "AB"; "MB"; "SK"; "NB";
                                          "NS"; "PE"; "NL"]));
           Re.Grp 2 (Re.Alt Re.space Re.Eol)].

(** [_parse_tangerine_credit_transaction] *)
Definition _parse_tangerine_credit_transaction (line : string) (page_num : nat)
  : option txn :=
  (* two dates, a lazy description, a signed amount and an optional reward:
     r'(date)\s+(date)\s+(.*?)\s+(-?\$?[\d,]+\.\d{2})(?:\s+\$?([\d,]+\.\d{2}|-))?'
     where the last alternative is an en dash *)
  let pattern :=
    Re.seqs [Re.Grp 1 tangerine_credit_date; Re.plus Re.space;
             Re.Grp 2 tangerine_credit_date; Re.plus Re.space;
             Re.Grp 3 (Re.Lazy Re.dot); Re.plus Re.space; Re.Grp 4 signed_amount;
             Re.opt (Re.seqs [Re.plus Re.space; Re.opt (Re.lit "$");
                              Re.Grp 5 (Re.Alt amount_pattern (Re.str en_dash))])] in
  match Re.search pattern line with
  | None => None
  | Some m =>
      let trans_date := Re.group 1 m in
      let post_date := Re.group 2 m in
      let description := Py.strip (Re.group 3 m) in
      let amount := clean_amount (Re.group 4 m) in
      let reward :=
        match Re.assoc 5 (Re.m_groups m) with
        | Some g => if Py.nonempty g && negb (String.eqb g en_dash) then g else "0.00"
        | None => "0.00"
        end in
      let parsed_trans_date := _parse_tangerine_credit_date trans_date in
      let parsed_post_date := _parse_tangerine_credit_date post_date in
      if String.eqb parsed_trans_date "Unknown" then None
      else
        let description := Re.sub_empty province_suffix description in
        let description := Py.join " " (Py.split description) in
        let '(transaction_type, is_spending) := card_direction amount in
        Some (dict [("date", VStr parsed_trans_date);
                    ("posting_date", VStr parsed_post_date);
                    ("description", VStr description);
                    ("amount", VNum amount);
                    ("reward_earned",
                     VNum (if negb (String.eqb reward "0.00")
                           then clean_amount reward else 0));
                    ("page", page_value page_num);
                    ("bank", VStr (bank_name TangerineCreditCardProcessor));
                    ("confidence", VNum 0.9);
                    ("transaction_type", VStr transaction_type);
                    ("is_spending", VBool is_spending);
                    ("abs_amount", VNum (Qabs amount));
                    ("processing_method", VStr "tangerine_credit_card_processor");
                    ("confidence_level", VStr "high")])
  end.

Definition tangerine_credit_page (page_num : nat) (text : string) : list txn :=
  section_lines
    (Py.contains "Transaction Posted Description Category Amount Reward")
    (Py.any_in ["Tangerine.ca:"; "Minimum Payment:"; "Transaction/Posting Date";
                "Interest and Grace Period"; "Foreign Currency Transactions"])
    false
    (fun line =>
       if _is_tangerine_credit_transaction line
       then _parse_tangerine_credit_transaction line page_num else None)
    false (Py.splitlines_nl text).

(** *** [SimpliiProcessor] *)

(** [r'\d{1,3}(?:,\d{3})*\.\d{2}$'] *)
Definition grouped_amount_at_end : Re.regex :=
  Re.seqs [Re.between 1 3 Re.digit; TextBasedExtractor.thousands; Re.lit ".";
           Re.rep 2 Re.digit; Re.Eol].

(** [_is_simplii_transaction] *)
Definition _is_simplii_transaction (line : string) : bool :=
  if Py.any_in ["card number"; "total for"; "total payments"; "your payments";
                "spend categories"; "description"; "amount($)";
                "identifies cash back"] (Py.lower line)
  then false
  else
    (* r'^[A-Za-z]{3}\s+\d{1,2}\s+[A-Za-z]{3}\s+\d{1,2}\s+' *)
    let has_date_pattern :=
      matches (Re.seqs [Re.Bol; month_space_day; Re.plus Re.space; month_space_day;
                        Re.plus Re.space]) line in
    let has_amount := found grouped_amount_at_end line in
    has_date_pattern && has_amount && (20 <? String.length line)%nat.

(** [_parse_simplii_date] *)
Definition _parse_simplii_date (date_str : string) : string :=
  default "Unknown" (month_day_of_parts (Py.split date_str)).

(** The loop that keeps the words of the description before the first
    category word. *)
Fixpoint simplii_clean_parts (parts : list string) : list string :=
  match parts with
  | [] => []
  | part :: rest =>
      if in_list part ["Hotel,"; "Personal"; "Home"; "Entertainment"; "Household";
                       "Office"; "BC"; "ON"]
      then []
      else part :: simplii_clean_parts rest
  end.

(** [_parse_simplii_transaction] *)
Definition _parse_simplii_transaction (line : string) (page_num : nat)
  : option txn :=
  (* re.findall(r'([A-Za-z]{3})\s+(\d{1,2})', line) *)
  let date_matches :=
    Re.finditer (Re.seqs [Re.Grp 1 (Re.rep 3 Re.alpha); Re.plus Re.space;
                          Re.Grp 2 (Re.between 1 2 Re.digit)]) line in
  match date_matches with
  | d0 :: d1 :: _ =>
      let trans_date := Re.group 1 d0 +:+ " " +:+ Re.group 2 d0 in
      let post_date := Re.group 1 d1 +:+ " " +:+ Re.group 2 d1 in
      match Re.search (Re.Grp 1 grouped_amount_at_end) line with
      | None => None
      | Some amount_match =>
          let amount := clean_amount (Re.group 1 amount_match) in
          (* line.find(post_date) + len(post_date); find gives -1 when the
             line writes the posting date with other blanks *)
          let desc_start :=
            match Py.find post_date line with
            | Some i => (i + String.length post_date)%nat
            | None => (String.length post_date - 1)%nat
            end in
          let desc_end := Re.m_start amount_match in
          let description := Py.strip (Py.slice desc_start desc_end line) in
          let description :=
            if Py.any_in ["Hotel, Entertainment"; "Personal and Household";
                          "Home and Office"] description
            then
              match simplii_clean_parts (Py.split description) with
              | [] => description
              | clean_parts => Py.join " " clean_parts
              end
            else description in
          let parsed_trans_date := _parse_simplii_date trans_date in
          let '(transaction_type, is_spending) := card_direction amount in
          Some (dict [("date", VStr parsed_trans_date);
                      ("posting_date", VStr (_parse_simplii_date post_date));
                      ("description", VStr description);
                      ("amount", VNum amount);
                      ("page", page_value page_num);
                      ("bank", VStr (bank_name SimpliiProcessor));
                      ("confidence", VNum 0.9);
                      ("transaction_type", VStr transaction_type);
                      ("is_spending", VBool is_spending);
                      ("abs_amount", VNum (Qabs amount));
                      ("processing_method", VStr "simplii_processor");
                      ("confidence_level", VStr "high")])
      end
  | _ => None
  end.

Definition simplii_page (page_num : nat) (text : string) : list txn :=
  section_lines
    (fun line =>
       (Py.contains "Trans" line && Py.contains "Post" line && Py.contains "date" line)
       || (Py.contains "Card number" line && Py.contains "XXXX" line))
    (fun line =>
       Py.any_in ["total for"; "total payments"; "page"; "information about"]
         (Py.lower line))
    true
    (fun line =>
       if _is_simplii_transaction line
       then _parse_simplii_transaction line page_num else None)
    false (Py.splitlines_nl text).

(** *** [BMOAccountProcessor] *)

(** [r'[A-Z][a-z]{2}\d{1,2}'] *)
Definition bmo_account_date : Re.regex :=
  Re.seqs [Re.upper; Re.rep 2 Re.lower; Re.between 1 2 Re.digit].

(** [_is_bmo_account_transaction] *)
Definition _is_bmo_account_transaction (line : string) : bool :=
  if Py.any_in ["date description"; "amounts deducted"; "amounts added"; "balance";
                "primary chequing account"; "continued"; "opening balance";
                "closing totals"] (Py.lower line)
  then false
  else
    let has_date := found (Re.Seq Re.Bol bmo_account_date) line in
    let has_amount := found amount_pattern line in
    has_date && has_amount && (10 <? String.length line)%nat.

(** [_parse_bmo_account_date] *)
Definition _parse_bmo_account_date (date_str : string) : string :=
  (* r'^([A-Z][a-z]{2})(\d{1,2})$' *)
  let pattern :=
    Re.seqs [Re.Bol; Re.Grp 1 (Re.Seq Re.upper (Re.rep 2 Re.lower));
             Re.Grp 2 (Re.between 1 2 Re.digit); Re.Eol] in
  match Re.rmatch_ pattern date_str with
  | Some m =>
      let month_abbr := Py.lower (Re.group 1 m) in
      let day := Py.zfill2 (Re.group 2 m) in
      match month_map !! month_abbr with
      | Some mm => mm +:+ "-" +:+ day
      | None => "Unknown"
      end
  | None => "Unknown"
  end.

(** [_parse_bmo_account_transaction] *)
Definition _parse_bmo_account_transaction (line : string) (page_num : nat)
  : option txn :=
  match Re.rmatch_ (Re.Seq Re.Bol (Re.Grp 1 bmo_account_date)) line with
  | None => None
  | Some date_match =>
      let date_str := Re.group 1 date_match in
      let rest_of_line := Py.strip (Py.drop (String.length date_str) line) in
      let amounts := Re.findall amount_pattern rest_of_line in
      match amounts with
      | [] => None
      | _ =>
          let desc_part :=
            fold_left (fun d amount => Py.strip (Py.remove_first amount d))
              amounts rest_of_line in
          let description :=
            Py.strip (Py.rstrip_char ","%char (Py.strip desc_part)) in
          let '(deducted_amount, added_amount, balance) :=
            match amounts with
            | [a0] => (0, 0, Some (clean_amount a0))
            | [a0; a1] =>
                let transaction_amount := clean_amount a0 in
                let balance := clean_amount a1 in
                if Py.any_in ["transfersent"; "transfer sent"; "debitcardpurchase";
                              "debit card purchase"; "fee"; "charge"; "returned item";
                              "overdraft"] (Py.lower description)
                then (transaction_amount, 0, Some balance)
                else (0, transaction_amount, Some balance)
            | a0 :: a1 :: a2 :: _ =>
                (clean_amount a0, clean_amount a1, Some (clean_amount a2))
            | [] => (0, 0, None)
            end in
          let parsed_date := _parse_bmo_account_date date_str in
          if String.eqb parsed_date "Unknown" then None
          else
            let net_amount := added_amount - deducted_amount in
            let transaction_type := if Qltb net_amount 0 then "debit" else "credit" in
            let is_spending := Qltb net_amount 0 in
            Some (dict [("date", VStr parsed_date);
                        ("description", VStr description);
                        ("amount", VNum net_amount);
                        ("deducted_amount", VNum deducted_amount);
                        ("added_amount", VNum added_amount);
                        ("balance", match balance with Some b => VNum b | None => VNone end);
                        ("page", page_value page_num);
                        ("bank", VStr (bank_name BMOAccountProcessor));
                        ("confidence", VNum 0.9);
                        ("transaction_type", VStr transaction_type);
                        ("is_spending", VBool is_spending);
                        ("abs_amount", VNum (Qabs net_amount));
                        ("processing_method", VStr "bmo_account_processor");
                        ("confidence_level", VStr "high")])
      end
  end.

Definition bmo_account_page (page_num : nat) (text : string) : list txn :=
  section_lines
    (fun line => Py.contains "Date Description" line
                 || Py.contains "Amountsdeducted" line)
    (Py.any_in ["Please report any errors"; "Trade-marks"; "Important information";
                "Alternatively, you can bring"; "GST-"; "QST-"])
    true
    (fun line =>
       if _is_bmo_account_transaction line
       then _parse_bmo_account_transaction line page_num else None)
    false (Py.splitlines_nl text).

(** *** [CIBCVisaProcessor] *)

(** [r'[A-Z]{3}\s+\d{1,2}'] *)
Definition cibc_visa_date : Re.regex :=
  Re.seqs [Re.rep 3 Re.upper; Re.plus Re.space; Re.between 1 2 Re.digit].

(** [_is_cibc_visa_transaction] *)
Definition _is_cibc_visa_transaction (line : string) : bool :=
  if Py.any_in ["trans post"; "date date"; "description"; "amount"; "card number";
                "prepared for"; "account number"; "information about"] (Py.lower line)
  then false
  else
    let has_dual_date :=
      found (Re.seqs [Re.Bol; cibc_visa_date; Re.plus Re.space; cibc_visa_date])
        line in
    let has_amount := found (Re.Seq amount_pattern Re.Eol) line in
    has_dual_date && has_amount && (20 <? String.length line)%nat.

(** [_parse_cibc_visa_date] *)
Definition _parse_cibc_visa_date (date_str : string) : string :=
  default "Unknown" (month_day_of_parts (Py.split (Py.strip date_str))).

(** The text of a float in an f-string, for a non-negative amount with two
    decimals below 10^16: the integer part, a point and the decimals without a
    trailing zero. *)
Definition repr_amount (q : Q) : string :=
  let cents := (Qnum q * 100 / Zpos (Qden q))%Z in
  let frac := (cents mod 100)%Z in
  Py.str_of_Z (cents / 100) +:+ "." +:+
  (if (frac mod 10 =? 0)%Z then Py.str_of_Z (frac / 10) else pad2 frac).

(** [_parse_cibc_visa_multiline_transaction]: the record, if any, and the index
    of the next line to look at. *)
Definition _parse_cibc_visa_multiline_transaction (lines : list string)
    (start_idx page_num : nat) : option txn * nat :=
  let line := Py.strip (default EmptyString (lines !! start_idx)) in
  (* r'^([A-Z]{3}\s+\d{1,2})\s+([A-Z]{3}\s+\d{1,2})\s+(.*?)\s+([\d,]+\.\d{2})$' *)
  let pattern :=
    Re.seqs [Re.Bol; Re.Grp 1 cibc_visa_date; Re.plus Re.space;
             Re.Grp 2 cibc_visa_date; Re.plus Re.space; Re.Grp 3 (Re.Lazy Re.dot);
             Re.plus Re.space; Re.Grp 4 amount_pattern; Re.Eol] in
  match Re.search pattern line with
  | None => (None, S start_idx)
  | Some m =>
      let trans_date := Re.group 1 m in
      let post_date := Re.group 2 m in
      let description_and_location := Py.strip (Re.group 3 m) in
      let amount := clean_amount (Re.group 4 m) in
      let desc_parts := Py.split description_and_location in
      let last_part := List.last desc_parts EmptyString in
      let '(description, location) :=
        if (1 <? length desc_parts)%nat && Py.isupper last_part
           && (2 <? String.length last_part)%nat
        then (Py.join " " (removelast desc_parts), last_part)
        else (description_and_location, EmptyString) in
      let parsed_trans_date := _parse_cibc_visa_date trans_date in
      let parsed_post_date := _parse_cibc_visa_date post_date in
      if String.eqb parsed_trans_date "Unknown" then (None, S start_idx)
      else
        let next_idx := S start_idx in
        (* r'^([\d,]+\.\d{2})\s+CAD\s+@\s+([\d.]+)' *)
        let exchange_pattern :=
          Re.seqs [Re.Bol; Re.Grp 1 amount_pattern; Re.plus Re.space; Re.str "CAD";
                   Re.plus Re.space; Re.lit "@"; Re.plus Re.space;
                   Re.Grp 2 (Re.plus (Re.Chr (fun c =>
                     Py.is_digit c || Ascii.eqb c "."%char)))] in
        let exchange_match :=
          match lines !! next_idx with
          | Some raw => Re.search exchange_pattern (Py.strip raw)
          | None => None
          end in
        let '(cad_amount, exchange_rate_info, next_idx) :=
          match exchange_match with
          | Some em =>
              let cad_amount := clean_amount (Re.group 1 em) in
              (VNum cad_amount,
               "CAD $" +:+ repr_amount cad_amount +:+ " @ " +:+ Re.group 2 em,
               S next_idx)
          | None => (VNone, EmptyString, next_idx)
          end in
        let '(transaction_type, is_spending) := card_direction amount in
        (Some (dict [("date", VStr parsed_trans_date);
                     ("posting_date", VStr parsed_post_date);
                     ("description", VStr description);
                     ("location", VStr location);
                     ("amount", VNum amount);
                     ("currency", VStr "USD");
                     ("cad_amount", cad_amount);
                     ("exchange_rate_info", VStr exchange_rate_info);
                     ("page", page_value page_num);
                     ("bank", VStr (bank_name CIBCVisaProcessor));
                     ("confidence", VNum 0.9);
                     ("transaction_type", VStr transaction_type);
                     ("is_spending", VBool is_spending);
                     ("abs_amount", VNum (Qabs amount));
                     ("processing_method", VStr "cibc_visa_processor");
                     ("confidence_level", VStr "high")]),
         next_idx)
  end.

(** The [while i < len(lines)] loop of a CIBC Visa page; every turn moves [i]
    forward. *)
Fixpoint cibc_visa_lines (fuel : nat) (lines : list string) (page_num : nat)
    (in_transaction_section : bool) (i : nat) : list txn :=
  match fuel with
  | O => []
  | S fuel' =>
      match lines !! i with
      | None => []
      | Some raw =>
          let line := Py.strip raw in
          if Py.contains "Trans Post" line
             && match lines !! S i with
                | Some next => Py.contains "date date Description" next
                | None => false
                end
          then cibc_visa_lines fuel' lines page_num true (S (S i))
          else
            let in_transaction_section :=
              if Py.any_in ["Information about your CIBC"; "Payment options";
                            "Interest charges"; "Foreign currency"] line
              then false else in_transaction_section in
            if in_transaction_section && _is_cibc_visa_transaction line then
              let '(transaction, next_i) :=
                _parse_cibc_visa_multiline_transaction lines i page_num in
              match transaction with
              | Some t =>
                  t :: cibc_visa_lines fuel' lines page_num in_transaction_section next_i
              | None =>
                  cibc_visa_lines fuel' lines page_num in_transaction_section next_i
              end
            else cibc_visa_lines fuel' lines page_num in_transaction_section (S i)
      end
  end.

Definition cibc_visa_page (page_num : nat) (text : string) : list txn :=
  let lines := Py.splitlines_nl text in
  cibc_visa_lines (length lines) lines page_num false 0.

(** *** [CIBCProcessor] *)

(** [r'([A-Za-z]{3})\s+(\d{1,2})'] *)
Definition cibc_date_pattern : Re.regex :=
  Re.seqs [Re.Grp 1 (Re.rep 3 Re.alpha); Re.plus Re.space;
           Re.Grp 2 (Re.between 1 2 Re.digit)].

(** [_parse_cibc_date] *)
Definition _parse_cibc_date (date_str : string) : string :=
  if matches (Re.seqs [Re.Bol; month_space_day; Re.Eol]) date_str then
    match Py.split (Py.strip date_str) with
    | p0 :: p1 :: _ =>
        let month := Py.lower p0 in
        let day := int_of p1 in
        let month_num := default "00" (month_map !! Py.take 3 month) in
        month_num +:+ "-" +:+ pad2 day
    | _ => "Unknown"
    end
  else "Unknown".

(** [_parse_cibc_transaction_line] *)
Definition _parse_cibc_transaction_line (date line : string) (page_num : nat)
  : option txn :=
  if negb (Py.nonempty line) || (String.length (Py.strip line) <? 5)%nat then None
  else
    let line_lower := Py.lower line in
    if Py.any_in ["opening balance"; "closing balance"; "balance forward"; "total";
                  "summary"; "continued"; "transaction details"] line_lower
    then None
    else
      match Re.findall amount_pattern line with
      | [] => None
      | amount_match :: more =>
          let amount := clean_amount amount_match in
          if Qle_bool amount 0 then None
          else
            let description := Py.strip (Py.take_until_find amount_match line) in
            let description := Re.sub_empty edge_nonword description in
            let description := Py.join " " (Py.split description) in
            if (String.length description <? 3)%nat then None
            else
              let description_lower := Py.lower description in
              let '(transaction_type, is_spending) :=
                if Py.any_in ["deposit"; "e-transfer"; "transfer in"; "interest";
                              "refund"; "rebate"] description_lower
                then ("credit", false)
                else if Py.any_in ["retail purchase"; "purchase"; "withdrawal";
                                   "teller withdrawal"; "instant teller"; "atm"; "fee";
                                   "charge"; "payment"] description_lower
                then ("debit", true)
                else ("debit", true) in
              if negb (Py.nonempty date) || String.eqb date "Unknown" then None
              else
                Some (dict [("date", VStr date);
                            ("description", VStr description);
                            ("amount", VNum amount);
                            ("balance",
                             match more with
                             | a1 :: _ => VNum (clean_amount a1)
                             | [] => VNone
                             end);
                            ("page", page_value page_num);
                            ("bank", VStr (bank_name CIBCProcessor));
                            ("confidence", VNum 0.85);
                            ("transaction_type", VStr transaction_type);
                            ("is_spending", VBool is_spending);
                            ("abs_amount", VNum (Qabs amount));
                            ("processing_method", VStr "cibc_processor");
                            ("confidence_level", VStr "medium")])
      end.

(** One turn of the loop over the lines of a CIBC page. *)
Definition cibc_step (current_date : option string) (page_num : nat) (raw : string)
  : option string * option txn :=
  let line := Py.strip raw in
  if negb (Py.nonempty line) then (current_date, None)
  else if Py.any_in rbc_header_words (Py.lower line) then (current_date, None)
  else
    let carry :=
      match current_date with
      | Some d =>
          if Py.nonempty d
          then (current_date, _parse_cibc_transaction_line d line page_num)
          else (current_date, None)
      | None => (current_date, None)
      end in
    match Re.search cibc_date_pattern line with
    | Some date_match =>
        let month_part := Py.lower (Re.group 1 date_match) in
        if in_list month_part valid_months then
          let new_date := _parse_cibc_date (Re.group 0 date_match) in
          let clean_line := Py.strip (Py.replace (Re.group 0 date_match) "" line) in
          (Some new_date,
           if Py.nonempty clean_line
           then _parse_cibc_transaction_line new_date clean_line page_num
           else None)
        else carry
    | None => carry
    end.

Fixpoint cibc_lines (current_date : option string) (page_num : nat)
    (lines : list string) : list txn :=
  match lines with
  | [] => []
  | raw :: rest =>
      let '(current_date', transaction) := cibc_step current_date page_num raw in
      match transaction with
      | Some t => t :: cibc_lines current_date' page_num rest
      | None => cibc_lines current_date' page_num rest
      end
  end.

(** [for page_num in range(1, len(pdf.pages))]: the pages after the first,
    numbered from 2. *)
Fixpoint cibc_pages (page_index : nat) (pgs : list string) : list txn :=
  match pgs with
  | [] => []
  | text :: pgs' =>
      (if Py.contains "Transaction details" text
       then cibc_lines None (S page_index) (Py.splitlines_nl text) else [])
      ++ cibc_pages (S page_index) pgs'
  end.

Definition cibc_extract_transactions (doc : pdf_doc) : list txn :=
  match pages doc with
  | Some (_ :: pgs) => cibc_pages 1 pgs
  | _ => []
  end.

(** *** [ScotiaBankProcessor] *)

Definition scotia_months : list string :=
  ["Dec"; "Jan"; "Feb"; "Mar"; "Apr"; "May"; "Jun"; "Jul"; "Aug"; "Sep"; "Oct"; "Nov"].

(** [r'\$?[\d,]+\.\d{2}'] with the digits as group 1 *)
Definition scotia_amount : Re.regex :=
  Re.Seq (Re.opt (Re.lit "$")) (Re.Grp 1 amount_pattern).

(** [_is_scotia_bank_transaction] *)
Definition _is_scotia_bank_transaction (line : string) : bool :=
  if Py.any_in ["opening balance"; "closing balance"; "minus total withdrawals";
                "plus total deposits"; "plustotal deposits"; "minustotal withdrawals";
                "balance brought forward"; "your basic banking account summary"]
       (Py.lower line)
  then false
  else
    let has_bank_pattern :=
      Py.any_in ["mb-billpayment"; "mb-transfer"; "withdrawal"; "deposit"; "fees/dues";
                 "servicecharge"; "point of salepurchase"; "debit memo";
                 "mutual funds"; "error correction"; "ei canada"] (Py.lower line) in
    let has_amount := found scotia_amount line in
    has_bank_pattern && has_amount && (10 <? String.length line)%nat.

(** [r'([a-zA-Z]{3})(\d{1,2})'] *)
Definition scotia_bank_date_pattern : Re.regex :=
  Re.Seq (Re.Grp 1 (Re.rep 3 Re.alpha)) (Re.Grp 2 (Re.between 1 2 Re.digit)).

(** [_parse_scotia_bank_date] *)
Definition _parse_scotia_bank_date (date_str : string) : string :=
  match Re.rmatch_ scotia_bank_date_pattern (Py.lower date_str) with
  | Some m =>
      let month_abbr := Re.group 1 m in
      let day := Py.zfill2 (Re.group 2 m) in
      match month_map !! month_abbr with
      | Some mm => mm +:+ "-" +:+ day
      | None => "Unknown"
      end
  | None => "Unknown"
  end.

(** [_parse_scotia_bank_transaction] *)
Definition _parse_scotia_bank_transaction (line : string)
    (current_date : option string) (page_num : nat) : option txn :=
  match Re.search scotia_amount line with
  | None => None
  | Some amount_match =>
      let amount := clean_amount (Re.group 1 amount_match) in
      let amount_start := Re.m_start amount_match in
      let description := Py.strip (Py.take amount_start line) in
      let date := if truthy_str current_date
                  then default EmptyString current_date else "Unknown" in
      (* r'^(Dec|Jan|...|Nov)\d{1,2}\s*' *)
      let leading_date :=
        Re.seqs [Re.Bol; Re.Grp 1 (Re.alts (map Re.str scotia_months));
                 Re.between 1 2 Re.digit; Re.Star Re.space] in
      let description := Py.strip (Re.sub_empty leading_date description) in
      if (String.length description <? 3)%nat then None
      else
        let description_lower := Py.lower description in
        let '(transaction_type, is_spending) :=
          if Py.any_in ["deposit"; "transfer from"; "interest"; "credit"; "refund"]
               description_lower
          then ("credit", false) else ("debit", true) in
        Some (dict [("date", VStr date);
                    ("description", VStr description);
                    ("amount", VNum amount);
                    ("page", page_value page_num);
                    ("bank", VStr (bank_name ScotiaBankProcessor));
                    ("confidence", VNum 0.85);
                    ("transaction_type", VStr transaction_type);
                    ("is_spending", VBool is_spending);
                    ("abs_amount", VNum (Qabs amount));
                    ("processing_method", VStr "scotiabank_processor");
                    ("confidence_level", VStr "medium")])
  end.

Fixpoint scotia_bank_lines (current_date : option string) (page_num : nat)
    (lines : list string) : list txn :=
  match lines with
  | [] => []
  | raw :: rest =>
      let line := Py.strip raw in
      (* r'(Dec|Jan|...|Nov)(\d{1,2})' *)
      let date_pattern :=
        Re.Seq (Re.Grp 1 (Re.alts (map Re.str scotia_months)))
               (Re.Grp 2 (Re.between 1 2 Re.digit)) in
      let current_date :=
        match Re.search date_pattern line with
        | Some date_match =>
            let month_abbr := Re.group 1 date_match in
            let day := Py.zfill2 (Re.group 2 date_match) in
            Some (_parse_scotia_bank_date (month_abbr +:+ day))
        | None => current_date
        end in
      let here :=
        if _is_scotia_bank_transaction line
        then _parse_scotia_bank_transaction line current_date page_num else None in
      match here with
      | Some t => t :: scotia_bank_lines current_date page_num rest
      | None => scotia_bank_lines current_date page_num rest
      end
  end.

Definition scotia_bank_page (page_num : nat) (text : string) : list txn :=
  scotia_bank_lines None page_num (Py.splitlines_nl text).

(** *** [ScotiaProcessor] *)

(** [r'\w{3}[-\s]\d{1,2}'] *)
Definition scotia_date : Re.regex :=
  Re.seqs [Re.rep 3 Re.word;
           Re.Chr (fun c => Ascii.eqb c "-"%char || Py.is_space c);
           Re.between 1 2 Re.digit].

(** [_is_scotia_transaction] *)
Definition _is_scotia_transaction (line : string) : bool :=
  if Py.any_in ["beginning points"; "points earned"; "total"; "balance"; "statement";
                "account"; "summary"; "payment due"; "payments/credits";
                "purchases/charges"; "based on your"; "rewards points";
                "eligible purchases"; "credit limit"] (Py.lower line)
  then false
  else
    let has_amount := found scotia_amount line in
    let has_date := found scotia_date line in
    has_amount && has_date && (15 <? String.length line)%nat.

(** [_parse_scotia_date] *)
Definition _parse_scotia_date (date_str : string) : string :=
  (* r'([a-zA-Z]{3})[-\s](\d{1,2})' *)
  let pattern :=
    Re.seqs [Re.Grp 1 (Re.rep 3 Re.alpha);
             Re.Chr (fun c => Ascii.eqb c "-"%char || Py.is_space c);
             Re.Grp 2 (Re.between 1 2 Re.digit)] in
  match Re.rmatch_ pattern (Py.lower date_str) with
  | Some m =>
      let month_abbr := Re.group 1 m in
      let day := Py.zfill2 (Re.group 2 m) in
      match month_map !! month_abbr with
      | Some mm => mm +:+ "-" +:+ day
      | None => "Unknown"
      end
  | None => "Unknown"
  end.

(** [r'\b\d{3}\b\s*'] *)
Definition scotia_transaction_number : Re.regex :=
  Re.seqs [Re.WordB; Re.rep 3 Re.digit; Re.WordB; Re.Star Re.space].

(** [_parse_scotia_transaction] *)
Definition _parse_scotia_transaction (line : string) (page_num : nat) : option txn :=
  match Re.search scotia_amount line with
  | None => None
  | Some amount_match =>
      let amount := clean_amount (Re.group 1 amount_match) in
      let amount_start := Re.m_start amount_match in
      let description := Py.strip (Py.take amount_start line) in
      let '(date, description) :=
        match Re.search (Re.Grp 1 scotia_date) description with
        | Some date_match =>
            (_parse_scotia_date (Re.group 1 date_match),
             Py.strip (Py.replace (Re.group 1 date_match) "" description))
        | None => ("Unknown", description)
        end in
      let description := Py.strip (Re.sub_empty scotia_transaction_number description) in
      if (String.length description <? 3)%nat then None
      else
        Some (dict [("date", VStr date);
                    ("description", VStr description);
                    ("amount", VNum amount);
                    ("page", page_value page_num);
                    ("bank", VStr (bank_name ScotiaProcessor));
                    ("confidence", VNum 0.8)])
  end.

Definition scotia_page (page_num : nat) (text : string) : list txn :=
  per_line (fun line =>
    if _is_scotia_transaction line then _parse_scotia_transaction line page_num
    else None) text.

(** *** [WiseProcessor] *)

(** [_extract_statement_period] *)
Definition _extract_statement_period (line : string) : option string :=
  (* r'Date:\s*(\w+\s+\d+,\s+\d+)\s+to\s+(\w+\s+\d+,\s+\d+)' *)
  let long_date :=
    Re.seqs [Re.plus Re.word; Re.plus Re.space; Re.plus Re.digit; Re.lit ",";
             Re.plus Re.space; Re.plus Re.digit] in
  let pattern :=
    Re.seqs [Re.str "Date:"; Re.Star Re.space; Re.Grp 1 long_date; Re.plus Re.space;
             Re.str "to"; Re.plus Re.space; Re.Grp 2 long_date] in
  match Re.search pattern line with
  | Some m =>
      let end_date := Re.group 2 m in
      (* datetime.strptime(end_date, "%b %d, %Y") *)
      match strptime end_date [Db; Ws; Dd; Lit ","; Ws; DY] with
      | Some md => Some (strftime_md md)
      | None => Some "03-23"
      end
  | None => None
  end.

(** [_is_wise_transaction] *)
Definition _is_wise_transaction (line : string) : bool :=
  let has_amount := found (Re.Seq (Re.lit "$") amount_pattern) line in
  if negb has_amount then false
  else if Py.any_in ["total balance"; "statement"; "xxxx-xxxx"; "as of"] (Py.lower line)
  then false
  else
    Py.any_in ["card payments"; "moneysent"; "top up"; "topup"; "atm withdrawals";
               "exchange in"; "exchange out"; "revolut fees"; "payment"; "withdrawal"]
      (Py.lower line).

(** [_parse_wise_transaction] *)
Definition _parse_wise_transaction (line : string) (page_num : nat)
    (statement_period : option string) : option txn :=
  (* r'(.*?)\s+\$?([\d,]+\.\d{2})$' *)
  let pattern :=
    Re.seqs [Re.Grp 1 (Re.Lazy Re.dot); Re.plus Re.space; Re.opt (Re.lit "$");
             Re.Grp 2 amount_pattern; Re.Eol] in
  match Re.rmatch_ pattern line with
  | None => None
  | Some m =>
      let description := Py.strip (Re.group 1 m) in
      let amount := clean_amount (Re.group 2 m) in
      if Qeqb amount 0 then None
      else
        let date := if truthy_str statement_period
                    then default EmptyString statement_period else "03-23" in
        Some (dict [("date", VStr date);
                    ("description", VStr description);
                    ("amount", VNum amount);
                    ("page", page_value page_num);
                    ("bank", VStr (bank_name WiseProcessor));
                    ("confidence", VNum 0.8);
                    ("note", VStr "category_summary")])
  end.

(** The first loop over the lines of a page: the first line with ["Date:"] and
    ["to"] resets the statement period. *)
Fixpoint wise_period (statement_period : option string) (lines : list string)
  : option string :=
  match lines with
  | [] => statement_period
  | line :: rest =>
      if Py.contains "Date:" line && Py.contains "to" line
      then _extract_statement_period line
      else wise_period statement_period rest
  end.

(** The page loop; [statement_period] is kept from one page to the next. *)
Fixpoint wise_pages (statement_period : option string) (page_num : nat)
    (pgs : list string) : list txn :=
  match pgs with
  | [] => []
  | text :: pgs' =>
      if negb (Py.nonempty text) then wise_pages statement_period (S page_num) pgs'
      else
        let lines := Py.splitlines_nl text in
        let statement_period := wise_period statement_period lines in
        omap (fun raw =>
                let line := Py.strip raw in
                if _is_wise_transaction line
                then _parse_wise_transaction line page_num statement_period
                else None) lines
        ++ wise_pages statement_period (S page_num) pgs'
  end.

Definition wise_extract_transactions (doc : pdf_doc) : list txn :=
  match pages doc with
  | Some pgs => wise_pages None 1 pgs
  | None => []
  end.

(** ** [SmartDocumentProcessor.process_document] *)

(** [processor.extract_transactions(pdf_path)] *)
Definition extract_transactions (now : clock) (p : processor) (doc : pdf_doc)
  : list txn :=
  match p with
  | BMOAccountProcessor => extract_with bmo_account_page doc
  | BMOProcessor => extract_with bmo_page doc
  | EQBankProcessor => extract_with (eq_page now) doc
  | TDProcessor => td_extract_transactions doc
  | TDCreditCardProcessor => extract_with td_credit_page doc
  | TangerineProcessor => tangerine_extract_transactions doc
  | TangerineCreditCardProcessor => extract_with tangerine_credit_page doc
  | RBCBankProcessor => rbc_extract_transactions doc
  | RBCVisaProcessor => extract_with rbc_visa_page doc
  | SimpliiProcessor => extract_with simplii_page doc
  | CIBCVisaProcessor => extract_with cibc_visa_page doc
  | CIBCProcessor => cibc_extract_transactions doc
  | AmexProcessor => extract_with amex_page doc
  | ScotiaBankProcessor => extract_with scotia_bank_page doc
  | ScotiaProcessor => extract_with scotia_page doc
  | WiseProcessor => wise_extract_transactions doc
  end.

(** [tx['transaction_type'] == kind] *)
Definition has_type (kind : string) (tx : txn) : bool :=
  match tx !! "transaction_type" with
  | Some (VStr s) => String.eqb s kind
  | _ => false
  end.

Definition is_spending_truthy (tx : txn) : bool :=
  match tx !! "is_spending" with
  | Some v => truthy v
  | None => false
  end.

(** The text of an exception is not modelled. *)
Definition exception_text : string := "exception".

(** [SmartDocumentProcessor.process_document] *)
Definition process_document (now : clock) (doc : pdf_doc) : result :=
  match identify_bank doc with
  | None =>
      {| processing_method := "unidentified";
         transactions := [];
         confidence := "low";
         error := Some "No suitable processor found";
         bank := None; transaction_count := None; debit_count := None;
         credit_count := None; spending_transactions := None;
         processing_time := None |}
  | Some p =>
      match mapM classify_transaction (extract_transactions now p doc) with
      | Some txs =>
          {| processing_method := bank_name p +:+ "_processor";
             transactions := txs;
             confidence := "high";
             error := None;
             bank := Some (bank_name p);
             transaction_count := Some (length txs);
             debit_count := Some (length (filter (fun tx => has_type "debit" tx = true) txs));
             credit_count := Some (length (filter (fun tx => has_type "credit" tx = true) txs));
             spending_transactions :=
               Some (filter (fun tx => is_spending_truthy tx = true) txs);
             processing_time := None |}
      | None =>
          {| processing_method := bank_name p +:+ "_failed";
             transactions := [];
             confidence := "low";
             error := Some exception_text;
             bank := None; transaction_count := None; debit_count := None;
             credit_count := None; spending_transactions := None;
             processing_time := None |}
      end
  end.

Arguments OCRExtractor.Extractor {image} _ _.
Arguments OCRExtractor.poppler_path {image} _.
Arguments OCRExtractor.ocr_reader {image} _.

(** A scanned document: one page without a text layer. *)
Definition scan_doc : pdf_doc := PdfDoc "scan.pdf" (Some [EmptyString]).

(** A route of [DocumentProcessor.process_document] that a scanned document
    does not take. *)
Definition route_not_taken (doc : pdf_doc) : result :=
  {| processing_method := "not_taken"; transactions := []; confidence := "low";
     error := None; bank := None; transaction_count := None; debit_count := None;
     credit_count := None; spending_transactions := None; processing_time := None |}.

(** ** [re.sub] with a replacement computed from the match *)

Module ReSub.

(** The subject with each match replaced by [repl m], left to right. *)
Fixpoint replace_matches (repl : Re.rmatch -> string) (pos : nat)
    (ms : list Re.rmatch) (s : string) : string :=
  match ms with
  | [] => s
  | m :: ms' =>
      Py.take (Re.m_start m - pos) s +:+ repl m +:+
      replace_matches repl (Re.m_end m) ms' (Py.drop (Re.m_end m - pos) s)
  end.

(** [re.sub(r, repl, s)] for a pattern that matches no empty text. *)
Definition sub (r : Re.regex) (repl : Re.rmatch -> string) (s : string) : string :=
  replace_matches repl 0 (Re.finditer r s) s.

End ReSub.

(** ** [TextBasedExtractor]: the page pipeline *)

Module TextPipeline.

Import TextBasedExtractor.

(** The replacement [r'\1 \2']. *)
Definition group1_space_group2 (m : Re.rmatch) : string :=
  Re.group 1 m +:+ " " +:+ Re.group 2 m.

(** [(Jan|Feb|...|Dec)] as a second group, under [re.IGNORECASE]. *)
Definition month_group2 : Re.regex :=
  Re.Grp 2 (Re.alts (map Re.str_ci
    ["Jan"; "Feb"; "Mar"; "Apr"; "May"; "Jun";
     "Jul"; "Aug"; "Sep"; "Oct"; "Nov"; "Dec"])).

(** [([a-zA-Z])] *)
Definition letter_group1 : Re.regex := Re.Grp 1 Re.alpha.

(** The patterns of the six substitutions that open [_preprocess_text], each
    with its replacement. *)
Definition spacing_rules : list (Re.regex * (Re.rmatch -> string)) :=
  [ (* r'([a-zA-Z])(\d{1,2}[/-]\d{1,2}[/-]\d{2,4})' *)
    (Re.Seq letter_group1
       (Re.Grp 2 (Re.seqs [Re.between 1 2 Re.digit; slash_or_dash;
                           Re.between 1 2 Re.digit; slash_or_dash;
                           Re.between 2 4 Re.digit])),
     group1_space_group2);
    (* r'([a-zA-Z])(Jan|...|Dec)', IGNORECASE *)
    (Re.Seq letter_group1 month_group2, group1_space_group2);
    (* r'([a-zA-Z])(\$\d)' *)
    (Re.Seq letter_group1 (Re.Grp 2 (Re.Seq (Re.lit "$") Re.digit)),
     group1_space_group2);
    (* r'([a-zA-Z])(\+\$?\d)' *)
    (Re.Seq letter_group1
       (Re.Grp 2 (Re.seqs [Re.lit "+"; Re.opt (Re.lit "$"); Re.digit])),
     group1_space_group2);
    (* r'([a-zA-Z])(-\$?\d)' *)
    (Re.Seq letter_group1
       (Re.Grp 2 (Re.seqs [Re.lit "-"; Re.opt (Re.lit "$"); Re.digit])),
     group1_space_group2);
    (* r'(\d),(\d{4})' replaced by r'\1, \2' *)
    (Re.seqs [Re.Grp 1 Re.digit; Re.lit ","; Re.Grp 2 (Re.rep 4 Re.digit)],
     fun m => Re.group 1 m +:+ ", " +:+ Re.group 2 m) ].

Definition spaced_keywords : list string :=
  ["PreviousBalance"; "NewBalance"; "PaymentDue"; "CreditLimit"; "MinimumPayment"].

(** The two substitutions made for one keyword, both under [re.IGNORECASE];
    the replacement writes the keyword as it is spelt in the list. *)
Definition space_around_keyword (text keyword : string) : string :=
  let text :=
    ReSub.sub (Re.Seq letter_group1 (Re.str_ci keyword))
      (fun m => Re.group 1 m +:+ " " +:+ keyword) text in
  ReSub.sub (Re.Seq (Re.str_ci keyword) letter_group1)
    (fun m => keyword +:+ " " +:+ Re.group 1 m) text.

(** [_preprocess_text] *)
Definition _preprocess_text (text : string) : string :=
  let text := fold_left (fun text rule => ReSub.sub rule.1 rule.2 text)
                spacing_rules text in
  fold_left space_around_keyword spaced_keywords text.

(** [_is_table_like_line] *)
Definition _is_table_like_line (line : string) : bool :=
  let numeric_elements := length (Re.findall (Re.plus Re.digit) line) in
  (has_date line && has_amount line) || (3 <=? numeric_elements)%nat.

(** A table region: the dict built by [_detect_table_regions], with the key
    [transaction_score] that [_identify_transaction_tables] adds. *)
Record region : Type := Region {
  lines : list string;
  start_line : Z;
  end_line : Z;
  text : string;
  transaction_score : option Z
}.

(** The region closed when the loop is at line [i]. *)
Definition region_at (current_region : list string) (i : nat) : region :=
  {| lines := current_region;
     start_line := Z.of_nat i - Z.of_nat (length current_region);
     end_line := Z.of_nat i;
     text := Py.join (String Py.newline EmptyString) current_region;
     transaction_score := None |}.

(** [if current_region and len(current_region) >= 2] *)
Definition keep_region (current_region : list string) (i : nat) : list region :=
  match current_region with
  | [] => []
  | _ => if (2 <=? length current_region)%nat
         then [region_at current_region i] else []
  end.

(** The loop of [_detect_table_regions] from line [i] on, followed by the
    handling of the last region; [n] is [len(lines)]. *)
Fixpoint table_regions_from (n i : nat) (current_region : list string)
    (rest : list string) : list region :=
  match rest with
  | [] => keep_region current_region n
  | raw :: rest' =>
      let line := Py.strip raw in
      if negb (Py.nonempty line) then
        match current_region with
        | [] => table_regions_from n (S i) [] rest'
        | _ => region_at current_region i :: table_regions_from n (S i) [] rest'
        end
      else if _is_table_like_line line then
        table_regions_from n (S i) (current_region ++ [line])%list rest'
      else
        (keep_region current_region i ++ table_regions_from n (S i) [] rest')%list
  end.

(** [_detect_table_regions] *)
Definition _detect_table_regions (text : string) : list region :=
  let lines := Py.splitlines_nl text in
  table_regions_from (length lines) 0 [] lines.

Definition transaction_keywords : list string :=
  ["date"; "transaction"; "description"; "amount"; "debit"; "credit"].

(** [self.exclusion_keywords] *)
Definition exclusion_keywords : list string :=
  ["opening balance"; "closing balance"; "total"; "subtotal";
   "previous statement"; "terms and conditions"; "privacy policy";
   "prior to april"; "member of"; "deposit insurance"].

(** [_score_transaction_table] *)
Definition _score_transaction_table (rg : region) : Z :=
  let text := Py.lower (text rg) in
  let lines := lines rg in
  let score := 0%Z in
  let score :=
    fold_left (fun score keyword =>
                 if Py.contains keyword text then (score + 2)%Z else score)
      transaction_keywords score in
  let date_count := length (filter (fun line => has_date line = true) lines) in
  let score := (score + Z.min (Z.of_nat date_count) 5)%Z in
  let amount_count := length (filter (fun line => has_amount line = true) lines) in
  let score := (score + Z.min (Z.of_nat amount_count) 5)%Z in
  let score :=
    fold_left (fun score keyword =>
                 if Py.contains keyword text then (score - 3)%Z else score)
      exclusion_keywords score in
  let score := if (3 <=? length lines)%nat then (score + 2)%Z else score in
  Z.max 0 score.

(** [x['transaction_score']] of a scored region. *)
Definition score_key (rg : region) : Z := default 0%Z (transaction_score rg).

(** [sorted(..., key=..., reverse=True)]: highest score first, regions of
    equal score in their original order. *)
Fixpoint insert_by_score (rg : region) (sorted : list region) : list region :=
  match sorted with
  | [] => [rg]
  | x :: sorted' =>
      if (score_key rg <? score_key x)%Z
      then x :: insert_by_score rg sorted'
      else rg :: sorted
  end.

Definition sorted_by_score (regions : list region) : list region :=
  foldr insert_by_score [] regions.

(** [_identify_transaction_tables] *)
Definition _identify_transaction_tables (table_regions : list region) : list region :=
  let transaction_tables :=
    omap (fun rg =>
            let score := _score_transaction_table rg in
            if (5 <=? score)%Z
            then Some {| lines := lines rg; start_line := start_line rg;
                         end_line := end_line rg; text := text rg;
                         transaction_score := Some score |}
            else None)
      table_regions in
  sorted_by_score transaction_tables.

(** The amount patterns removed one after the other. *)
Definition without_amounts (s : string) : string :=
  fold_left (fun d pattern => Re.sub_empty pattern d) amount_patterns s.

(** What the multi-line pass has gathered for the date line at hand. *)
Record gathered : Type := Gathered {
  description_parts : list string;
  amount : option Q;
  used_lines : gset nat
}.

(** [for j in range(1, 3)]: the look-ahead of [_extract_multiline_transactions]
    from the date line [i]; [js] are the offsets still to visit. *)
Fixpoint look_ahead (all_lines : list string) (i : nat) (js : list nat)
    (st : gathered) : gathered :=
  match js with
  | [] => st
  | j :: js' =>
      match all_lines !! (i + j)%nat with
      | None => look_ahead all_lines i js' st
      | Some raw =>
          let next_line := Py.strip raw in
          if negb (Py.nonempty next_line) then st
          else
            match _extract_amount next_line, amount st with
            | Some line_amount, None =>
                let remaining_text := Py.strip (without_amounts next_line) in
                {| description_parts :=
                     if Py.nonempty remaining_text
                        && (2 <? String.length remaining_text)%nat
                     then (description_parts st ++ [remaining_text])%list
                     else description_parts st;
                   amount := Some line_amount;
                   used_lines := {[ (i + j)%nat ]} ∪ used_lines st |}
            | _, _ =>
                if (5 <? String.length next_line)%nat
                   && negb (Py.any_in exclusion_keywords (Py.lower next_line))
                   && negb (Py.any_in ["transaction date"; "balance"; "account"]
                              (Py.lower next_line))
                then
                  look_ahead all_lines i js'
                    {| description_parts := (description_parts st ++ [next_line])%list;
                       amount := amount st;
                       used_lines := {[ (i + j)%nat ]} ∪ used_lines st |}
                else look_ahead all_lines i js' st
            end
      end
  end.

(** What is gathered for a date line: from the line itself when it holds an
    amount, otherwise from the line and the two that follow. *)
Definition gather (all_lines : list string) (i : nat) (line date_match : string)
    (used : gset nat) : gathered :=
  match _extract_amount line with
  | Some current_amount =>
      let current_desc := Py.strip (Py.replace date_match "" line) in
      let current_desc := Py.strip (without_amounts current_desc) in
      {| description_parts :=
           if Py.nonempty current_desc then [current_desc] else [];
         amount := Some current_amount;
         used_lines := {[ i ]} ∪ used |}
  | None =>
      let current_desc := Py.strip (Py.replace date_match "" line) in
      look_ahead all_lines i [1; 2]%nat
        {| description_parts :=
             if Py.nonempty current_desc then [current_desc] else [];
           amount := None;
           used_lines := {[ i ]} ∪ used |}
  end.

(** The record built from what was gathered, when an amount was found and
    it is positive. *)
Definition multiline_record (date_match : string) (st : gathered) (page_num : nat)
  : option txn :=
  match amount st with
  | Some amount =>
      if Qgtb amount 0 then
        let description := Py.strip (Py.join " " (description_parts st)) in
        let description :=
          if negb (Py.nonempty description) || (String.length description <? 3)%nat
          then "Transaction" else description in
        (* re.sub(r'\s+', ' ', description) *)
        let description :=
          ReSub.sub (Re.plus Re.space) (fun _ => " ") description in
        let description := Py.take 100 description in
        Some (dict [("date", VStr date_match);
                    ("description", VStr description);
                    ("amount", VNum amount);
                    ("page", page_value page_num);
                    ("confidence", VNum 0.6);
                    ("extraction_method", VStr "multiline_pattern")])
      else None
  | None => None
  end.

(** The loop [for i, line in enumerate(lines)] of
    [_extract_multiline_transactions], from line [i] on. *)
Fixpoint multiline_from (all_lines : list string) (page_num : nat) (i : nat)
    (rest : list string) (used : gset nat) : list txn :=
  match rest with
  | [] => []
  | raw :: rest' =>
      if bool_decide (i ∈ used) then multiline_from all_lines page_num (S i) rest' used
      else
        let line := Py.strip raw in
        if negb (Py.nonempty line) then
          multiline_from all_lines page_num (S i) rest' used
        else if Py.any_in ["transaction date"; "account balance"; "interest rate";
                           "opening balance"] (Py.lower line)
        then multiline_from all_lines page_num (S i) rest' used
        else
          match first_found date_patterns line with
          | Some date_match =>
              if Py.nonempty date_match then
                let st := gather all_lines i line date_match used in
                match multiline_record date_match st page_num with
                | Some transaction =>
                    transaction
                    :: multiline_from all_lines page_num (S i) rest' (used_lines st)
                | None =>
                    multiline_from all_lines page_num (S i) rest' (used_lines st)
                end
              else multiline_from all_lines page_num (S i) rest' used
          | None => multiline_from all_lines page_num (S i) rest' used
          end
  end.

(** [_extract_multiline_transactions] *)
Definition _extract_multiline_transactions (lines : list string) (page_num : nat)
  : list txn :=
  multiline_from lines page_num 0 lines ∅.

(** One turn of the first pass of [_extract_transaction_patterns]. *)
Definition single_line_record (raw : string) (page_num : nat) : option txn :=
  let line := Py.strip raw in
  if negb (Py.nonempty line) then None
  else if Py.any_in exclusion_keywords (Py.lower line) then None
  else if has_date line && has_amount line then
    match _parse_transaction_line line page_num with
    | Some transaction => Some (<["confidence" := VNum 0.7]> transaction)
    | None => None
    end
  else None.

(** [_extract_transaction_patterns] *)
Definition _extract_transaction_patterns (text : string) (page_num : nat)
  : list txn :=
  let lines := Py.splitlines_nl text in
  let transactions := omap (fun raw => single_line_record raw page_num) lines in
  if (length transactions <? 5)%nat
  then (transactions ++ _extract_multiline_transactions lines page_num)%list
  else transactions.

(** [extract_transactions_from_text] *)
Definition extract_transactions_from_text (text : string) (page_num : nat)
  : list txn :=
  let cleaned_text := _preprocess_text text in
  let table_regions := _detect_table_regions cleaned_text in
  let transaction_tables := _identify_transaction_tables table_regions in
  let transactions :=
    flat_map (fun table => _extract_from_table_region (lines table) page_num)
      transaction_tables in
  match transactions with
  | [] => _extract_transaction_patterns cleaned_text page_num
  | _ => transactions
  end.

(** [TextBasedExtractor.extract_transactions] *)
Definition extract_transactions (doc : pdf_doc) : list txn :=
  extract_with (fun page_num text => extract_transactions_from_text text page_num) doc.

End TextPipeline.

(** ** [DocumentProcessor]: the text and hybrid routes *)

Module DocumentRoutes.

Section Routes.
(** As for [OCRExtractor]: page images, the rasteriser called on the whole
    document and [_preprocess_image] are external; so is the rasteriser called
    on one page, [convert_from_path(pdf_path, first_page=n, last_page=n)]
    ([None] when it raises). *)
Variable image : Type.
Variable convert_from_path : pdf_doc -> option (list image).
Variable convert_page : pdf_doc -> nat -> option (list image).
Variable _preprocess_image : image -> image.

(** [_process_text_based_pdf] *)
Definition _process_text_based_pdf (doc : pdf_doc) : result :=
  {| processing_method := "text_extraction";
     transactions := TextPipeline.extract_transactions doc;
     confidence := "high";
     error := None;
     bank := None;
     transaction_count := None;
     debit_count := None;
     credit_count := None;
     spending_transactions := None;
     processing_time := Some "fast" |}.

(** The records of one page on the hybrid route; [None] when the rasteriser
    raises. *)
Definition mixed_page (self : OCRExtractor.extractor image) (doc : pdf_doc)
    (page_num : nat) (text : string) : option (list txn) :=
  if Py.nonempty text && (200 <? String.length (Py.strip text))%nat then
    Some (TextPipeline.extract_transactions_from_text text page_num)
  else if truthy_str (OCRExtractor.poppler_path self) then
    images ← convert_page doc page_num;
    match images with
    | img :: _ =>
        Some (OCRExtractor.extract_transactions_from_image image _preprocess_image
                self img page_num)
    | [] => Some []
    end
  else Some [].

(** The loop over the pages of [_process_mixed_pdf]. *)
Fixpoint mixed_pages (self : OCRExtractor.extractor image) (doc : pdf_doc)
    (page_num : nat) (pgs : list string) : option (list txn) :=
  match pgs with
  | [] => Some []
  | text :: pgs' =>
      page_transactions ← mixed_page self doc page_num text;
      rest ← mixed_pages self doc (S page_num) pgs';
      Some (page_transactions ++ rest)%list
  end.

Definition hybrid_failed : result :=
  {| processing_method := "hybrid_failed";
     transactions := [];
     confidence := "low";
     error := Some exception_text;
     bank := None;
     transaction_count := None;
     debit_count := None;
     credit_count := None;
     spending_transactions := None;
     processing_time := None |}.

(** [_process_mixed_pdf] *)
Definition _process_mixed_pdf (self : OCRExtractor.extractor image) (doc : pdf_doc)
  : result :=
  match pages doc with
  | None => hybrid_failed
  | Some pgs =>
      match mixed_pages self doc 1 pgs with
      | None => hybrid_failed
      | Some all_transactions =>
          {| processing_method := "hybrid_extraction";
             transactions := all_transactions;
             confidence := "medium";
             error := None;
             bank := None;
             transaction_count := None;
             debit_count := None;
             credit_count := None;
             spending_transactions := None;
             processing_time := Some "medium" |}
      end
  end.

(** [DocumentProcessor.process_document] with its three routes. *)
Definition process_document (self : OCRExtractor.extractor image) (doc : pdf_doc)
  : result :=
  DocumentProcessor.process_document image convert_from_path _preprocess_image
    _process_text_based_pdf (_process_mixed_pdf self) self doc.

End Routes.

End DocumentRoutes.

(** ** Vocabulary of the statements *)

(** The value a dict literal binds to a key is the last one listed for it. *)
Fixpoint last_binding (k : string) (kvs : list (string * value))
    (acc : option value) : option value :=
  match kvs with
  | [] => acc
  | (k', v) :: rest => last_binding k rest (if String.eqb k k' then Some v else acc)
  end.

(** A record without direction: neither key is set. *)
Definition unclassified (tx : txn) : Prop :=
  tx !! "transaction_type" = None /\ tx !! "is_spending" = None.

(** A record with a coherent direction: [is_spending] is a boolean,
    [transaction_type] is ['debit'] or ['credit'], and the record is spending
    exactly when it is a debit. *)
Definition coherent (tx : txn) : Prop :=
  exists b : bool,
    tx !! "is_spending" = Some (VBool b) /\
    tx !! "transaction_type" = Some (VStr (if b then "debit" else "credit")).

(** What the parsers of processor [p] return: the bank name of [p], a float
    amount, a float confidence, and either no direction or a coherent one. *)
Record emitted (p : processor) (tx : txn) : Prop := Emitted {
  em_bank : tx !! "bank" = Some (VStr (bank_name p));
  em_amount : exists a : Q, tx !! "amount" = Some (VNum a);
  em_confidence : exists c : Q, tx !! "confidence" = Some (VNum c);
  em_direction : unclassified tx \/ coherent tx
}.

(** The invariant of the records in a result of
    [SmartDocumentProcessor.process_document]. *)
Definition record_invariant (tx : txn) : Prop :=
  exists (a : Q) (b : bool) (method level : string),
    tx !! "amount" = Some (VNum a) /\
    tx !! "abs_amount" = Some (VNum (Qabs a)) /\
    tx !! "is_spending" = Some (VBool b) /\
    tx !! "transaction_type" = Some (VStr (if b then "debit" else "credit")) /\
    tx !! "processing_method" = Some (VStr method) /\
    tx !! "confidence_level" = Some (VStr level).

(** The average of the classifier, in the words of the specification: the
    characters that can be extracted from the sampled pages, the first three
    at most, each page counted for the length of its stripped text, divided
    by the number of sampled pages; 0 for a document without pages. *)
Definition average_chars (pgs : list string) : Q :=
  let sample := firstn 3 pgs in
  match sample with
  | [] => 0
  | _ :: _ =>
      Z.of_nat (list_sum (map (fun text => String.length (Py.strip text)) sample))
      # Pos.of_nat (length sample)
  end.

(** The direction fields of a record. *)
Definition direction_is (tx : txn) (transaction_type : string) (is_spending : bool)
  : Prop :=
  tx !! "transaction_type" = Some (VStr transaction_type) /\
  tx !! "is_spending" = Some (VBool is_spending).

(** The two sections of a TD statement. *)
Inductive td_section : Type := Credits | Debits.

(** The value of [current_section] for a section. *)
Definition section_name (section : td_section) : string :=
  match section with Credits => "credits" | Debits => "debits" end.

(** The section that a heading line opens: [Debits] for the heading
    ["Debits"], [Credits] for the heading ["Credits"] and for the title
    ["DAILY ACCOUNT ACTIVITY"]; any other line is no heading. *)
Definition td_heading (raw : string) : option td_section :=
  let line := Py.strip raw in
  if String.eqb (Py.strip line) "Debits" then Some Debits
  else if String.eqb (Py.strip line) "Credits"
          || Py.contains "DAILY ACCOUNT ACTIVITY" line then Some Credits
  else None.

(** The section in force after the lines [before], starting from [current]:
    the section of the last heading among them. *)
Definition section_after (current : option td_section) (before : list string)
  : option td_section :=
  fold_left (fun current raw =>
               match td_heading raw with
               | Some section => Some section
               | None => current
               end) before current.

(** The active section below the lines [before] of a page: no section is
    active at the top of a page. *)
Definition active_section (before : list string) : option td_section :=
  section_after None before.

(** The direction that a section gives to its records. *)
Definition section_direction (section : td_section) (tx : txn) : Prop :=
  match section with
  | Debits => direction_is tx "debit" true
  | Credits => direction_is tx "credit" false
  end.

(** [raw] is a line of page [page_num] of the document (pages are numbered
    from 1), and [before] are the lines above it on that page. *)
Definition td_line_at (doc : pdf_doc) (page_num : nat) (before : list string)
    (raw : string) : Prop :=
  exists (pgs : list string) (text : string) (after : list string),
    pages doc = Some pgs /\
    (1 <= page_num)%nat /\
    pgs !! (page_num - 1)%nat = Some text /\
    Py.splitlines_nl text = (before ++ raw :: after)%list.

(** Sample documents. *)
Definition nl : string := String Py.newline EmptyString.

Definition clock0 : clock := Clock 2025 6.

(** A deposit-account statement (EQ Bank, whose parser sets no direction)
    with a raw amount of -50.00. *)
Definition eq_doc : pdf_doc :=
  PdfDoc "eq-statement.pdf"
    (Some ["EQ Bank" +:+ nl +:+ "Sep 28 PRESTO FARE -$50.00"]).

(** A credit-card statement (BMO, whose parser sets no direction) with a raw
    amount of 50.00. *)
Definition bmo_doc : pdf_doc :=
  PdfDoc "bmo-card.pdf"
    (Some ["BMO MasterCard" +:+ nl +:+ "Nov.3 Nov.8 AMAZON.CA TORONTO ON 50.00"]).

(** A TD statement with one line in each section; the line of the Debits
    section reads like a deposit and the line of the Credits section like a
    fee. *)
Definition td_doc : pdf_doc :=
  PdfDoc "td-statement.pdf"
    (Some ["STATEMENT OF ACCOUNT" +:+ nl +:+ "Debits" +:+ nl +:+
           "07/02 DEPOSIT REFUND 3,750.00" +:+ nl +:+ "Credits" +:+ nl +:+
           "07/03 SERVICE FEE WITHDRAWAL 10.00"]).

(** A Tangerine savings statement whose only line is an opening balance with
    a non-zero amount. *)
Definition tangerine_doc : pdf_doc :=
  PdfDoc "tangerine.pdf"
    (Some ["Tangerine Savings" +:+ nl +:+
           "Transaction Date Transaction Description Amount" +:+ nl +:+
           "01 Oct 2021 Opening Balance 5.00 664.54"]).

(** The phrase of the skip rule as the extractors test it, in the lower-cased
    text. *)
Definition names_opening_balance (s : string) : bool :=
  Py.contains "opening balance" (Py.lower s).

(** A statement of one page. *)
Definition one_page (text : string) : pdf_doc := PdfDoc "statement.pdf" (Some [text]).

(** For each processor whose code has no test on the phrase, a page with a
    line that holds ["Opening Balance"] and an amount in the grammar of the
    processor; for Tangerine, the page of [tangerine_doc], whose amount is
    not zero. *)
Definition opening_balance_statements : list (processor * pdf_doc) :=
  [ (TDProcessor, one_page ("Credits" +:+ nl +:+ "07/02 Opening Balance 664.54"));
    (EQBankProcessor, one_page "Sep 28 Opening Balance $664.54");
    (RBCVisaProcessor, one_page "DEC22 DEC29 Opening Balance $12.00");
    (SimpliiProcessor,
     one_page ("Trans Post date" +:+ nl +:+ "Jul 27 Jul 28 Opening Balance 50.00"));
    (WiseProcessor, one_page "Opening Balance payment $5.00");
    (TangerineCreditCardProcessor,
     one_page "15-Feb-2025 17-Feb-2025 Opening Balance $8.57");
    (CIBCVisaProcessor,
     one_page ("Trans Post" +:+ nl +:+ "date date Description" +:+ nl +:+
               "DEC 28 DEC 29 Opening Balance 13.63"));
    (TangerineProcessor, tangerine_doc) ].

(** A reader that recognises one fragment with the phrase and an amount. *)
Definition opening_balance_reader : OCRExtractor.reader unit :=
  fun _ => Some [("01/10/2021 Opening Balance $664.54", 0.9)].



(** The canonical shape [MM-DD]: two digits, a dash, two digits. *)
Definition is_mm_dd (s : string) : bool :=
  match s with
  | String a (String b (String dash (String c (String d EmptyString)))) =>
      Py.is_digit a && Py.is_digit b && Ascii.eqb dash "-"%char
      && Py.is_digit c && Py.is_digit d
  | _ => false
  end.

(** The string [ab-cd] of four decimal digits. *)
Definition mm_dd (a b c d : N) : string :=
  String (ascii_of_N (48 + a)) (String (ascii_of_N (48 + b))
    (String "-"%char
       (String (ascii_of_N (48 + c)) (String (ascii_of_N (48 + d)) EmptyString)))).

(** A check run on all quadruples of digits. *)
Definition digits10 : list N := [0; 1; 2; 3; 4; 5; 6; 7; 8; 9]%N.

Definition all_digits4 (f : N -> N -> N -> N -> bool) : bool :=
  forallb (fun a => forallb (fun b => forallb (fun c => forallb (fun d =>
    f a b c d) digits10) digits10) digits10) digits10.

(** [clean_date] leaves [ab-cd] unchanged. *)
Definition mm_dd_fixed_by_clean_date (a b c d : N) : bool :=
  String.eqb (clean_date (mm_dd a b c d)) (mm_dd a b c d).

(** ** Vocabulary of the further properties *)

(** ** Vocabulary of the further properties *)

(** The credit-card rule on a record: when a direction is set, the record is
    spending, and a debit, exactly when its amount is positive. *)
Definition card_rule (tx : txn) : Prop :=
  unclassified tx \/
  exists a : Q,
    tx !! "amount" = Some (VNum a) /\
    direction_is tx (if Qgtb a 0 then "debit" else "credit") (Qgtb a 0).

(** What the parsers of processor [p] return for a line of page [page_num]:
    a date and a description that are strings, the page number, and, for a
    credit-card processor, a direction that follows the credit-card rule. *)
Record extracted (p : processor) (page_num : nat) (tx : txn) : Prop := Extracted {
  ex_date : exists d : string, tx !! "date" = Some (VStr d);
  ex_description : exists s : string, tx !! "description" = Some (VStr s);
  ex_page : tx !! "page" = Some (page_value page_num);
  ex_card : _is_credit_card_bank (bank_name p) = true -> card_rule tx
}.

(** A record with property [Q n] for one of the page numbers [first], ...,
    [first + count - 1]. *)
Definition on_pages (Q : nat -> txn -> Prop) (first count : nat) (tx : txn) : Prop :=
  exists page_num : nat, (first <= page_num < first + count)%nat /\ Q page_num tx.

(** A CIBC account statement: a cover page and a page of transaction
    details. *)
Definition cibc_doc : pdf_doc :=
  PdfDoc "cibc-statement.pdf"
    (Some ["CIBC Account Statement" +:+ nl +:+ "May 1 COVER PAGE DEPOSIT 5.00 5.00";
           "Transaction details" +:+ nl +:+ "May 1 RETAIL PURCHASE 12.34 100.00"]).

(** A page image on which a reader recognises one dated amount with
    confidence 0.9 and one fragment with confidence 0.5. *)
Definition sample_reader : OCRExtractor.reader unit :=
  fun _ => Some [("03/14/2024 COFFEE SHOP $4.50", 0.9); ("03/15/2024 TEA $3.00", 0.5)].

(** The pages of a document on the hybrid route that are read through their
    text layer: those with more than 200 characters once stripped. *)
Definition long_page (text : string) : bool :=
  Py.nonempty text && (200 <? String.length (Py.strip text))%nat.

(** The records of the long pages, in page order. *)
Fixpoint text_of_long_pages (page_num : nat) (pgs : list string) : list txn :=
  match pgs with
  | [] => []
  | text :: pgs' =>
      ((if long_page text
        then TextPipeline.extract_transactions_from_text text page_num else [])
       ++ text_of_long_pages (S page_num) pgs')%list
  end.

(** A document whose three pages are blank. *)
Definition blank_doc : pdf_doc := PdfDoc "blank.pdf" (Some [EmptyString; " "; nl]).

(** What a record of the generic text extractor looks like for page
    [page_num]: a record of the table or single-line passes, with confidence
    [c], or a record of the multi-line pass. *)
Definition line_record (page_num : nat) (c : Q) (tx : txn) : Prop :=
  exists (date description : string) (a : Q),
    tx !! "date" = Some (VStr date) /\ Py.nonempty date = true /\
    tx !! "description" = Some (VStr description) /\
    (5 <= String.length description)%nat /\
    tx !! "amount" = Some (VNum a) /\
    tx !! "page" = Some (VInt (Z.of_nat page_num)) /\
    tx !! "confidence" = Some (VNum c) /\
    tx !! "extraction_method" = Some (VStr "text_pattern").

Definition multiline_record_shape (page_num : nat) (tx : txn) : Prop :=
  exists (date description : string) (a : Q),
    tx !! "date" = Some (VStr date) /\ Py.nonempty date = true /\
    tx !! "description" = Some (VStr description) /\
    (String.length description <= 100)%nat /\
    tx !! "amount" = Some (VNum a) /\ 0 < a /\
    tx !! "page" = Some (VInt (Z.of_nat page_num)) /\
    tx !! "confidence" = Some (VNum 0.6) /\
    tx !! "extraction_method" = Some (VStr "multiline_pattern").

(** A region cut out of the lines [all_lines] of a page: its lines are the
    stripped lines [start_line], ..., [end_line - 1] of the page, each one
    table-like, and a region of a single line is followed by a blank line. *)
Definition region_of (all_lines : list string) (rg : TextPipeline.region) : Prop :=
  exists start : nat,
    TextPipeline.start_line rg = Z.of_nat start /\
    TextPipeline.end_line rg
    = Z.of_nat (start + length (TextPipeline.lines rg)) /\
    (start + length (TextPipeline.lines rg) <= length all_lines)%nat /\
    TextPipeline.lines rg <> [] /\
    TextPipeline.lines rg
    = map Py.strip (firstn (length (TextPipeline.lines rg)) (skipn start all_lines)) /\
    Forall (fun line => TextPipeline._is_table_like_line line = true
                        /\ Py.nonempty line = true) (TextPipeline.lines rg) /\
    TextPipeline.text rg
    = Py.join (String Py.newline EmptyString) (TextPipeline.lines rg) /\
    ((2 <= length (TextPipeline.lines rg))%nat \/
     exists raw, all_lines !! (start + length (TextPipeline.lines rg))%nat = Some raw
                 /\ Py.strip raw = EmptyString).


(** A region with the score that [_identify_transaction_tables] gives it. *)
Definition with_score (rg : TextPipeline.region) : TextPipeline.region :=
  {| TextPipeline.lines := TextPipeline.lines rg;
     TextPipeline.start_line := TextPipeline.start_line rg;
     TextPipeline.end_line := TextPipeline.end_line rg;
     TextPipeline.text := TextPipeline.text rg;
     TextPipeline.transaction_score := Some (TextPipeline._score_transaction_table rg) |}.

(** The regions of a list whose score is [k]. *)
Definition of_score (k : Z) (regions : list TextPipeline.region)
  : list TextPipeline.region :=
  filter (fun rg => TextPipeline.score_key rg = k) regions.

(** A region of three dated amounts. *)
Definition sample_region : TextPipeline.region :=
  TextPipeline.region_at
    ["01/02/2024 COFFEE 4.50"; "01/03/2024 BOOKS 12.00"; "01/04/2024 TEA 3.00"] 3.

(** *** What a pattern matches *)

(** [steps r st st']: the pattern [r] can take the matcher from the state
    [st] to the state [st']. *)
Fixpoint steps (r : Re.regex) (st st' : Re.mstate) : Prop :=
  match r with
  | Re.Eps => st' = st
  | Re.Chr p =>
      exists c rest,
        Re.m_rest st = String c rest /\ p c = true /\ st' = Re.advance c rest st
  | Re.Seq r1 r2 => exists st1, steps r1 st st1 /\ steps r2 st1 st'
  | Re.Alt r1 r2 => steps r1 st st' \/ steps r2 st st'
  | Re.Star r1 => rtc (steps r1) st st'
  | Re.Lazy r1 => rtc (steps r1) st st'
  | Re.Grp n r1 => exists st1, steps r1 st st1 /\ st' = Re.close_group n st st1
  | Re.Bol => Re.m_pos st = 0%nat /\ st' = st
  | Re.Eol => Re.at_eol st = true /\ st' = st
  | Re.WordB => Re.at_word_boundary st = true /\ st' = st
  end.

(** The concatenation of a list of strings. *)
Definition flatten (ts : list string) : string := fold_right String.append EmptyString ts.

(** [shape r t]: the text [t] belongs to the language of [r], anchors and
    word boundaries left aside. *)
Fixpoint shape (r : Re.regex) (t : string) : Prop :=
  match r with
  | Re.Eps => t = EmptyString
  | Re.Chr p => exists c, t = String c EmptyString /\ p c = true
  | Re.Seq r1 r2 => exists t1 t2, t = t1 +:+ t2 /\ shape r1 t1 /\ shape r2 t2
  | Re.Alt r1 r2 => shape r1 t \/ shape r2 t
  | Re.Star r1 => exists ts, t = flatten ts /\ Forall (shape r1) ts
  | Re.Lazy r1 => exists ts, t = flatten ts /\ Forall (shape r1) ts
  | Re.Grp _ r1 => shape r1 t
  | Re.Bol => t = EmptyString
  | Re.Eol => t = EmptyString
  | Re.WordB => t = EmptyString
  end.

(** The capturing groups of a pattern, each with the pattern it encloses. *)
Fixpoint groups_of (r : Re.regex) : list (nat * Re.regex) :=
  match r with
  | Re.Seq r1 r2 => groups_of r1 ++ groups_of r2
  | Re.Alt r1 r2 => groups_of r1 ++ groups_of r2
  | Re.Star r1 => groups_of r1
  | Re.Lazy r1 => groups_of r1
  | Re.Grp n r1 => (n, r1) :: groups_of r1
  | _ => []
  end.

(** A captured text that belongs to the language of a group numbered like
    it. *)
Definition capture_of (r : Re.regex) (cap : nat * string) : Prop :=
  exists r1, In (cap.1, r1) (groups_of r) /\ shape r1 cap.2.

(** What a matcher run from [st] to [st'] has done for the pattern [r]: it
    has consumed a text of the language of [r] and recorded captures of the
    groups of [r]. *)
Definition run_of (r : Re.regex) (st st' : Re.mstate) : Prop :=
  exists (t : string) (new : list (nat * string)),
    Re.m_rest st = t +:+ Re.m_rest st' /\
    Re.m_pos st' = (Re.m_pos st + String.length t)%nat /\
    shape r t /\
    Re.m_caps st' = (new ++ Re.m_caps st)%list /\
    Forall (capture_of r) new.

(** What a successful match of [r] in [s] is: [s] is [before], then the text
    of the match, then a rest; the text belongs to the language of [r] and
    the groups hold captures of the groups of [r]. *)
Definition match_of (r : Re.regex) (s before : string) (m : Re.rmatch) : Prop :=
  exists rest : string,
    s = before +:+ Re.m_text m +:+ rest /\
    Re.m_start m = String.length before /\
    Re.m_end m = (String.length before + String.length (Re.m_text m))%nat /\
    shape r (Re.m_text m) /\
    Forall (capture_of r) (Re.m_groups m).

(** The characters that a text of the language of [r] can hold. *)
Fixpoint chars_of (r : Re.regex) (c : ascii) : bool :=
  match r with
  | Re.Chr p => p c
  | Re.Seq r1 r2 => chars_of r1 c || chars_of r2 c
  | Re.Alt r1 r2 => chars_of r1 c || chars_of r2 c
  | Re.Star r1 => chars_of r1 c
  | Re.Lazy r1 => chars_of r1 c
  | Re.Grp _ r1 => chars_of r1 c
  | _ => false
  end.

(** The least length of a text of the language of [r], and the greatest one
    when the pattern has no starred part. *)
Fixpoint min_len (r : Re.regex) : nat :=
  match r with
  | Re.Chr _ => 1
  | Re.Seq r1 r2 => min_len r1 + min_len r2
  | Re.Alt r1 r2 => Nat.min (min_len r1) (min_len r2)
  | Re.Grp _ r1 => min_len r1
  | _ => 0
  end.

Fixpoint max_len (r : Re.regex) : option nat :=
  match r with
  | Re.Chr _ => Some 1%nat
  | Re.Seq r1 r2 =>
      match max_len r1, max_len r2 with
      | Some a, Some b => Some (a + b)%nat
      | _, _ => None
      end
  | Re.Alt r1 r2 =>
      match max_len r1, max_len r2 with
      | Some a, Some b => Some (Nat.max a b)
      | _, _ => None
      end
  | Re.Star _ => None
  | Re.Lazy _ => None
  | Re.Grp _ r1 => max_len r1
  | _ => Some 0%nat
  end.

(** Two decimal digits. *)
Definition two_digits (s : string) : Prop :=
  exists a b : ascii,
    s = String a (String b EmptyString) /\ Py.is_digit a = true /\ Py.is_digit b = true.

(** The characters that [clean_amount] reads: digits, the point, the minus
    sign and the opening parenthesis. *)
Definition amount_char (c : ascii) : bool :=
  Py.is_digit c || Ascii.eqb c "."%char || Ascii.eqb c "-"%char || Ascii.eqb c "("%char.

(** The characters of the text handed to [float]. *)
Definition float_char (c : ascii) : bool :=
  Py.is_digit c || Ascii.eqb c "."%char || Ascii.eqb c "-"%char.

(** Neither a minus sign nor an opening parenthesis. *)
Definition unsigned_char (c : ascii) : bool :=
  negb (Ascii.eqb c "-"%char) && negb (Ascii.eqb c "("%char).

(** An RBC record: a canonical date, a positive amount and a description of
    at least three characters. *)
Definition rbc_record (tx : txn) : Prop :=
  exists (date description : string) (a : Q),
    tx !! "date" = Some (VStr date) /\ is_mm_dd date = true /\
    tx !! "description" = Some (VStr description) /\
    (3 <= String.length description)%nat /\
    tx !! "amount" = Some (VNum a) /\ 0 < a.

(** The dates that the RBC loop carries from one line to the next. *)
Definition rbc_date_state (current_date : option string) : Prop :=
  match current_date with
  | Some d => is_mm_dd d = true \/ d = "Unknown"
  | None => True
  end.

(** A record with an amount that is positive or zero. *)
Definition amount_not_negative (tx : txn) : Prop :=
  exists a : Q, tx !! "amount" = Some (VNum a) /\ 0 <= a.

(** [r'\$\d+\.\d{2}'], the second amount pattern of the text and OCR
    extractors: a dollar amount. *)
Definition dollar_token : Re.regex :=
  Re.seqs [Re.lit "$"; Re.plus Re.digit; Re.lit "."; Re.rep 2 Re.digit].

(** [r'\(\$\d+\.\d{2}\)'], the amount written between parentheses. *)
Definition bracketed_dollar_token : Re.regex :=
  Re.seqs [Re.lit "("; Re.lit "$"; Re.plus Re.digit; Re.lit "."; Re.rep 2 Re.digit;
           Re.lit ")"].

(** * Properties *)

(** ** Auxiliary facts *)

Lemma Qltb_lt (x y : Q) : Qltb x y = true <-> x < y.
Proof.
  unfold Qltb. rewrite negb_true_iff. split; intros H.
  - apply Qnot_le_lt. intros Hle. apply Qle_bool_iff in Hle. congruence.
  - destruct (Qle_bool y x) eqn:E; [|reflexivity].
    apply Qle_bool_iff in E. exfalso. exact (Qlt_not_le _ _ H E).
Qed.

Lemma Qgtb_gt (x y : Q) : Qgtb x y = true <-> y < x.
Proof. unfold Qgtb. apply Qltb_lt. Qed.

Lemma Qltb_ge (x y : Q) : Qltb x y = false <-> y <= x.
Proof.
  unfold Qltb. rewrite negb_false_iff. apply Qle_bool_iff.
Qed.

Lemma fold_insert_lookup (kvs : list (string * value)) (d : txn) (k : string) :
  fold_left (fun d kv => <[kv.1 := kv.2]> d) kvs d !! k = last_binding k kvs (d !! k).
Proof.
  revert d. induction kvs as [|[k' v] kvs IH]; intros d; simpl; [reflexivity|].
  rewrite IH. f_equal.
  destruct (String.eqb_spec k k') as [->|Hne].
  - apply lookup_insert_eq.
  - apply lookup_insert_ne. congruence.
Qed.

Lemma dict_lookup (kvs : list (string * value)) (k : string) :
  dict kvs !! k = last_binding k kvs None.
Proof. unfold dict. rewrite fold_insert_lookup, lookup_empty. reflexivity. Qed.

(** The record at a valid index. *)
Lemma lookup_default (l : list txn) (i : nat) :
  (i <? length l)%nat = true -> l !! i = Some (default ∅ (l !! i)).
Proof.
  intros H. apply Nat.ltb_lt in H.
  destruct (l !! i) as [tx|] eqn:E; [reflexivity|].
  apply lookup_ge_None in E. lia.
Qed.

Lemma In_lookup_default (l : list txn) (i : nat) :
  (i <? length l)%nat = true -> In (default ∅ (l !! i)) l.
Proof.
  intros H. apply list_elem_of_In. apply list_elem_of_lookup.
  exists i. apply lookup_default. exact H.
Qed.

(** The result of a multi-line parser that returned a record. *)
Lemma parsed_pair (r : option txn * nat) :
  match fst r with Some _ => true | None => false end = true ->
  r = (Some (default ∅ (fst r)), snd r).
Proof. destruct r as [[tx|] n]; [reflexivity | discriminate]. Qed.

(** ** C2: the amount normaliser on the documented inputs *)

(** C2. [clean_amount] maps ["$1,234.56"] to 1234.56, ["($45.00)"] to -45.00
    (parentheses mean a negative amount), ["-$3.20"] to -3.20 and ["12.00"]
    to 12.00. *)
Theorem C2_clean_amount_examples :
  clean_amount "$1,234.56" == 1234.56 /\
  clean_amount "($45.00)" == -45.00 /\
  clean_amount "-$3.20" == -3.20 /\
  clean_amount "12.00" == 12.00.
Proof. repeat split; vm_compute; reflexivity. Qed.

(** ** C7: bank identification is first-match over the registry *)

Lemma first_processor_spec (ps : list processor) (text fname : string) :
  match first_processor ps text fname with
  | Some p =>
      exists before after,
        ps = (before ++ p :: after)%list /\
        can_process p text fname = true /\
        Forall (fun q => can_process q text fname = false) before
  | None => Forall (fun q => can_process q text fname = false) ps
  end.
Proof.
  induction ps as [|q ps IH]; simpl.
  - constructor.
  - destruct (can_process q text fname) eqn:Hq.
    + exists [], ps. repeat split; [exact Hq | constructor].
    + destruct (first_processor ps text fname) as [p|].
      * destruct IH as (before & after & -> & Hp & Hb).
        exists (q :: before), after. repeat split; [exact Hp|].
        constructor; assumption.
      * constructor; assumption.
Qed.

(** C7. For every sampled text and file name, [identify_bank] returns the first
    processor of the registry, in registry order, whose [can_process] holds,
    and [None] when no processor's [can_process] holds. *)
Theorem C7_identify_bank_first_match (fname : string) (pgs : list string) :
  match identify_bank (PdfDoc fname (Some pgs)) with
  | Some p =>
      exists before after,
        processors = (before ++ p :: after)%list /\
        can_process p (sample_text pgs) fname = true /\
        Forall (fun q => can_process q (sample_text pgs) fname = false) before
  | None =>
      Forall (fun q => can_process q (sample_text pgs) fname = false) processors
  end.
Proof. exact (first_processor_spec processors (sample_text pgs) fname). Qed.

(** ** C8: document-type classification *)

(** The classifier over the average that the code computes. *)
Lemma detect_by_avg_text (fname : string) (pgs : list string) :
  let doc := PdfDoc fname (Some pgs) in
  let avg := DocumentProcessor.avg_text pgs in
  (DocumentProcessor._detect_document_type doc = "text_based" <-> 500 < avg) /\
  (DocumentProcessor._detect_document_type doc = "scanned_image" <-> avg < 100) /\
  (DocumentProcessor._detect_document_type doc = "mixed" <-> 100 <= avg <= 500) /\
  DocumentProcessor._detect_document_type (PdfDoc fname None) = "mixed".
Proof.
  intros doc avg. unfold DocumentProcessor._detect_document_type; simpl.
  fold avg.
  destruct (Qgtb avg 500) eqn:Hgt.
  - apply Qgtb_gt in Hgt.
    assert (Hnlt : ~ avg < 100).
    { intros H. apply (Qlt_irrefl avg).
      apply Qlt_trans with 100; [exact H|].
      apply Qlt_trans with 500; [reflexivity | exact Hgt]. }
    repeat split; try discriminate; try tauto.
    intros [_ H]. exfalso. exact (Qlt_not_le _ _ Hgt H).
  - apply Qltb_ge in Hgt.
    destruct (Qltb avg 100) eqn:Hlt.
    + apply Qltb_lt in Hlt.
      repeat split; try discriminate; try tauto.
      * intros H. exfalso. exact (Qlt_not_le _ _ H Hgt).
      * intros [H _]. exfalso. exact (Qlt_not_le _ _ Hlt H).
    + apply Qltb_ge in Hlt.
      repeat split; try discriminate; try tauto.
      * intros H. exfalso. exact (Qlt_not_le _ _ H Hgt).
      * intros H. exfalso. exact (Qlt_not_le _ _ H Hlt).
Qed.

Lemma total_text_stripped (pgs : list string) :
  DocumentProcessor.total_text pgs
  = list_sum (map (fun text => String.length (Py.strip text)) pgs).
Proof.
  induction pgs as [|text pgs IH]; [reflexivity|].
  cbn [DocumentProcessor.total_text map list_sum]. rewrite IH. f_equal.
  destruct text as [|c text]; reflexivity.
Qed.

(** The average that the code computes is the average of the sampled
    pages. *)
Lemma avg_text_average_chars (pgs : list string) :
  DocumentProcessor.avg_text pgs = average_chars pgs.
Proof.
  unfold DocumentProcessor.avg_text, DocumentProcessor.sample_pages, average_chars.
  rewrite total_text_stripped.
  destruct pgs as [|p1 [|p2 [|p3 pgs]]]; reflexivity.
Qed.

(** C8. The classifier sums the lengths of the stripped texts of the first
    three pages (fewer when the document is shorter) and divides by the
    number of pages sampled.  It answers [text_based] exactly when this
    average exceeds 500, [scanned_image] exactly when it is below 100 and
    [mixed] otherwise; a document that cannot be opened is [mixed]. *)
Theorem C8_detect_document_type (fname : string) (pgs : list string) :
  let doc := PdfDoc fname (Some pgs) in
  let avg := average_chars pgs in
  (DocumentProcessor._detect_document_type doc = "text_based" <-> 500 < avg) /\
  (DocumentProcessor._detect_document_type doc = "scanned_image" <-> avg < 100) /\
  (DocumentProcessor._detect_document_type doc = "mixed" <-> 100 <= avg <= 500) /\
  DocumentProcessor._detect_document_type (PdfDoc fname None) = "mixed".
Proof.
  intros doc avg. subst avg. rewrite <- avg_text_average_chars.
  exact (detect_by_avg_text fname pgs).
Qed.

(** ** C4: a scanned document without OCR support *)

Lemma for_images_no_reader (image : Type) (pre : image -> image)
    (self : OCRExtractor.extractor image) (n : nat) (images : list image) :
  OCRExtractor.ocr_reader self = None ->
  OCRExtractor.for_images image pre self n images = [].
Proof.
  intros H. revert n. induction images as [|img images IH]; intros n; simpl.
  - reflexivity.
  - unfold OCRExtractor.extract_transactions_from_image. rewrite H. simpl. apply IH.
Qed.

Lemma ocr_extract_unavailable (image : Type)
    (convert_from_path : pdf_doc -> option (list image)) (pre : image -> image)
    (self : OCRExtractor.extractor image) (doc : pdf_doc) :
  OCRExtractor.poppler_path self = None \/ OCRExtractor.ocr_reader self = None ->
  OCRExtractor.extract_transactions image convert_from_path pre self doc = [].
Proof.
  intros [H|H]; unfold OCRExtractor.extract_transactions.
  - rewrite H. reflexivity.
  - destruct (OCRExtractor.poppler_path self) as [path|]; [|reflexivity].
    destruct (negb (Py.nonempty path)); [reflexivity|].
    destruct (convert_from_path doc) as [images|]; [|reflexivity].
    apply for_images_no_reader. exact H.
Qed.

(** C4, as the code has it.  When a document is classified as [scanned_image]
    and the rasteriser or the OCR engine is missing, the result has an empty
    transaction list and no error: it is the envelope of an ordinary OCR run,
    with method [ocr_extraction] and confidence [medium]. *)
Theorem C4_scanned_without_ocr_plain_empty_result (image : Type)
    (convert_from_path : pdf_doc -> option (list image))
    (_preprocess_image : image -> image)
    (text_route mixed_route : pdf_doc -> result)
    (self : OCRExtractor.extractor image) (doc : pdf_doc) :
  DocumentProcessor._detect_document_type doc = "scanned_image" ->
  OCRExtractor.poppler_path self = None \/ OCRExtractor.ocr_reader self = None ->
  DocumentProcessor.process_document image convert_from_path _preprocess_image
    text_route mixed_route self doc
  = {| processing_method := "ocr_extraction"; transactions := [];
       confidence := "medium"; error := None; bank := None;
       transaction_count := None; debit_count := None; credit_count := None;
       spending_transactions := None; processing_time := Some "slow" |}.
Proof.
  intros Htype Hmissing.
  unfold DocumentProcessor.process_document. rewrite Htype. simpl.
  unfold DocumentProcessor._process_scanned_pdf.
  rewrite (ocr_extract_unavailable _ _ _ _ _ Hmissing). reflexivity.
Qed.

Lemma C4_scanned_without_ocr_witness :
  DocumentProcessor.process_document unit (fun _ => None) id
    route_not_taken route_not_taken (OCRExtractor.Extractor None None) scan_doc
  = {| processing_method := "ocr_extraction"; transactions := [];
       confidence := "medium"; error := None; bank := None;
       transaction_count := None; debit_count := None; credit_count := None;
       spending_transactions := None; processing_time := Some "slow" |}.
Proof.
  apply (C4_scanned_without_ocr_plain_empty_result unit (fun _ => None) id
           route_not_taken route_not_taken (OCRExtractor.Extractor None None) scan_doc).
  - vm_compute. reflexivity.
  - left. reflexivity.
Defined.

(** The claim fails on [scan_doc] with neither rasteriser nor OCR engine: the
    document is classified as scanned, yet the result carries no error, and it
    is the very result of a run with a working engine that recognises nothing
    on the page. *)
Lemma C4_counterexample :
  let missing := OCRExtractor.Extractor (image := unit) None None in
  let working :=
    OCRExtractor.Extractor (image := unit) (Some "poppler/bin") (Some (fun _ => Some [])) in
  let run self :=
    DocumentProcessor.process_document unit (fun _ => Some [tt]) id
      route_not_taken route_not_taken self scan_doc in
  DocumentProcessor._detect_document_type scan_doc = "scanned_image" /\
  error (run missing) = None /\
  run missing = run working.
Proof. vm_compute. repeat split; reflexivity. Qed.

(** ** What the parsers return *)

(** Lookups in a dict literal are decided key by key. *)
Ltac dict_lookups :=
  rewrite ?dict_lookup;
  cbn [last_binding String.eqb Ascii.eqb Bool.eqb fst snd].

Ltac emitted_record :=
  split;
  [ dict_lookups; reflexivity
  | eexists; dict_lookups; reflexivity
  | eexists; dict_lookups; reflexivity
  | first
      [ left; split; dict_lookups; reflexivity
      | right; eexists; split; dict_lookups; reflexivity ] ].

Lemma parse_td_emitted (line : string) (page_num : nat) (section : string) (tx : txn) :
  _parse_td_transaction line page_num section = Some tx -> emitted TDProcessor tx.
Proof.
  unfold _parse_td_transaction.
  destruct (Re.rmatch_ td_line_pattern line) as [m|]; [|discriminate].
  destruct (String.eqb section "credits"); [|destruct (String.eqb section "debits")];
    intros [= <-]; emitted_record.
Qed.

(** Case analysis on the tests of a parser that has returned a record,
    innermost test first. *)
Ltac parser_cases H :=
  repeat (cbv beta iota zeta in H;
    match type of H with
    | context [match ?x with _ => _ end] =>
        lazymatch x with
        | context [match _ with _ => _ end] => fail
        | _ => let E := fresh "E" in destruct x eqn:E; try discriminate H
        end
    end).

Ltac parser_emits H :=
  parser_cases H; injection H as <-; emitted_record.

Lemma parse_tangerine_emitted (line : string) (page_num : nat) (tx : txn) :
  _parse_tangerine_transaction line page_num = Some tx -> emitted TangerineProcessor tx.
Proof.
  unfold _parse_tangerine_transaction, tangerine_record. intros H. parser_emits H.
Qed.

Lemma parse_tangerine_multiline_emitted (lines : list string) (start_idx page_num : nat)
    (tx : txn) (n : nat) :
  _parse_tangerine_multiline_transaction lines start_idx page_num = (Some tx, n) ->
  emitted TangerineProcessor tx.
Proof.
  unfold _parse_tangerine_multiline_transaction.
  destruct (_is_complete_tangerine_transaction _).
  - intros [= H _]. exact (parse_tangerine_emitted _ _ _ H).
  - match goal with
    | |- context [tangerine_lookahead ?f ?l ?i] => generalize (tangerine_lookahead f l i)
    end.
    intros look.
    match goal with
    | |- context [let '(d, f) := ?x in _] => generalize x
    end.
    intros [date_str first]. cbv beta iota zeta.
    generalize (look first). intros st.
    match goal with
    | |- context [if negb (truthy_str (la_description st)) && ?c then ?a else ?b] =>
        generalize (if negb (truthy_str (la_description st)) && c then a else b)
    end.
    intros description.
    unfold tangerine_record.
    intros H. parser_cases H; injection H as <- _.
    all: try solve [emitted_record].
    all: split;
      [ dict_lookups; reflexivity
      | eexists; dict_lookups; reflexivity
      | eexists; dict_lookups; reflexivity
      | right; exists (Qle_bool q 0); split; dict_lookups;
        [reflexivity
        | unfold Qgtb, Qltb in *; destruct (Qle_bool q 0); simpl in *;
          first [reflexivity | discriminate] ] ].
Qed.

Lemma parse_rbc_emitted (date line : string) (page_num : nat) (tx : txn) :
  _parse_rbc_transaction_line date line page_num = Some tx ->
  emitted RBCBankProcessor tx.
Proof. unfold _parse_rbc_transaction_line. intros H. parser_emits H. Qed.

Lemma parse_bmo_emitted (line : string) (page_num : nat) (tx : txn) :
  _parse_bmo_transaction line page_num = Some tx -> emitted BMOProcessor tx.
Proof. unfold _parse_bmo_transaction. intros H. parser_emits H. Qed.

Lemma parse_eq_emitted (now : clock) (line : string) (page_num : nat) (tx : txn) :
  _parse_eq_transaction now line page_num = Some tx -> emitted EQBankProcessor tx.
Proof. unfold _parse_eq_transaction. intros H. parser_emits H. Qed.

Lemma parse_rbc_visa_emitted (line : string) (page_num : nat) (tx : txn) :
  _parse_rbc_visa_transaction line page_num = Some tx -> emitted RBCVisaProcessor tx.
Proof. unfold _parse_rbc_visa_transaction. intros H. parser_emits H. Qed.

Lemma parse_amex_emitted (line : string) (page_num : nat) (tx : txn) :
  _parse_amex_transaction line page_num = Some tx -> emitted AmexProcessor tx.
Proof. unfold _parse_amex_transaction. intros H. parser_emits H. Qed.

Lemma parse_td_credit_emitted (line : string) (page_num : nat) (tx : txn) :
  _parse_td_credit_transaction line page_num = Some tx ->
  emitted TDCreditCardProcessor tx.
Proof.
  unfold _parse_td_credit_transaction, card_direction. intros H. parser_emits H.
Qed.

Lemma parse_tangerine_credit_emitted (line : string) (page_num : nat) (tx : txn) :
  _parse_tangerine_credit_transaction line page_num = Some tx ->
  emitted TangerineCreditCardProcessor tx.
Proof.
  unfold _parse_tangerine_credit_transaction, card_direction. intros H.
  parser_emits H.
Qed.

Lemma parse_simplii_emitted (line : string) (page_num : nat) (tx : txn) :
  _parse_simplii_transaction line page_num = Some tx -> emitted SimpliiProcessor tx.
Proof.
  unfold _parse_simplii_transaction, card_direction. intros H. parser_emits H.
Qed.

Lemma parse_bmo_account_emitted (line : string) (page_num : nat) (tx : txn) :
  _parse_bmo_account_transaction line page_num = Some tx ->
  emitted BMOAccountProcessor tx.
Proof.
  unfold _parse_bmo_account_transaction. intros H. parser_emits H.
Qed.
Lemma parse_cibc_visa_emitted (lines : list string) (start_idx page_num : nat)
    (tx : txn) (n : nat) :
  _parse_cibc_visa_multiline_transaction lines start_idx page_num = (Some tx, n) ->
  emitted CIBCVisaProcessor tx.
Proof.
  unfold _parse_cibc_visa_multiline_transaction, card_direction. intros H.
  parser_cases H; injection H as <- _; emitted_record.
Qed.

Lemma parse_cibc_emitted (date line : string) (page_num : nat) (tx : txn) :
  _parse_cibc_transaction_line date line page_num = Some tx ->
  emitted CIBCProcessor tx.
Proof. unfold _parse_cibc_transaction_line. intros H. parser_emits H. Qed.

Lemma parse_scotia_bank_emitted (line : string) (current_date : option string)
    (page_num : nat) (tx : txn) :
  _parse_scotia_bank_transaction line current_date page_num = Some tx ->
  emitted ScotiaBankProcessor tx.
Proof. unfold _parse_scotia_bank_transaction. intros H. parser_emits H. Qed.

Lemma parse_scotia_emitted (line : string) (page_num : nat) (tx : txn) :
  _parse_scotia_transaction line page_num = Some tx -> emitted ScotiaProcessor tx.
Proof. unfold _parse_scotia_transaction. intros H. parser_emits H. Qed.

Lemma parse_wise_emitted (line : string) (page_num : nat)
    (statement_period : option string) (tx : txn) :
  _parse_wise_transaction line page_num statement_period = Some tx ->
  emitted WiseProcessor tx.
Proof. unfold _parse_wise_transaction. intros H. parser_emits H. Qed.

(** ** What the page loops collect *)

Section Loops.
Variable P : txn -> Prop.

Lemma Forall_omap_parse (parse : string -> option txn) (lines : list string) :
  (forall line tx, parse line = Some tx -> P tx) ->
  Forall P (omap parse lines).
Proof.
  intros Hparse. induction lines as [|l lines IH]; simpl; [constructor|].
  destruct (parse l) as [tx|] eqn:E; [constructor; eauto | exact IH].
Qed.

Lemma per_line_Forall (parse : string -> option txn) (text : string) :
  (forall line tx, parse line = Some tx -> P tx) ->
  Forall P (per_line parse text).
Proof.
  intros Hparse. unfold per_line. apply Forall_omap_parse.
  intros line tx. apply Hparse.
Qed.

Lemma section_lines_Forall (is_header is_stop : string -> bool) (gated : bool)
    (parse : string -> option txn) (inside : bool) (lines : list string) :
  (forall line tx, parse line = Some tx -> P tx) ->
  Forall P (section_lines is_header is_stop gated parse inside lines).
Proof.
  intros Hparse. revert inside.
  induction lines as [|raw lines IH]; intros inside; simpl; [constructor|].
  destruct (is_header (Py.strip raw)); [apply IH|].
  destruct (is_stop (Py.strip raw)); [apply IH|].
  destruct (inside || negb gated); [|apply IH].
  destruct (parse (Py.strip raw)) as [tx|] eqn:E; [|apply IH].
  constructor; [eauto | apply IH].
Qed.

Lemma for_pages_Forall (body : nat -> string -> list txn) (n : nat)
    (pgs : list string) :
  (forall n text, Forall P (body n text)) ->
  Forall P (for_pages body n pgs).
Proof.
  intros Hbody. revert n.
  induction pgs as [|text pgs IH]; intros n; simpl; [constructor|].
  apply Forall_app. split; [|apply IH].
  destruct (Py.nonempty text); [apply Hbody | constructor].
Qed.

Lemma extract_with_Forall (body : nat -> string -> list txn) (doc : pdf_doc) :
  (forall n text, Forall P (body n text)) ->
  Forall P (extract_with body doc).
Proof.
  intros Hbody. unfold extract_with.
  destruct (pages doc); [apply for_pages_Forall; exact Hbody | constructor].
Qed.
End Loops.

Lemma td_lines_emitted (section : option string) (page_num : nat)
    (lines : list string) :
  Forall (emitted TDProcessor) (td_lines section page_num lines).
Proof.
  revert section. induction lines as [|raw lines IH]; intros section; simpl;
    [constructor|].
  repeat (match goal with |- context [if ?c then _ else _] => destruct c end;
          [apply IH|]).
  destruct section as [sec|]; [|apply IH].
  destruct (_is_td_transaction _); [|apply IH].
  destruct (_parse_td_transaction _ _ _) as [tx|] eqn:E; [|apply IH].
  constructor; [exact (parse_td_emitted _ _ _ _ E) | apply IH].
Qed.

Lemma tangerine_lines_emitted (fuel : nat) (lines : list string) (page_num : nat)
    (inside : bool) (i : nat) :
  Forall (emitted TangerineProcessor) (tangerine_lines fuel lines page_num inside i).
Proof.
  revert inside i. induction fuel as [|fuel IH]; intros inside i; simpl;
    [constructor|].
  destruct (lines !! i) as [raw|]; [|constructor].
  repeat (match goal with |- context [if ?c then _ else _] => destruct c end;
          [apply IH|]).
  destruct (inside && _); [|apply IH].
  destruct (_parse_tangerine_multiline_transaction lines i page_num) as [[tx|] n] eqn:E;
    [|apply IH].
  constructor; [exact (parse_tangerine_multiline_emitted _ _ _ _ _ E) | apply IH].
Qed.

Lemma rbc_step_emitted (current_date : option string) (page_num : nat)
    (raw : string) (d : option string) (tx : txn) :
  rbc_step current_date page_num raw = (d, Some tx) -> emitted RBCBankProcessor tx.
Proof.
  unfold rbc_step. intros H. parser_cases H; injection H as _ H;
    try discriminate H; exact (parse_rbc_emitted _ _ _ _ H).
Qed.

Lemma rbc_lines_emitted (current_date : option string) (page_num : nat)
    (lines : list string) :
  Forall (emitted RBCBankProcessor) (rbc_lines current_date page_num lines).
Proof.
  revert current_date. induction lines as [|raw lines IH]; intros d; simpl;
    [constructor|].
  destruct (rbc_step d page_num raw) as [d' [tx|]] eqn:E; [|apply IH].
  constructor; [exact (rbc_step_emitted _ _ _ _ _ E) | apply IH].
Qed.

Lemma cibc_step_emitted (current_date : option string) (page_num : nat)
    (raw : string) (d : option string) (tx : txn) :
  cibc_step current_date page_num raw = (d, Some tx) -> emitted CIBCProcessor tx.
Proof.
  unfold cibc_step. intros H. parser_cases H; injection H as _ H;
    try discriminate H; exact (parse_cibc_emitted _ _ _ _ H).
Qed.

Lemma cibc_lines_emitted (current_date : option string) (page_num : nat)
    (lines : list string) :
  Forall (emitted CIBCProcessor) (cibc_lines current_date page_num lines).
Proof.
  revert current_date. induction lines as [|raw lines IH]; intros d; simpl;
    [constructor|].
  destruct (cibc_step d page_num raw) as [d' [tx|]] eqn:E; [|apply IH].
  constructor; [exact (cibc_step_emitted _ _ _ _ _ E) | apply IH].
Qed.

Lemma cibc_pages_emitted (n : nat) (pgs : list string) :
  Forall (emitted CIBCProcessor) (cibc_pages n pgs).
Proof.
  revert n. induction pgs as [|text pgs IH]; intros n; simpl; [constructor|].
  apply Forall_app. split; [|apply IH].
  destruct (Py.contains _ text); [apply cibc_lines_emitted | constructor].
Qed.

Lemma cibc_visa_lines_emitted (fuel : nat) (lines : list string) (page_num : nat)
    (inside : bool) (i : nat) :
  Forall (emitted CIBCVisaProcessor) (cibc_visa_lines fuel lines page_num inside i).
Proof.
  revert inside i. induction fuel as [|fuel IH]; intros inside i; simpl;
    [constructor|].
  destruct (lines !! i) as [raw|]; [|constructor].
  destruct (Py.contains "Trans Post" _ && _); [apply IH|].
  match goal with |- context [if ?c && _is_cibc_visa_transaction _ then _ else _] =>
    destruct (c && _is_cibc_visa_transaction (Py.strip raw)) end; [|apply IH].
  destruct (_parse_cibc_visa_multiline_transaction lines i page_num)
    as [[tx|] n] eqn:E; [|apply IH].
  constructor; [exact (parse_cibc_visa_emitted _ _ _ _ _ E) | apply IH].
Qed.

Lemma scotia_bank_lines_emitted (current_date : option string) (page_num : nat)
    (lines : list string) :
  Forall (emitted ScotiaBankProcessor) (scotia_bank_lines current_date page_num lines).
Proof.
  revert current_date. induction lines as [|raw lines IH]; intros d; simpl;
    [constructor|].
  destruct (_is_scotia_bank_transaction _); [|apply IH].
  destruct (_parse_scotia_bank_transaction _ _ _) as [tx|] eqn:E; [|apply IH].
  constructor; [exact (parse_scotia_bank_emitted _ _ _ _ E) | apply IH].
Qed.

Lemma wise_pages_emitted (period : option string) (n : nat) (pgs : list string) :
  Forall (emitted WiseProcessor) (wise_pages period n pgs).
Proof.
  revert period n. induction pgs as [|text pgs IH]; intros period n; simpl;
    [constructor|].
  destruct (negb (Py.nonempty text)); [apply IH|].
  apply Forall_app. split; [|apply IH].
  apply Forall_omap_parse. intros raw tx.
  destruct (_is_wise_transaction _); [|discriminate].
  apply parse_wise_emitted.
Qed.

Ltac gated_parse emits :=
  let line := fresh "line" in
  let tx := fresh "tx" in
  intros line tx;
  match goal with |- (if ?c then _ else _) = _ -> _ => destruct c end;
  [apply emits | discriminate].

(** Every record an extractor returns is one its parser builds. *)
Lemma extract_transactions_emitted (now : clock) (p : processor) (doc : pdf_doc) :
  Forall (emitted p) (extract_transactions now p doc).
Proof.
  destruct p; simpl.
  - apply extract_with_Forall; intros n text. apply section_lines_Forall.
    gated_parse parse_bmo_account_emitted.
  - apply extract_with_Forall; intros n text. apply per_line_Forall.
    gated_parse parse_bmo_emitted.
  - apply extract_with_Forall; intros n text. apply per_line_Forall.
    gated_parse parse_eq_emitted.
  - apply extract_with_Forall; intros n text. apply td_lines_emitted.
  - apply extract_with_Forall; intros n text. apply section_lines_Forall.
    gated_parse parse_td_credit_emitted.
  - apply extract_with_Forall; intros n text. apply tangerine_lines_emitted.
  - apply extract_with_Forall; intros n text. apply section_lines_Forall.
    gated_parse parse_tangerine_credit_emitted.
  - apply extract_with_Forall; intros n text. unfold rbc_page.
    destruct (Py.contains _ text); [apply rbc_lines_emitted | constructor].
  - apply extract_with_Forall; intros n text. apply per_line_Forall.
    gated_parse parse_rbc_visa_emitted.
  - apply extract_with_Forall; intros n text. apply section_lines_Forall.
    gated_parse parse_simplii_emitted.
  - apply extract_with_Forall; intros n text. apply cibc_visa_lines_emitted.
  - unfold cibc_extract_transactions.
    destruct (pages doc) as [[|first pgs]|]; try constructor.
    apply cibc_pages_emitted.
  - apply extract_with_Forall; intros n text. apply per_line_Forall.
    gated_parse parse_amex_emitted.
  - apply extract_with_Forall; intros n text. apply scotia_bank_lines_emitted.
  - apply extract_with_Forall; intros n text. apply per_line_Forall.
    gated_parse parse_scotia_emitted.
  - unfold wise_extract_transactions.
    destruct (pages doc); [apply wise_pages_emitted | constructor].
Qed.
(** ** The classification pass *)

Lemma has_key_false (k : string) (tx : txn) : has_key k tx = false <-> tx !! k = None.
Proof. unfold has_key. destruct (tx !! k); split; congruence. Qed.

(** The record after the pass, for a record with a bank name, a float amount
    and a float confidence. *)
Lemma classify_transaction_eq (tx : txn) (b : string) (a c : Q) :
  tx !! "bank" = Some (VStr b) ->
  tx !! "amount" = Some (VNum a) ->
  tx !! "confidence" = Some (VNum c) ->
  classify_transaction tx =
    Some (<["confidence_level" := VStr (if Qgeb c 0.9 then "high" else "medium")]>
         (<["processing_method" :=
              VStr (Py.replace " " "_" (Py.lower b) +:+ "_processor")]>
         (<["abs_amount" := VNum (Qabs a)]>
            (if negb (has_key "transaction_type" tx) || negb (has_key "is_spending" tx)
             then
               if _is_credit_card_bank b then
                 <["is_spending" := VBool (Qgtb a 0)]>
                   (<["transaction_type" :=
                        VStr (if Qgtb a 0 then "debit" else "credit")]> tx)
               else
                 <["is_spending" := VBool (Qltb a 0)]>
                   (<["transaction_type" :=
                        VStr (if Qltb a 0 then "debit" else "credit")]> tx)
             else tx)))).
Proof.
  intros Hb Ha Hc. unfold classify_transaction.
  rewrite Hb, Ha. cbn [mbind option_bind as_number abs_value].
  destruct (negb (has_key "transaction_type" tx) || negb (has_key "is_spending" tx));
    [destruct (_is_credit_card_bank b)|];
    cbn [mbind option_bind];
    rewrite !lookup_insert_ne by discriminate; rewrite Hc; reflexivity.
Qed.

Lemma classify_emitted (p : processor) (tx : txn) :
  emitted p tx -> exists tx', classify_transaction tx = Some tx'.
Proof.
  intros [Hb [a Ha] [c Hc] _]. rewrite (classify_transaction_eq _ _ _ _ Hb Ha Hc).
  eexists; reflexivity.
Qed.

Lemma mapM_classify_emitted (p : processor) (txs : list txn) :
  Forall (emitted p) txs -> exists txs', mapM classify_transaction txs = Some txs'.
Proof.
  intros H. apply (mapM_is_Some_2 classify_transaction).
  eapply Forall_impl; [exact H|]. intros tx Htx. exact (classify_emitted _ _ Htx).
Qed.

(** Once a processor is identified the pass never raises: the result is the
    list of the extracted records, each one classified. *)
Lemma process_document_identified (now : clock) (doc : pdf_doc) (p : processor) :
  identify_bank doc = Some p ->
  mapM classify_transaction (extract_transactions now p doc)
  = Some (transactions (process_document now doc))
  /\ error (process_document now doc) = None.
Proof.
  intros Hid. unfold process_document. rewrite Hid.
  destruct (mapM_classify_emitted p _ (extract_transactions_emitted now p doc))
    as [txs ->].
  split; reflexivity.
Qed.

Lemma process_document_unidentified (now : clock) (doc : pdf_doc) :
  identify_bank doc = None -> transactions (process_document now doc) = [].
Proof. intros Hid. unfold process_document. rewrite Hid. reflexivity. Qed.

(** The records of a result are, index by index, the classified records of
    the extractor. *)
Lemma process_document_lookup (now : clock) (doc : pdf_doc) (i : nat) (tx' : txn) :
  transactions (process_document now doc) !! i = Some tx' ->
  exists p tx,
    identify_bank doc = Some p /\
    extract_transactions now p doc !! i = Some tx /\
    emitted p tx /\
    classify_transaction tx = Some tx'.
Proof.
  intros Hi. destruct (identify_bank doc) as [p|] eqn:Hid.
  - destruct (process_document_identified now doc p Hid) as [HM _].
    apply mapM_Some in HM.
    destruct (Forall2_lookup_r _ _ _ _ _ HM Hi) as (tx & Htx & Hc).
    exists p, tx. split; [reflexivity|]. split; [exact Htx|]. split; [|exact Hc].
    exact (proj1 (Forall_lookup _ _) (extract_transactions_emitted now p doc) _ _ Htx).
  - rewrite (process_document_unidentified now doc Hid) in Hi. discriminate.
Qed.

Lemma process_document_lookup_l (now : clock) (doc : pdf_doc) (p : processor)
    (i : nat) (tx : txn) :
  identify_bank doc = Some p ->
  extract_transactions now p doc !! i = Some tx ->
  exists tx',
    transactions (process_document now doc) !! i = Some tx' /\
    classify_transaction tx = Some tx'.
Proof.
  intros Hid Hi.
  destruct (process_document_identified now doc p Hid) as [HM _].
  apply mapM_Some in HM.
  destruct (Forall2_lookup_l _ _ _ _ _ HM Hi) as (tx' & Htx' & Hc).
  exists tx'. split; assumption.
Qed.
(** ** C1: the sign-based default direction *)

Lemma classify_default (p : processor) (tx tx' : txn) (a : Q) :
  emitted p tx ->
  tx !! "transaction_type" = None \/ tx !! "is_spending" = None ->
  tx !! "amount" = Some (VNum a) ->
  classify_transaction tx = Some tx' ->
  let spending := if _is_credit_card_bank (bank_name p) then Qgtb a 0 else Qltb a 0 in
  direction_is tx' (if spending then "debit" else "credit") spending.
Proof.
  intros [Hb _ [c Hc] _] Hmissing Ha Hcl.
  rewrite (classify_transaction_eq _ _ _ _ Hb Ha Hc) in Hcl.
  assert (Hcond : negb (has_key "transaction_type" tx)
                  || negb (has_key "is_spending" tx) = true).
  { destruct Hmissing as [H|H]; apply has_key_false in H; rewrite H;
      [reflexivity | apply orb_true_r]. }
  rewrite Hcond in Hcl. injection Hcl as <-.
  destruct (_is_credit_card_bank (bank_name p)); cbv zeta; split;
    repeat (rewrite lookup_insert_ne by discriminate);
    try (rewrite lookup_insert_eq; reflexivity).
Qed.

(** C1. For a record whose extractor left [transaction_type] or [is_spending]
    unset: with a credit-card bank, a positive raw amount gives ['debit'] and
    [is_spending = True] and a negative one ['credit'] and [False]; with a
    deposit bank, a negative raw amount gives ['debit'] and [True] and a
    positive one ['credit'] and [False]. *)
Theorem C1_default_direction (now : clock) (doc : pdf_doc) (p : processor)
    (i : nat) (tx tx' : txn) (a : Q) :
  identify_bank doc = Some p ->
  extract_transactions now p doc !! i = Some tx ->
  tx !! "transaction_type" = None \/ tx !! "is_spending" = None ->
  tx !! "amount" = Some (VNum a) ->
  transactions (process_document now doc) !! i = Some tx' ->
  (_is_credit_card_bank (bank_name p) = true ->
     (0 < a -> direction_is tx' "debit" true) /\
     (a < 0 -> direction_is tx' "credit" false)) /\
  (_is_credit_card_bank (bank_name p) = false ->
     (a < 0 -> direction_is tx' "debit" true) /\
     (0 < a -> direction_is tx' "credit" false)).
Proof.
  intros Hid Hi Hmissing Ha Hi'.
  destruct (process_document_lookup_l now doc p i tx Hid Hi) as (tx'' & Hi'' & Hcl).
  rewrite Hi' in Hi''. injection Hi'' as <-.
  assert (Hem : emitted p tx).
  { exact (proj1 (Forall_lookup _ _) (extract_transactions_emitted now p doc) _ _ Hi). }
  pose proof (classify_default p tx tx' a Hem Hmissing Ha Hcl) as Hd.
  cbv zeta in Hd.
  split; intros Hcc; rewrite Hcc in Hd; split; intros Hsign.
  - apply Qgtb_gt in Hsign. rewrite Hsign in Hd. exact Hd.
  - assert (Hn : Qgtb a 0 = false).
    { apply Qltb_ge. apply Qlt_le_weak. exact Hsign. }
    rewrite Hn in Hd. exact Hd.
  - apply Qltb_lt in Hsign. rewrite Hsign in Hd. exact Hd.
  - assert (Hn : Qltb a 0 = false).
    { apply Qltb_ge. apply Qlt_le_weak. exact Hsign. }
    rewrite Hn in Hd. exact Hd.
Qed.

Lemma C1_default_direction_witness :
  direction_is (default ∅ (transactions (process_document clock0 eq_doc) !! 0%nat))
    "debit" true /\
  direction_is (default ∅ (transactions (process_document clock0 bmo_doc) !! 0%nat))
    "debit" true.
Proof.
  split.
  - refine (proj1 (proj2 (C1_default_direction clock0 eq_doc EQBankProcessor 0
        (default ∅ (extract_transactions clock0 EQBankProcessor eq_doc !! 0%nat))
        (default ∅ (transactions (process_document clock0 eq_doc) !! 0%nat))
        (-50.00) _ _ _ _ _) _) _).
    + vm_compute; reflexivity.
    + apply lookup_default. vm_compute; reflexivity.
    + left; vm_compute; reflexivity.
    + vm_compute; reflexivity.
    + apply lookup_default. vm_compute; reflexivity.
    + vm_compute; reflexivity.
    + vm_compute; reflexivity.
  - refine (proj1 (proj1 (C1_default_direction clock0 bmo_doc BMOProcessor 0
        (default ∅ (extract_transactions clock0 BMOProcessor bmo_doc !! 0%nat))
        (default ∅ (transactions (process_document clock0 bmo_doc) !! 0%nat))
        50.00 _ _ _ _ _) _) _).
    + vm_compute; reflexivity.
    + apply lookup_default. vm_compute; reflexivity.
    + left; vm_compute; reflexivity.
    + vm_compute; reflexivity.
    + apply lookup_default. vm_compute; reflexivity.
    + vm_compute; reflexivity.
    + vm_compute; reflexivity.
Defined.
(** ** C3: section-driven classification of TD lines *)

Lemma parse_td_direction (line : string) (page_num : nat) (section : string)
    (tx : txn) :
  _parse_td_transaction line page_num section = Some tx ->
  direction_is tx (if String.eqb section "debits" then "debit" else "credit")
    (String.eqb section "debits").
Proof.
  unfold _parse_td_transaction.
  destruct (Re.rmatch_ td_line_pattern line) as [m|]; [|discriminate].
  destruct (String.eqb_spec section "credits") as [->|Hc].
  - intros [= <-]. split; dict_lookups; reflexivity.
  - destruct (String.eqb section "debits"); intros [= <-];
      split; dict_lookups; reflexivity.
Qed.

Lemma td_lines_coherent (section : option string) (page_num : nat)
    (lines : list string) :
  Forall coherent (td_lines section page_num lines).
Proof.
  revert section. induction lines as [|raw lines IH]; intros section; simpl;
    [constructor|].
  repeat (match goal with |- context [if ?c then _ else _] => destruct c end;
          [apply IH|]).
  destruct section as [sec|]; [|apply IH].
  destruct (_is_td_transaction _); [|apply IH].
  destruct (_parse_td_transaction _ _ _) as [tx|] eqn:E; [|apply IH].
  constructor; [|apply IH].
  destruct (parse_td_direction _ _ _ _ E) as [Ht Hs].
  exists (String.eqb sec "debits"). split; assumption.
Qed.

(** A record that arrives with a coherent direction keeps it. *)
Lemma classify_keeps_direction (p : processor) (tx tx' : txn) :
  emitted p tx -> coherent tx -> classify_transaction tx = Some tx' ->
  tx' !! "transaction_type" = tx !! "transaction_type" /\
  tx' !! "is_spending" = tx !! "is_spending".
Proof.
  intros [Hb [a Ha] [c Hc] _] [b [Hs Ht]] Hcl.
  rewrite (classify_transaction_eq _ _ _ _ Hb Ha Hc) in Hcl.
  unfold has_key in Hcl. rewrite Hs, Ht in Hcl. cbn [negb orb] in Hcl.
  injection Hcl as <-.
  split; repeat (rewrite lookup_insert_ne by discriminate); reflexivity.
Qed.

(** One turn of the TD line loop on a heading and on another line. *)
Lemma td_lines_heading (current : option td_section) (page_num : nat)
    (raw : string) (rest : list string) (section : td_section) :
  td_heading raw = Some section ->
  td_lines (section_name <$> current) page_num (raw :: rest)
  = td_lines (Some (section_name section)) page_num rest.
Proof.
  unfold td_heading. cbn [td_lines]. cbv zeta.
  destruct (String.eqb_spec (Py.strip (Py.strip raw)) "Credits") as [Hc|Hc].
  - rewrite Hc. cbn [String.eqb Ascii.eqb orb]. intros [= <-]. reflexivity.
  - destruct (String.eqb (Py.strip (Py.strip raw)) "Debits").
    + intros [= <-]. reflexivity.
    + cbn [orb]. destruct (Py.contains "DAILY ACCOUNT ACTIVITY" (Py.strip raw));
        [intros [= <-]; reflexivity | discriminate].
Qed.

Lemma td_lines_line (current : option td_section) (page_num : nat)
    (raw : string) (rest : list string) :
  td_heading raw = None ->
  td_lines (section_name <$> current) page_num (raw :: rest)
  = match current with
    | Some section =>
        if _is_td_transaction (Py.strip raw) then
          match _parse_td_transaction (Py.strip raw) page_num (section_name section) with
          | Some transaction =>
              transaction :: td_lines (section_name <$> current) page_num rest
          | None => td_lines (section_name <$> current) page_num rest
          end
        else td_lines (section_name <$> current) page_num rest
    | None => td_lines (section_name <$> current) page_num rest
    end.
Proof.
  unfold td_heading. cbn [td_lines]. cbv zeta.
  destruct (String.eqb (Py.strip (Py.strip raw)) "Debits"); [discriminate|].
  destruct (String.eqb (Py.strip (Py.strip raw)) "Credits"); [discriminate|].
  cbn [orb].
  destruct (Py.contains "DAILY ACCOUNT ACTIVITY" (Py.strip raw)); [discriminate|].
  intros _. destruct current as [section|]; reflexivity.
Qed.

Lemma section_direction_of_parse (line : string) (page_num : nat)
    (section : td_section) (tx : txn) :
  _parse_td_transaction line page_num (section_name section) = Some tx ->
  section_direction section tx.
Proof.
  intros H. pose proof (parse_td_direction _ _ _ _ H) as Hd.
  destruct section; exact Hd.
Qed.

(** Every record of the line loop is the record of a line that is no
    heading, parsed under the section of the last heading above it. *)
Lemma td_lines_sound (lines : list string) :
  forall (current : option td_section) (page_num : nat) (tx : txn),
    In tx (td_lines (section_name <$> current) page_num lines) ->
    exists (before : list string) (raw : string) (after : list string)
           (section : td_section),
      lines = (before ++ raw :: after)%list /\
      td_heading raw = None /\
      section_after current before = Some section /\
      _parse_td_transaction (Py.strip raw) page_num (section_name section) = Some tx.
Proof.
  induction lines as [|raw lines IH]; intros current page_num tx Hin;
    [contradiction|].
  assert (Hlater : forall current',
             section_after current [raw] = current' ->
             In tx (td_lines (section_name <$> current') page_num lines) ->
             exists (before : list string) (raw0 : string) (after : list string)
                    (section : td_section),
               (raw :: lines = before ++ raw0 :: after)%list /\
               td_heading raw0 = None /\
               section_after current before = Some section /\
               _parse_td_transaction (Py.strip raw0) page_num (section_name section)
               = Some tx).
  { intros current' Hcur Hrest.
    destruct (IH current' page_num tx Hrest) as (before & raw0 & after & section
                                                  & -> & Hh & Hs & Hp).
    exists (raw :: before), raw0, after, section.
    split; [reflexivity|]. split; [exact Hh|]. split; [|exact Hp].
    unfold section_after in *. cbn [fold_left]. cbn [fold_left] in Hcur.
    rewrite Hcur. exact Hs. }
  destruct (td_heading raw) as [section|] eqn:Hraw.
  - rewrite (td_lines_heading current page_num raw lines section Hraw) in Hin.
    apply (Hlater (Some section)); [|exact Hin].
    unfold section_after. cbn [fold_left]. rewrite Hraw. reflexivity.
  - rewrite (td_lines_line current page_num raw lines Hraw) in Hin.
    assert (Hsame : section_after current [raw] = current).
    { unfold section_after. cbn [fold_left]. rewrite Hraw. reflexivity. }
    destruct current as [section|]; [|exact (Hlater None Hsame Hin)].
    destruct (_is_td_transaction (Py.strip raw));
      [|exact (Hlater (Some section) Hsame Hin)].
    destruct (_parse_td_transaction (Py.strip raw) page_num (section_name section))
      as [transaction|] eqn:Hp; [|exact (Hlater (Some section) Hsame Hin)].
    destruct Hin as [<-|Hin]; [|exact (Hlater (Some section) Hsame Hin)].
    exists [], raw, lines, section.
    split; [reflexivity|]. split; [exact Hraw|]. split; [reflexivity | exact Hp].
Qed.

(** Every line that is no heading and that parses is recorded, under the
    section of the last heading above it. *)
Lemma td_lines_complete (before : list string) :
  forall (current : option td_section) (page_num : nat) (raw : string)
         (after : list string) (section : td_section) (tx : txn),
    td_heading raw = None ->
    section_after current before = Some section ->
    _is_td_transaction (Py.strip raw) = true ->
    _parse_td_transaction (Py.strip raw) page_num (section_name section) = Some tx ->
    In tx (td_lines (section_name <$> current) page_num (before ++ raw :: after)).
Proof.
  induction before as [|line before IH];
    intros current page_num raw after section tx Hraw Hsection Hgate Hparse.
  - unfold section_after in Hsection. cbn [fold_left] in Hsection. subst current.
    cbn [app]. rewrite (td_lines_line (Some section) page_num raw after Hraw).
    rewrite Hgate, Hparse. left. reflexivity.
  - cbn [app]. unfold section_after in Hsection. cbn [fold_left] in Hsection.
    destruct (td_heading line) as [s|] eqn:Hline.
    + rewrite (td_lines_heading current page_num line _ s Hline).
      exact (IH (Some s) page_num raw after section tx Hraw Hsection Hgate Hparse).
    + rewrite (td_lines_line current page_num line _ Hline).
      pose proof (IH current page_num raw after section tx Hraw Hsection Hgate Hparse)
        as Hin.
      destruct current as [s|]; [|exact Hin].
      destruct (_is_td_transaction (Py.strip line)); [|exact Hin].
      destruct (_parse_td_transaction (Py.strip line) page_num (section_name s));
        [right; exact Hin | exact Hin].
Qed.

(** The records of a page loop are those of its pages with text. *)
Lemma for_pages_In (body : nat -> string -> list txn) (pgs : list string) :
  forall (first : nat) (tx : txn),
    In tx (for_pages body first pgs) <->
    exists (i : nat) (text : string),
      pgs !! i = Some text /\ Py.nonempty text = true /\
      In tx (body (first + i)%nat text).
Proof.
  induction pgs as [|page pgs IH]; intros first tx; cbn [for_pages].
  - split; [contradiction | intros (i & text & H & _); discriminate H].
  - rewrite in_app_iff, IH. split.
    + intros [Hhere|(i & text & Hi & Ht & Hin)].
      * exists 0%nat, page. destruct (Py.nonempty page) eqn:E; [|contradiction].
        rewrite Nat.add_0_r. repeat split; assumption.
      * exists (S i), text. rewrite Nat.add_succ_r. repeat split; assumption.
    + intros (i & text & Hi & Ht & Hin). destruct i as [|i].
      * left. injection Hi as ->. rewrite Ht. rewrite Nat.add_0_r in Hin. exact Hin.
      * right. exists i, text. rewrite Nat.add_succ_r in Hin.
        repeat split; assumption.
Qed.

Lemma td_parse_blank (page_num : nat) (section : string) :
  _parse_td_transaction (Py.strip "") page_num section = None.
Proof. reflexivity. Qed.

(** C3. In a TD statement the direction of a record is that of the heading
    above its line.  Every record of the extractor is the record of a line of
    some page, parsed under the section of the last heading above it on that
    page, and it is a debit with [is_spending = True] when that heading is
    [Debits], a credit with [is_spending = False] when it is [Credits]
    (or the title [DAILY ACCOUNT ACTIVITY]).  Conversely every transaction
    line below a heading is recorded with the direction of that heading,
    whatever the words of the line and its amount.  And [process_document]
    returns each TD record with the direction its extractor gave it. *)
Theorem C3_td_section_classification :
  (forall (doc : pdf_doc) (tx : txn),
     In tx (td_extract_transactions doc) ->
     exists (page_num : nat) (before : list string) (raw : string)
            (section : td_section),
       td_line_at doc page_num before raw /\
       td_heading raw = None /\
       active_section before = Some section /\
       _parse_td_transaction (Py.strip raw) page_num (section_name section) = Some tx /\
       section_direction section tx) /\
  (forall (doc : pdf_doc) (page_num : nat) (before : list string) (raw : string)
          (section : td_section) (tx : txn),
     td_line_at doc page_num before raw ->
     td_heading raw = None ->
     active_section before = Some section ->
     _is_td_transaction (Py.strip raw) = true ->
     _parse_td_transaction (Py.strip raw) page_num (section_name section) = Some tx ->
     In tx (td_extract_transactions doc) /\ section_direction section tx) /\
  (forall (now : clock) (doc : pdf_doc) (i : nat) (tx : txn),
     identify_bank doc = Some TDProcessor ->
     td_extract_transactions doc !! i = Some tx ->
     exists tx',
       transactions (process_document now doc) !! i = Some tx' /\
       tx' !! "transaction_type" = tx !! "transaction_type" /\
       tx' !! "is_spending" = tx !! "is_spending").
Proof.
  split; [|split].
  - intros doc tx Hin. unfold td_extract_transactions, extract_with in Hin.
    destruct (pages doc) as [pgs|] eqn:Hpages; [|contradiction].
    apply for_pages_In in Hin as (i & text & Hi & _ & Hin).
    unfold td_page in Hin.
    destruct (td_lines_sound _ None _ _ Hin)
      as (before & raw & after & section & Hlines & Hraw & Hsection & Hparse).
    exists (1 + i)%nat, before, raw, section.
    split; [|split; [exact Hraw|split; [exact Hsection|split; [exact Hparse|]]]].
    + exists pgs, text, after. split; [exact Hpages|]. split; [lia|].
      split; [|exact Hlines].
      replace (1 + i - 1)%nat with i by lia. exact Hi.
    + exact (section_direction_of_parse _ _ _ _ Hparse).
  - intros doc page_num before raw section tx
      (pgs & text & after & Hpages & Hnum & Hpage & Hlines) Hraw Hsection Hgate Hparse.
    split; [|exact (section_direction_of_parse _ _ _ _ Hparse)].
    unfold td_extract_transactions, extract_with. rewrite Hpages.
    apply for_pages_In. exists (page_num - 1)%nat, text.
    split; [exact Hpage|].
    replace (1 + (page_num - 1))%nat with page_num by lia.
    split.
    + destruct text as [|c text]; [|reflexivity]. exfalso.
      cbn in Hlines.
      destruct before as [|b [|b' before]]; cbn in Hlines;
        try discriminate Hlines.
      injection Hlines as <- _. rewrite td_parse_blank in Hparse.
      discriminate Hparse.
    + unfold td_page. rewrite Hlines.
      exact (td_lines_complete before None page_num raw after section tx
               Hraw Hsection Hgate Hparse).
  - intros now doc i tx Hid Hi.
    destruct (process_document_lookup_l now doc TDProcessor i tx Hid Hi)
      as (tx' & Hi' & Hcl).
    exists tx'. split; [exact Hi'|].
    assert (Hem : emitted TDProcessor tx).
    { exact (proj1 (Forall_lookup _ _)
               (extract_transactions_emitted now TDProcessor doc) _ _ Hi). }
    assert (Hco : coherent tx).
    { assert (Hall : Forall coherent (td_extract_transactions doc)).
      { apply extract_with_Forall. intros n text. apply td_lines_coherent. }
      exact (proj1 (Forall_lookup _ _) Hall _ _ Hi). }
    exact (classify_keeps_direction TDProcessor tx tx' Hem Hco Hcl).
Qed.

(** On [td_doc] the line below the [Debits] heading holds the words DEPOSIT
    REFUND and a positive amount, for which the default of a deposit account
    would be a credit; its record is a debit, in the extractor's list and in
    the result of [process_document]. *)
Lemma C3_td_section_classification_witness :
  (In (default ∅ (td_extract_transactions td_doc !! 0%nat))
      (td_extract_transactions td_doc) /\
   direction_is (default ∅ (td_extract_transactions td_doc !! 0%nat)) "debit" true) /\
  (exists tx',
     transactions (process_document clock0 td_doc) !! 0%nat = Some tx' /\
     tx' !! "transaction_type" = Some (VStr "debit") /\
     tx' !! "is_spending" = Some (VBool true)).
Proof.
  destruct C3_td_section_classification as (_ & Hline & Hkept). split.
  - apply (Hline td_doc 1%nat ["STATEMENT OF ACCOUNT"; "Debits"]
             "07/02 DEPOSIT REFUND 3,750.00" Debits).
    + exists ["STATEMENT OF ACCOUNT" +:+ nl +:+ "Debits" +:+ nl +:+
              "07/02 DEPOSIT REFUND 3,750.00" +:+ nl +:+ "Credits" +:+ nl +:+
              "07/03 SERVICE FEE WITHDRAWAL 10.00"],
             ("STATEMENT OF ACCOUNT" +:+ nl +:+ "Debits" +:+ nl +:+
              "07/02 DEPOSIT REFUND 3,750.00" +:+ nl +:+ "Credits" +:+ nl +:+
              "07/03 SERVICE FEE WITHDRAWAL 10.00"),
             ["Credits"; "07/03 SERVICE FEE WITHDRAWAL 10.00"].
      split; [reflexivity|]. split; [lia|]. split; vm_compute; reflexivity.
    + vm_compute; reflexivity.
    + vm_compute; reflexivity.
    + vm_compute; reflexivity.
    + vm_compute; reflexivity.
  - destruct (Hkept clock0 td_doc 0%nat
                (default ∅ (td_extract_transactions td_doc !! 0%nat)))
      as (tx' & H1 & H2 & H3).
    + vm_compute; reflexivity.
    + apply lookup_default. vm_compute; reflexivity.
    + exists tx'. split; [exact H1|]. split.
      * rewrite H2. vm_compute; reflexivity.
      * rewrite H3. vm_compute; reflexivity.
Defined.

(** ** C10: the invariant of the records of a result *)

(** C10. Every record of a result of [process_document] has
    [transaction_type], [is_spending], [abs_amount], [processing_method] and
    [confidence_level]; [abs_amount] is the absolute value of [amount];
    [transaction_type] is ['debit'] or ['credit']; and [is_spending] is true
    exactly when [transaction_type] is ['debit']. *)
Theorem C10_record_invariant (now : clock) (doc : pdf_doc) (i : nat) (tx : txn) :
  transactions (process_document now doc) !! i = Some tx ->
  record_invariant tx.
Proof.
  intros Hi.
  destruct (process_document_lookup now doc i tx Hi) as (p & tx0 & _ & _ & Hem & Hcl).
  destruct Hem as [Hb [a Ha] [c Hc] Hdir].
  rewrite (classify_transaction_eq _ _ _ _ Hb Ha Hc) in Hcl.
  destruct Hdir as [[Ht Hs] | [b [Hs Ht]]].
  - unfold has_key in Hcl. rewrite Ht, Hs in Hcl. cbn [negb orb] in Hcl.
    injection Hcl as <-.
    destruct (_is_credit_card_bank (bank_name p)).
    + exists a, (Qgtb a 0). do 2 eexists.
      repeat split; repeat (rewrite lookup_insert_ne by discriminate);
        first [ rewrite lookup_insert_eq; reflexivity | exact Ha ].
    + exists a, (Qltb a 0). do 2 eexists.
      repeat split; repeat (rewrite lookup_insert_ne by discriminate);
        first [ rewrite lookup_insert_eq; reflexivity | exact Ha ].
  - unfold has_key in Hcl. rewrite Ht, Hs in Hcl. cbn [negb orb] in Hcl.
    injection Hcl as <-.
    exists a, b. do 2 eexists.
    repeat split; repeat (rewrite lookup_insert_ne by discriminate);
      first [ rewrite lookup_insert_eq; reflexivity | assumption ].
Qed.

Lemma C10_record_invariant_witness :
  record_invariant (default ∅ (transactions (process_document clock0 td_doc) !! 0%nat))
  /\ record_invariant
       (default ∅ (transactions (process_document clock0 eq_doc) !! 0%nat)).
Proof.
  split.
  - apply (C10_record_invariant clock0 td_doc 0%nat).
    apply lookup_default. vm_compute; reflexivity.
  - apply (C10_record_invariant clock0 eq_doc 0%nat).
    apply lookup_default. vm_compute; reflexivity.
Defined.
(** ** C9: date normalisation on its own results *)

Lemma all_mm_dd_fixed : all_digits4 mm_dd_fixed_by_clean_date = true.
Proof. vm_compute. reflexivity. Qed.

Lemma digit_below_ten (c : ascii) :
  Py.is_digit c = true -> exists n : N, In n digits10 /\ c = ascii_of_N (48 + n).
Proof.
  unfold Py.is_digit, Py.in_range, Py.ord. intros H.
  apply andb_true_iff in H as [Hlo Hhi].
  apply N.leb_le in Hlo. apply N.leb_le in Hhi.
  exists (N_of_ascii c - 48)%N. split.
  - assert (Hlt : (N.to_nat (N_of_ascii c - 48) < 10)%nat) by lia.
    rewrite <- (N2Nat.id (N_of_ascii c - 48)).
    revert Hlt. generalize (N.to_nat (N_of_ascii c - 48)). intros k Hk.
    do 10 (destruct k as [|k];
           [cbv; repeat (first [left; reflexivity | right]) |]).
    lia.
  - replace (48 + (N_of_ascii c - 48))%N with (N_of_ascii c) by lia.
    symmetry. apply ascii_N_embedding.
Qed.

Lemma is_mm_dd_shape (s : string) :
  is_mm_dd s = true ->
  exists a b c d : N,
    (In a digits10 /\ In b digits10 /\ In c digits10 /\ In d digits10)
    /\ s = mm_dd a b c d.
Proof.
  destruct s as [|a [|b [|dash [|c [|d [|? ?]]]]]]; cbn [is_mm_dd]; try discriminate.
  intros H.
  apply andb_true_iff in H as [H Hd]. apply andb_true_iff in H as [H Hc].
  apply andb_true_iff in H as [H Hdash]. apply andb_true_iff in H as [Ha Hb].
  destruct (digit_below_ten a Ha) as (na & Hna & ->).
  destruct (digit_below_ten b Hb) as (nb & Hnb & ->).
  destruct (digit_below_ten c Hc) as (nc & Hnc & ->).
  destruct (digit_below_ten d Hd) as (nd & Hnd & ->).
  apply Ascii.eqb_eq in Hdash as ->.
  exists na, nb, nc, nd. split; [tauto | reflexivity].
Qed.

Lemma all_digits4_spec (f : N -> N -> N -> N -> bool) :
  all_digits4 f = true ->
  forall a b c d : N,
    In a digits10 -> In b digits10 -> In c digits10 -> In d digits10 ->
    f a b c d = true.
Proof.
  unfold all_digits4. intros H a b c d Ha Hb Hc Hd.
  rewrite forallb_forall in H. specialize (H a Ha).
  rewrite forallb_forall in H. specialize (H b Hb).
  rewrite forallb_forall in H. specialize (H c Hc).
  rewrite forallb_forall in H. exact (H d Hd).
Qed.

Lemma mm_dd_fixed (a b c d : N) :
  In a digits10 -> In b digits10 -> In c digits10 -> In d digits10 ->
  clean_date (mm_dd a b c d) = mm_dd a b c d.
Proof.
  intros Ha Hb Hc Hd.
  pose proof (all_digits4_spec mm_dd_fixed_by_clean_date all_mm_dd_fixed
                a b c d Ha Hb Hc Hd) as H.
  unfold mm_dd_fixed_by_clean_date in H.
  apply String.eqb_eq in H. exact H.
Qed.

(** C9, as the code has it.  Date normalisation is idempotent on every input
    that it brings to the canonical shape MM-DD: if [clean_date d] is two
    digits, a dash and two digits, then [clean_date (clean_date d)] is
    [clean_date d]. *)
Theorem C9_clean_date_idempotent_on_dates (d : string) :
  is_mm_dd (clean_date d) = true ->
  clean_date (clean_date d) = clean_date d.
Proof.
  intros H. destruct (is_mm_dd_shape _ H) as (a & b & c & e & (Ha & Hb & Hc & He) & ->).
  apply mm_dd_fixed; assumption.
Qed.

Lemma C9_clean_date_idempotent_witness :
  clean_date (clean_date "Sep 28 2024") = clean_date "Sep 28 2024".
Proof.
  apply (C9_clean_date_idempotent_on_dates "Sep 28 2024"). vm_compute; reflexivity.
Defined.

(** The claim fails on a dated string that no format of [clean_date] accepts:
    ["Jan 5, 2024"] is cut to ["Jan 5"], which a second pass reads as a date. *)
Lemma C9_counterexample :
  clean_date "Jan 5, 2024" = "Jan 5" /\
  clean_date (clean_date "Jan 5, 2024") = "01-05" /\
  clean_date (clean_date "Jan 5, 2024") <> clean_date "Jan 5, 2024".
Proof. vm_compute. repeat split; discriminate. Qed.
(** ** C5: opening-balance lines *)

Lemma startswith_app (p q s : string) :
  Py.startswith (p +:+ q) s = true -> Py.startswith p s = true.
Proof.
  revert s. induction p as [|a p IH]; intros s; simpl; [reflexivity|].
  destruct s as [|b s]; [discriminate|].
  intros H. apply andb_true_iff in H as [Hab H].
  rewrite Hab. simpl. apply IH. exact H.
Qed.

Lemma contains_app (p q s : string) :
  Py.contains (p +:+ q) s = true -> Py.contains p s = true.
Proof.
  induction s as [|b s IH]; cbn [Py.contains]; intros H.
  - apply orb_true_iff in H as [H|H]; [|discriminate].
    rewrite (startswith_app _ _ _ H). reflexivity.
  - apply orb_true_iff in H as [H|H].
    + rewrite (startswith_app _ _ _ H). reflexivity.
    + rewrite (IH H). apply orb_true_r.
Qed.

Lemma summary_line_of_opening_balance (line : string) :
  Py.contains "opening balance" (Py.lower line) = true ->
  TextBasedExtractor._is_summary_line line = true.
Proof.
  intros H. unfold TextBasedExtractor._is_summary_line, Py.any_in.
  cbn [existsb].
  rewrite (contains_app "opening" " balance" _ H).
  rewrite !orb_true_r. reflexivity.
Qed.

Lemma tangerine_record_fields (date description : string) (amount balance : Q)
    (page_num : nat) (ty : string) (sp : bool) :
  tangerine_record date description amount balance page_num ty sp !! "description"
  = Some (VStr description) /\
  tangerine_record date description amount balance page_num ty sp !! "amount"
  = Some (VNum amount).
Proof. unfold tangerine_record. split; dict_lookups; reflexivity. Qed.

Lemma any_in_opening (s : string) :
  Py.contains "opening balance" s = true ->
  Py.any_in ["opening balance"; "closing balance"] s = true.
Proof. intros H. unfold Py.any_in. cbn [existsb]. rewrite H. reflexivity. Qed.

Lemma Qeqb_false (a : Q) : Qeqb a 0 = false -> ~ a == 0.
Proof.
  unfold Qeqb. intros H Heq. apply Qeq_bool_iff in Heq. congruence.
Qed.

Lemma tangerine_single_opening (line : string) (page_num : nat) (tx : txn)
    (d : string) (a : Q) :
  _parse_tangerine_transaction line page_num = Some tx ->
  tx !! "description" = Some (VStr d) ->
  tx !! "amount" = Some (VNum a) ->
  Py.contains "opening balance" (Py.lower d) = true ->
  ~ a == 0.
Proof.
  unfold _parse_tangerine_transaction. intros H Hd Ha Hopen.
  destruct (Py.split line) as [|p0 [|p1 [|p2 [|p3 ps]]]]; try discriminate.
  cbv zeta in H.
  destruct (filter _ (p3 :: ps)) as [|a0 [|a1 amounts]]; try discriminate.
  match type of H with
  | (if Py.any_in _ (Py.lower ?desc) && Qeqb ?amt 0 then _ else _) = _ =>
      set (description := desc) in *; set (amount := amt) in *
  end.
  destruct (Py.any_in _ (Py.lower description) && Qeqb amount 0) eqn:Hskip;
    [discriminate|].
  assert (Hfields : tx !! "description" = Some (VStr description)
                    /\ tx !! "amount" = Some (VNum amount)).
  { parser_cases H; injection H as <-; apply tangerine_record_fields. }
  destruct Hfields as [Hd' Ha'].
  rewrite Hd in Hd'. injection Hd' as ->. rewrite Ha in Ha'. injection Ha' as ->.
  rewrite (any_in_opening _ Hopen) in Hskip. exact (Qeqb_false _ Hskip).
Qed.

Lemma tangerine_multiline_opening (lines : list string) (start_idx page_num : nat)
    (tx : txn) (n : nat) (d : string) (a : Q) :
  _parse_tangerine_multiline_transaction lines start_idx page_num = (Some tx, n) ->
  tx !! "description" = Some (VStr d) ->
  tx !! "amount" = Some (VNum a) ->
  Py.contains "opening balance" (Py.lower d) = true ->
  ~ a == 0.
Proof.
  unfold _parse_tangerine_multiline_transaction.
  destruct (_is_complete_tangerine_transaction _).
  - intros [= H _]. exact (tangerine_single_opening _ _ _ _ _ H).
  - match goal with
    | |- context [tangerine_lookahead ?f ?l ?i] => generalize (tangerine_lookahead f l i)
    end.
    intros look.
    match goal with
    | |- context [let '(d, f) := ?x in _] => generalize x
    end.
    intros [date_str first]. cbv beta iota zeta.
    generalize (look first). intros st.
    match goal with
    | |- context [if negb (truthy_str (la_description st)) && ?c then ?x else ?y] =>
        generalize (if negb (truthy_str (la_description st)) && c then x else y)
    end.
    intros description H Hd Ha Hopen.
    destruct date_str as [date_str|]; [|discriminate].
    destruct description as [description|]; [|discriminate].
    destruct (la_amount st) as [amount|]; [|discriminate].
    destruct (la_balance st) as [balance|]; [|discriminate].
    destruct (Py.nonempty date_str && Py.nonempty description); [|discriminate].
    destruct (Py.any_in _ (Py.lower description) && Qeqb amount 0) eqn:Hskip;
      [discriminate|].
    assert (Hfields : tx !! "description" = Some (VStr description)
                      /\ tx !! "amount" = Some (VNum amount)).
    { parser_cases H; injection H as <- _; apply tangerine_record_fields. }
    destruct Hfields as [Hd' Ha'].
    rewrite Hd in Hd'. injection Hd' as ->. rewrite Ha in Ha'. injection Ha' as ->.
    rewrite (any_in_opening _ Hopen) in Hskip. exact (Qeqb_false _ Hskip).
Qed.

Lemma rbc_line_opening (date line : string) (page_num : nat) :
  Py.contains "opening balance" (Py.lower line) = true ->
  _parse_rbc_transaction_line date line page_num = None.
Proof.
  intros H. unfold _parse_rbc_transaction_line.
  destruct (negb (Py.nonempty line) || _); [reflexivity|].
  assert (Hskip : Py.any_in rbc_skip_patterns (Py.lower line) = true).
  { unfold Py.any_in, rbc_skip_patterns. cbn [existsb]. rewrite H.
    rewrite !orb_true_r. reflexivity. }
  rewrite Hskip. reflexivity.
Qed.

Lemma startswith_contains (p q s : string) :
  Py.startswith (p +:+ q) s = true -> Py.contains q s = true.
Proof.
  revert s. induction p as [|a p IH]; intros s H.
  - change ("" +:+ q) with q in H.
    destruct s as [|b s]; cbn [Py.contains]; rewrite H; reflexivity.
  - destruct s as [|b s]; [discriminate H|].
    change (String a p +:+ q) with (String a (p +:+ q)) in H.
    cbn [Py.startswith] in H. apply andb_true_iff in H as [_ H].
    cbn [Py.contains]. rewrite (IH s H). apply orb_true_r.
Qed.

Lemma contains_suffix (p q s : string) :
  Py.contains (p +:+ q) s = true -> Py.contains q s = true.
Proof.
  induction s as [|b s IH]; cbn [Py.contains]; intros H.
  - apply orb_true_iff in H as [H|H]; [|discriminate].
    exact (startswith_contains p q "" H).
  - apply orb_true_iff in H as [H|H].
    + exact (startswith_contains p q (String b s) H).
    + change (Py.contains q (String b s))
        with (Py.startswith q (String b s) || Py.contains q s).
      rewrite (IH H). apply orb_true_r.
Qed.

Lemma any_in_member (k : string) (ks : list string) (s : string) :
  In k ks -> Py.contains k s = true -> Py.any_in ks s = true.
Proof.
  intros Hk Hs. unfold Py.any_in. apply existsb_exists. exists k. split; assumption.
Qed.

(** The keyword [k] of the list tested in the goal is found in the text. *)
Ltac any_in_by k H :=
  match goal with
  | |- context [Py.any_in ?ks ?s] =>
      let Hin := fresh "Hin" in
      assert (Hin : In k ks) by (cbn; repeat first [left; reflexivity | right]);
      rewrite (any_in_member k ks s Hin H); clear Hin
  end.

(** A text that names the opening balance holds the word [balance]. *)
Lemma names_balance (s : string) :
  names_opening_balance s = true -> Py.contains "balance" (Py.lower s) = true.
Proof. exact (contains_suffix "opening " "balance" (Py.lower s)). Qed.

Lemma rbc_step_opening (current_date : option string) (page_num : nat) (raw : string) :
  names_opening_balance (Py.strip raw) = true ->
  rbc_step current_date page_num raw = (current_date, None).
Proof.
  intros H. unfold rbc_step.
  destruct (negb (Py.nonempty (Py.strip raw))); [reflexivity|].
  any_in_by "balance" (names_balance _ H).
  reflexivity.
Qed.

Lemma cibc_step_opening (current_date : option string) (page_num : nat) (raw : string) :
  names_opening_balance (Py.strip raw) = true ->
  cibc_step current_date page_num raw = (current_date, None).
Proof.
  intros H. unfold cibc_step.
  destruct (negb (Py.nonempty (Py.strip raw))); [reflexivity|].
  any_in_by "balance" (names_balance _ H).
  reflexivity.
Qed.

Lemma cibc_line_opening (date line : string) (page_num : nat) :
  names_opening_balance line = true ->
  _parse_cibc_transaction_line date line page_num = None.
Proof.
  intros H. unfold _parse_cibc_transaction_line.
  destruct (negb (Py.nonempty line) || _); [reflexivity|].
  cbv zeta.
  any_in_by "opening balance" H.
  reflexivity.
Qed.

Lemma scotia_bank_gate_opening (line : string) :
  names_opening_balance line = true -> _is_scotia_bank_transaction line = false.
Proof.
  intros H. unfold _is_scotia_bank_transaction.
  any_in_by "opening balance" H.
  reflexivity.
Qed.

Lemma bmo_account_gate_opening (line : string) :
  names_opening_balance line = true -> _is_bmo_account_transaction line = false.
Proof.
  intros H. unfold _is_bmo_account_transaction.
  any_in_by "opening balance" H.
  reflexivity.
Qed.

Lemma scotia_gate_opening (line : string) :
  names_opening_balance line = true -> _is_scotia_transaction line = false.
Proof.
  intros H. unfold _is_scotia_transaction.
  any_in_by "balance" (names_balance _ H).
  reflexivity.
Qed.

Lemma td_credit_gate_opening (line : string) :
  names_opening_balance line = true -> _is_td_credit_transaction line = false.
Proof.
  intros H. unfold _is_td_credit_transaction.
  any_in_by "balance" (names_balance _ H).
  reflexivity.
Qed.

(** The BMO and Amex parsers test the description they have cut out. *)
Lemma bmo_description_opening (line : string) (page_num : nat) (tx : txn)
    (d : string) :
  _parse_bmo_transaction line page_num = Some tx ->
  tx !! "description" = Some (VStr d) ->
  names_opening_balance d = false.
Proof.
  unfold _parse_bmo_transaction. intros H Hd.
  cbv zeta in H.
  destruct (Re.rmatch_ _ line) as [m|]; [|discriminate H].
  destruct (Re.search bmo_amount_at_end _) as [amount_match|]; [|discriminate H].
  match type of H with
  | (if Py.any_in ?ks (Py.lower ?desc) then _ else _) = _ =>
      set (description := desc) in *; set (KS := ks) in *;
      destruct (Py.any_in KS (Py.lower description)) eqn:Hskip; [discriminate H|]
  end.
  injection H as <-.
  rewrite dict_lookup in Hd.
  cbn [last_binding String.eqb Ascii.eqb Bool.eqb fst snd] in Hd.
  injection Hd as <-.
  destruct (names_opening_balance description) eqn:E; [|reflexivity].
  assert (Hfound : Py.any_in KS (Py.lower description) = true)
    by (apply (any_in_member "balance"); [cbn; tauto | exact (names_balance _ E)]).
  rewrite Hfound in Hskip. discriminate Hskip.
Qed.

Lemma amex_description_opening (line : string) (page_num : nat) (tx : txn)
    (d : string) :
  _parse_amex_transaction line page_num = Some tx ->
  tx !! "description" = Some (VStr d) ->
  names_opening_balance d = false.
Proof.
  unfold _parse_amex_transaction. intros H Hd.
  cbv zeta in H.
  destruct (Re.rmatch_ _ line) as [m|]; [|discriminate H].
  match type of H with
  | (if Py.any_in ?ks (Py.lower ?desc) then _ else _) = _ =>
      set (description := desc) in *; set (KS := ks) in *;
      destruct (Py.any_in KS (Py.lower description)) eqn:Hskip; [discriminate H|]
  end.
  injection H as <-.
  rewrite dict_lookup in Hd.
  cbn [last_binding String.eqb Ascii.eqb Bool.eqb fst snd] in Hd.
  injection Hd as <-.
  destruct (names_opening_balance description) eqn:E; [|reflexivity].
  assert (Hfound : Py.any_in KS (Py.lower description) = true)
    by (apply (any_in_member "balance"); [cbn; tauto | exact (names_balance _ E)]).
  rewrite Hfound in Hskip. discriminate Hskip.
Qed.

(** The three passes of the generic text extractor. *)
Lemma single_line_opening (raw : string) (page_num : nat) :
  names_opening_balance (Py.strip raw) = true ->
  TextPipeline.single_line_record raw page_num = None.
Proof.
  intros H. unfold TextPipeline.single_line_record. cbv zeta.
  destruct (negb (Py.nonempty (Py.strip raw))); [reflexivity|].
  any_in_by "opening balance" H.
  reflexivity.
Qed.

Lemma multiline_opening (all_lines : list string) (page_num i : nat) (raw : string)
    (rest : list string) (used : gset nat) :
  names_opening_balance (Py.strip raw) = true ->
  TextPipeline.multiline_from all_lines page_num i (raw :: rest) used
  = TextPipeline.multiline_from all_lines page_num (S i) rest used.
Proof.
  intros H. cbn [TextPipeline.multiline_from]. cbv zeta.
  destruct (bool_decide (i ∈ used)); [reflexivity|].
  destruct (negb (Py.nonempty (Py.strip raw))); [reflexivity|].
  any_in_by "opening balance" H.
  reflexivity.
Qed.

(** A list whose first record has a description that names the opening
    balance. *)
Lemma first_record_names_opening_balance (records : list txn) (d : string) :
  (fun tx => tx !! "description") <$> head records = Some (Some (VStr d)) ->
  names_opening_balance d = true ->
  exists (tx : txn) (d : string),
    In tx records /\ tx !! "description" = Some (VStr d) /\
    names_opening_balance d = true.
Proof.
  destruct records as [|tx records]; [discriminate|].
  intros [= Hd] Hn. exists tx, d. split; [left; reflexivity|]. split; assumption.
Qed.

(** C5, as the code has it.  The extractors have no common rule for a line
    that names the opening balance.  The line loops and line parsers of RBC
    and CIBC, the transaction tests of Scotiabank, BMO Account, Scotia credit
    card and TD credit card, and the three passes of the generic text
    extractor discard every line that holds the phrase, whatever else it
    holds; the BMO and Amex parsers return no record whose description holds
    it.  The Tangerine parsers discard such a line only when its amount is
    zero: a Tangerine record whose description holds the phrase has a
    non-zero amount.  TD, EQ Bank, RBC Visa, Simplii, Wise, Tangerine credit
    card and CIBC Visa, and the OCR extractor, have no test on the phrase:
    each returns a record for a line of its grammar that holds the phrase and
    an amount, as Tangerine does for a non-zero amount. *)
Theorem C5_opening_balance_lines :
  (forall (current_date : option string) (page_num : nat) (raw : string),
     names_opening_balance (Py.strip raw) = true ->
     rbc_step current_date page_num raw = (current_date, None) /\
     cibc_step current_date page_num raw = (current_date, None)) /\
  (forall (date line : string) (page_num : nat),
     names_opening_balance line = true ->
     _parse_rbc_transaction_line date line page_num = None /\
     _parse_cibc_transaction_line date line page_num = None) /\
  (forall line : string,
     names_opening_balance line = true ->
     _is_scotia_bank_transaction line = false /\
     _is_bmo_account_transaction line = false /\
     _is_scotia_transaction line = false /\
     _is_td_credit_transaction line = false) /\
  (forall (line : string) (page_num : nat) (tx : txn) (d : string),
     _parse_bmo_transaction line page_num = Some tx
     \/ _parse_amex_transaction line page_num = Some tx ->
     tx !! "description" = Some (VStr d) ->
     names_opening_balance d = false) /\
  (forall (line : string) (rest : list string) (page_num : nat),
     names_opening_balance line = true ->
     TextBasedExtractor._extract_from_table_region (line :: rest) page_num
     = TextBasedExtractor._extract_from_table_region rest page_num) /\
  (forall (raw : string) (page_num : nat),
     names_opening_balance (Py.strip raw) = true ->
     TextPipeline.single_line_record raw page_num = None) /\
  (forall (all_lines : list string) (page_num i : nat) (raw : string)
          (rest : list string) (used : gset nat),
     names_opening_balance (Py.strip raw) = true ->
     TextPipeline.multiline_from all_lines page_num i (raw :: rest) used
     = TextPipeline.multiline_from all_lines page_num (S i) rest used) /\
  (forall (lines : list string) (start_idx page_num : nat) (tx : txn) (n : nat)
          (d : string) (a : Q),
     _parse_tangerine_multiline_transaction lines start_idx page_num = (Some tx, n) ->
     tx !! "description" = Some (VStr d) ->
     tx !! "amount" = Some (VNum a) ->
     names_opening_balance d = true ->
     ~ a == 0) /\
  (forall (line : string) (page_num : nat) (tx : txn) (d : string) (a : Q),
     _parse_tangerine_transaction line page_num = Some tx ->
     tx !! "description" = Some (VStr d) ->
     tx !! "amount" = Some (VNum a) ->
     names_opening_balance d = true ->
     ~ a == 0) /\
  Forall (fun entry : processor * pdf_doc =>
            exists (tx : txn) (d : string),
              In tx (extract_transactions clock0 entry.1 entry.2) /\
              tx !! "description" = Some (VStr d) /\
              names_opening_balance d = true)
    opening_balance_statements /\
  (exists (tx : txn) (d : string),
     In tx (OCRExtractor.extract_transactions_from_image unit id
              (OCRExtractor.Extractor (Some "poppler/bin")
                 (Some opening_balance_reader)) tt 1) /\
     tx !! "description" = Some (VStr d) /\
     names_opening_balance d = true).
Proof.
  split; [|split; [|split; [|split; [|split; [|split; [|split; [|split; [|split;
    [|split]]]]]]]]].
  - intros current_date page_num raw H. split.
    + exact (rbc_step_opening current_date page_num raw H).
    + exact (cibc_step_opening current_date page_num raw H).
  - intros date line page_num H. split.
    + exact (rbc_line_opening date line page_num H).
    + exact (cibc_line_opening date line page_num H).
  - intros line H. split; [|split; [|split]].
    + exact (scotia_bank_gate_opening line H).
    + exact (bmo_account_gate_opening line H).
    + exact (scotia_gate_opening line H).
    + exact (td_credit_gate_opening line H).
  - intros line page_num tx d [H|H] Hd.
    + exact (bmo_description_opening line page_num tx d H Hd).
    + exact (amex_description_opening line page_num tx d H Hd).
  - intros line rest page_num H.
    cbn [TextBasedExtractor._extract_from_table_region].
    rewrite (summary_line_of_opening_balance line H).
    destruct (TextBasedExtractor._is_header_line line); reflexivity.
  - exact single_line_opening.
  - exact multiline_opening.
  - exact tangerine_multiline_opening.
  - exact tangerine_single_opening.
  - unfold opening_balance_statements.
    repeat match goal with
           | |- Forall _ (_ :: _) => constructor
           | |- Forall _ [] => constructor
           end;
      first [ apply (first_record_names_opening_balance _ "Opening Balance");
              vm_compute; reflexivity
            | apply (first_record_names_opening_balance _ "Opening Balance payment");
              vm_compute; reflexivity ].
  - apply (first_record_names_opening_balance _ "Opening Balance");
      vm_compute; reflexivity.
Qed.

Lemma C5_opening_balance_lines_witness :
  rbc_step (Some "03-03") 1 "Opening Balance 664.54" = (Some "03-03", None) /\
  _is_scotia_bank_transaction "Opening Balance deposit 664.54" = false /\
  TextBasedExtractor._extract_from_table_region
    ["01/10/2021 Opening Balance $664.54"] 1 = [] /\
  ~ 5.00 == 0.
Proof.
  destruct C5_opening_balance_lines
    as (Hsteps & _ & Hgates & _ & Htable & _ & _ & Htangerine & _).
  split; [|split; [|split]].
  - apply (Hsteps (Some "03-03") 1%nat "Opening Balance 664.54").
    vm_compute; reflexivity.
  - apply (Hgates "Opening Balance deposit 664.54"). vm_compute; reflexivity.
  - rewrite (Htable "01/10/2021 Opening Balance $664.54" [] 1%nat).
    + reflexivity.
    + vm_compute; reflexivity.
  - apply (Htangerine ["01 Oct 2021 Opening Balance 5.00 664.54"] 0%nat 1%nat
             (default ∅ (fst (_parse_tangerine_multiline_transaction
                ["01 Oct 2021 Opening Balance 5.00 664.54"] 0 1)))
             (snd (_parse_tangerine_multiline_transaction
                ["01 Oct 2021 Opening Balance 5.00 664.54"] 0 1))
             "Opening Balance" 5.00).
    + apply parsed_pair. vm_compute; reflexivity.
    + vm_compute; reflexivity.
    + vm_compute; reflexivity.
    + vm_compute; reflexivity.
Defined.

(** The claim fails on a Tangerine statement: the line
    ["01 Oct 2021 Opening Balance 5.00 664.54"] has the phrase and two amount
    tokens, and it comes out of [process_document] as a record. *)
Lemma C5_counterexample :
  identify_bank tangerine_doc = Some TangerineProcessor /\
  length (transactions (process_document clock0 tangerine_doc)) = 1%nat /\
  (fun tx => (tx !! "description", tx !! "amount"))
    <$> transactions (process_document clock0 tangerine_doc)
  = [(Some (VStr "Opening Balance"), Some (VNum 5.00))].
Proof. vm_compute. repeat split; reflexivity. Qed.
(** ** C6: carry-forward dates of the RBC extractor *)






(** A line whose first date-like token has no month abbreviation leaves the
    carried date alone, and its record carries that date. *)
Example rbc_reference_number_keeps_date :
  (fun r => (fst r, (fun tx => tx !! "date") <$> snd r))
    (rbc_step (Some "03-03") 1 "REF 12345 XYZ STORE  20.00")
  = (Some "03-03", Some (Some (VStr "03-03"))).
Proof. vm_compute. reflexivity. Qed.

(** * Further properties of the code *)

(** * Further properties of the code *)

(** ** The orchestrator: outcomes, counts and what the pass changes *)

(** The record the pass builds from a record of processor [p]. *)
Lemma classified_fields (p : processor) (tx tx' : txn) :
  emitted p tx -> classify_transaction tx = Some tx' ->
  exists (a c : Q) (b : bool),
    tx !! "amount" = Some (VNum a) /\
    tx !! "confidence" = Some (VNum c) /\
    tx' = <["confidence_level" := VStr (if Qgeb c 0.9 then "high" else "medium")]>
          (<["processing_method" :=
               VStr (Py.replace " " "_" (Py.lower (bank_name p)) +:+ "_processor")]>
          (<["abs_amount" := VNum (Qabs a)]>
          (<["is_spending" := VBool b]>
          (<["transaction_type" := VStr (if b then "debit" else "credit")]> tx)))).
Proof.
  intros [Hb [a Ha] [c Hc] Hdir] Hcl.
  rewrite (classify_transaction_eq _ _ _ _ Hb Ha Hc) in Hcl.
  exists a, c.
  destruct Hdir as [[Ht Hs] | [b [Hs Ht]]];
    unfold has_key in Hcl; rewrite Ht, Hs in Hcl; cbn [negb orb] in Hcl;
    injection Hcl as <-.
  - destruct (_is_credit_card_bank (bank_name p)); eexists; repeat split;
      [exact Ha | exact Hc | exact Ha | exact Hc].
  - exists b. repeat split; [exact Ha | exact Hc |].
    do 3 f_equal.
    rewrite (insert_id tx "transaction_type") by exact Ht.
    rewrite insert_id by exact Hs. reflexivity.
Qed.

(** The result for a document that no processor claims, or that cannot be
    opened. *)
Lemma classified_coherent (p : processor) (tx tx' : txn) :
  emitted p tx -> classify_transaction tx = Some tx' -> coherent tx'.
Proof.
  intros Hem Hcl.
  destruct (classified_fields p tx tx' Hem Hcl) as (a & c & b & _ & _ & ->).
  exists b. split; repeat (rewrite lookup_insert_ne by discriminate);
    rewrite lookup_insert_eq; reflexivity.
Qed.

Lemma result_records_coherent (now : clock) (doc : pdf_doc) :
  Forall coherent (transactions (process_document now doc)).
Proof.
  apply Forall_lookup. intros i tx Hi.
  destruct (process_document_lookup now doc i tx Hi) as (p & tx0 & _ & _ & Hem & Hcl).
  exact (classified_coherent p tx0 tx Hem Hcl).
Qed.

(** In a list of records with a coherent direction, the debits and the
    credits partition the list and the spending records are the debits. *)
Lemma coherent_counts (txs : list txn) :
  Forall coherent txs ->
  (length (filter (fun tx => has_type "debit" tx = true) txs)
   + length (filter (fun tx => has_type "credit" tx = true) txs) = length txs)%nat /\
  filter (fun tx => is_spending_truthy tx = true) txs
  = filter (fun tx => has_type "debit" tx = true) txs.
Proof.
  induction 1 as [|tx txs [b [Hs Ht]] _ [IH1 IH2]]; [split; reflexivity|].
  rewrite !filter_cons.
  assert (Hd : has_type "debit" tx = b).
  { unfold has_type. rewrite Ht. destruct b; reflexivity. }
  assert (Hc : has_type "credit" tx = negb b).
  { unfold has_type. rewrite Ht. destruct b; reflexivity. }
  assert (Hsp : is_spending_truthy tx = b).
  { unfold is_spending_truthy. rewrite Hs. reflexivity. }
  rewrite IH2.
  destruct b; simpl in Hd, Hc, Hsp; repeat case_decide; try congruence;
    (split; [simpl; lia | reflexivity]).
Qed.

(** The envelope of a document whose bank is identified. *)
Lemma identified_envelope (now : clock) (doc : pdf_doc) (p : processor) :
  identify_bank doc = Some p ->
  processing_method (process_document now doc) = bank_name p +:+ "_processor" /\
  error (process_document now doc) = None /\
  bank (process_document now doc) = Some (bank_name p) /\
  length (transactions (process_document now doc))
  = length (extract_transactions now p doc).
Proof.
  intros Hid.
  destruct (process_document_identified now doc p Hid) as [HM He].
  pose proof (Forall2_length _ _ _ (proj1 (mapM_Some _ _ _) HM)) as Hlen.
  unfold process_document in *. rewrite Hid in *.
  destruct (mapM classify_transaction (extract_transactions now p doc)) as [txs|];
    [|discriminate He].
  simpl in *. repeat split. symmetry; exact Hlen.
Qed.

(** X1. [SmartDocumentProcessor.process_document] never takes its [except]
    branch.  For every document the result is either the [unidentified]
    envelope, with the error ['No suitable processor found'] and no record,
    or the success envelope of the identified processor, with no error, the
    processor's bank name and one record for each record the extractor
    returned. *)
Theorem process_document_never_fails (now : clock) (doc : pdf_doc) :
  match identify_bank doc with
  | None =>
      processing_method (process_document now doc) = "unidentified" /\
      error (process_document now doc) = Some "No suitable processor found" /\
      transactions (process_document now doc) = []
  | Some p =>
      processing_method (process_document now doc) = bank_name p +:+ "_processor" /\
      error (process_document now doc) = None /\
      bank (process_document now doc) = Some (bank_name p) /\
      length (transactions (process_document now doc))
      = length (extract_transactions now p doc)
  end.
Proof.
  destruct (identify_bank doc) as [p|] eqn:Hid.
  - exact (identified_envelope now doc p Hid).
  - unfold process_document. rewrite Hid. repeat split.
Qed.

(** X2. The summary counts of a success envelope agree with its records:
    [transaction_count] is the number of records, every record is counted
    either as a debit or as a credit, and [spending_transactions] lists
    exactly the debits, in order. *)
Theorem summary_counts_agree (now : clock) (doc : pdf_doc) (p : processor) :
  identify_bank doc = Some p ->
  let r := process_document now doc in
  exists (debits credits : nat),
    transaction_count r = Some (length (transactions r)) /\
    debit_count r = Some debits /\
    credit_count r = Some credits /\
    (debits + credits = length (transactions r))%nat /\
    spending_transactions r
    = Some (filter (fun tx => has_type "debit" tx = true) (transactions r)).
Proof.
  intros Hid r.
  pose proof (result_records_coherent now doc) as Hco. fold r in Hco.
  destruct (coherent_counts _ Hco) as [Hsum Hsp].
  destruct (process_document_identified now doc p Hid) as [HM _].
  subst r. unfold process_document in *. rewrite Hid in *.
  destruct (mapM classify_transaction (extract_transactions now p doc)) as [txs|];
    [|discriminate HM].
  simpl in *. do 2 eexists. repeat split; [exact Hsum | rewrite Hsp; reflexivity].
Qed.

Lemma summary_counts_agree_witness :
  exists (debits credits : nat),
    debit_count (process_document clock0 td_doc) = Some debits /\
    credit_count (process_document clock0 td_doc) = Some credits /\
    (debits + credits = length (transactions (process_document clock0 td_doc)))%nat.
Proof.
  destruct (summary_counts_agree clock0 td_doc TDProcessor) as (d & c & _ & Hd & Hc & Hs & _).
  - vm_compute. reflexivity.
  - exists d, c. repeat split; assumption.
Defined.

(** X3. A file that cannot be opened raises nowhere: every extractor returns
    an empty list for it, [identify_bank] returns [None], and the
    orchestrator answers with the [unidentified] envelope, as for a readable
    statement of an unknown bank. *)
Theorem unreadable_file_is_unidentified (now : clock) (fname : string) :
  (forall p : processor, extract_transactions now p (PdfDoc fname None) = []) /\
  identify_bank (PdfDoc fname None) = None /\
  process_document now (PdfDoc fname None)
  = {| processing_method := "unidentified"; transactions := []; confidence := "low";
       error := Some "No suitable processor found"; bank := None;
       transaction_count := None; debit_count := None; credit_count := None;
       spending_transactions := None; processing_time := None |}.
Proof.
  split; [intros p; destruct p; reflexivity | split; reflexivity].
Qed.

(** X4. The classification pass is idempotent on its results: run again on a
    record of a result, it returns the record unchanged. *)
Theorem classification_is_idempotent (now : clock) (doc : pdf_doc) (i : nat) (tx : txn) :
  transactions (process_document now doc) !! i = Some tx ->
  classify_transaction tx = Some tx.
Proof.
  intros Hi.
  destruct (process_document_lookup now doc i tx Hi) as (p & tx0 & _ & _ & Hem & Hcl).
  destruct (classified_fields p tx0 tx Hem Hcl) as (a & c & b & Ha & Hc & Htx).
  destruct Hem as [Hb _ _ _].
  assert (Hb' : tx !! "bank" = Some (VStr (bank_name p))).
  { rewrite Htx. repeat (rewrite lookup_insert_ne by discriminate). exact Hb. }
  assert (Ha' : tx !! "amount" = Some (VNum a)).
  { rewrite Htx. repeat (rewrite lookup_insert_ne by discriminate). exact Ha. }
  assert (Hc' : tx !! "confidence" = Some (VNum c)).
  { rewrite Htx. repeat (rewrite lookup_insert_ne by discriminate). exact Hc. }
  assert (Ht : tx !! "transaction_type" = Some (VStr (if b then "debit" else "credit"))).
  { rewrite Htx. repeat (rewrite lookup_insert_ne by discriminate).
    apply lookup_insert_eq. }
  assert (Hs : tx !! "is_spending" = Some (VBool b)).
  { rewrite Htx. repeat (rewrite lookup_insert_ne by discriminate).
    apply lookup_insert_eq. }
  assert (Hab : tx !! "abs_amount" = Some (VNum (Qabs a))).
  { rewrite Htx. repeat (rewrite lookup_insert_ne by discriminate).
    apply lookup_insert_eq. }
  assert (Hpm : tx !! "processing_method"
                = Some (VStr (Py.replace " " "_" (Py.lower (bank_name p)) +:+ "_processor"))).
  { rewrite Htx. repeat (rewrite lookup_insert_ne by discriminate).
    apply lookup_insert_eq. }
  assert (Hcl' : tx !! "confidence_level"
                 = Some (VStr (if Qgeb c 0.9 then "high" else "medium"))).
  { rewrite Htx. apply lookup_insert_eq. }
  rewrite (classify_transaction_eq _ _ _ _ Hb' Ha' Hc').
  unfold has_key. rewrite Ht, Hs. cbn [negb orb].
  rewrite (insert_id tx "abs_amount") by exact Hab.
  rewrite (insert_id tx "processing_method") by exact Hpm.
  rewrite insert_id by exact Hcl'. reflexivity.
Qed.

Lemma classification_is_idempotent_witness :
  classify_transaction (default ∅ (transactions (process_document clock0 bmo_doc) !! 0%nat))
  = Some (default ∅ (transactions (process_document clock0 bmo_doc) !! 0%nat)).
Proof.
  apply (classification_is_idempotent clock0 bmo_doc 0).
  apply lookup_default. vm_compute. reflexivity.
Defined.

(** The keys the pass writes. *)
Lemma classified_other_keys (p : processor) (tx tx' : txn) (k : string) :
  emitted p tx -> classify_transaction tx = Some tx' ->
  ~ In k ["transaction_type"; "is_spending"; "abs_amount"; "processing_method";
          "confidence_level"] ->
  tx' !! k = tx !! k.
Proof.
  intros Hem Hcl Hk.
  destruct (classified_fields p tx tx' Hem Hcl) as (a & c & b & _ & _ & ->).
  simpl in Hk.
  repeat (rewrite lookup_insert_ne by (intros E; apply Hk; tauto)). reflexivity.
Qed.

(** X5. The pass only writes the keys [transaction_type], [is_spending],
    [abs_amount], [processing_method] and [confidence_level]: record by
    record, every other key of an extracted record (its date, description,
    amount, page, bank, ...) reaches the result with the value the extractor
    gave it. *)
Theorem pass_keeps_extracted_fields (now : clock) (doc : pdf_doc) (p : processor)
    (i : nat) (tx : txn) (k : string) :
  identify_bank doc = Some p ->
  extract_transactions now p doc !! i = Some tx ->
  ~ In k ["transaction_type"; "is_spending"; "abs_amount"; "processing_method";
          "confidence_level"] ->
  exists tx', transactions (process_document now doc) !! i = Some tx' /\
              tx' !! k = tx !! k.
Proof.
  intros Hid Hi Hk.
  destruct (process_document_lookup_l now doc p i tx Hid Hi) as (tx' & Hi' & Hcl).
  exists tx'. split; [exact Hi'|].
  apply (classified_other_keys p); [|exact Hcl|exact Hk].
  exact (proj1 (Forall_lookup _ _) (extract_transactions_emitted now p doc) _ _ Hi).
Qed.

Lemma pass_keeps_extracted_fields_witness :
  exists tx', transactions (process_document clock0 eq_doc) !! 0%nat = Some tx' /\
              tx' !! "description" = Some (VStr "PRESTO FARE").
Proof.
  destruct (pass_keeps_extracted_fields clock0 eq_doc EQBankProcessor 0
              (default ∅ (extract_transactions clock0 EQBankProcessor eq_doc !! 0%nat))
              "description") as (tx' & H1 & H2).
  - vm_compute. reflexivity.
  - apply lookup_default. vm_compute. reflexivity.
  - simpl. intros H. repeat destruct H as [H|H]; try discriminate H. exact H.
  - exists tx'. split; [exact H1|]. rewrite H2. vm_compute. reflexivity.
Defined.

(** X6. Every record of a result names the bank of the envelope; its
    [processing_method] is that name in lower case with underscores for
    blanks, followed by [_processor]; and its [confidence_level] is ['high']
    exactly when its [confidence] is at least 0.9, ['medium'] otherwise. *)
Theorem record_metadata (now : clock) (doc : pdf_doc) (i : nat) (tx : txn) :
  transactions (process_document now doc) !! i = Some tx ->
  exists (p : processor) (c : Q),
    bank (process_document now doc) = Some (bank_name p) /\
    tx !! "bank" = Some (VStr (bank_name p)) /\
    tx !! "processing_method"
    = Some (VStr (Py.replace " " "_" (Py.lower (bank_name p)) +:+ "_processor")) /\
    tx !! "confidence" = Some (VNum c) /\
    tx !! "confidence_level" = Some (VStr (if Qgeb c 0.9 then "high" else "medium")).
Proof.
  intros Hi.
  destruct (process_document_lookup now doc i tx Hi) as (p & tx0 & Hid & _ & Hem & Hcl).
  destruct (classified_fields p tx0 tx Hem Hcl) as (a & c & b & Ha & Hc & Htx).
  exists p, c.
  destruct (identified_envelope now doc p Hid) as (_ & _ & Hbank & _).
  destruct Hem as [Hb _ _ _].
  split; [exact Hbank|].
  rewrite Htx.
  repeat split; repeat (rewrite lookup_insert_ne by discriminate);
    first [exact Hb | exact Hc | apply lookup_insert_eq].
Qed.

Lemma record_metadata_witness :
  exists (p : processor) (c : Q),
    bank (process_document clock0 td_doc) = Some (bank_name p) /\
    default ∅ (transactions (process_document clock0 td_doc) !! 0%nat) !! "bank"
    = Some (VStr (bank_name p)).
Proof.
  destruct (record_metadata clock0 td_doc 0
              (default ∅ (transactions (process_document clock0 td_doc) !! 0%nat)))
    as (p & c & H1 & H2 & _).
  - apply lookup_default. vm_compute. reflexivity.
  - exists p, c. split; assumption.
Defined.

(** ** What every extractor returns: pages, dates, descriptions *)

Ltac extracted_record :=
  split;
  [ eexists; dict_lookups; reflexivity
  | eexists; dict_lookups; reflexivity
  | dict_lookups; reflexivity
  | first
      [ intros Hcard; vm_compute in Hcard; discriminate Hcard
      | intros _; left; split; dict_lookups; reflexivity
      | intros _; right; eexists; split;
        [ dict_lookups; reflexivity
        | split; dict_lookups;
          repeat match goal with
                 | E : Qgtb _ _ = _ |- _ =>
                     unfold Re.group in E; cbv beta iota in E; rewrite E; clear E
                 end;
          reflexivity ] ] ].

Ltac parser_extracts H :=
  parser_cases H; injection H as <-; extracted_record.

Lemma parse_td_extracted (line : string) (page_num : nat) (section : string) (tx : txn) :
  _parse_td_transaction line page_num section = Some tx ->
  extracted TDProcessor page_num tx.
Proof.
  unfold _parse_td_transaction.
  destruct (Re.rmatch_ td_line_pattern line) as [m|]; [|discriminate].
  destruct (String.eqb section "credits"); [|destruct (String.eqb section "debits")];
    intros [= <-]; extracted_record.
Qed.

Lemma parse_tangerine_extracted (line : string) (page_num : nat) (tx : txn) :
  _parse_tangerine_transaction line page_num = Some tx ->
  extracted TangerineProcessor page_num tx.
Proof.
  unfold _parse_tangerine_transaction, tangerine_record. intros H. parser_extracts H.
Qed.

Lemma parse_tangerine_multiline_extracted (lines : list string)
    (start_idx page_num : nat) (tx : txn) (n : nat) :
  _parse_tangerine_multiline_transaction lines start_idx page_num = (Some tx, n) ->
  extracted TangerineProcessor page_num tx.
Proof.
  unfold _parse_tangerine_multiline_transaction.
  destruct (_is_complete_tangerine_transaction _).
  - intros [= H _]. exact (parse_tangerine_extracted _ _ _ H).
  - match goal with
    | |- context [tangerine_lookahead ?f ?l ?i] => generalize (tangerine_lookahead f l i)
    end.
    intros look.
    match goal with
    | |- context [let '(d, f) := ?x in _] => generalize x
    end.
    intros [date_str first]. cbv beta iota zeta.
    generalize (look first). intros st.
    match goal with
    | |- context [if negb (truthy_str (la_description st)) && ?c then ?a else ?b] =>
        generalize (if negb (truthy_str (la_description st)) && c then a else b)
    end.
    intros description.
    unfold tangerine_record.
    intros H. parser_cases H; injection H as <- _; extracted_record.
Qed.

Lemma parse_rbc_extracted (date line : string) (page_num : nat) (tx : txn) :
  _parse_rbc_transaction_line date line page_num = Some tx ->
  extracted RBCBankProcessor page_num tx.
Proof. unfold _parse_rbc_transaction_line. intros H. parser_extracts H. Qed.

Lemma parse_bmo_extracted (line : string) (page_num : nat) (tx : txn) :
  _parse_bmo_transaction line page_num = Some tx -> extracted BMOProcessor page_num tx.
Proof. unfold _parse_bmo_transaction. intros H. parser_extracts H. Qed.

Lemma parse_eq_extracted (now : clock) (line : string) (page_num : nat) (tx : txn) :
  _parse_eq_transaction now line page_num = Some tx ->
  extracted EQBankProcessor page_num tx.
Proof. unfold _parse_eq_transaction. intros H. parser_extracts H. Qed.

Lemma parse_rbc_visa_extracted (line : string) (page_num : nat) (tx : txn) :
  _parse_rbc_visa_transaction line page_num = Some tx ->
  extracted RBCVisaProcessor page_num tx.
Proof. unfold _parse_rbc_visa_transaction. intros H. parser_extracts H. Qed.

Lemma parse_amex_extracted (line : string) (page_num : nat) (tx : txn) :
  _parse_amex_transaction line page_num = Some tx -> extracted AmexProcessor page_num tx.
Proof. unfold _parse_amex_transaction. intros H. parser_extracts H. Qed.

Lemma parse_td_credit_extracted (line : string) (page_num : nat) (tx : txn) :
  _parse_td_credit_transaction line page_num = Some tx ->
  extracted TDCreditCardProcessor page_num tx.
Proof.
  unfold _parse_td_credit_transaction, card_direction. intros H. parser_extracts H.
Qed.

Lemma parse_tangerine_credit_extracted (line : string) (page_num : nat) (tx : txn) :
  _parse_tangerine_credit_transaction line page_num = Some tx ->
  extracted TangerineCreditCardProcessor page_num tx.
Proof.
  unfold _parse_tangerine_credit_transaction, card_direction. intros H.
  parser_extracts H.
Qed.

Lemma parse_simplii_extracted (line : string) (page_num : nat) (tx : txn) :
  _parse_simplii_transaction line page_num = Some tx ->
  extracted SimpliiProcessor page_num tx.
Proof.
  unfold _parse_simplii_transaction, card_direction. intros H. parser_extracts H.
Qed.

Lemma parse_bmo_account_extracted (line : string) (page_num : nat) (tx : txn) :
  _parse_bmo_account_transaction line page_num = Some tx ->
  extracted BMOAccountProcessor page_num tx.
Proof. unfold _parse_bmo_account_transaction. intros H. parser_extracts H. Qed.

Lemma parse_cibc_visa_extracted (lines : list string) (start_idx page_num : nat)
    (tx : txn) (n : nat) :
  _parse_cibc_visa_multiline_transaction lines start_idx page_num = (Some tx, n) ->
  extracted CIBCVisaProcessor page_num tx.
Proof.
  unfold _parse_cibc_visa_multiline_transaction, card_direction. intros H.
  parser_cases H; injection H as <- _; extracted_record.
Qed.

Lemma parse_cibc_extracted (date line : string) (page_num : nat) (tx : txn) :
  _parse_cibc_transaction_line date line page_num = Some tx ->
  extracted CIBCProcessor page_num tx.
Proof. unfold _parse_cibc_transaction_line. intros H. parser_extracts H. Qed.

Lemma parse_scotia_bank_extracted (line : string) (current_date : option string)
    (page_num : nat) (tx : txn) :
  _parse_scotia_bank_transaction line current_date page_num = Some tx ->
  extracted ScotiaBankProcessor page_num tx.
Proof. unfold _parse_scotia_bank_transaction. intros H. parser_extracts H. Qed.

Lemma parse_scotia_extracted (line : string) (page_num : nat) (tx : txn) :
  _parse_scotia_transaction line page_num = Some tx ->
  extracted ScotiaProcessor page_num tx.
Proof. unfold _parse_scotia_transaction. intros H. parser_extracts H. Qed.

Lemma parse_wise_extracted (line : string) (page_num : nat)
    (statement_period : option string) (tx : txn) :
  _parse_wise_transaction line page_num statement_period = Some tx ->
  extracted WiseProcessor page_num tx.
Proof. unfold _parse_wise_transaction. intros H. parser_extracts H. Qed.

(** The line loops of the processors that keep a state from one line to the
    next collect records of their parsers only. *)
Section LineLoops.
Variable P : txn -> Prop.
Variable page_num : nat.

Lemma td_lines_Forall (section : option string) (lines : list string) :
  (forall line sec tx, _parse_td_transaction line page_num sec = Some tx -> P tx) ->
  Forall P (td_lines section page_num lines).
Proof.
  intros Hparse. revert section.
  induction lines as [|raw lines IH]; intros section; simpl; [constructor|].
  repeat (match goal with |- context [if ?c then _ else _] => destruct c end;
          [apply IH|]).
  destruct section as [sec|]; [|apply IH].
  destruct (_is_td_transaction _); [|apply IH].
  destruct (_parse_td_transaction _ _ _) as [tx|] eqn:E; [|apply IH].
  constructor; [exact (Hparse _ _ _ E) | apply IH].
Qed.

Lemma tangerine_lines_Forall (fuel : nat) (lines : list string) (inside : bool)
    (i : nat) :
  (forall ls j tx n,
     _parse_tangerine_multiline_transaction ls j page_num = (Some tx, n) -> P tx) ->
  Forall P (tangerine_lines fuel lines page_num inside i).
Proof.
  intros Hparse. revert inside i.
  induction fuel as [|fuel IH]; intros inside i; simpl; [constructor|].
  destruct (lines !! i) as [raw|]; [|constructor].
  repeat (match goal with |- context [if ?c then _ else _] => destruct c end;
          [apply IH|]).
  destruct (inside && _); [|apply IH].
  destruct (_parse_tangerine_multiline_transaction lines i page_num) as [[tx|] n] eqn:E;
    [|apply IH].
  constructor; [exact (Hparse _ _ _ _ E) | apply IH].
Qed.

Lemma rbc_lines_Forall (current_date : option string) (lines : list string) :
  (forall date line tx,
     _parse_rbc_transaction_line date line page_num = Some tx -> P tx) ->
  Forall P (rbc_lines current_date page_num lines).
Proof.
  intros Hparse. revert current_date.
  induction lines as [|raw lines IH]; intros d; simpl; [constructor|].
  destruct (rbc_step d page_num raw) as [d' [tx|]] eqn:E; [|apply IH].
  constructor; [|apply IH].
  unfold rbc_step in E. parser_cases E; injection E as _ E;
    try discriminate E; exact (Hparse _ _ _ E).
Qed.

Lemma cibc_lines_Forall (current_date : option string) (lines : list string) :
  (forall date line tx,
     _parse_cibc_transaction_line date line page_num = Some tx -> P tx) ->
  Forall P (cibc_lines current_date page_num lines).
Proof.
  intros Hparse. revert current_date.
  induction lines as [|raw lines IH]; intros d; simpl; [constructor|].
  destruct (cibc_step d page_num raw) as [d' [tx|]] eqn:E; [|apply IH].
  constructor; [|apply IH].
  unfold cibc_step in E. parser_cases E; injection E as _ E;
    try discriminate E; exact (Hparse _ _ _ E).
Qed.

Lemma cibc_visa_lines_Forall (fuel : nat) (lines : list string) (inside : bool)
    (i : nat) :
  (forall ls j tx n,
     _parse_cibc_visa_multiline_transaction ls j page_num = (Some tx, n) -> P tx) ->
  Forall P (cibc_visa_lines fuel lines page_num inside i).
Proof.
  intros Hparse. revert inside i.
  induction fuel as [|fuel IH]; intros inside i; simpl; [constructor|].
  destruct (lines !! i) as [raw|]; [|constructor].
  destruct (Py.contains "Trans Post" _ && _); [apply IH|].
  match goal with |- context [if ?c && _is_cibc_visa_transaction _ then _ else _] =>
    destruct (c && _is_cibc_visa_transaction (Py.strip raw)) end; [|apply IH].
  destruct (_parse_cibc_visa_multiline_transaction lines i page_num)
    as [[tx|] n] eqn:E; [|apply IH].
  constructor; [exact (Hparse _ _ _ _ E) | apply IH].
Qed.

Lemma scotia_bank_lines_Forall (current_date : option string) (lines : list string) :
  (forall line d tx,
     _parse_scotia_bank_transaction line d page_num = Some tx -> P tx) ->
  Forall P (scotia_bank_lines current_date page_num lines).
Proof.
  intros Hparse. revert current_date.
  induction lines as [|raw lines IH]; intros d; simpl; [constructor|].
  destruct (_is_scotia_bank_transaction _); [|apply IH].
  destruct (_parse_scotia_bank_transaction _ _ _) as [tx|] eqn:E; [|apply IH].
  constructor; [exact (Hparse _ _ _ E) | apply IH].
Qed.
End LineLoops.

(** The page loops number the pages from [first] on. *)
Section PageLoops.
Variable Q : nat -> txn -> Prop.

Lemma on_pages_later (first count : nat) (tx : txn) :
  on_pages Q (S first) count tx -> on_pages Q first (S count) tx.
Proof. intros (n & Hn & H). exists n. split; [lia | exact H]. Qed.

Lemma on_pages_here (first count : nat) (tx : txn) :
  Q first tx -> on_pages Q first (S count) tx.
Proof. intros H. exists first. split; [lia | exact H]. Qed.

Lemma for_pages_on_pages (body : nat -> string -> list txn) (first : nat)
    (pgs : list string) :
  (forall n text, Forall (Q n) (body n text)) ->
  Forall (on_pages Q first (length pgs)) (for_pages body first pgs).
Proof.
  intros Hbody. revert first.
  induction pgs as [|text pgs IH]; intros first; simpl; [constructor|].
  apply Forall_app. split.
  - destruct (Py.nonempty text); [|constructor].
    eapply Forall_impl; [apply Hbody|]. intros tx. apply on_pages_here.
  - eapply Forall_impl; [apply IH|]. intros tx. apply on_pages_later.
Qed.

Lemma cibc_pages_on_pages (page_index : nat) (pgs : list string) :
  (forall n d lines, Forall (Q n) (cibc_lines d n lines)) ->
  Forall (on_pages Q (S page_index) (length pgs)) (cibc_pages page_index pgs).
Proof.
  intros Hbody. revert page_index.
  induction pgs as [|text pgs IH]; intros page_index; simpl; [constructor|].
  apply Forall_app. split.
  - destruct (Py.contains _ text); [|constructor].
    eapply Forall_impl; [apply Hbody|]. intros tx. apply on_pages_here.
  - eapply Forall_impl; [apply IH|]. intros tx. apply on_pages_later.
Qed.

Lemma wise_pages_on_pages (period : option string) (first : nat) (pgs : list string) :
  (forall n line d tx, _parse_wise_transaction line n d = Some tx -> Q n tx) ->
  Forall (on_pages Q first (length pgs)) (wise_pages period first pgs).
Proof.
  intros Hparse. revert period first.
  induction pgs as [|text pgs IH]; intros period first; simpl; [constructor|].
  destruct (negb (Py.nonempty text)).
  - eapply Forall_impl; [apply IH|]. intros tx. apply on_pages_later.
  - apply Forall_app. split.
    + apply Forall_omap_parse. intros raw tx.
      destruct (_is_wise_transaction _); [|discriminate].
      intros E. apply on_pages_here. exact (Hparse _ _ _ _ E).
    + eapply Forall_impl; [apply IH|]. intros tx. apply on_pages_later.
Qed.
End PageLoops.

Ltac gated_extracts parses :=
  let line := fresh "line" in
  let tx := fresh "tx" in
  intros line tx;
  match goal with |- (if ?c then _ else _) = _ -> _ => destruct c end;
  [apply parses | discriminate].

(** Every record an extractor returns was parsed from a line of one of the
    pages of the document. *)
Lemma extract_transactions_extracted (now : clock) (p : processor) (doc : pdf_doc)
    (pgs : list string) :
  pages doc = Some pgs ->
  Forall (on_pages (extracted p) 1 (length pgs)) (extract_transactions now p doc).
Proof.
  intros Hpages.
  destruct p; simpl; unfold extract_with, td_extract_transactions,
    tangerine_extract_transactions, rbc_extract_transactions,
    cibc_extract_transactions, wise_extract_transactions, extract_with;
    rewrite Hpages.
  - apply for_pages_on_pages; intros n text. apply section_lines_Forall.
    gated_extracts parse_bmo_account_extracted.
  - apply for_pages_on_pages; intros n text. apply per_line_Forall.
    gated_extracts parse_bmo_extracted.
  - apply for_pages_on_pages; intros n text. apply per_line_Forall.
    gated_extracts parse_eq_extracted.
  - apply for_pages_on_pages; intros n text. apply td_lines_Forall.
    intros line sec tx. apply parse_td_extracted.
  - apply for_pages_on_pages; intros n text. apply section_lines_Forall.
    gated_extracts parse_td_credit_extracted.
  - apply for_pages_on_pages; intros n text. apply tangerine_lines_Forall.
    intros ls j tx k. apply parse_tangerine_multiline_extracted.
  - apply for_pages_on_pages; intros n text. apply section_lines_Forall.
    gated_extracts parse_tangerine_credit_extracted.
  - apply for_pages_on_pages; intros n text. unfold rbc_page.
    destruct (Py.contains _ text); [|constructor].
    apply rbc_lines_Forall. intros d line tx. apply parse_rbc_extracted.
  - apply for_pages_on_pages; intros n text. apply per_line_Forall.
    gated_extracts parse_rbc_visa_extracted.
  - apply for_pages_on_pages; intros n text. apply section_lines_Forall.
    gated_extracts parse_simplii_extracted.
  - apply for_pages_on_pages; intros n text. apply cibc_visa_lines_Forall.
    intros ls j tx k. apply parse_cibc_visa_extracted.
  - destruct pgs as [|first pgs]; [constructor|].
    eapply Forall_impl.
    + apply (cibc_pages_on_pages (extracted CIBCProcessor)).
      intros n d lines. apply cibc_lines_Forall.
      intros d' line tx. apply parse_cibc_extracted.
    + intros tx (n & Hn & H). exists n. split; [simpl; lia | exact H].
  - apply for_pages_on_pages; intros n text. apply per_line_Forall.
    gated_extracts parse_amex_extracted.
  - apply for_pages_on_pages; intros n text. apply scotia_bank_lines_Forall.
    intros line d tx. apply parse_scotia_bank_extracted.
  - apply for_pages_on_pages; intros n text. apply per_line_Forall.
    gated_extracts parse_scotia_extracted.
  - apply wise_pages_on_pages. intros n line d tx. apply parse_wise_extracted.
Qed.

(** X7. Every record of a result has a [date] and a [description] that are
    strings and a [page] that is the 1-based number of a page of the
    document. *)
Theorem records_name_a_page_of_the_document (now : clock) (doc : pdf_doc)
    (pgs : list string) (i : nat) (tx : txn) :
  pages doc = Some pgs ->
  transactions (process_document now doc) !! i = Some tx ->
  exists (page_num : nat) (date description : string),
    (1 <= page_num <= length pgs)%nat /\
    tx !! "page" = Some (VInt (Z.of_nat page_num)) /\
    tx !! "date" = Some (VStr date) /\
    tx !! "description" = Some (VStr description).
Proof.
  intros Hpages Hi.
  destruct (process_document_lookup now doc i tx Hi) as (p & tx0 & _ & Hi0 & Hem & Hcl).
  pose proof (proj1 (Forall_lookup _ _)
                (extract_transactions_extracted now p doc pgs Hpages) _ _ Hi0)
    as (n & Hn & [[d Hd] [s Hs] Hp _]).
  exists n, d, s. split; [lia|].
  repeat split.
  - rewrite (classified_other_keys p tx0 tx "page" Hem Hcl); [exact Hp|].
    simpl. intros H. repeat destruct H as [H|H]; try discriminate H. exact H.
  - rewrite (classified_other_keys p tx0 tx "date" Hem Hcl); [exact Hd|].
    simpl. intros H. repeat destruct H as [H|H]; try discriminate H. exact H.
  - rewrite (classified_other_keys p tx0 tx "description" Hem Hcl); [exact Hs|].
    simpl. intros H. repeat destruct H as [H|H]; try discriminate H. exact H.
Qed.

Lemma records_name_a_page_of_the_document_witness :
  exists (page_num : nat) (date description : string),
    (1 <= page_num <= 1)%nat /\
    default ∅ (transactions (process_document clock0 bmo_doc) !! 0%nat) !! "page"
    = Some (VInt (Z.of_nat page_num)).
Proof.
  destruct (records_name_a_page_of_the_document clock0 bmo_doc
              ["BMO MasterCard" +:+ nl +:+ "Nov.3 Nov.8 AMAZON.CA TORONTO ON 50.00"] 0
              (default ∅ (transactions (process_document clock0 bmo_doc) !! 0%nat)))
    as (n & d & s & Hn & Hp & _).
  - reflexivity.
  - apply lookup_default. vm_compute. reflexivity.
  - exists n, d, s. split; assumption.
Defined.

(** X8. The CIBC account extractor never reads the first page: each of its
    records comes from page 2 or later. *)
Theorem cibc_skips_the_first_page (doc : pdf_doc) (tx : txn) :
  In tx (cibc_extract_transactions doc) ->
  exists page_num : nat,
    (2 <= page_num)%nat /\ tx !! "page" = Some (VInt (Z.of_nat page_num)).
Proof.
  unfold cibc_extract_transactions.
  destruct (pages doc) as [[|first pgs]|]; try contradiction.
  intros Hin.
  assert (Hall : Forall (on_pages (extracted CIBCProcessor) 2 (length pgs))
                   (cibc_pages 1 pgs)).
  { apply cibc_pages_on_pages. intros n d lines. apply cibc_lines_Forall.
    intros d' line tx'. apply parse_cibc_extracted. }
  rewrite List.Forall_forall in Hall.
  destruct (Hall tx Hin) as (n & Hn & [_ _ Hp _]).
  exists n. split; [lia | exact Hp].
Qed.

(** X9. With a credit-card processor (BMO, RBC Visa, Scotia Credit Card,
    Amex, Simplii, Wise, TD Credit Card, Tangerine Credit Card, CIBC Visa),
    whether the direction was set by the parser or by the pass, every record
    of the result is a debit, and spending, exactly when its amount is
    positive. *)
Theorem credit_card_direction_follows_sign (now : clock) (doc : pdf_doc)
    (p : processor) (i : nat) (tx : txn) :
  identify_bank doc = Some p ->
  _is_credit_card_bank (bank_name p) = true ->
  transactions (process_document now doc) !! i = Some tx ->
  exists a : Q,
    tx !! "amount" = Some (VNum a) /\
    direction_is tx (if Qgtb a 0 then "debit" else "credit") (Qgtb a 0).
Proof.
  intros Hid Hcard Hi.
  destruct (process_document_lookup now doc i tx Hi) as (p' & tx0 & Hid' & Hi0 & Hem & Hcl).
  rewrite Hid in Hid'. injection Hid' as <-.
  destruct (pages doc) as [pgs|] eqn:Hpages.
  2:{ unfold identify_bank in Hid. rewrite Hpages in Hid. discriminate Hid. }
  pose proof (proj1 (Forall_lookup _ _)
                (extract_transactions_extracted now p doc pgs Hpages) _ _ Hi0)
    as (n & _ & [_ _ _ Hrule]).
  destruct (Hem) as [_ [a Ha] _ _].
  assert (Ha' : tx !! "amount" = Some (VNum a)).
  { rewrite (classified_other_keys p tx0 tx "amount" Hem Hcl); [exact Ha|].
    simpl. intros H. repeat destruct H as [H|H]; try discriminate H. exact H. }
  exists a. split; [exact Ha'|].
  destruct (Hrule Hcard) as [[Ht Hs] | (a0 & Ha0 & Ht & Hs)].
  - pose proof (classify_default p tx0 tx a Hem (or_introl Ht) Ha Hcl) as Hd.
    cbv zeta in Hd. rewrite Hcard in Hd. exact Hd.
  - rewrite Ha in Ha0. injection Ha0 as <-.
    assert (Hco : coherent tx0).
    { exists (Qgtb a 0). split; assumption. }
    destruct (classify_keeps_direction p tx0 tx Hem Hco Hcl) as [Ht' Hs'].
    split; [rewrite Ht'; exact Ht | rewrite Hs'; exact Hs].
Qed.

Lemma credit_card_direction_follows_sign_witness :
  exists a : Q,
    default ∅ (transactions (process_document clock0 bmo_doc) !! 0%nat) !! "amount"
    = Some (VNum a) /\
    direction_is (default ∅ (transactions (process_document clock0 bmo_doc) !! 0%nat))
      (if Qgtb a 0 then "debit" else "credit") (Qgtb a 0).
Proof.
  apply (credit_card_direction_follows_sign clock0 bmo_doc BMOProcessor 0).
  - vm_compute. reflexivity.
  - vm_compute. reflexivity.
  - apply lookup_default. vm_compute. reflexivity.
Defined.

Lemma cibc_skips_the_first_page_witness :
  exists page_num : nat,
    (2 <= page_num)%nat /\
    default ∅ (cibc_extract_transactions cibc_doc !! 0%nat) !! "page"
    = Some (VInt (Z.of_nat page_num)).
Proof.
  apply (cibc_skips_the_first_page cibc_doc).
  apply In_lookup_default. vm_compute. reflexivity.
Defined.

(** ** The OCR path *)

Lemma parse_ocr_text_fields (text : string) (page_num : nat) (c : Q) (tx : txn) :
  OCRExtractor._parse_ocr_text text page_num c = Some tx ->
  exists description : string,
    tx !! "confidence" = Some (VNum (Float64.mul c 0.8)) /\
    tx !! "date"
    = Some (VStr (match OCRExtractor._extract_date text with
                  | Some d => if Py.nonempty d then d else "Unknown"
                  | None => "Unknown"
                  end)) /\
    tx !! "amount" = Some (VNum (default 0 (OCRExtractor._extract_amount text))) /\
    tx !! "description" = Some (VStr description) /\
    (5 <= String.length description)%nat /\
    tx !! "page" = Some (VInt (Z.of_nat page_num)) /\
    tx !! "extraction_method" = Some (VStr "ocr").
Proof.
  unfold OCRExtractor._parse_ocr_text.
  destruct (negb (truthy_str (OCRExtractor._extract_date text)) && _); [discriminate|].
  intros [= <-]. eexists.
  repeat split; try (dict_lookups; reflexivity).
  - dict_lookups. do 2 f_equal.
    destruct (OCRExtractor._extract_date text) as [d|]; [|reflexivity].
    simpl. destruct (Py.nonempty d); reflexivity.
  - unfold OCRExtractor._extract_description.
    match goal with |- context [if (?n <? 5)%nat then _ else _] =>
      destruct (Nat.ltb_spec n 5) as [Hlt|Hge] end; [simpl; lia | exact Hge].
Qed.

(** X10. Every record read from a page image is the record of one fragment
    of the reader's output: a fragment recognised with a confidence [c] above
    0.7, of more than three characters once stripped, that holds a date or an
    amount.  The record carries the float product of [c] and 0.8 as its
    confidence, the date found in the fragment (['Unknown'] when it has
    none), the amount found in it (0.0 when it has none), a description of at
    least five characters, the page number and the method ['ocr']. *)
Theorem ocr_records_come_from_confident_fragments (image : Type)
    (_preprocess_image : image -> image) (self : OCRExtractor.extractor image)
    (img : image) (page_num : nat) (tx : txn) :
  In tx (OCRExtractor.extract_transactions_from_image image _preprocess_image
           self img page_num) ->
  exists (readtext : OCRExtractor.reader image) (ocr_results : list (string * Q))
         (text : string) (c : Q) (description : string),
    OCRExtractor.ocr_reader self = Some readtext /\
    readtext (_preprocess_image img) = Some ocr_results /\
    In (text, c) ocr_results /\
    0.7 < c /\
    (3 < String.length (Py.strip text))%nat /\
    OCRExtractor._is_transaction_text text = true /\
    OCRExtractor._parse_ocr_text text page_num c = Some tx /\
    tx !! "confidence" = Some (VNum (Float64.mul c 0.8)) /\
    tx !! "date"
    = Some (VStr (match OCRExtractor._extract_date text with
                  | Some d => if Py.nonempty d then d else "Unknown"
                  | None => "Unknown"
                  end)) /\
    tx !! "amount" = Some (VNum (default 0 (OCRExtractor._extract_amount text))) /\
    tx !! "description" = Some (VStr description) /\
    (5 <= String.length description)%nat /\
    tx !! "page" = Some (VInt (Z.of_nat page_num)) /\
    tx !! "extraction_method" = Some (VStr "ocr").
Proof.
  unfold OCRExtractor.extract_transactions_from_image.
  destruct (OCRExtractor.ocr_reader self) as [readtext|] eqn:Hreader; [|contradiction].
  destruct (readtext (_preprocess_image img)) as [ocr_results|] eqn:Hread;
    [|contradiction].
  intros Hin.
  assert (H : exists (text : string) (c : Q),
             In (text, c) ocr_results /\ 0.7 < c /\
             (3 < String.length (Py.strip text))%nat /\
             OCRExtractor._is_transaction_text text = true /\
             OCRExtractor._parse_ocr_text text page_num c = Some tx).
  { clear Hread.
    induction ocr_results as [|[text c] rest IH]; simpl in Hin; [contradiction|].
    assert (Hrest : In tx (OCRExtractor.ocr_results_loop rest page_num) ->
                    exists (text0 : string) (c0 : Q),
                      In (text0, c0) ((text, c) :: rest) /\ 0.7 < c0 /\
                      (3 < String.length (Py.strip text0))%nat /\
                      OCRExtractor._is_transaction_text text0 = true /\
                      OCRExtractor._parse_ocr_text text0 page_num c0 = Some tx).
    { intros Hr. destruct (IH Hr) as (t0 & c0 & Hm & Hrem).
      exists t0, c0. split; [right; exact Hm | exact Hrem]. }
    destruct (Qgtb c 0.7) eqn:Hc; simpl in Hin; [|exact (Hrest Hin)].
    destruct (3 <? String.length (Py.strip text))%nat eqn:Hlen; simpl in Hin;
      [|exact (Hrest Hin)].
    destruct (OCRExtractor._is_transaction_text text) eqn:Htext; [|exact (Hrest Hin)].
    destruct (OCRExtractor._parse_ocr_text text page_num c) as [tx'|] eqn:E;
      [|exact (Hrest Hin)].
    destruct Hin as [<-|Hin]; [|exact (Hrest Hin)].
    exists text, c. split; [left; reflexivity|].
    split; [apply Qgtb_gt; exact Hc|].
    split; [apply Nat.ltb_lt; exact Hlen|].
    split; [exact Htext | exact E]. }
  destruct H as (text & c & Hm & Hc & Hlen & Htext & E).
  destruct (parse_ocr_text_fields text page_num c tx E) as (description & Hfields).
  exists readtext, ocr_results, text, c, description.
  split; [reflexivity|]. split; [exact Hread|].
  split; [exact Hm|]. split; [exact Hc|]. split; [exact Hlen|].
  split; [exact Htext|]. split; [exact E | exact Hfields].
Qed.

Lemma ocr_records_come_from_confident_fragments_witness :
  exists (text : string) (c : Q),
    In (text, c) (default [] (sample_reader tt)) /\
    0.7 < c /\
    default ∅ (OCRExtractor.extract_transactions_from_image unit id
                 (OCRExtractor.Extractor (Some "poppler/bin") (Some sample_reader))
                 tt 1 !! 0%nat) !! "confidence" = Some (VNum (Float64.mul c 0.8)).
Proof.
  destruct (ocr_records_come_from_confident_fragments unit id
              (OCRExtractor.Extractor (Some "poppler/bin") (Some sample_reader)) tt 1
              (default ∅ (OCRExtractor.extract_transactions_from_image unit id
                 (OCRExtractor.Extractor (Some "poppler/bin") (Some sample_reader))
                 tt 1 !! 0%nat)))
    as (readtext & ocr_results & text & c & description & Hreader & Hread & Hm & Hc
        & _ & _ & _ & Hconf & _).
  - apply In_lookup_default. vm_compute. reflexivity.
  - exists text, c. injection Hreader as <-. simpl in Hread. injection Hread as <-.
    split; [exact Hm|]. split; assumption.
Defined.

(** The product is the one of the floats: for a confidence of 0.9 the record
    carries 0.7200000000000001. *)
Example ocr_confidence_is_a_float_product :
  Float64.mul 0.9 0.8 = 6485183463413515 # 9007199254740992 /\
  0.72 < Float64.mul 0.9 0.8.
Proof. split; [vm_compute; reflexivity | reflexivity]. Qed.

(** X11. Reading a page image never raises and never invents records: with
    no reader, or a reader that raises, the list is empty; otherwise there
    are at most as many records as fragments recognised with a confidence
    above 0.7. *)
Theorem ocr_image_records_bounded (image : Type) (_preprocess_image : image -> image)
    (self : OCRExtractor.extractor image) (img : image) (page_num : nat) :
  match OCRExtractor.ocr_reader self with
  | None =>
      OCRExtractor.extract_transactions_from_image image _preprocess_image
        self img page_num = []
  | Some readtext =>
      match readtext (_preprocess_image img) with
      | None =>
          OCRExtractor.extract_transactions_from_image image _preprocess_image
            self img page_num = []
      | Some ocr_results =>
          (length (OCRExtractor.extract_transactions_from_image image
                     _preprocess_image self img page_num)
           <= length (filter (fun r => Qgtb r.2 0.7 = true) ocr_results))%nat
      end
  end.
Proof.
  unfold OCRExtractor.extract_transactions_from_image.
  destruct (OCRExtractor.ocr_reader self) as [readtext|]; [|reflexivity].
  destruct (readtext (_preprocess_image img)) as [ocr_results|]; [|reflexivity].
  induction ocr_results as [|[text c] rest IH]; simpl; [lia|].
  rewrite filter_cons. cbn [snd].
  destruct (Qgtb c 0.7) eqn:Hc; case_decide; try congruence; cbn [andb].
  - destruct (_ && OCRExtractor._is_transaction_text text); [|simpl; lia].
    destruct (OCRExtractor._parse_ocr_text text page_num c); simpl; lia.
  - exact IH.
Qed.

(** ** [DocumentProcessor]: detection and the three routes *)

Lemma firstn_firstn_min (A : Type) (n : nat) (l : list A) :
  firstn (Nat.min n (length (firstn n l))) (firstn n l) = firstn (Nat.min n (length l)) l.
Proof.
  assert (H1 : Nat.min n (length (firstn n l)) = Nat.min n (length l)).
  { rewrite length_firstn. lia. }
  rewrite H1, firstn_firstn. f_equal. lia.
Qed.

(** X12. Both detectors read the first three pages only: the bank that
    [identify_bank] returns and the type that [_detect_document_type] returns
    are those of the document cut after its third page. *)
Theorem detection_reads_three_pages (fname : string) (pgs : list string) :
  identify_bank (PdfDoc fname (Some pgs))
  = identify_bank (PdfDoc fname (Some (firstn 3 pgs))) /\
  DocumentProcessor._detect_document_type (PdfDoc fname (Some pgs))
  = DocumentProcessor._detect_document_type (PdfDoc fname (Some (firstn 3 pgs))).
Proof.
  split.
  - unfold identify_bank, sample_text. cbn [pages filename].
    rewrite firstn_firstn. reflexivity.
  - unfold DocumentProcessor._detect_document_type. cbn [pages].
    assert (Havg : DocumentProcessor.avg_text (firstn 3 pgs)
                   = DocumentProcessor.avg_text pgs).
    { unfold DocumentProcessor.avg_text, DocumentProcessor.sample_pages.
      rewrite firstn_firstn_min.
      assert (H1 : Nat.min 3 (length (firstn 3 pgs)) = Nat.min 3 (length pgs)).
      { rewrite length_firstn. lia. }
      rewrite H1. reflexivity. }
    rewrite Havg. reflexivity.
Qed.

Lemma total_text_blank (pgs : list string) :
  Forall (fun text => Py.strip text = EmptyString) pgs ->
  DocumentProcessor.total_text pgs = 0%nat.
Proof.
  induction 1 as [|text pgs Hb _ IH]; simpl; [reflexivity|].
  rewrite Hb, IH. destruct (Py.nonempty text); reflexivity.
Qed.

(** X13. A document whose sampled pages hold no text but blanks, and a
    document without any page, is classified [scanned_image], whatever
    follows the third page, and [process_document] answers with the OCR
    envelope. *)
Theorem blank_pages_are_scanned (image : Type)
    (convert_from_path : pdf_doc -> option (list image))
    (convert_page : pdf_doc -> nat -> option (list image))
    (_preprocess_image : image -> image) (self : OCRExtractor.extractor image)
    (fname : string) (pgs : list string) :
  Forall (fun text => Py.strip text = EmptyString) (firstn 3 pgs) ->
  let doc := PdfDoc fname (Some pgs) in
  DocumentProcessor._detect_document_type doc = "scanned_image" /\
  DocumentRoutes.process_document image convert_from_path convert_page
    _preprocess_image self doc
  = DocumentProcessor._process_scanned_pdf image convert_from_path
      _preprocess_image self doc.
Proof.
  intros Hblank doc.
  assert (Htype : DocumentProcessor._detect_document_type doc = "scanned_image").
  { unfold DocumentProcessor._detect_document_type, doc. cbn [pages].
    assert (Havg : DocumentProcessor.avg_text pgs == 0).
    { unfold DocumentProcessor.avg_text, DocumentProcessor.sample_pages.
      destruct (0 <? Nat.min 3 (length pgs))%nat; [|reflexivity].
      rewrite total_text_blank; [reflexivity|].
      destruct (Nat.le_ge_cases 3 (length pgs)) as [H|H].
      - rewrite Nat.min_l by exact H. exact Hblank.
      - rewrite Nat.min_r by exact H. rewrite firstn_all.
        rewrite firstn_all2 in Hblank by exact H. exact Hblank. }
    assert (H500 : Qgtb (DocumentProcessor.avg_text pgs) 500 = false).
    { apply Qltb_ge. rewrite Havg. discriminate. }
    assert (H100 : Qltb (DocumentProcessor.avg_text pgs) 100 = true).
    { apply Qltb_lt. rewrite Havg. reflexivity. }
    rewrite H500, H100. reflexivity. }
  split; [exact Htype|].
  unfold DocumentRoutes.process_document, DocumentProcessor.process_document.
  rewrite Htype. reflexivity.
Qed.

Lemma blank_pages_are_scanned_witness :
  DocumentProcessor._detect_document_type blank_doc = "scanned_image".
Proof.
  apply (blank_pages_are_scanned unit (fun _ => None) (fun _ _ => None) id
           (OCRExtractor.Extractor None None) "blank.pdf" [EmptyString; " "; nl]).
  repeat constructor.
Defined.

(** X14. A file that cannot be opened is classified [mixed] and the hybrid
    route reports the failure: [process_document] returns the
    [hybrid_failed] envelope, with an error, confidence ['low'] and no
    record. *)
Theorem unreadable_file_fails_on_hybrid_route (image : Type)
    (convert_from_path : pdf_doc -> option (list image))
    (convert_page : pdf_doc -> nat -> option (list image))
    (_preprocess_image : image -> image) (self : OCRExtractor.extractor image)
    (fname : string) :
  let r := DocumentRoutes.process_document image convert_from_path convert_page
             _preprocess_image self (PdfDoc fname None) in
  processing_method r = "hybrid_failed" /\
  transactions r = [] /\
  confidence r = "low" /\
  error r <> None.
Proof. cbv zeta. repeat split. discriminate. Qed.

Lemma mixed_pages_without_poppler (image : Type)
    (convert_page : pdf_doc -> nat -> option (list image))
    (_preprocess_image : image -> image) (self : OCRExtractor.extractor image)
    (doc : pdf_doc) (page_num : nat) (pgs : list string) :
  truthy_str (OCRExtractor.poppler_path self) = false ->
  DocumentRoutes.mixed_pages image convert_page _preprocess_image self doc page_num pgs
  = Some (text_of_long_pages page_num pgs).
Proof.
  intros Hp. revert page_num.
  induction pgs as [|text pgs IH]; intros page_num; simpl; [reflexivity|].
  unfold DocumentRoutes.mixed_page, long_page. rewrite Hp, IH.
  destruct (Py.nonempty text && _); reflexivity.
Qed.

(** X15. Without a rasteriser the hybrid route cannot fail once the file is
    open: the result is the [hybrid_extraction] envelope without error, and
    its records are those the text extractor finds on the pages with more
    than 200 characters; the shorter pages contribute nothing. *)
Theorem hybrid_route_without_rasteriser (image : Type)
    (convert_page : pdf_doc -> nat -> option (list image))
    (_preprocess_image : image -> image) (self : OCRExtractor.extractor image)
    (doc : pdf_doc) (pgs : list string) :
  truthy_str (OCRExtractor.poppler_path self) = false ->
  pages doc = Some pgs ->
  let r := DocumentRoutes._process_mixed_pdf image convert_page _preprocess_image
             self doc in
  processing_method r = "hybrid_extraction" /\
  error r = None /\
  transactions r = text_of_long_pages 1 pgs.
Proof.
  intros Hp Hpages. cbv zeta. unfold DocumentRoutes._process_mixed_pdf.
  rewrite Hpages, (mixed_pages_without_poppler _ _ _ _ _ _ _ Hp).
  repeat split.
Qed.

Lemma hybrid_route_without_rasteriser_witness :
  error (DocumentRoutes._process_mixed_pdf unit (fun _ _ => None) id
           (OCRExtractor.Extractor None None) blank_doc) = None.
Proof.
  apply (hybrid_route_without_rasteriser unit (fun _ _ => None) id
           (OCRExtractor.Extractor None None) blank_doc [EmptyString; " "; nl]);
    reflexivity.
Defined.

(** X16. On the hybrid route the pages are all or nothing: when the
    rasteriser raises on one short page, the result is the [hybrid_failed]
    envelope with no record, whatever the other pages held. *)
Theorem hybrid_route_fails_as_a_whole (image : Type)
    (convert_page : pdf_doc -> nat -> option (list image))
    (_preprocess_image : image -> image) (self : OCRExtractor.extractor image)
    (doc : pdf_doc) (pgs : list string) (i : nat) (text : string) :
  truthy_str (OCRExtractor.poppler_path self) = true ->
  pages doc = Some pgs ->
  pgs !! i = Some text ->
  long_page text = false ->
  convert_page doc (S i) = None ->
  DocumentRoutes._process_mixed_pdf image convert_page _preprocess_image self doc
  = DocumentRoutes.hybrid_failed.
Proof.
  intros Hp Hpages Hi Hshort Hraise. unfold DocumentRoutes._process_mixed_pdf.
  rewrite Hpages.
  assert (Hnone : forall first,
             convert_page doc (first + i)%nat = None ->
             DocumentRoutes.mixed_pages image convert_page _preprocess_image
               self doc first pgs = None).
  { clear Hpages Hraise. revert i Hi.
    induction pgs as [|t pgs IH]; intros i Hi first Hraise; [discriminate Hi|].
    simpl. destruct i as [|i]; simpl in Hi.
    - injection Hi as ->. rewrite Nat.add_0_r in Hraise.
      unfold DocumentRoutes.mixed_page. unfold long_page in Hshort.
      rewrite Hshort, Hp, Hraise. reflexivity.
    - rewrite (IH i Hi (S first)) by (rewrite <- Hraise; f_equal; lia).
      destruct (DocumentRoutes.mixed_page _ _ _ _ _ _ _); reflexivity. }
  rewrite (Hnone 1%nat) by exact Hraise. reflexivity.
Qed.

Lemma hybrid_route_fails_as_a_whole_witness :
  DocumentRoutes._process_mixed_pdf unit (fun _ _ => None) id
    (OCRExtractor.Extractor (Some "poppler/bin") None) blank_doc
  = DocumentRoutes.hybrid_failed.
Proof.
  apply (hybrid_route_fails_as_a_whole unit (fun _ _ => None) id
           (OCRExtractor.Extractor (Some "poppler/bin") None) blank_doc
           [EmptyString; " "; nl] 1 " "); reflexivity.
Defined.

(** ** The generic text extractor *)

Lemma table_regions_from_spec (all_lines prefix current rest : list string)
    (current_region : list string) (i : nat) :
  all_lines = (prefix ++ current ++ rest)%list ->
  i = (length prefix + length current)%nat ->
  current_region = map Py.strip current ->
  Forall (fun line => TextPipeline._is_table_like_line line = true
                      /\ Py.nonempty line = true) current_region ->
  Forall (region_of all_lines)
    (TextPipeline.table_regions_from (length all_lines) i current_region rest).
Proof.
  revert prefix current current_region i.
  induction rest as [|raw rest IH]; intros prefix current current_region i Hall Hi Hcur Htab.
  - simpl. unfold TextPipeline.keep_region.
    destruct current_region as [|l0 ls] eqn:Ecur; [constructor|].
    rewrite <- Ecur in *.
    destruct (Nat.leb_spec 2 (length current_region)) as [H2|H2]; [|constructor].
    constructor; [|constructor].
    assert (Hlen : length current_region = length current).
    { rewrite Hcur. apply length_map. }
    exists (length prefix). cbn [TextPipeline.region_at TextPipeline.start_line
      TextPipeline.end_line TextPipeline.lines TextPipeline.text].
    rewrite Hall, !length_app, app_nil_r in *. simpl.
    repeat split.
    + lia.
    + f_equal. lia.
    + lia.
    + rewrite Ecur. discriminate.
    + rewrite skipn_app, Nat.sub_diag, skipn_all, app_nil_l, skipn_O.
      rewrite Hlen, firstn_all. exact Hcur.
    + exact Htab.
    + left. exact H2.
  - assert (Hlen : length current_region = length current).
    { rewrite Hcur. apply length_map. }
    assert (Hregion : current_region <> [] ->
              ((2 <= length current_region)%nat \/ Py.strip raw = EmptyString) ->
              region_of all_lines (TextPipeline.region_at current_region i)).
    { intros Hne Hshape. exists (length prefix).
      cbn [TextPipeline.region_at TextPipeline.start_line
        TextPipeline.end_line TextPipeline.lines TextPipeline.text].
      repeat split.
      - lia.
      - f_equal. lia.
      - rewrite Hall, !length_app. simpl. lia.
      - exact Hne.
      - rewrite Hall, skipn_app, Nat.sub_diag, skipn_all, app_nil_l, skipn_O.
        rewrite Hlen, firstn_app, Nat.sub_diag, firstn_all, firstn_O, app_nil_r.
        exact Hcur.
      - exact Htab.
      - destruct Hshape as [H2|Hblank]; [left; exact H2 | right].
        exists raw. split; [|exact Hblank].
        rewrite Hall, Hlen.
        rewrite lookup_app_r by lia.
        rewrite Nat.add_comm, Nat.add_sub.
        rewrite lookup_app_r by lia. rewrite Nat.sub_diag. reflexivity. }
    assert (Hnext : Forall (region_of all_lines)
              (TextPipeline.table_regions_from (length all_lines) (S i) [] rest)).
    { apply (IH (prefix ++ current ++ [raw])%list [] []).
      - rewrite Hall, <- !app_assoc. reflexivity.
      - rewrite !length_app. simpl. lia.
      - reflexivity.
      - constructor. }
    simpl.
    destruct (Py.nonempty (Py.strip raw)) eqn:Hraw; simpl.
    + destruct (TextPipeline._is_table_like_line (Py.strip raw)) eqn:Hlike.
      * apply (IH prefix (current ++ [raw])%list).
        -- rewrite Hall, <- app_assoc. reflexivity.
        -- rewrite length_app. simpl. lia.
        -- rewrite map_app, Hcur. reflexivity.
        -- apply Forall_app. split; [exact Htab|].
           constructor; [split; assumption | constructor].
      * apply Forall_app. split; [|exact Hnext].
        unfold TextPipeline.keep_region.
        destruct current_region as [|l0 ls] eqn:Ecur; [constructor|].
        rewrite <- Ecur in *.
        destruct (Nat.leb_spec 2 (length current_region)) as [H2|H2]; [|constructor].
        constructor; [|constructor].
        apply Hregion; [rewrite Ecur; discriminate | left; exact H2].
    + destruct current_region as [|l0 ls] eqn:Ecur; [exact Hnext|].
      rewrite <- Ecur in *.
      constructor; [|exact Hnext].
      apply Hregion; [rewrite Ecur; discriminate | right].
      destruct (Py.strip raw); [reflexivity | discriminate Hraw].
Qed.

(** X17. The regions that [_detect_table_regions] returns are cut out of the
    page: the lines of a region are the stripped lines [start_line] to
    [end_line - 1] of the text, none of them blank and each one table-like;
    [text] joins them with newlines; and a region has at least two lines
    unless a blank line closes it. *)
Theorem table_regions_are_runs_of_lines (text : string) :
  Forall (region_of (Py.splitlines_nl text)) (TextPipeline._detect_table_regions text).
Proof.
  unfold TextPipeline._detect_table_regions.
  apply (table_regions_from_spec _ [] []); [reflexivity..|constructor].
Qed.

Lemma fold_bonus (test : string -> bool) (keywords : list string) (score : Z) :
  (score <= fold_left (fun score keyword =>
                         if test keyword then score + 2 else score) keywords score
   <= score + 2 * Z.of_nat (length keywords))%Z.
Proof.
  revert score. induction keywords as [|k ks IH]; intros score; simpl; [lia|].
  destruct (test k).
  - specialize (IH (score + 2)%Z). lia.
  - specialize (IH score). lia.
Qed.

Lemma fold_penalty (test : string -> bool) (keywords : list string) (score : Z) :
  (score - 3 * Z.of_nat (length keywords)
   <= fold_left (fun score keyword =>
                   if test keyword then score - 3 else score) keywords score
   <= score)%Z.
Proof.
  revert score. induction keywords as [|k ks IH]; intros score; simpl; [lia|].
  destruct (test k).
  - specialize (IH (score - 3)%Z). lia.
  - specialize (IH score). lia.
Qed.

Lemma fold_no_penalty (test : string -> bool) (keywords : list string) (score : Z) :
  existsb test keywords = false ->
  fold_left (fun score keyword =>
               if test keyword then (score - 3)%Z else score) keywords score = score.
Proof.
  revert score. induction keywords as [|k ks IH]; intros score; simpl; [reflexivity|].
  intros H. apply orb_false_iff in H as [Hk Hks]. rewrite Hk. apply IH. exact Hks.
Qed.

Lemma filter_all (A : Type) (test : A -> bool) (l : list A) :
  Forall (fun x => test x = true) l ->
  length (filter (fun x => test x = true) l) = length l.
Proof.
  induction 1 as [|x l Hx _ IH]; [reflexivity|].
  rewrite filter_cons. rewrite decide_True by exact Hx. simpl. f_equal. exact IH.
Qed.

(** X18. The score of a region lies between 0 and 24.  A region of at least
    three lines, each with a date and an amount, whose text holds no
    exclusion keyword, scores at least 8 and so passes the threshold of 5. *)
Theorem table_score_bounds (rg : TextPipeline.region) :
  (0 <= TextPipeline._score_transaction_table rg <= 24)%Z /\
  ((3 <= length (TextPipeline.lines rg))%nat ->
   Forall (fun line => TextBasedExtractor.has_date line = true)
     (TextPipeline.lines rg) ->
   Forall (fun line => TextBasedExtractor.has_amount line = true)
     (TextPipeline.lines rg) ->
   Py.any_in TextPipeline.exclusion_keywords (Py.lower (TextPipeline.text rg)) = false ->
   (8 <= TextPipeline._score_transaction_table rg)%Z).
Proof.
  unfold TextPipeline._score_transaction_table. cbv zeta.
  set (txt := Py.lower (TextPipeline.text rg)).
  set (dates := length (filter _ (TextPipeline.lines rg))).
  set (amounts := length (filter (fun line => TextBasedExtractor.has_amount line = true)
                            (TextPipeline.lines rg))).
  pose proof (fold_bonus (fun keyword => Py.contains keyword txt)
                TextPipeline.transaction_keywords 0) as Hb.
  set (s1 := fold_left _ TextPipeline.transaction_keywords 0%Z) in *.
  pose proof (fold_penalty (fun keyword => Py.contains keyword txt)
                TextPipeline.exclusion_keywords
                (s1 + Z.min (Z.of_nat dates) 5 + Z.min (Z.of_nat amounts) 5)) as Hp.
  simpl length in Hb, Hp.
  split.
  - destruct (3 <=? length (TextPipeline.lines rg))%nat; lia.
  - intros H3 Hd Ha Hex.
    rewrite fold_no_penalty by exact Hex.
    assert (Hdates : dates = length (TextPipeline.lines rg))
      by (apply filter_all; exact Hd).
    assert (Hamounts : amounts = length (TextPipeline.lines rg))
      by (apply filter_all; exact Ha).
    destruct (Nat.leb_spec 3 (length (TextPipeline.lines rg))); lia.
Qed.

Lemma table_score_bounds_witness :
  (8 <= TextPipeline._score_transaction_table sample_region)%Z.
Proof.
  apply (table_score_bounds sample_region).
  - vm_compute. lia.
  - repeat constructor.
  - repeat constructor.
  - vm_compute. reflexivity.
Defined.

(** *** Sorting the qualifying regions *)

Lemma insert_by_score_of_score (k : Z) (rg : TextPipeline.region)
    (sorted : list TextPipeline.region) :
  of_score k (TextPipeline.insert_by_score rg sorted)
  = if decide (TextPipeline.score_key rg = k)
    then rg :: of_score k sorted else of_score k sorted.
Proof.
  unfold of_score. induction sorted as [|x sorted IH]; simpl.
  - rewrite filter_cons, filter_nil. reflexivity.
  - destruct (Z.ltb_spec (TextPipeline.score_key rg) (TextPipeline.score_key x)) as [Hlt|Hge].
    + rewrite !filter_cons, IH.
      repeat case_decide; try reflexivity; lia.
    + rewrite !filter_cons. reflexivity.
Qed.

Lemma sorted_by_score_of_score (k : Z) (regions : list TextPipeline.region) :
  of_score k (TextPipeline.sorted_by_score regions) = of_score k regions.
Proof.
  induction regions as [|rg regions IH]; [reflexivity|].
  simpl. rewrite insert_by_score_of_score, IH.
  unfold of_score at 3. rewrite filter_cons. reflexivity.
Qed.

Lemma insert_by_score_Forall (P : TextPipeline.region -> Prop)
    (rg : TextPipeline.region) (sorted : list TextPipeline.region) :
  P rg -> Forall P sorted -> Forall P (TextPipeline.insert_by_score rg sorted).
Proof.
  intros Hrg Hs. induction Hs as [|y l Hy Hl IHl]; simpl.
  - constructor; [exact Hrg | constructor].
  - destruct (TextPipeline.score_key rg <? TextPipeline.score_key y)%Z.
    + constructor; assumption.
    + constructor; [exact Hrg|]. constructor; assumption.
Qed.

Lemma insert_by_score_descending (rg : TextPipeline.region)
    (sorted : list TextPipeline.region) :
  (forall i j a b, (i < j)%nat -> sorted !! i = Some a -> sorted !! j = Some b ->
                   (TextPipeline.score_key b <= TextPipeline.score_key a)%Z) ->
  forall i j a b, (i < j)%nat ->
    TextPipeline.insert_by_score rg sorted !! i = Some a ->
    TextPipeline.insert_by_score rg sorted !! j = Some b ->
    (TextPipeline.score_key b <= TextPipeline.score_key a)%Z.
Proof.
  induction sorted as [|x sorted IH]; intros Hs i j a b Hij Hi Hj; simpl in *.
  - destruct i, j; try lia; destruct j; discriminate.
  - destruct (Z.ltb_spec (TextPipeline.score_key rg) (TextPipeline.score_key x)) as [Hlt|Hge].
    + assert (Htail : forall i j a b, (i < j)%nat ->
                sorted !! i = Some a -> sorted !! j = Some b ->
                (TextPipeline.score_key b <= TextPipeline.score_key a)%Z).
      { intros i' j' a' b' H' Ha' Hb'. exact (Hs (S i') (S j') a' b' ltac:(lia) Ha' Hb'). }
      destruct i as [|i], j as [|j]; try lia.
      * injection Hi as <-.
        assert (Hall : Forall (fun y => (TextPipeline.score_key y
                                         <= TextPipeline.score_key x)%Z)
                         (TextPipeline.insert_by_score rg sorted)).
        { apply insert_by_score_Forall; [lia|].
          apply Forall_lookup. intros n y Hn.
          exact (Hs 0%nat (S n) x y ltac:(lia) eq_refl Hn). }
        exact (proj1 (Forall_lookup _ _) Hall _ _ Hj).
      * exact (IH Htail i j a b ltac:(lia) Hi Hj).
    + destruct i as [|i], j as [|j]; try lia.
      * injection Hi as <-. destruct j as [|j].
        -- injection Hj as <-. exact Hge.
        -- simpl in Hj. pose proof (Hs 0%nat (S j) x b ltac:(lia) eq_refl Hj). lia.
      * exact (Hs i j a b ltac:(lia) Hi Hj).
Qed.

Lemma sorted_by_score_descending (regions : list TextPipeline.region) :
  forall i j a b, (i < j)%nat ->
    TextPipeline.sorted_by_score regions !! i = Some a ->
    TextPipeline.sorted_by_score regions !! j = Some b ->
    (TextPipeline.score_key b <= TextPipeline.score_key a)%Z.
Proof.
  induction regions as [|rg regions IH]; simpl.
  - intros i j a b _ H. discriminate H.
  - apply insert_by_score_descending. exact IH.
Qed.

Lemma qualifying_regions (k : Z) (regions : list TextPipeline.region) :
  of_score k
    (omap (fun rg =>
             if (5 <=? TextPipeline._score_transaction_table rg)%Z
             then Some (with_score rg) else None) regions)
  = map with_score
      (filter (fun rg => TextPipeline._score_transaction_table rg = k
                         /\ (5 <= k)%Z) regions).
Proof.
  unfold of_score. induction regions as [|rg regions IH]; [reflexivity|].
  simpl. rewrite filter_cons.
  destruct (Z.leb_spec 5 (TextPipeline._score_transaction_table rg)) as [H5|H5].
  - rewrite filter_cons.
    change (TextPipeline.score_key (with_score rg))
      with (TextPipeline._score_transaction_table rg).
    repeat case_decide; try lia;
      first [exact IH | cbn [map]; f_equal; exact IH].
  - rewrite decide_False by lia. exact IH.
Qed.

(** X19. [_identify_transaction_tables] keeps the regions that score at
    least 5, records the score in each, and returns them by decreasing
    score; regions of equal score stay in the order in which they were
    detected. *)
Theorem transaction_tables_by_decreasing_score (regions : list TextPipeline.region) :
  let tables := TextPipeline._identify_transaction_tables regions in
  (forall i j a b, (i < j)%nat -> tables !! i = Some a -> tables !! j = Some b ->
     (TextPipeline.score_key b <= TextPipeline.score_key a)%Z) /\
  (forall k : Z,
     of_score k tables
     = map with_score
         (filter (fun rg => TextPipeline._score_transaction_table rg = k
                            /\ (5 <= k)%Z) regions)).
Proof.
  cbv zeta. unfold TextPipeline._identify_transaction_tables. cbv zeta. split.
  - apply sorted_by_score_descending.
  - intros k. rewrite sorted_by_score_of_score. apply qualifying_regions.
Qed.

(** *** The records of a page *)

Lemma take_length (n : nat) (s : string) : (String.length (Py.take n s) <= n)%nat.
Proof.
  revert s. induction n as [|n IH]; intros s; [destruct s; simpl; lia|].
  destruct s as [|c s]; simpl; [lia|]. specialize (IH s). lia.
Qed.

Lemma parse_transaction_line_record (line : string) (page_num : nat) (tx : txn) :
  TextBasedExtractor._parse_transaction_line line page_num = Some tx ->
  line_record page_num 0.85 tx.
Proof.
  unfold TextBasedExtractor._parse_transaction_line.
  destruct (TextBasedExtractor._extract_date line) as [date|]; [|discriminate].
  destruct (Py.nonempty date) eqn:Hdate; [|discriminate]. simpl.
  destruct (TextBasedExtractor._extract_amount line) as [a|]; [|discriminate].
  intros [= <-]. exists date, (TextBasedExtractor._extract_description line date), a.
  repeat split; try (dict_lookups; reflexivity); [exact Hdate|].
  unfold TextBasedExtractor._extract_description.
  match goal with |- context [if (?n <? 5)%nat then _ else _] =>
    destruct (Nat.ltb_spec n 5) as [Hlt|Hge] end; [simpl; lia | exact Hge].
Qed.

Lemma single_line_record_shape (raw : string) (page_num : nat) (tx : txn) :
  TextPipeline.single_line_record raw page_num = Some tx -> line_record page_num 0.7 tx.
Proof.
  unfold TextPipeline.single_line_record.
  destruct (negb _); [discriminate|].
  destruct (Py.any_in _ _); [discriminate|].
  destruct (_ && _); [|discriminate].
  destruct (TextBasedExtractor._parse_transaction_line _ _) as [tx0|] eqn:E;
    [|discriminate].
  intros [= <-].
  destruct (parse_transaction_line_record _ _ _ E)
    as (d & s & a & Hd & Hne & Hs & Hlen & Ha & Hp & _ & Hm).
  exists d, s, a.
  repeat split; try assumption;
    first [ apply lookup_insert_eq
          | rewrite lookup_insert_ne by discriminate; assumption ].
Qed.

Lemma multiline_record_fields (date_match : string) (st : TextPipeline.gathered)
    (page_num : nat) (tx : txn) :
  Py.nonempty date_match = true ->
  TextPipeline.multiline_record date_match st page_num = Some tx ->
  multiline_record_shape page_num tx.
Proof.
  intros Hdate. unfold TextPipeline.multiline_record.
  destruct (TextPipeline.amount st) as [a|]; [|discriminate].
  destruct (Qgtb a 0) eqn:Ha; [|discriminate].
  cbv zeta.
  match goal with |- context [Py.take ?n ?d] =>
    pose proof (take_length n d) as Hlen;
    remember (Py.take n d) as description eqn:Edesc; clear Edesc
  end.
  intros [= <-].
  exists date_match, description, a.
  repeat split; try (dict_lookups; reflexivity);
    [exact Hdate | exact Hlen | apply Qgtb_gt; exact Ha].
Qed.

Lemma multiline_from_shape (all_lines : list string) (page_num i : nat)
    (rest : list string) (used : gset nat) :
  Forall (multiline_record_shape page_num)
    (TextPipeline.multiline_from all_lines page_num i rest used).
Proof.
  revert i used.
  induction rest as [|raw rest IH]; intros i used; cbn [TextPipeline.multiline_from];
    [constructor|].
  do 3 (match goal with |- context [if ?c then _ else _] => destruct c end;
        [apply IH|]).
  destruct (TextBasedExtractor.first_found _ _) as [date_match|]; [|apply IH].
  destruct (Py.nonempty date_match) eqn:Hdate; [|apply IH].
  destruct (TextPipeline.multiline_record _ _ _) as [tx|] eqn:E; [|apply IH].
  constructor; [exact (multiline_record_fields _ _ _ _ Hdate E) | apply IH].
Qed.

Lemma table_region_records (lines : list string) (page_num : nat) :
  Forall (line_record page_num 0.85)
    (TextBasedExtractor._extract_from_table_region lines page_num).
Proof.
  induction lines as [|line lines IH]; simpl; [constructor|].
  destruct (TextBasedExtractor._is_header_line line); [exact IH|].
  destruct (TextBasedExtractor._is_summary_line line); [exact IH|].
  destruct (TextBasedExtractor._parse_transaction_line line page_num) as [tx|] eqn:E;
    [|exact IH].
  constructor; [exact (parse_transaction_line_record _ _ _ E) | exact IH].
Qed.

Lemma transaction_patterns_records (text : string) (page_num : nat) :
  Forall (fun tx => line_record page_num 0.7 tx \/ multiline_record_shape page_num tx)
    (TextPipeline._extract_transaction_patterns text page_num).
Proof.
  unfold TextPipeline._extract_transaction_patterns. cbv zeta.
  assert (Hsingle : Forall (fun tx => line_record page_num 0.7 tx
                                      \/ multiline_record_shape page_num tx)
            (omap (fun raw => TextPipeline.single_line_record raw page_num)
               (Py.splitlines_nl text))).
  { apply Forall_omap_parse. intros raw tx E. left.
    exact (single_line_record_shape _ _ _ E). }
  destruct (_ <? 5)%nat; [|exact Hsingle].
  apply Forall_app. split; [exact Hsingle|].
  eapply Forall_impl; [apply multiline_from_shape|]. intros tx H. right. exact H.
Qed.

(** X20. The records that the generic text extractor returns for a page are
    of one kind: either all of them are table records, with confidence 0.85,
    or all of them come from the fallback, single-line records with
    confidence 0.7 and multi-line records with confidence 0.6.  Every record
    has the page number and a date that is not empty; a table or single-line
    record has a description of at least five characters, and a multi-line
    record has a positive amount and a description of at most a hundred
    characters. *)
Theorem text_records_of_a_page (text : string) (page_num : nat) :
  let records := TextPipeline.extract_transactions_from_text text page_num in
  Forall (line_record page_num 0.85) records \/
  Forall (fun tx => line_record page_num 0.7 tx \/ multiline_record_shape page_num tx)
    records.
Proof.
  cbv zeta. unfold TextPipeline.extract_transactions_from_text. cbv zeta.
  set (tables := TextPipeline._identify_transaction_tables _).
  assert (Htables : Forall (line_record page_num 0.85)
            (flat_map (fun table =>
                         TextBasedExtractor._extract_from_table_region
                           (TextPipeline.lines table) page_num) tables)).
  { induction tables as [|t ts IH]; simpl; [constructor|].
    apply Forall_app. split; [apply table_region_records | exact IH]. }
  destruct (flat_map _ tables) as [|tx txs] eqn:E.
  - right. apply transaction_patterns_records.
  - left. exact Htables.
Qed.

(** ** The matcher is sound *)

Section Soundness.
Context {A : Type}.

(** The loops of [r*] and [r*?], for a pattern [r] whose runs are steps. *)
Lemma star_loop_steps (r1 : Re.regex) (k : Re.mstate -> option A) :
  (forall st (k' : Re.mstate -> option A) (x : A), Re.run r1 st k' = Some x ->
                   exists st', steps r1 st st' /\ k' st' = Some x) ->
  forall (fuel : nat) (st : Re.mstate) (x : A),
    (fix loop (fuel : nat) (st : Re.mstate) : option A :=
       match fuel with
       | O => k st
       | S f =>
           match Re.run r1 st (fun st' =>
                    if (Re.m_pos st' <=? Re.m_pos st)%nat then None else loop f st') with
           | Some x => Some x
           | None => k st
           end
       end) fuel st = Some x ->
    exists st', rtc (steps r1) st st' /\ k st' = Some x.
Proof.
  intros IH1 fuel. induction fuel as [|fuel IHf]; intros st x H.
  - exists st. split; [apply rtc_refl | exact H].
  - match type of H with
    | match ?t with _ => _ end = _ => destruct t as [y|] eqn:E
    end.
    + injection H as ->. apply IH1 in E as (st1 & H1 & E).
      destruct (Re.m_pos st1 <=? Re.m_pos st)%nat; [discriminate|].
      apply IHf in E as (st' & Hs & E). exists st'. split; [|exact E].
      eapply rtc_l; [exact H1 | exact Hs].
    + exists st. split; [apply rtc_refl | exact H].
Qed.

Lemma lazy_loop_steps (r1 : Re.regex) (k : Re.mstate -> option A) :
  (forall st (k' : Re.mstate -> option A) (x : A), Re.run r1 st k' = Some x ->
                   exists st', steps r1 st st' /\ k' st' = Some x) ->
  forall (fuel : nat) (st : Re.mstate) (x : A),
    (fix loop (fuel : nat) (st : Re.mstate) : option A :=
       match fuel with
       | O => k st
       | S f =>
           match k st with
           | Some x => Some x
           | None =>
               Re.run r1 st (fun st' =>
                 if (Re.m_pos st' <=? Re.m_pos st)%nat then None else loop f st')
           end
       end) fuel st = Some x ->
    exists st', rtc (steps r1) st st' /\ k st' = Some x.
Proof.
  intros IH1 fuel. induction fuel as [|fuel IHf]; intros st x H.
  - exists st. split; [apply rtc_refl | exact H].
  - destruct (k st) as [y|] eqn:E.
    + injection H as ->. exists st. split; [apply rtc_refl | exact E].
    + apply IH1 in H as (st1 & H1 & H).
      destruct (Re.m_pos st1 <=? Re.m_pos st)%nat; [discriminate|].
      apply IHf in H as (st' & Hs & H). exists st'. split; [|exact H].
      eapply rtc_l; [exact H1 | exact Hs].
Qed.

(** Whenever the matcher succeeds, the continuation was called on a state
    that the pattern reaches. *)
Lemma run_steps (r : Re.regex) :
  forall (st : Re.mstate) (k : Re.mstate -> option A) (x : A),
    Re.run r st k = Some x -> exists st', steps r st st' /\ k st' = Some x.
Proof.
  induction r as [|p|r1 IH1 r2 IH2|r1 IH1 r2 IH2|r1 IH1|r1 IH1|n r1 IH1| | |];
    intros st k x H.
  - exists st. split; [reflexivity | exact H].
  - simpl in H. destruct (Re.m_rest st) as [|c rest] eqn:E; [discriminate|].
    destruct (p c) eqn:Hp; [|discriminate].
    exists (Re.advance c rest st). split; [|exact H].
    exists c, rest. repeat split; assumption.
  - simpl in H. apply IH1 in H as (st1 & H1 & H).
    apply IH2 in H as (st' & H2 & H). exists st'. split; [|exact H].
    exists st1. split; assumption.
  - simpl in H. destruct (Re.run r1 st k) as [y|] eqn:E.
    + injection H as ->. apply IH1 in E as (st' & H1 & H).
      exists st'. split; [left; exact H1 | exact H].
    + apply IH2 in H as (st' & H2 & H). exists st'. split; [right; exact H2 | exact H].
  - exact (star_loop_steps r1 k IH1 (S (String.length (Re.m_rest st))) st x H).
  - exact (lazy_loop_steps r1 k IH1 (S (String.length (Re.m_rest st))) st x H).
  - simpl in H. apply IH1 in H as (st1 & H1 & H).
    exists (Re.close_group n st st1). split; [|exact H].
    exists st1. split; [exact H1 | reflexivity].
  - simpl in H. destruct (Re.m_pos st =? 0)%nat eqn:E; [|discriminate].
    exists st. split; [|exact H]. split; [apply Nat.eqb_eq; exact E | reflexivity].
  - simpl in H. destruct (Re.at_eol st) eqn:E; [|discriminate].
    exists st. split; [|exact H]. split; [exact E | reflexivity].
  - simpl in H. destruct (Re.at_word_boundary st) eqn:E; [|discriminate].
    exists st. split; [|exact H]. split; [exact E | reflexivity].
Qed.
End Soundness.

(** ** Strings *)

Lemma append_cons (c : ascii) (a b : string) :
  String c a +:+ b = String c (a +:+ b).
Proof. reflexivity. Qed.

Lemma append_nil_r (s : string) : s +:+ EmptyString = s.
Proof.
  induction s as [|c s IH]; [reflexivity|]. rewrite append_cons, IH. reflexivity.
Qed.

Lemma append_assoc (a b c : string) : (a +:+ b) +:+ c = a +:+ b +:+ c.
Proof.
  induction a as [|x a IH]; [reflexivity|]. rewrite !append_cons, IH. reflexivity.
Qed.

Lemma append_length (a b : string) :
  String.length (a +:+ b) = (String.length a + String.length b)%nat.
Proof.
  induction a as [|x a IH]; [reflexivity|]. rewrite append_cons. simpl.
  rewrite IH. reflexivity.
Qed.

Lemma take_append (a b : string) : Py.take (String.length a) (a +:+ b) = a.
Proof.
  induction a as [|x a IH]; [destruct b; reflexivity|].
  rewrite append_cons. simpl. rewrite IH. reflexivity.
Qed.

Lemma drop_append (a b : string) : Py.drop (String.length a) (a +:+ b) = b.
Proof.
  induction a as [|x a IH]; [destruct b; reflexivity|].
  rewrite append_cons. simpl. exact IH.
Qed.

Lemma forallb_str_append (p : ascii -> bool) (a b : string) :
  Py.forallb_str p (a +:+ b) = Py.forallb_str p a && Py.forallb_str p b.
Proof.
  induction a as [|x a IH]; [reflexivity|].
  rewrite append_cons. simpl. rewrite IH. apply andb_assoc.
Qed.

Lemma forallb_str_impl (p q : ascii -> bool) (s : string) :
  (forall c, p c = true -> q c = true) ->
  Py.forallb_str p s = true -> Py.forallb_str q s = true.
Proof.
  intros Hpq. induction s as [|c s IH]; simpl; [reflexivity|].
  intros H. apply andb_true_iff in H as [Hc Hs].
  rewrite (Hpq c Hc), (IH Hs). reflexivity.
Qed.

(** ** Matches belong to the language of the pattern *)

Lemma capture_of_weaken (r r' : Re.regex) (caps : list (nat * string)) :
  (forall g, In g (groups_of r) -> In g (groups_of r')) ->
  Forall (capture_of r) caps -> Forall (capture_of r') caps.
Proof.
  intros Hsub Hcaps. eapply Forall_impl; [exact Hcaps|]. intros cap (r1 & Hin & Hs).
  exists r1. split; [apply Hsub; exact Hin | exact Hs].
Qed.

Lemma run_of_refl (r : Re.regex) (st : Re.mstate) :
  shape r EmptyString -> run_of r st st.
Proof.
  intros Hs. exists EmptyString, []. repeat split; [simpl; lia | exact Hs | constructor].
Qed.

(** The runs of [r1], one after the other, make a run of [r1*]. *)
Lemma rtc_run_of (r1 r : Re.regex) (st st' : Re.mstate) :
  (forall a b, steps r1 a b -> run_of r1 a b) ->
  (forall ts, Forall (shape r1) ts -> shape r (flatten ts)) ->
  (forall g, In g (groups_of r1) -> In g (groups_of r)) ->
  rtc (steps r1) st st' -> run_of r st st'.
Proof.
  intros IH Hshape Hsub Hrtc.
  assert (H : exists (ts : list string) (new : list (nat * string)),
             Re.m_rest st = flatten ts +:+ Re.m_rest st' /\
             Re.m_pos st' = (Re.m_pos st + String.length (flatten ts))%nat /\
             Forall (shape r1) ts /\
             Re.m_caps st' = (new ++ Re.m_caps st)%list /\
             Forall (capture_of r1) new).
  { induction Hrtc as [st|st st1 st' H1 _ IHr].
    - exists [], []. repeat split; [simpl; lia | constructor | constructor].
    - destruct (IH _ _ H1) as (t & new & Hrest & Hpos & Hs & Hcaps & Hnew).
      destruct IHr as (ts & new' & Hrest' & Hpos' & Hts & Hcaps' & Hnew').
      exists (t :: ts), (new' ++ new)%list. repeat split.
      + simpl. rewrite append_assoc, <- Hrest'. exact Hrest.
      + simpl. rewrite append_length. lia.
      + constructor; assumption.
      + rewrite Hcaps', Hcaps, app_assoc. reflexivity.
      + apply Forall_app. split; assumption. }
  destruct H as (ts & new & Hrest & Hpos & Hts & Hcaps & Hnew).
  exists (flatten ts), new. repeat split; try assumption.
  - apply Hshape. exact Hts.
  - exact (capture_of_weaken r1 r new Hsub Hnew).
Qed.

Lemma steps_run_of (r : Re.regex) :
  forall st st', steps r st st' -> run_of r st st'.
Proof.
  induction r as [|p|r1 IH1 r2 IH2|r1 IH1 r2 IH2|r1 IH1|r1 IH1|n r1 IH1| | |];
    intros st st' H; simpl in H.
  - subst st'. apply run_of_refl. reflexivity.
  - destruct H as (c & rest & Hrest & Hp & ->).
    exists (String c EmptyString), []. repeat split.
    + exact Hrest.
    + simpl. lia.
    + exists c. split; [reflexivity | exact Hp].
    + constructor.
  - destruct H as (st1 & H1 & H2).
    destruct (IH1 _ _ H1) as (t1 & new1 & Hrest1 & Hpos1 & Hs1 & Hcaps1 & Hnew1).
    destruct (IH2 _ _ H2) as (t2 & new2 & Hrest2 & Hpos2 & Hs2 & Hcaps2 & Hnew2).
    exists (t1 +:+ t2), (new2 ++ new1)%list. repeat split.
    + rewrite append_assoc, <- Hrest2. exact Hrest1.
    + rewrite append_length. lia.
    + exists t1, t2. repeat split; assumption.
    + rewrite Hcaps2, Hcaps1, app_assoc. reflexivity.
    + apply Forall_app. split.
      * apply (capture_of_weaken r2); [|exact Hnew2].
        intros g Hg. simpl. apply in_or_app. right. exact Hg.
      * apply (capture_of_weaken r1); [|exact Hnew1].
        intros g Hg. simpl. apply in_or_app. left. exact Hg.
  - destruct H as [H|H].
    + destruct (IH1 _ _ H) as (t & new & Hrest & Hpos & Hs & Hcaps & Hnew).
      exists t, new. repeat split; try assumption; [left; exact Hs|].
      apply (capture_of_weaken r1); [|exact Hnew].
      intros g Hg. simpl. apply in_or_app. left. exact Hg.
    + destruct (IH2 _ _ H) as (t & new & Hrest & Hpos & Hs & Hcaps & Hnew).
      exists t, new. repeat split; try assumption; [right; exact Hs|].
      apply (capture_of_weaken r2); [|exact Hnew].
      intros g Hg. simpl. apply in_or_app. right. exact Hg.
  - apply (rtc_run_of r1); [exact IH1 | | intros g Hg; exact Hg | exact H].
    intros ts Hts. exists ts. split; [reflexivity | exact Hts].
  - apply (rtc_run_of r1); [exact IH1 | | intros g Hg; exact Hg | exact H].
    intros ts Hts. exists ts. split; [reflexivity | exact Hts].
  - destruct H as (st1 & H1 & ->).
    destruct (IH1 _ _ H1) as (t & new & Hrest & Hpos & Hs & Hcaps & Hnew).
    exists t, ((n, t) :: new). repeat split; try assumption.
    + unfold Re.close_group. cbn [Re.m_caps]. rewrite Hcaps, Hpos, Hrest.
      replace (Re.m_pos st + String.length t - Re.m_pos st)%nat
        with (String.length t) by lia.
      rewrite take_append. reflexivity.
    + constructor.
      * exists r1. split; [left; reflexivity | exact Hs].
      * apply (capture_of_weaken r1); [|exact Hnew].
        intros g Hg. right. exact Hg.
  - destruct H as [_ ->]. apply run_of_refl. reflexivity.
  - destruct H as [_ ->]. apply run_of_refl. reflexivity.
  - destruct H as [_ ->]. apply run_of_refl. reflexivity.
Qed.

Lemma match_at_sound (r : Re.regex) (before s : string) (prev : option ascii)
    (m : Re.rmatch) :
  Re.match_at r (String.length before) prev s = Some m ->
  match_of r (before +:+ s) before m.
Proof.
  unfold Re.match_at. intros H.
  apply run_steps in H as (st' & Hsteps & H). injection H as <-.
  destruct (steps_run_of r _ _ Hsteps) as (t & new & Hrest & Hpos & Hs & Hcaps & Hnew).
  cbn [Re.m_rest Re.m_pos Re.m_caps] in *.
  exists (Re.m_rest st'). cbn [Re.m_text Re.m_start Re.m_end Re.m_groups].
  rewrite Hpos.
  replace (String.length before + String.length t - String.length before)%nat
    with (String.length t) by lia.
  rewrite Hrest, take_append.
  repeat split; [exact Hs|].
  rewrite Hcaps, app_nil_r. exact Hnew.
Qed.

Lemma rmatch_sound (r : Re.regex) (s : string) (m : Re.rmatch) :
  Re.rmatch_ r s = Some m -> match_of r s EmptyString m.
Proof. intros H. exact (match_at_sound r EmptyString s None m H). Qed.

Lemma search_from_sound (r : Re.regex) (s : string) :
  forall (before : string) (prev : option ascii) (m : Re.rmatch),
    Re.search_from r (String.length before) prev s = Some m ->
    exists skipped : string, match_of r (before +:+ s) (before +:+ skipped) m.
Proof.
  induction s as [|c s IH]; intros before prev m H; simpl in H.
  - destruct (Re.match_at r (String.length before) prev EmptyString) as [m'|] eqn:E;
      [|discriminate].
    injection H as ->. exists EmptyString.
    pose proof (match_at_sound r before EmptyString prev m E) as Hm.
    rewrite append_nil_r in *. exact Hm.
  - destruct (Re.match_at r (String.length before) prev (String c s)) as [m'|] eqn:E.
    + injection H as ->. exists EmptyString. rewrite append_nil_r.
      exact (match_at_sound r before (String c s) prev m E).
    + specialize (IH (before +:+ String c EmptyString) (Some c) m).
      rewrite append_length in IH. simpl in IH.
      rewrite Nat.add_1_r in IH. destruct (IH H) as (skipped & Hm).
      exists (String c skipped).
      rewrite !append_assoc in Hm. exact Hm.
Qed.

Lemma search_sound (r : Re.regex) (s : string) (m : Re.rmatch) :
  Re.search r s = Some m -> exists before : string, match_of r s before m.
Proof.
  intros H. destruct (search_from_sound r s EmptyString None m H) as (skipped & Hm).
  exists skipped. exact Hm.
Qed.

(** A group that took part in a match holds a text of its pattern. *)
Lemma assoc_In (n : nat) (caps : list (nat * string)) (g : string) :
  Re.assoc n caps = Some g -> In (n, g) caps.
Proof.
  induction caps as [|[k t] caps IH]; simpl; [discriminate|].
  destruct (Nat.eqb_spec n k) as [->|Hne].
  - intros [= ->]. left. reflexivity.
  - intros H. right. exact (IH H).
Qed.

Lemma group_capture (r : Re.regex) (s before : string) (m : Re.rmatch) (n : nat)
    (g : string) :
  match_of r s before m -> Re.assoc n (Re.m_groups m) = Some g ->
  exists r1, In (n, r1) (groups_of r) /\ shape r1 g.
Proof.
  intros (rest & _ & _ & _ & _ & Hcaps) Hg.
  apply assoc_In in Hg. rewrite List.Forall_forall in Hcaps.
  exact (Hcaps (n, g) Hg).
Qed.

(** ** What the language of a pattern tells of a text *)

Lemma flatten_forallb (p : ascii -> bool) (ts : list string) :
  Forall (fun t => Py.forallb_str p t = true) ts ->
  Py.forallb_str p (flatten ts) = true.
Proof.
  induction 1 as [|t ts Ht _ IH]; simpl; [reflexivity|].
  rewrite forallb_str_append, Ht, IH. reflexivity.
Qed.

Lemma shape_chars (r : Re.regex) :
  forall t, shape r t -> Py.forallb_str (chars_of r) t = true.
Proof.
  induction r as [|p|r1 IH1 r2 IH2|r1 IH1 r2 IH2|r1 IH1|r1 IH1|n r1 IH1| | |];
    intros t H; simpl in H; try (subst t; reflexivity).
  - destruct H as (c & -> & Hp). simpl. rewrite Hp. reflexivity.
  - destruct H as (t1 & t2 & -> & H1 & H2).
    rewrite forallb_str_append. apply andb_true_iff. split.
    + apply (forallb_str_impl (chars_of r1)); [|exact (IH1 _ H1)].
      intros c Hc. simpl. rewrite Hc. reflexivity.
    + apply (forallb_str_impl (chars_of r2)); [|exact (IH2 _ H2)].
      intros c Hc. simpl. rewrite Hc. apply orb_true_r.
  - destruct H as [H|H].
    + apply (forallb_str_impl (chars_of r1)); [|exact (IH1 _ H)].
      intros c Hc. simpl. rewrite Hc. reflexivity.
    + apply (forallb_str_impl (chars_of r2)); [|exact (IH2 _ H)].
      intros c Hc. simpl. rewrite Hc. apply orb_true_r.
  - destruct H as (ts & -> & Hts). apply flatten_forallb.
    eapply Forall_impl; [exact Hts|]. exact IH1.
  - destruct H as (ts & -> & Hts). apply flatten_forallb.
    eapply Forall_impl; [exact Hts|]. exact IH1.
  - exact (IH1 _ H).
Qed.

Lemma shape_length (r : Re.regex) :
  forall t, shape r t ->
    (min_len r <= String.length t)%nat /\
    (forall n, max_len r = Some n -> (String.length t <= n)%nat).
Proof.
  induction r as [|p|r1 IH1 r2 IH2|r1 IH1 r2 IH2|r1 IH1|r1 IH1|n r1 IH1| | |];
    intros t H; simpl in H; simpl;
    try (subst t; split; [simpl; lia | intros n [= <-]; simpl; lia]).
  - destruct H as (c & -> & _). split; [simpl; lia | intros n [= <-]; simpl; lia].
  - destruct H as (t1 & t2 & -> & H1 & H2).
    destruct (IH1 _ H1) as [Hmin1 Hmax1], (IH2 _ H2) as [Hmin2 Hmax2].
    rewrite append_length. split; [lia|].
    destruct (max_len r1) as [a|]; [|discriminate].
    destruct (max_len r2) as [b|]; [|discriminate].
    intros n [= <-]. specialize (Hmax1 a eq_refl). specialize (Hmax2 b eq_refl). lia.
  - destruct H as [H|H].
    + destruct (IH1 _ H) as [Hmin Hmax]. split; [lia|].
      destruct (max_len r1) as [a|]; [|discriminate].
      destruct (max_len r2) as [b|]; [|discriminate].
      intros n [= <-]. specialize (Hmax a eq_refl). lia.
    + destruct (IH2 _ H) as [Hmin Hmax]. split; [lia|].
      destruct (max_len r1) as [a|]; [|discriminate].
      destruct (max_len r2) as [b|]; [|discriminate].
      intros n [= <-]. specialize (Hmax b eq_refl). lia.
  - split; [lia | discriminate].
  - split; [lia | discriminate].
  - exact (IH1 _ H).
Qed.

(** ** [clean_date]: the shape of the result *)

Lemma digit_char_is_digit (k : Z) :
  (0 <= k <= 9)%Z -> Py.is_digit (digit_char k) = true.
Proof.
  intros Hk. unfold Py.is_digit, Py.in_range, Py.ord, digit_char.
  rewrite N_ascii_embedding by lia.
  apply andb_true_iff. split; apply N.leb_le; lia.
Qed.

Lemma pad2_two_digits (n : Z) : (0 <= n <= 99)%Z -> two_digits (pad2 n).
Proof.
  intros Hn. exists (digit_char (n / 10)), (digit_char (n mod 10)).
  split; [reflexivity|].
  pose proof (Z.div_mod n 10 ltac:(lia)) as Hdiv.
  pose proof (Z.mod_pos_bound n 10 ltac:(lia)) as Hmod.
  split; apply digit_char_is_digit; lia.
Qed.

Lemma month_day_is_mm_dd (mm dd : string) :
  two_digits mm -> two_digits dd -> is_mm_dd (mm +:+ "-" +:+ dd) = true.
Proof.
  intros (a & b & -> & Ha & Hb) (c & d & -> & Hc & Hd).
  change (is_mm_dd (String a (String b (String "-"%char (String c (String d EmptyString)))))
          = true).
  cbn [is_mm_dd]. rewrite Ha, Hb, Hc, Hd. reflexivity.
Qed.

Lemma valid_date_bounds (y m d : Z) :
  valid_date y m d = true -> (1 <= m <= 12)%Z /\ (1 <= d <= 31)%Z.
Proof.
  unfold valid_date, days_in_month. intros H.
  repeat (apply andb_true_iff in H as [H ?]).
  repeat match goal with
         | H : (_ <=? _)%Z = true |- _ => apply Z.leb_le in H
         end.
  split; [lia|]. split; [lia|].
  repeat match goal with
         | H : context [if ?c then _ else _] |- _ => destruct c
         end; lia.
Qed.

Lemma strptime_is_mm_dd (data : string) (fmt : list item) (md : Z * Z) :
  strptime data fmt = Some md -> is_mm_dd (strftime_md md) = true.
Proof.
  unfold strptime.
  destruct (Re.rmatch_ (format_regex fmt) data) as [m|]; [|discriminate].
  destruct (negb _); [discriminate|].
  match goal with |- context [valid_date ?y ?mo ?d] => generalize y, mo, d end.
  intros year month day.
  destruct (valid_date year month day) eqn:Hv; [|discriminate].
  apply valid_date_bounds in Hv as [Hm Hd].
  intros [= <-]. unfold strftime_md. cbn [fst snd].
  apply month_day_is_mm_dd; apply pad2_two_digits; lia.
Qed.

Lemma try_formats_is_mm_dd (data : string) (fmts : list (list item)) (r : string) :
  try_formats data fmts = Some r -> is_mm_dd r = true.
Proof.
  induction fmts as [|fmt fmts IH]; simpl; [discriminate|].
  destruct (strptime data fmt) as [md|] eqn:E; [|exact IH].
  intros [= <-]. exact (strptime_is_mm_dd _ _ _ E).
Qed.

Lemma month_map_two_digits (k mm : string) :
  month_map !! k = Some mm -> two_digits mm.
Proof.
  unfold month_map. intros H. apply elem_of_list_to_map_2 in H.
  repeat (apply elem_of_cons in H as [H|H];
          [injection H as _ ->; do 2 eexists; repeat split; reflexivity|]).
  apply elem_of_nil in H. contradiction.
Qed.

Lemma digit_is_no_sign (c : ascii) :
  Py.is_digit c = true ->
  (Ascii.eqb c "+"%char || Ascii.eqb c "-"%char) = false.
Proof.
  intros Hc.
  destruct (Ascii.eqb_spec c "+"%char) as [->|_]; [discriminate Hc|].
  destruct (Ascii.eqb_spec c "-"%char) as [->|_]; [discriminate Hc|].
  reflexivity.
Qed.

(** [zfill(2)] of one or two digits. *)
Lemma zfill2_digits (g : string) :
  Py.forallb_str Py.is_digit g = true -> (String.length g <= 2)%nat ->
  two_digits (Py.zfill2 g).
Proof.
  intros Hd Hlen.
  destruct g as [|a [|b [|c g]]]; simpl in Hd, Hlen.
  - do 2 eexists. repeat split; reflexivity.
  - rewrite andb_true_r in Hd. cbn [Py.zfill2].
    rewrite (digit_is_no_sign a Hd).
    exists "0"%char, a. repeat split. exact Hd.
  - apply andb_true_iff in Hd as [Ha Hb]. rewrite andb_true_r in Hb.
    exists a, b. repeat split; assumption.
  - lia.
Qed.

(** The texts of [\d{1,2}]. *)
Lemma one_or_two_digits (g : string) :
  shape (Re.between 1 2 Re.digit) g ->
  Py.forallb_str Py.is_digit g = true /\ (String.length g <= 2)%nat.
Proof.
  intros H. split.
  - apply (forallb_str_impl (chars_of (Re.between 1 2 Re.digit)));
      [|exact (shape_chars _ _ H)].
    intros c. simpl. destruct (Py.is_digit c); intros Hc;
      [reflexivity | discriminate Hc].
  - exact (proj2 (shape_length _ _ H) 2%nat eq_refl).
Qed.

(** X21. [clean_date] returns either a canonical [MM-DD] string, two digits,
    a dash and two digits, or, when no format and no month name is
    recognised, the first five characters of the stripped input. *)
Theorem clean_date_is_canonical_or_truncated (date_str : string) :
  is_mm_dd (clean_date date_str) = true \/
  clean_date date_str = Py.take 5 (Py.strip date_str).
Proof.
  unfold clean_date.
  destruct (negb (Py.nonempty date_str)); [left; reflexivity|].
  destruct (try_formats (Py.strip date_str) formats) as [r|] eqn:Etry.
  { left. exact (try_formats_is_mm_dd _ _ _ Etry). }
  destruct (Re.search month_day_pattern (Py.lower date_str)) as [m|] eqn:Em;
    [|right; reflexivity].
  cbv zeta.
  destruct (month_map !! _) as [mm|] eqn:Emm; [|right; reflexivity].
  left. apply month_day_is_mm_dd; [exact (month_map_two_digits _ _ Emm)|].
  destruct (search_sound _ _ _ Em) as (before & Hm).
  unfold Re.group.
  destruct (Re.assoc 2 (Re.m_groups m)) as [g|] eqn:Eg.
  - destruct (group_capture _ _ _ _ _ _ Hm Eg) as (r1 & Hin & Hs).
    simpl in Hin. destruct Hin as [Hin|[Hin|[]]]; [discriminate Hin|].
    injection Hin as <-.
    destruct (one_or_two_digits g Hs) as [Hd Hlen].
    exact (zfill2_digits g Hd Hlen).
  - do 2 eexists. repeat split; reflexivity.
Qed.

(** ** [clean_amount]: sign and characters read *)

Lemma digits_value_nonneg (s : string) (acc : Z) :
  (0 <= acc)%Z -> (0 <= digits_value acc s)%Z.
Proof.
  revert acc. induction s as [|c s IH]; intros acc Hacc; simpl; [exact Hacc|].
  apply IH. lia.
Qed.

Lemma decimal_sign (neg : bool) (ipart fpart : string) :
  if neg then decimal neg ipart fpart <= 0 else 0 <= decimal neg ipart fpart.
Proof.
  unfold decimal. pose proof (digits_value_nonneg (ipart +:+ fpart) 0 ltac:(lia)) as H.
  destruct neg; unfold Qle; simpl; lia.
Qed.

(** [float(s)] is negative or zero when [s] starts with a minus sign, and
    positive or zero otherwise. *)
Lemma float_of_string_sign (s : string) (q : Q) :
  float_of_string s = Some q ->
  if Py.startswith "-" s then q <= 0 else 0 <= q.
Proof.
  unfold float_of_string.
  destruct (Py.split_on "."%char _) as [|ipart [|fpart [|]]]; try discriminate.
  - destruct (_ && _); [|discriminate]. intros [= <-]. apply decimal_sign.
  - destruct (_ && _); [|discriminate]. intros [= <-]. apply decimal_sign.
Qed.

(** X22. The sign of [clean_amount]: the result is negative or zero when the
    text holds an opening parenthesis or starts with a minus sign. *)
Theorem clean_amount_negative_markers (amount_str : string) :
  Py.contains "(" amount_str || Py.startswith "-" amount_str = true ->
  clean_amount amount_str <= 0.
Proof.
  intros Hneg. unfold clean_amount.
  destruct (negb (Py.nonempty amount_str)); [discriminate|].
  cbv zeta. rewrite Hneg.
  match goal with |- context [float_of_string ?f] => set (final := f) end.
  pose proof (float_of_string_sign final) as Hsign.
  destruct (float_of_string final) as [amount|].
  - specialize (Hsign amount eq_refl).
    destruct (Py.startswith "-" final); [exact Hsign|].
    apply (Qopp_le_compat 0 amount) in Hsign. exact Hsign.
  - destruct (Py.startswith "-" final); discriminate.
Qed.

Lemma clean_amount_negative_markers_witness : clean_amount "(45.00)" <= 0.
Proof. apply clean_amount_negative_markers. reflexivity. Defined.

(** *** Substitutions that delete characters are filters *)

Lemma filter_str_append (p : ascii -> bool) (a b : string) :
  Py.filter_str p (a +:+ b) = Py.filter_str p a +:+ Py.filter_str p b.
Proof.
  induction a as [|x a IH]; [reflexivity|].
  rewrite append_cons. simpl. destruct (p x); [|exact IH].
  rewrite append_cons, IH. reflexivity.
Qed.

Lemma filter_str_ext (p q : ascii -> bool) (s : string) :
  (forall c, p c = q c) -> Py.filter_str p s = Py.filter_str q s.
Proof.
  intros Hpq. induction s as [|c s IH]; simpl; [reflexivity|].
  rewrite Hpq, IH. reflexivity.
Qed.

Lemma filter_str_filter_str (p q : ascii -> bool) (s : string) :
  Py.filter_str p (Py.filter_str q s) = Py.filter_str (fun c => q c && p c) s.
Proof.
  induction s as [|c s IH]; simpl; [reflexivity|].
  destruct (q c); simpl; [|exact IH].
  destruct (p c); [rewrite IH; reflexivity | exact IH].
Qed.

Lemma filter_str_all (p : ascii -> bool) (s : string) :
  Py.forallb_str p s = true -> Py.filter_str p s = s.
Proof.
  induction s as [|c s IH]; simpl; [reflexivity|].
  intros H. apply andb_true_iff in H as [Hc Hs]. rewrite Hc, (IH Hs). reflexivity.
Qed.

(** The first match of a character class. *)
Lemma search_chr (p : ascii -> bool) (s : string) :
  forall (pos : nat) (prev : option ascii),
    match Re.search_from (Re.Chr p) pos prev s with
    | None => Py.forallb_str (fun c => negb (p c)) s = true
    | Some m =>
        exists (kept : string) (c : ascii) (rest : string),
          s = kept +:+ String c rest /\
          Py.forallb_str (fun c => negb (p c)) kept = true /\
          p c = true /\
          Re.m_start m = (pos + String.length kept)%nat /\
          Re.m_end m = S (pos + String.length kept)
    end.
Proof.
  induction s as [|c s IH]; intros pos prev.
  - reflexivity.
  - cbn [Re.search_from]. unfold Re.match_at. cbn [Re.run Re.m_rest].
    destruct (p c) eqn:Hp.
    + exists EmptyString, c, s. cbn [Re.m_start Re.m_end Re.advance Re.m_pos].
      repeat split; [exact Hp | simpl; lia | simpl; lia].
    + specialize (IH (S pos) (Some c)).
      destruct (Re.search_from (Re.Chr p) (S pos) (Some c) s) as [m|].
      * destruct IH as (kept & c' & rest & -> & Hkept & Hc' & Hstart & Hend).
        exists (String c kept), c', rest.
        repeat split; [simpl; rewrite Hp; exact Hkept | exact Hc' | simpl; lia | simpl; lia].
      * simpl. rewrite Hp. exact IH.
Qed.

Lemma remove_chr_matches (p : ascii -> bool) (fuel : nat) :
  forall (s : string) (pos : nat) (prev : option ascii),
    (String.length s < fuel)%nat ->
    Re.remove_matches pos (Re.matches_from fuel (Re.Chr p) pos prev s) s
    = Py.filter_str (fun c => negb (p c)) s.
Proof.
  induction fuel as [|fuel IH]; intros s pos prev Hlen; [lia|].
  cbn [Re.matches_from].
  pose proof (search_chr p s pos prev) as Hsearch.
  destruct (Re.search_from (Re.Chr p) pos prev s) as [m|].
  - destruct Hsearch as (kept & c & rest & -> & Hkept & Hc & Hstart & Hend).
    rewrite Hstart, Hend.
    replace (S (pos + String.length kept) =? pos + String.length kept)%nat
      with false by (symmetry; apply Nat.eqb_neq; lia).
    cbn [Re.remove_matches]. rewrite Hstart, Hend.
    replace (pos + String.length kept - pos)%nat with (String.length kept) by lia.
    replace (S (pos + String.length kept) - pos)%nat
      with (String.length (kept +:+ String c EmptyString))
      by (rewrite append_length; simpl; lia).
    rewrite take_append.
    replace (kept +:+ String c rest) with ((kept +:+ String c EmptyString) +:+ rest)
      by (rewrite append_assoc; reflexivity).
    rewrite drop_append, IH.
    + rewrite !filter_str_append. simpl. rewrite Hc. simpl.
      rewrite (filter_str_all _ kept Hkept), append_nil_r. reflexivity.
    + rewrite !append_length in Hlen. simpl in Hlen. lia.
  - simpl. symmetry. apply filter_str_all. exact Hsearch.
Qed.

(** [re.sub(r'[...]', '', s)] keeps the characters outside the class. *)
Lemma sub_empty_chr (p : ascii -> bool) (s : string) :
  Re.sub_empty (Re.Chr p) s = Py.filter_str (fun c => negb (p c)) s.
Proof. unfold Re.sub_empty, Re.finditer. apply remove_chr_matches. lia. Qed.

Lemma replace_fuel_char (c : ascii) (s : string) :
  forall fuel, (String.length s < fuel)%nat ->
    Py.replace_fuel fuel (String c EmptyString) EmptyString s
    = Py.filter_str (fun x => negb (Ascii.eqb c x)) s.
Proof.
  induction s as [|b s IH]; intros fuel Hlen.
  - destruct fuel; reflexivity.
  - destruct fuel as [|fuel]; [simpl in Hlen; lia|].
    cbn [Py.replace_fuel Py.startswith Py.filter_str].
    simpl in Hlen.
    destruct (Ascii.eqb c b); simpl.
    + destruct s; apply IH; simpl in *; lia.
    + rewrite IH by lia. reflexivity.
Qed.

(** [s.replace(c, '')] keeps the characters other than [c]. *)
Lemma replace_char (c : ascii) (s : string) :
  Py.replace (String c EmptyString) EmptyString s
  = Py.filter_str (fun x => negb (Ascii.eqb c x)) s.
Proof. unfold Py.replace. apply replace_fuel_char. lia. Qed.

(** The text that [clean_amount] hands to [float]: the digits, points and
    minus signs of the input, in order. *)
Lemma final_cleaned_filter (s : string) :
  Py.replace ")" "" (Py.replace "(" "" (Py.replace "," "" (Re.sub_empty amount_junk s)))
  = Py.filter_str float_char s.
Proof.
  unfold amount_junk. rewrite sub_empty_chr, !replace_char, !filter_str_filter_str.
  apply filter_str_ext. intros c.
  destruct c as [[] [] [] [] [] [] [] []]; reflexivity.
Qed.

Lemma clean_amount_eq (s : string) :
  clean_amount s =
  if negb (Py.nonempty s) then 0
  else
    match float_of_string (Py.filter_str float_char s) with
    | Some amount =>
        if Py.startswith "-" (Py.filter_str float_char s) then amount
        else if Py.contains "(" s || Py.startswith "-" s then - amount else amount
    | None => 0
    end.
Proof.
  unfold clean_amount. cbv zeta. rewrite final_cleaned_filter.
  destruct (negb (Py.nonempty s)); [reflexivity|].
  destruct (Py.startswith "-" (Py.filter_str float_char s));
    destruct (float_of_string _); reflexivity.
Qed.

Lemma contains_char (c : ascii) (s : string) :
  Py.contains (String c EmptyString) s = Py.existsb_str (Ascii.eqb c) s.
Proof.
  induction s as [|b s IH]; [reflexivity|].
  cbn [Py.contains Py.startswith Py.existsb_str]. rewrite IH.
  destruct s; rewrite andb_true_r; reflexivity.
Qed.

Lemma existsb_str_filter (p q : ascii -> bool) (s : string) :
  (forall c, p c = true -> q c = true) ->
  Py.existsb_str p (Py.filter_str q s) = Py.existsb_str p s.
Proof.
  intros Hpq. induction s as [|c s IH]; simpl; [reflexivity|].
  destruct (q c) eqn:Hq; simpl; [rewrite IH; reflexivity|].
  destruct (p c) eqn:Hp; [rewrite (Hpq c Hp) in Hq; discriminate Hq | exact IH].
Qed.

(** A text that starts with a minus sign keeps it in front when filtered by
    a class that holds the minus sign. *)
Lemma startswith_minus_filter (p : ascii -> bool) (s : string) :
  p "-"%char = true -> Py.startswith "-" s = true ->
  Py.startswith "-" (Py.filter_str p s) = true.
Proof.
  intros Hp. destruct s as [|c s]; [discriminate|].
  cbn [Py.startswith]. intros H. apply andb_true_iff in H as [Hc _].
  apply Ascii.eqb_eq in Hc. subst c. simpl. rewrite Hp. simpl.
  destruct (Py.filter_str p s); reflexivity.
Qed.

(** X23. [clean_amount] reads only the digits, the points, the minus signs
    and the opening parentheses of its argument: removing every other
    character (currency symbols, letters, blanks, commas, closing
    parentheses) leaves the result unchanged. *)
Theorem clean_amount_reads_amount_chars (amount_str : string) :
  clean_amount (Py.filter_str amount_char amount_str) = clean_amount amount_str.
Proof.
  set (kept := Py.filter_str amount_char amount_str).
  assert (Hfinal : Py.filter_str float_char kept = Py.filter_str float_char amount_str).
  { unfold kept. rewrite filter_str_filter_str. apply filter_str_ext. intros c.
    unfold amount_char, float_char.
    destruct (Py.is_digit c || Ascii.eqb c "."%char || Ascii.eqb c "-"%char);
      [reflexivity | apply andb_false_r]. }
  assert (Hparen : Py.contains "(" kept = Py.contains "(" amount_str).
  { rewrite !contains_char. apply existsb_str_filter. intros c Hc.
    apply Ascii.eqb_eq in Hc. subst c. reflexivity. }
  rewrite !clean_amount_eq, Hfinal, Hparen.
  destruct (float_of_string (Py.filter_str float_char amount_str)) as [amount|] eqn:Ef.
  2:{ destruct (negb (Py.nonempty kept)), (negb (Py.nonempty amount_str)); reflexivity. }
  destruct (Py.nonempty amount_str) eqn:Hs.
  2:{ destruct amount_str; [discriminate Ef | discriminate Hs]. }
  destruct (Py.nonempty kept) eqn:Hk.
  2:{ destruct kept; [|discriminate Hk]. rewrite <- Hfinal in Ef. discriminate Ef. }
  cbn [negb].
  destruct (Py.startswith "-" (Py.filter_str float_char amount_str)) eqn:Hminus;
    [reflexivity|].
  assert (H1 : Py.startswith "-" amount_str = false).
  { destruct (Py.startswith "-" amount_str) eqn:E; [|reflexivity].
    rewrite (startswith_minus_filter float_char amount_str eq_refl E) in Hminus.
    discriminate Hminus. }
  assert (H2 : Py.startswith "-" kept = false).
  { destruct (Py.startswith "-" kept) eqn:E; [|reflexivity].
    rewrite <- Hfinal in Hminus.
    rewrite (startswith_minus_filter float_char kept eq_refl E) in Hminus.
    discriminate Hminus. }
  rewrite H1, H2. reflexivity.
Qed.

Lemma forallb_str_filter (p q : ascii -> bool) (s : string) :
  Py.forallb_str p s = true -> Py.forallb_str p (Py.filter_str q s) = true.
Proof.
  induction s as [|c s IH]; simpl; [reflexivity|].
  intros H. apply andb_true_iff in H as [Hc Hs].
  destruct (q c); simpl; [rewrite Hc|]; exact (IH Hs).
Qed.

Lemma unsigned_no_minus (s : string) :
  Py.forallb_str unsigned_char s = true -> Py.startswith "-" s = false.
Proof.
  destruct s as [|c s]; [reflexivity|].
  cbn [Py.startswith Py.forallb_str]. intros H.
  apply andb_true_iff in H as [Hc _]. unfold unsigned_char in Hc.
  apply andb_true_iff in Hc as [Hc _].
  rewrite Ascii.eqb_sym. apply negb_true_iff in Hc. rewrite Hc. reflexivity.
Qed.

Lemma unsigned_no_paren (s : string) :
  Py.forallb_str unsigned_char s = true -> Py.contains "(" s = false.
Proof.
  rewrite contains_char.
  induction s as [|c s IH]; cbn [Py.existsb_str Py.forallb_str]; [reflexivity|].
  intros H.
  apply andb_true_iff in H as [Hc Hs]. rewrite (IH Hs), orb_false_r.
  unfold unsigned_char in Hc. apply andb_true_iff in Hc as [_ Hc].
  rewrite Ascii.eqb_sym. apply negb_true_iff in Hc. exact Hc.
Qed.

Lemma clean_amount_nonneg (amount_str : string) :
  Py.forallb_str unsigned_char amount_str = true -> 0 <= clean_amount amount_str.
Proof.
  intros Hu. rewrite clean_amount_eq.
  destruct (negb (Py.nonempty amount_str)); [discriminate|].
  pose proof (float_of_string_sign (Py.filter_str float_char amount_str)) as Hsign.
  rewrite (unsigned_no_minus _ (forallb_str_filter _ float_char _ Hu)) in *.
  rewrite (unsigned_no_minus _ Hu), (unsigned_no_paren _ Hu). cbn [orb].
  destruct (float_of_string _) as [amount|]; [exact (Hsign amount eq_refl) | discriminate].
Qed.

(** X24. [clean_amount] is positive or zero on a text that holds neither a
    minus sign nor an opening parenthesis. *)
Theorem clean_amount_unsigned (amount_str : string) :
  Py.forallb_str unsigned_char amount_str = true -> 0 <= clean_amount amount_str.
Proof. exact (clean_amount_nonneg amount_str). Qed.

Lemma clean_amount_unsigned_witness : 0 <= clean_amount "$1,234.56".
Proof. apply clean_amount_unsigned. reflexivity. Defined.

(** ** Amounts and dates of the TD and RBC records *)

(** A fact on every character, by cases on its eight bits. *)
Ltac ascii_cases :=
  let c := fresh "c" in
  let H := fresh "H" in
  intros c; destruct c as [[] [] [] [] [] [] [] []]; vm_compute; intros H;
  first [reflexivity | discriminate H].

(** The texts of [[\d,]+\.?\d{2}] hold no sign. *)
Lemma td_amount_unsigned (g : string) :
  shape (Re.seqs [Re.plus Re.digit_or_comma; Re.opt (Re.lit "."); Re.rep 2 Re.digit]) g ->
  Py.forallb_str unsigned_char g = true.
Proof.
  intros H.
  apply (forallb_str_impl
           (chars_of (Re.seqs [Re.plus Re.digit_or_comma; Re.opt (Re.lit ".");
                               Re.rep 2 Re.digit])) unsigned_char);
    [ascii_cases | exact (shape_chars _ _ H)].
Qed.

Lemma parse_td_amount (line : string) (page_num : nat) (section : string) (tx : txn) :
  _parse_td_transaction line page_num section = Some tx -> amount_not_negative tx.
Proof.
  unfold _parse_td_transaction.
  destruct (Re.rmatch_ td_line_pattern line) as [m|] eqn:Em; [|discriminate].
  assert (Hamount : 0 <= clean_amount (Re.group 3 m)).
  { unfold Re.group. destruct (Re.assoc 3 (Re.m_groups m)) as [g|] eqn:Eg.
    - destruct (group_capture _ _ _ _ _ _ (rmatch_sound _ _ _ Em) Eg) as (r1 & Hin & Hs).
      simpl in Hin. destruct Hin as [Hin|[Hin|[Hin|[]]]]; try discriminate Hin.
      injection Hin as <-. apply clean_amount_nonneg, td_amount_unsigned. exact Hs.
    - discriminate. }
  destruct (String.eqb section "credits"); [|destruct (String.eqb section "debits")];
    intros [= <-]; eexists; (split; [dict_lookups; reflexivity | exact Hamount]).
Qed.

(** X25. The amount of a TD record is never negative: in a TD statement the
    direction of a transaction is carried by its section alone. *)
Theorem td_amounts_are_not_negative (doc : pdf_doc) :
  Forall amount_not_negative (td_extract_transactions doc).
Proof.
  apply extract_with_Forall. intros n text. apply td_lines_Forall.
  intros line sec tx. apply parse_td_amount.
Qed.

Lemma parse_rbc_date_shape (date_str : string) :
  is_mm_dd (_parse_rbc_date date_str) = true \/ _parse_rbc_date date_str = "Unknown".
Proof.
  unfold _parse_rbc_date.
  destruct (Re.rmatch_ rbc_day_month_pattern (Py.lower date_str)) as [m|] eqn:Em;
    [|right; reflexivity].
  cbv zeta. destruct (month_map !! _) as [mm|] eqn:Emm; [|right; reflexivity].
  left. apply month_day_is_mm_dd; [exact (month_map_two_digits _ _ Emm)|].
  unfold Re.group. destruct (Re.assoc 1 (Re.m_groups m)) as [g|] eqn:Eg.
  - destruct (group_capture _ _ _ _ _ _ (rmatch_sound _ _ _ Em) Eg) as (r1 & Hin & Hs).
    simpl in Hin. destruct Hin as [Hin|[Hin|[]]]; [|discriminate Hin].
    injection Hin as <-.
    destruct (one_or_two_digits g Hs) as [Hd Hlen].
    exact (zfill2_digits g Hd Hlen).
  - do 2 eexists. repeat split; reflexivity.
Qed.

Lemma parse_rbc_record (date line : string) (page_num : nat) (tx : txn) :
  is_mm_dd date = true \/ date = "Unknown" ->
  _parse_rbc_transaction_line date line page_num = Some tx -> rbc_record tx.
Proof.
  intros Hdate. unfold _parse_rbc_transaction_line.
  destruct (_ || _); [discriminate|].
  destruct (Py.any_in rbc_skip_patterns _); [discriminate|].
  destruct (Re.findall amount_pattern line) as [|amount_match more]; [discriminate|].
  destruct (Qle_bool (clean_amount amount_match) 0) eqn:Ha; [discriminate|].
  match goal with |- context [(String.length ?d <? 3)%nat] =>
    destruct (Nat.ltb_spec (String.length d) 3) as [Hlt|Hlen]; [discriminate|];
    generalize dependent d; intros description Hlen
  end.
  cbv zeta.
  destruct (negb (Py.nonempty date) || String.eqb date "Unknown") eqn:Hd.
  { match goal with |- context [let '(_, _) := ?x in _] => destruct x end.
    discriminate. }
  apply orb_false_iff in Hd as [_ Hunknown].
  assert (Hmm : is_mm_dd date = true).
  { destruct Hdate as [H|H]; [exact H|]. subst date. discriminate Hunknown. }
  assert (Hpos : 0 < clean_amount amount_match).
  { apply Qltb_lt. unfold Qltb. rewrite Ha. reflexivity. }
  match goal with |- context [let '(_, _) := ?x in _] => destruct x as [ttype spending] end.
  intros [= <-]. exists date, description, (clean_amount amount_match).
  repeat split; try (dict_lookups; reflexivity); assumption.
Qed.

Lemma rbc_step_record (current_date : option string) (page_num : nat) (raw : string) :
  rbc_date_state current_date ->
  rbc_date_state (rbc_step current_date page_num raw).1 /\
  match (rbc_step current_date page_num raw).2 with
  | Some tx => rbc_record tx
  | None => True
  end.
Proof.
  intros Hstate. unfold rbc_step. cbv zeta.
  destruct (negb (Py.nonempty (Py.strip raw))); [split; [exact Hstate | exact I]|].
  destruct (Py.any_in rbc_header_words _); [split; [exact Hstate | exact I]|].
  assert (Hcarry :
    rbc_date_state
      (match current_date with
       | Some d =>
           if Py.nonempty d
           then (current_date, _parse_rbc_transaction_line d (Py.strip raw) page_num)
           else (current_date, None)
       | None => (current_date, None)
       end).1 /\
    match (match current_date with
           | Some d =>
               if Py.nonempty d
               then (current_date, _parse_rbc_transaction_line d (Py.strip raw) page_num)
               else (current_date, None)
           | None => (current_date, None)
           end).2 with
    | Some tx => rbc_record tx
    | None => True
    end).
  { destruct current_date as [d|]; [|split; [exact I | exact I]].
    destruct (Py.nonempty d); [|split; [exact Hstate | exact I]].
    split; [exact Hstate|]. cbn [snd].
    destruct (_parse_rbc_transaction_line d (Py.strip raw) page_num) as [tx|] eqn:E;
      [|exact I].
    exact (parse_rbc_record d _ _ tx Hstate E). }
  destruct (Re.search rbc_date_pattern (Py.strip raw)) as [date_match|]; [|exact Hcarry].
  destruct (in_list _ valid_months); [|exact Hcarry].
  split; [exact (parse_rbc_date_shape _)|]. cbn [snd].
  destruct (Py.nonempty _); [|exact I].
  match goal with |- match ?x with _ => _ end => destruct x as [tx|] eqn:E end; [|exact I].
  exact (parse_rbc_record _ _ _ tx (parse_rbc_date_shape _) E).
Qed.

Lemma rbc_lines_records (current_date : option string) (page_num : nat)
    (lines : list string) :
  rbc_date_state current_date ->
  Forall rbc_record (rbc_lines current_date page_num lines).
Proof.
  revert current_date. induction lines as [|raw lines IH]; intros d Hd; simpl;
    [constructor|].
  destruct (rbc_step_record d page_num raw Hd) as [Hnext Htx].
  destruct (rbc_step d page_num raw) as [d' [tx|]]; cbn [fst snd] in *.
  - constructor; [exact Htx | exact (IH d' Hnext)].
  - exact (IH d' Hnext).
Qed.

(** X26. Every record of the RBC account extractor has a canonical [MM-DD]
    date, a positive amount and a description of at least three
    characters. *)
Theorem rbc_records_are_dated_and_positive (doc : pdf_doc) :
  Forall rbc_record (rbc_extract_transactions doc).
Proof.
  apply extract_with_Forall. intros n text. unfold rbc_page.
  destruct (Py.contains _ text); [|constructor].
  apply rbc_lines_records. exact I.
Qed.

(** ** Dollar amounts in the text and OCR extractors *)

(** *** [float] on digits, a point and digits *)

Lemma split_on_no_sep (sep : ascii) (s : string) :
  Py.forallb_str (fun c => negb (Ascii.eqb c sep)) s = true ->
  Py.split_on sep s = [s].
Proof.
  induction s as [|c s IH]; simpl; [reflexivity|].
  intros H. apply andb_true_iff in H as [Hc Hs].
  apply negb_true_iff in Hc. rewrite Hc, (IH Hs). reflexivity.
Qed.

Lemma split_on_once (sep : ascii) (a b : string) :
  Py.forallb_str (fun c => negb (Ascii.eqb c sep)) a = true ->
  Py.forallb_str (fun c => negb (Ascii.eqb c sep)) b = true ->
  Py.split_on sep (a +:+ String sep b) = [a; b].
Proof.
  intros Ha Hb. induction a as [|c a IH].
  - change (Py.split_on sep (String sep b) = [EmptyString; b]).
    cbn [Py.split_on]. rewrite Ascii.eqb_refl, (split_on_no_sep sep b Hb). reflexivity.
  - rewrite append_cons. cbn [Py.split_on Py.forallb_str] in *.
    apply andb_true_iff in Ha as [Hc Ha]. apply negb_true_iff in Hc.
    rewrite Hc, (IH Ha). reflexivity.
Qed.

Lemma digits_no_point (s : string) :
  Py.forallb_str Py.is_digit s = true ->
  Py.forallb_str (fun c => negb (Ascii.eqb c "."%char)) s = true.
Proof.
  apply forallb_str_impl. intros c Hc.
  destruct (Ascii.eqb_spec c "."%char) as [->|_]; [discriminate Hc | reflexivity].
Qed.

Lemma digits_no_minus (s : string) :
  Py.forallb_str Py.is_digit s = true -> Py.nonempty s = true ->
  Py.startswith "-" s = false.
Proof.
  destruct s as [|c s]; [discriminate|]. cbn [Py.forallb_str Py.startswith].
  intros H _. apply andb_true_iff in H as [Hc _].
  destruct (Ascii.eqb_spec "-"%char c) as [<-|_]; [discriminate Hc | reflexivity].
Qed.

(** [float] accepts digits, a point and digits. *)
Lemma float_of_decimal (ipart fpart : string) :
  Py.forallb_str Py.is_digit ipart = true -> Py.nonempty ipart = true ->
  Py.forallb_str Py.is_digit fpart = true ->
  float_of_string (ipart +:+ String "."%char fpart) = Some (decimal false ipart fpart).
Proof.
  intros Hi Hne Hf. unfold float_of_string.
  assert (Hminus : Py.startswith "-" (ipart +:+ String "."%char fpart) = false).
  { destruct ipart as [|c ipart]; [discriminate Hne|].
    rewrite append_cons. cbn [Py.startswith Py.forallb_str] in *.
    apply andb_true_iff in Hi as [Hc _].
    destruct (Ascii.eqb_spec "-"%char c) as [<-|_]; [discriminate Hc | reflexivity]. }
  rewrite Hminus.
  rewrite (split_on_once _ _ _ (digits_no_point _ Hi) (digits_no_point _ Hf)).
  rewrite Hi, Hf.
  destruct ipart; [discriminate Hne | reflexivity].
Qed.

(** The text of a dollar amount. *)
Lemma dollar_token_text (t : string) :
  shape dollar_token t ->
  exists ipart fpart : string,
    t = String "$"%char (ipart +:+ String "."%char fpart) /\
    Py.forallb_str Py.is_digit ipart = true /\ Py.nonempty ipart = true /\
    Py.forallb_str Py.is_digit fpart = true.
Proof.
  intros (t1 & t' & -> & H1 & t2 & t'' & -> & H2 & t3 & t4 & -> & H3 & H4).
  destruct H1 as (c1 & -> & Hc1). apply Ascii.eqb_eq in Hc1. subst c1.
  destruct H3 as (c3 & -> & Hc3). apply Ascii.eqb_eq in Hc3. subst c3.
  exists t2, t4. split; [reflexivity|].
  assert (Hd2 : Py.forallb_str Py.is_digit t2 = true).
  { apply (forallb_str_impl (chars_of (Re.plus Re.digit))); [|exact (shape_chars _ _ H2)].
    intros c. simpl. destruct (Py.is_digit c); intros Hc; [reflexivity | discriminate Hc]. }
  assert (Hd4 : Py.forallb_str Py.is_digit t4 = true).
  { apply (forallb_str_impl (chars_of (Re.rep 2 Re.digit))); [|exact (shape_chars _ _ H4)].
    intros c. simpl. destruct (Py.is_digit c); intros Hc; [reflexivity | discriminate Hc]. }
  repeat split; try assumption.
  pose proof (proj1 (shape_length _ _ H2)) as Hlen. simpl in Hlen.
  destruct t2; [simpl in Hlen; lia | reflexivity].
Qed.

(** *** Amounts read from unsigned tokens *)

Lemma sub_not_digit_or_point (t : string) :
  Re.sub_empty TextBasedExtractor.not_digit_or_point t
  = Py.filter_str (fun c => Py.is_digit c || Ascii.eqb c "."%char) t.
Proof.
  unfold TextBasedExtractor.not_digit_or_point. rewrite sub_empty_chr.
  apply filter_str_ext. intros c. apply negb_involutive.
Qed.

Lemma ocr_amount_str (t : string) :
  Py.replace ")" "" (Py.replace "(" "" (Py.replace "," "" (Py.replace "$" "" t)))
  = Py.filter_str (fun c => negb (Ascii.eqb "$"%char c)
                            && (negb (Ascii.eqb ","%char c)
                                && (negb (Ascii.eqb "("%char c)
                                    && negb (Ascii.eqb ")"%char c)))) t.
Proof. rewrite !replace_char, !filter_str_filter_str. reflexivity. Qed.

(** The amount that either extractor reads from a token without sign. *)
Lemma unsigned_token_amount (p : ascii -> bool) (t : string) (amount : Q) :
  Py.forallb_str unsigned_char t = true ->
  float_of_string (Py.filter_str p t) = Some amount ->
  Py.contains "(" t = false /\ Py.startswith "-" t = false /\ 0 <= amount.
Proof.
  intros Hu Hf. split; [exact (unsigned_no_paren t Hu)|].
  split; [exact (unsigned_no_minus t Hu)|].
  pose proof (float_of_string_sign _ _ Hf) as Hsign.
  rewrite (unsigned_no_minus _ (forallb_str_filter _ p _ Hu)) in Hsign. exact Hsign.
Qed.

(** The texts of the first two amount patterns hold no sign. *)
Lemma grouped_dollar_unsigned (t : string) :
  shape (Re.seqs [Re.lit "$"; Re.between 1 3 Re.digit; TextBasedExtractor.thousands;
                  Re.lit "."; Re.rep 2 Re.digit]) t ->
  Py.forallb_str unsigned_char t = true.
Proof.
  intros H.
  apply (forallb_str_impl
           (chars_of (Re.seqs [Re.lit "$"; Re.between 1 3 Re.digit;
                               TextBasedExtractor.thousands; Re.lit ".";
                               Re.rep 2 Re.digit])) unsigned_char);
    [ascii_cases | exact (shape_chars _ _ H)].
Qed.

Lemma dollar_token_unsigned (t : string) :
  shape dollar_token t -> Py.forallb_str unsigned_char t = true.
Proof.
  intros H.
  apply (forallb_str_impl (chars_of dollar_token) unsigned_char);
    [ascii_cases | exact (shape_chars _ _ H)].
Qed.

(** What is left of a dollar amount once the dollar sign is removed. *)
Lemma dollar_token_digits (p : ascii -> bool) (t : string) :
  (forall c, Py.is_digit c = true -> p c = true) ->
  p "."%char = true -> p "$"%char = false ->
  shape dollar_token t ->
  exists amount : Q, float_of_string (Py.filter_str p t) = Some amount.
Proof.
  intros Hdigit Hpoint Hdollar H.
  destruct (dollar_token_text t H) as (ipart & fpart & -> & Hi & Hne & Hf).
  exists (decimal false ipart fpart).
  cbn [Py.filter_str]. rewrite Hdollar, filter_str_append. cbn [Py.filter_str].
  rewrite Hpoint.
  rewrite (filter_str_all p ipart (forallb_str_impl _ _ _ Hdigit Hi)).
  rewrite (filter_str_all p fpart (forallb_str_impl _ _ _ Hdigit Hf)).
  exact (float_of_decimal ipart fpart Hi Hne Hf).
Qed.

(** X27. In the generic text extractor a dollar amount is always read as
    positive or zero: when a line holds a token [$digits.dd],
    [_extract_amount] returns an amount, and that amount is not negative,
    even where the token is written with a minus sign in front or between
    parentheses. *)
Theorem dollar_amounts_lose_their_sign (line : string) :
  found dollar_token line = true ->
  exists a : Q, TextBasedExtractor._extract_amount line = Some a /\ 0 <= a.
Proof.
  intros Hfound. unfold found in Hfound.
  destruct (Re.search dollar_token line) as [m2|] eqn:E2; [|discriminate Hfound].
  unfold TextBasedExtractor._extract_amount, TextBasedExtractor.amount_patterns.
  cbn [TextBasedExtractor.extract_amount_with].
  assert (Hsecond :
    exists a : Q,
      match float_of_string
              (Re.sub_empty TextBasedExtractor.not_digit_or_point (Re.m_text m2)) with
      | Some amount =>
          Some (if Py.contains "(" (Re.m_text m2) || Py.startswith "-" (Re.m_text m2)
                then - amount else amount)
      | None => None
      end = Some a /\ 0 <= a).
  { destruct (search_sound _ _ _ E2) as (before & rest & _ & _ & _ & Hs & _).
    rewrite sub_not_digit_or_point.
    destruct (dollar_token_digits (fun c => Py.is_digit c || Ascii.eqb c "."%char)
                (Re.m_text m2)) as (amount & Hf);
      [intros c Hc; rewrite Hc; reflexivity | reflexivity | reflexivity | exact Hs |].
    rewrite Hf.
    destruct (unsigned_token_amount _ _ _ (dollar_token_unsigned _ Hs) Hf)
      as (Hp & Hm & Ha).
    rewrite Hp, Hm. exists amount. split; [reflexivity | exact Ha]. }
  change (Re.seqs [Re.lit "$"; Re.plus Re.digit; Re.lit "."; Re.rep 2 Re.digit])
    with dollar_token.
  rewrite E2.
  match goal with
  | |- context [Re.search ?p line] => destruct (Re.search p line) as [m1|] eqn:E1
  end.
  - destruct (float_of_string
                (Re.sub_empty TextBasedExtractor.not_digit_or_point (Re.m_text m1)))
      as [amount|] eqn:Ef.
    + destruct (search_sound _ _ _ E1) as (before & rest & _ & _ & _ & Hs & _).
      rewrite sub_not_digit_or_point in Ef.
      destruct (unsigned_token_amount _ _ _ (grouped_dollar_unsigned _ Hs) Ef)
        as (Hp & Hm & Ha).
      rewrite Hp, Hm. exists amount. split; [reflexivity | exact Ha].
    + destruct Hsecond as (a & Ha & Hpos). exists a.
      destruct (float_of_string _) as [amount|]; [|discriminate Ha].
      split; [exact Ha | exact Hpos].
  - destruct Hsecond as (a & Ha & Hpos). exists a.
    destruct (float_of_string _) as [amount|]; [|discriminate Ha].
    split; [exact Ha | exact Hpos].
Qed.

Lemma dollar_amounts_lose_their_sign_witness :
  exists a : Q,
    TextBasedExtractor._extract_amount "01/02/2024 REFUND -$5.00" = Some a /\ 0 <= a.
Proof. apply dollar_amounts_lose_their_sign. vm_compute. reflexivity. Defined.

(** *** A pattern found inside another *)

Section Monotone.
Context {A : Type}.

Lemma star_loop_mono (r1 : Re.regex) (k k' : Re.mstate -> option A) :
  (forall st (k1 k2 : Re.mstate -> option A),
      (forall st', is_Some (k1 st') -> is_Some (k2 st')) ->
      is_Some (Re.run r1 st k1) -> is_Some (Re.run r1 st k2)) ->
  (forall st', is_Some (k st') -> is_Some (k' st')) ->
  forall (fuel : nat) (st : Re.mstate),
    is_Some
      ((fix loop (fuel : nat) (st : Re.mstate) : option A :=
          match fuel with
          | O => k st
          | S f =>
              match Re.run r1 st (fun st' =>
                       if (Re.m_pos st' <=? Re.m_pos st)%nat then None else loop f st') with
              | Some x => Some x
              | None => k st
              end
          end) fuel st) ->
    is_Some
      ((fix loop (fuel : nat) (st : Re.mstate) : option A :=
          match fuel with
          | O => k' st
          | S f =>
              match Re.run r1 st (fun st' =>
                       if (Re.m_pos st' <=? Re.m_pos st)%nat then None else loop f st') with
              | Some x => Some x
              | None => k' st
              end
          end) fuel st).
Proof.
  intros IH1 Hk fuel. induction fuel as [|fuel IHf]; intros st H.
  - apply Hk. exact H.
  - match type of H with
    | is_Some (match ?t with _ => _ end) => destruct t as [y|] eqn:E
    end.
    + assert (Hs : is_Some (Re.run r1 st (fun st' =>
                     if (Re.m_pos st' <=? Re.m_pos st)%nat then None
                     else (fix loop (fuel : nat) (st : Re.mstate) : option A :=
                             match fuel with
                             | O => k' st
                             | S f =>
                                 match Re.run r1 st (fun st' =>
                                          if (Re.m_pos st' <=? Re.m_pos st)%nat
                                          then None else loop f st') with
                                 | Some x => Some x
                                 | None => k' st
                                 end
                             end) fuel st'))).
      { eapply IH1; [|rewrite E; eexists; reflexivity].
        intros st' Hst'. cbv beta in *.
        destruct (Re.m_pos st' <=? Re.m_pos st)%nat; [exact Hst'|].
        apply IHf. exact Hst'. }
      destruct Hs as (z & ->). eexists; reflexivity.
    + match goal with
      | |- is_Some (match ?t with _ => _ end) => destruct t as [z|]
      end; [eexists; reflexivity | apply Hk; exact H].
Qed.

Lemma lazy_loop_mono (r1 : Re.regex) (k k' : Re.mstate -> option A) :
  (forall st (k1 k2 : Re.mstate -> option A),
      (forall st', is_Some (k1 st') -> is_Some (k2 st')) ->
      is_Some (Re.run r1 st k1) -> is_Some (Re.run r1 st k2)) ->
  (forall st', is_Some (k st') -> is_Some (k' st')) ->
  forall (fuel : nat) (st : Re.mstate),
    is_Some
      ((fix loop (fuel : nat) (st : Re.mstate) : option A :=
          match fuel with
          | O => k st
          | S f =>
              match k st with
              | Some x => Some x
              | None =>
                  Re.run r1 st (fun st' =>
                    if (Re.m_pos st' <=? Re.m_pos st)%nat then None else loop f st')
              end
          end) fuel st) ->
    is_Some
      ((fix loop (fuel : nat) (st : Re.mstate) : option A :=
          match fuel with
          | O => k' st
          | S f =>
              match k' st with
              | Some x => Some x
              | None =>
                  Re.run r1 st (fun st' =>
                    if (Re.m_pos st' <=? Re.m_pos st)%nat then None else loop f st')
              end
          end) fuel st).
Proof.
  intros IH1 Hk fuel. induction fuel as [|fuel IHf]; intros st H.
  - apply Hk. exact H.
  - destruct (k' st) as [z|] eqn:E'; [eexists; reflexivity|].
    destruct (k st) as [y|] eqn:E.
    + assert (Hs : is_Some (k' st)) by (apply Hk; rewrite E; eexists; reflexivity).
      rewrite E' in Hs. destruct Hs as (? & [=]).
    + eapply IH1; [|exact H].
      intros st' Hst'. cbv beta in *.
      destruct (Re.m_pos st' <=? Re.m_pos st)%nat; [exact Hst'|].
      apply IHf. exact Hst'.
Qed.

(** A pattern that matches before a continuation also matches before any
    continuation that accepts at least the same states. *)
Lemma run_mono (r : Re.regex) :
  forall (st : Re.mstate) (k k' : Re.mstate -> option A),
    (forall st', is_Some (k st') -> is_Some (k' st')) ->
    is_Some (Re.run r st k) -> is_Some (Re.run r st k').
Proof.
  induction r as [|p|r1 IH1 r2 IH2|r1 IH1 r2 IH2|r1 IH1|r1 IH1|n r1 IH1| | |];
    intros st k k' Hk H.
  - apply Hk. exact H.
  - simpl in *. destruct (Re.m_rest st) as [|c rest]; [exact H|].
    destruct (p c); [apply Hk; exact H | exact H].
  - simpl in *. eapply IH1; [|exact H].
    intros st' Hst'. cbv beta in *. eapply IH2; [exact Hk | exact Hst'].
  - simpl in *. destruct (Re.run r1 st k) as [y|] eqn:E.
    + assert (Hs : is_Some (Re.run r1 st k'))
        by (eapply IH1; [exact Hk | rewrite E; eexists; reflexivity]).
      destruct Hs as (z & ->). eexists; reflexivity.
    + destruct (Re.run r1 st k') as [z|]; [eexists; reflexivity|].
      eapply IH2; [exact Hk | exact H].
  - exact (star_loop_mono r1 k k' IH1 Hk (S (String.length (Re.m_rest st))) st H).
  - exact (lazy_loop_mono r1 k k' IH1 Hk (S (String.length (Re.m_rest st))) st H).
  - simpl in *. eapply IH1; [|exact H].
    intros st' Hst'. cbv beta in *. apply Hk. exact Hst'.
  - simpl in *. destruct (Re.m_pos st =? 0)%nat; [apply Hk; exact H | exact H].
  - simpl in *. destruct (Re.at_eol st); [apply Hk; exact H | exact H].
  - simpl in *. destruct (Re.at_word_boundary st); [apply Hk; exact H | exact H].
Qed.
End Monotone.

(** [re.search] returns the match at some offset of the subject ... *)
Lemma search_from_inv (r : Re.regex) (s : string) :
  forall (pos : nat) (prev : option ascii) (m : Re.rmatch),
    Re.search_from r pos prev s = Some m ->
    exists before rest : string,
      s = before +:+ rest /\
      Re.match_at r (pos + String.length before) (Re.last_char before prev) rest = Some m.
Proof.
  induction s as [|c s IH]; intros pos prev m H; simpl in H.
  - destruct (Re.match_at r pos prev "") as [m'|] eqn:E; [|discriminate].
    injection H as ->. exists "", "". split; [reflexivity|].
    simpl. rewrite Nat.add_0_r. exact E.
  - destruct (Re.match_at r pos prev (String c s)) as [m'|] eqn:E.
    + injection H as ->. exists "", (String c s). split; [reflexivity|].
      simpl. rewrite Nat.add_0_r. exact E.
    + apply IH in H as (before & rest & -> & H).
      exists (String c before), rest. split; [rewrite append_cons; reflexivity|].
      simpl. rewrite Nat.add_succ_r. exact H.
Qed.

(** ... and finds a match whenever the pattern matches at some offset. *)
Lemma search_from_complete (r : Re.regex) (before : string) :
  forall (pos : nat) (prev : option ascii) (rest : string),
    is_Some (Re.match_at r (pos + String.length before)
               (Re.last_char before prev) rest) ->
    is_Some (Re.search_from r pos prev (before +:+ rest)).
Proof.
  induction before as [|c before IH]; intros pos prev rest H.
  - simpl in H. rewrite Nat.add_0_r in H.
    change ("" +:+ rest) with rest.
    destruct rest as [|c rest]; simpl;
      destruct H as (m & ->); eexists; reflexivity.
  - rewrite append_cons. simpl.
    destruct (Re.match_at r pos prev (String c (before +:+ rest))) as [m|];
      [eexists; reflexivity|].
    apply IH. simpl in H. rewrite Nat.add_succ_r in H. exact H.
Qed.

Lemma last_char_append (a : string) (c : ascii) :
  forall prev : option ascii, Re.last_char (a +:+ String c "") prev = Some c.
Proof.
  induction a as [|x a IH]; intros prev; [reflexivity|].
  rewrite append_cons. exact (IH (Some x)).
Qed.

(** Where the amount between parentheses matches, the plain dollar amount
    matches one character further. *)
Lemma bracketed_holds_dollar_token (pos : nat) (prev : option ascii) (s : string) :
  is_Some (Re.match_at bracketed_dollar_token pos prev s) ->
  exists s' : string,
    s = String "("%char s' /\
    is_Some (Re.match_at dollar_token (S pos) (Some "("%char) s').
Proof.
  unfold Re.match_at. intros H.
  change (Re.run bracketed_dollar_token (Re.MState pos prev s [])
            (fun st => Some (Re.RMatch pos (Re.m_pos st)
                               (Py.take (Re.m_pos st - pos) s) (Re.m_caps st))))
    with (match s with
          | String c rest =>
              if Ascii.eqb "("%char c
              then Re.run dollar_token (Re.advance c rest (Re.MState pos prev s []))
                     (fun st' => Re.run (Re.lit ")") st'
                        (fun st => Some (Re.RMatch pos (Re.m_pos st)
                               (Py.take (Re.m_pos st - pos) s) (Re.m_caps st))))
              else None
          | EmptyString => None
          end) in H.
  destruct s as [|c rest]; [destruct H as (? & [=])|].
  destruct (Ascii.eqb "("%char c) eqn:Ec; [|destruct H as (? & [=])].
  apply Ascii.eqb_eq in Ec. subst c.
  exists rest. split; [reflexivity|].
  eapply run_mono; [|exact H].
  intros st' _. eexists; reflexivity.
Qed.

Lemma bracketed_found_dollar_token (text : string) (m : Re.rmatch) :
  Re.search bracketed_dollar_token text = Some m ->
  is_Some (Re.search dollar_token text).
Proof.
  intros H. apply search_from_inv in H as (before & rest & -> & H).
  destruct (bracketed_holds_dollar_token (0 + String.length before)
              (Re.last_char before None) rest) as (s' & -> & Hs);
    [rewrite H; eexists; reflexivity|].
  replace (before +:+ String "("%char s')
    with ((before +:+ String "("%char "") +:+ s')
    by (rewrite append_assoc; reflexivity).
  apply search_from_complete.
  rewrite last_char_append, append_length. simpl.
  replace (String.length before + 1)%nat
    with (S (0 + String.length before)) by lia.
  exact Hs.
Qed.

Lemma ocr_amount_of_match (m : Re.rmatch) (amount : Q) :
  Py.forallb_str unsigned_char (Re.m_text m) = true ->
  float_of_string
    (Py.replace ")" "" (Py.replace "(" "" (Py.replace "," ""
       (Py.replace "$" "" (Re.m_text m))))) = Some amount ->
  0 <= (if Py.contains "(" (Re.m_text m) then - amount else amount).
Proof.
  intros Hu Hf. rewrite ocr_amount_str in Hf.
  destruct (unsigned_token_amount _ _ _ Hu Hf) as (-> & _ & Ha). exact Ha.
Qed.

Lemma ocr_plain_or_bracketed (text : string) (a : Q) :
  OCRExtractor.extract_amount_with [dollar_token; bracketed_dollar_token] text
  = Some a ->
  0 <= a.
Proof.
  cbn [OCRExtractor.extract_amount_with].
  destruct (Re.search dollar_token text) as [m2|] eqn:E2.
  - destruct (search_sound _ _ _ E2) as (before & rest & _ & _ & _ & Hs & _).
    destruct (float_of_string _) as [amount|] eqn:Ef.
    + intros [= <-]. exact (ocr_amount_of_match m2 amount (dollar_token_unsigned _ Hs) Ef).
    + rewrite ocr_amount_str in Ef.
      destruct (dollar_token_digits
                  (fun c => negb (Ascii.eqb "$"%char c)
                            && (negb (Ascii.eqb ","%char c)
                                && (negb (Ascii.eqb "("%char c)
                                    && negb (Ascii.eqb ")"%char c))))
                  (Re.m_text m2)) as (amount & Hf);
        [ascii_cases | reflexivity | reflexivity | exact Hs |].
      rewrite Hf in Ef. discriminate Ef.
  - destruct (Re.search bracketed_dollar_token text) as [m3|] eqn:E3.
    + destruct (bracketed_found_dollar_token text m3 E3) as (m2 & Hm2).
      rewrite Hm2 in E2. discriminate E2.
    + discriminate.
Qed.

(** X28. The OCR extractor never reads a negative amount: the pattern for an
    amount between parentheses is only tried where the plain dollar pattern
    found nothing, and there it finds nothing either, so the sign change of
    [_extract_amount] is never applied. *)
Theorem ocr_amounts_are_not_negative (text : string) (a : Q) :
  OCRExtractor._extract_amount text = Some a -> 0 <= a.
Proof.
  unfold OCRExtractor._extract_amount, OCRExtractor.amount_patterns.
  change (OCRExtractor.extract_amount_with
            [Re.seqs [Re.lit "$"; Re.between 1 3 Re.digit; TextBasedExtractor.thousands;
                      Re.lit "."; Re.rep 2 Re.digit];
             Re.seqs [Re.lit "$"; Re.plus Re.digit; Re.lit "."; Re.rep 2 Re.digit];
             Re.seqs [Re.lit "("; Re.lit "$"; Re.plus Re.digit; Re.lit ".";
                      Re.rep 2 Re.digit; Re.lit ")"]] text)
    with (match Re.search (Re.seqs [Re.lit "$"; Re.between 1 3 Re.digit;
                                    TextBasedExtractor.thousands;
                                    Re.lit "."; Re.rep 2 Re.digit]) text with
          | Some m =>
              match float_of_string
                      (Py.replace ")" "" (Py.replace "(" "" (Py.replace "," ""
                         (Py.replace "$" "" (Re.m_text m))))) with
              | Some amount =>
                  Some (if Py.contains "(" (Re.m_text m) then - amount else amount)
              | None =>
                  OCRExtractor.extract_amount_with
                    [dollar_token; bracketed_dollar_token] text
              end
          | None =>
              OCRExtractor.extract_amount_with
                [dollar_token; bracketed_dollar_token] text
          end).
  destruct (Re.search _ text) as [m1|] eqn:E1;
    [|exact (ocr_plain_or_bracketed text a)].
  destruct (float_of_string _) as [amount|] eqn:Ef;
    [|exact (ocr_plain_or_bracketed text a)].
  destruct (search_sound _ _ _ E1) as (before & rest & _ & _ & _ & Hs & _).
  intros [= <-].
  exact (ocr_amount_of_match m1 amount (grouped_dollar_unsigned _ Hs) Ef).
Qed.

Lemma ocr_amounts_are_not_negative_witness :
  OCRExtractor._extract_amount "REFUND ($25.00)" = Some (2500 # 100)
  /\ 0 <= 2500 # 100.
Proof.
  split; [vm_compute; reflexivity|].
  apply (ocr_amounts_are_not_negative "REFUND ($25.00)" (2500 # 100)). vm_compute. reflexivity.
Defined.
